(* ===== verification/_CoqProject ===== *)
-Q . S2P
Prelude.v
JsValue.v
Store.v
RoleStore.v
Backend.v
Http.v
ManageUsers.v
ManageRoles.v
Listing.v
Router.v
World.v
WhatsApp.v
WhatsAppHelpers.v
Examples.v
Email.v
Client.v
Views.v
UsersView.v
Concurrency.v
