(* ===== verification/Prelude.v ===== *)
(** * CeluCol: a verification development of the administration backend

    The repository (JuanBeta-exe/CeluCol) is an administration panel over a
    hosted backend (Supabase).  Its logic lives in Deno edge functions:

    - [src/src/supabase/functions/manage-roles/index.ts] (the deployed
      handler): role CRUD on [/manage-roles], user management on
      [/manage-roles/manage-users{,/assign-role,/disable,/delete}] and a
      legacy [/manage-roles/users] endpoint;
    - [src/supabase/functions/manage-roles/index.ts]: an older copy holding
      only the role CRUD;
    - [src/supabase/functions/whatsapp-notify/index.ts]: a function that
      validates [{ phone, message }] and sends it through the WhatsApp
      Cloud API; [helpers.ts] beside it: client helpers that call that
      function with fixed message templates;
    - [src/src/supabase/functions/send-email/index.ts] and the React views
      [src/src/components/*.tsx].

    The handlers share no memory: each one is a straight-line sequence of
    awaited calls to the hosted store (tables [roles], [permissions],
    [role_permissions], [user_roles], [profiles]), to the hosted auth
    service, or to an external HTTP API.  They interact only through the
    store, and the WhatsApp helpers through HTTP requests to the function.

    ** Files and what they model

    - [Prelude.v] (this file): the scope [celucol_scope], the hint
      databases [celucol] and [celucol_rw], shared tactics
      ([invc], [case_if], [decide_by_eval]) and lemmas on [filter] counts
      and on the last row with a key, which the administrator counts and
      the [roleById]-style tables use.
    - [JsValue.v]: JSON values with [undefined] as a handler reads them:
      truthiness, [typeof], property reads with the [TypeError] of
      [null.x], optional chaining [v?.k], [String.prototype.trim],
      destructuring defaults, [String(v)], [??] and
      [JSON.stringify] (escaping, dropped [undefined] members, repeated
      keys).
    - [Store.v]: the tables as a record of finite maps ([gmap]) and a
      [user_roles] list, with a well-formedness invariant ([store_wf]: role
      ids non-empty, role and permission names unique, [user_roles]
      duplicate-free) and the table operations of the user handlers; the
      administrator count [admin_count] is the count of [adminCount]
      (lines 116-126).  The auth calls answer as the service does:
      [updateUserById] with [{ disabled: true }] finds the user and
      changes nothing ([auth_disable]), and the delete on
      [auth.refresh_tokens] answers an error ([refresh_tokens_delete]).
    - [RoleStore.v]: the table operations of the role handlers and of the
      listings, with the PostgreSQL behaviours the code meets (unique
      names, [NOT NULL] name, an upsert batch naming a key twice), and
      [roles_step], the preorder of a role's lifecycle (enabled, disabled,
      deleted) that every operation respects; [auth_list_users] is the
      first page (50 users) that [listUsers()] answers.
    - [Backend.v]: a handler as a [prog]: a finite tree of supabase-js
      calls ([query]), [throw] and [try/catch]; [run] interprets it on the
      store under a fault schedule, [exec] is the same semantics as a
      relation, [wp] a weakest precondition with its adequacy lemma;
      [wp_invariant] and [wp_preorder] lift a property of one call to every
      program under every fault schedule; [rets] states what a program
      can return whatever its calls answer, and [rets_tac] proves it
      through every bind and branch.
    - [Http.v]: requests, responses, [Response.ok], path splitting, the
      bearer token, and [json_answer], the shape of the answers the views
      read.
    - [ManageUsers.v]: [getUserIdFromToken], [assign_role] (lines 96-157),
      [disable_user] (160-210) and [delete_user] (213-248), with
      [last_admin_guard], [delete_guard] and [is_self] as in the code.
    - [ManageRoles.v]: [list_roles], [create_role], [update_role],
      [delete_role] (lines 251-459) and the legacy [add_user_role] and
      [remove_user_role] (313-352).
    - [Listing.v]: [list_users] ([GET /manage-users], 52-93) and
      [list_users_legacy] (277-310) with the admin-API fallback.
    - [Router.v]: [serve_manage_roles] (27-466) and
      [serve_manage_roles_v0] (older copy, 14-156): dispatch on method and
      path, and the [catch] that answers 500.
    - [WhatsApp.v]: [isValidPhoneNumber], the Graph API call and the
      handler [wa_notify] (index.ts lines 47-236); the call it makes is
      returned as a value and the API's answer is a parameter.
    - [WhatsAppHelpers.v] (Module [Helpers]): [sendWhatsAppMessage], [sendPaymentConfirmation],
      [sendOrderStatusUpdate] and [sendCustomMessage] of helpers.ts, and
      [via_function], which answers a helper's request with [wa_notify].
    - [Examples.v]: every function of [examples.ts], the documented
      callers of the WhatsApp function: the helper calls of example 1,
      the direct [fetch] and the payment webhook of example 2, the browser
      utility [sendWhatsAppNotification], the React hook
      [useWhatsAppNotification] as a state machine whose calls interleave
      at their [await]s ([hook_state], [hook_event], [hook_step]), the
      components using it, and the [functions.invoke] examples.
    - [Email.v] (Module [SendEmail]): the send-email handler [send_email] (lines 17-79): the
      dispatch on [type], the subjects, and the content of the three
      templates (each interpolated value and each conditional section,
      with [toLocaleString] and [ToNumber] on integers) without their
      constant markup; the Resend SDK's outcome is a parameter.
    - [Client.v]: the React views of [src/src/components] as the requests
      they send and the state they keep.  [RoleForm.tsx] is a state
      machine ([role_form], [form_event], [form_step]) whose handlers
      [handleAddPermission], [handleRemovePermission] and [handleSubmit]
      are translated line by line, with the [disabled] guards of its
      buttons; [abs_form] is the abstract set editor it implements.
      [RolesView.tsx], [UsersRolesPanel.tsx], [UserRoleSelector.tsx],
      [UsersView.tsx], [UserRow.tsx] and the two user buttons are their
      handlers: each builds the [request] of [Http.v] that [Router.v]
      serves, so a click composes with [serve_manage_roles].
    - [World.v]: a [world], generic in the view, in which a view's
      requests are served by [serve_manage_roles] on the store and their
      answers delivered in an explicit order, so that each view composes
      with the server; [world_quiesces] shows that serves and deliveries
      alone always come to rest when each answer starts a bounded number
      of follow-up requests.
    - [Views.v]: [UsersRolesPanel.tsx] and [RolesView.tsx] (with the
      [RoleForm] it mounts and the form's [useEffect] on its [role] prop)
      as state machines whose [async] handlers are split at their
      [await]s ([panel_step], [rv_step]).
    - [UsersView.v]: [UsersView.tsx] with its [UserRow]s, each holding a
      [UserRoleSelector], a [DisableUserButton] and a [DeleteUserButton]:
      one definition per handler and per continuation after an [await]
      ([row_effect], [row_save], [row_toggle], [toggle_done], ...),
      composed in [uv_step]; rows are mounted and unmounted by key as the
      view renders ([render_rows], [uv_render]).
    - [Concurrency.v]: interleaved execution of several handlers on one
      store ([istep], and the executable [run_schedule]).

    ** What the theorems show (claims C1-C38)

    - User management (C1-C10): assign-role leaves exactly one role row;
      the sole administrator can be neither demoted nor deleted; a caller
      cannot disable or delete themselves; fault-free requests served in
      sequence keep the store well formed and keep an administrator.  The
      guards' gaps are proved as well: a failed role lookup skips the
      delete guard, a failed insert after the delete leaves no
      administrator (no rollback), any user can promote themselves,
      disable/delete need no authentication, and deactivating a user
      leaves the auth user, its sessions and its refresh tokens as they
      were, so the user still signs in (C9).
    - Concurrency (C11): two self-demotions of the only two administrators
      can interleave so that both pass the guard and none is left.
    - Role management (C12-C20): creation maps every named permission;
      PUT replaces the permission set exactly (and loses it if the upsert
      fails); hard delete is refused while a user holds the role and soft
      delete only sets [disabled]; no request of either handler ever
      re-enables a disabled role (C17, over every program through
      [wp_preorder]); PUT can rename [administrador]; the legacy endpoint
      removes the last administrator's role; a duplicated permission name
      leaves a role without permissions.
    - Listings (C21): the user listing has one entry per user of the
      first page of the auth service (at most 50), and what each entry
      reports.
    - Routing (C22-C23): every answer but the CORS preflight is a JSON
      object with [data] or [success] when 2xx and a string [error]
      otherwise (C22, through [rets]); an unmatched [/manage-users] POST
      creates a role.
    - WhatsApp (C24-C26): the phone check bounds a number to 2-15 digits
      and accepts every count from 2, against the 10 of its comment (C24);
      the API is called only after every check and with exactly the phone
      and message; end to end, a status update through the helpers reaches
      the API and its failures lose their details.
    - Email (C27): every value the SDK returns but [null] and
      [undefined], including its report of a failed send, is answered as a
      success; [null] and [undefined] are answered 500.
    - Views against the server (C28-C31): an accepted assignment, served
      and answered in order, leaves the user panel showing exactly the
      server's listing of the new store; a role created through "Nuevo
      rol" and "Guardar" appears, with every permission the form listed,
      in the list the role view reloads; without clicks each of the three
      views comes to rest with the server, the user list with its
      selectors' mount effects interleaved (C30, termination); a
      successful write in any row of the user list unmounts the table and
      remounts every row, so unsaved choices of other rows are lost.
    - Usage examples (C32-C33): the browser utility agrees with the
      helpers (same request, same [success]); the hook's calls always
      settle with the indicator off.
    - Client (C34-C38): the role form refines the abstract set editor
      along every event sequence (its list stays duplicate-free and every
      request it sends carries exactly the abstract set); the form's POST,
      served by the router, creates the role with its permissions; the
      role list's button soft-deletes only after two confirmations; the
      role selector can assign a disabled role; the bearer token a view
      sends is the one the function reads.

    Further theorems beside the claims: the phone check decides exactly
    the language of [^\+[1-9]\d{1,14}$] ([isValidPhoneNumber_reflect]);
    the permission upsert is idempotent; the legacy endpoint gives a user a second role; a
    configured WhatsApp [POST] whose body is [null] is answered 500; answers
    applied in arrival order let an older load overwrite the panel's list
    ([panel_stale_listing]); end to end, "Asignar" in a row of the user
    list, served and answered with the refresh it starts, leaves the view
    showing the server's listing with every row mounted afresh
    ([uv_assign_shows_listing]);
    the WhatsApp and email functions answer in the same shape as the
    role function ([wa_notify_json], [send_email_json]); a self-disable request is refused end to end; the
    listings only read and fall back to the profiles table; the WhatsApp
    function rejects an invalid phone before any API call and translates
    the API's answer; the helpers' results for an invalid phone, an
    invalid status and a payment confirmation; the email handler's unknown
    [type] and its order-update timeline (a cancelled order is shown as
    confirmed); the payment webhook of the examples end to end, the hook's
    indicator with and without overlapping calls, the examples' stale
    error log and their test of three of the
    four order statuses with texts that are not the templates.

    ** Bounds and termination

    A [prog] is a finite tree, so [run] is structural and total: no fuel is
    needed.  Upstream faults are a list of booleans consumed call by call;
    theorems quantified over every schedule hold for every combination of
    faults, and the fault-specific theorems name the schedule that exposes
    the behaviour.  Interleavings are explicit lists of thread indices.
    Numbers in bodies are [Z]; no arithmetic on them is performed by the
    code modelled.  The views are not programs that stop: termination
    there is [World.world_quiesces], a measure (two per request waiting to
    be served, one per answer waiting to be delivered, plus the
    follow-ups each call may still send) that every serve and delivery
    decreases, so the well-founded relation needs no fuel either.  The
    user list mounts fresh rows, each with an effect still to run, on
    every fetch, so no single number bounds its follow-ups; its measure
    ([UsersView.uv_measure]) is lexicographic over the stage each call
    waits at (a row's write, then the fetch it starts, then the rest, with
    three per effect still to run), ordered by [slexprod] of the Standard
    Library.

    ** Not modelled

    The CORS headers (a constant), logging, the constant HTML and CSS of
    the email templates, the keys that object lookups inherit from
    [Object.prototype], non-integer numbers, the markup and styling of
    the React views (their state, requests and [alert] texts are
    modelled; the role list counts its alerts), the [statusText] of an
    HTTP response (empty for the function's answers), the [updateUser]
    fallback of the user handlers (dead with supabase-js v2), bans of the
    auth service (no handler sets one), foreign
    keys of the store, and [trim] of non-ASCII white space.  The table
    schema and the fresh ids of [gen_random_uuid()] are modelled from the
    spec. *)

From stdpp Require Export base list gmap strings pretty infinite.
From Stdlib Require Export ZArith Lia Ascii.
From Stdlib Require String.

Declare Scope celucol_scope.
Delimit Scope celucol_scope with cc.

Create HintDb celucol discriminated.
Create Rewrite HintDb celucol_rw.

(** ** Tactics shared by the components *)

Ltac invc H := inversion H; subst; clear H.

(** Case on the first [if] or [match] on a boolean found in the goal. *)
Ltac case_if :=
  match goal with
  | |- context [if ?b then _ else _] => destruct b eqn:?
  end.

(** ** Counting with [filter] *)

Section filter_count.
Context {A : Type} (P : A → Prop) `{!∀ x, Decision (P x)}.

Lemma length_filter_app (l1 l2 : list A) :
  length (filter P (l1 ++ l2)) = length (filter P l1) + length (filter P l2).
Proof. by rewrite filter_app, length_app. Qed.

Lemma length_filter_nil_iff (l : list A) :
  length (filter P l) = 0 ↔ Forall (λ x, ¬ P x) l.
Proof.
  induction l as [|x l IH]; simpl; [split; auto|].
  rewrite filter_cons, Forall_cons. case_decide; simpl; naive_solver.
Qed.

Lemma length_filter_pos_iff (l : list A) :
  0 < length (filter P l) ↔ Exists P l.
Proof.
  induction l as [|x l IH]; simpl; [split; [lia|inversion 1]|].
  rewrite filter_cons, Exists_cons. case_decide; simpl; [split; [auto|lia]|].
  rewrite IH. naive_solver.
Qed.

(** Splitting a count along a second decidable predicate. *)
Lemma length_filter_split (Q : A → Prop) `{!∀ x, Decision (Q x)} (l : list A) :
  length (filter P l) =
    length (filter (λ x, P x ∧ Q x) l) + length (filter (λ x, P x ∧ ¬ Q x) l).
Proof.
  induction l as [|x l IH]; simpl; [done|].
  rewrite !filter_cons. repeat case_decide; simpl; try lia; naive_solver.
Qed.

Lemma length_filter_ext (R : A → Prop) `{!∀ x, Decision (R x)} (l : list A) :
  Forall (λ x, P x ↔ R x) l → length (filter P l) = length (filter R l).
Proof.
  induction 1 as [|x l Hx _ IH]; simpl; [done|].
  rewrite !filter_cons. repeat case_decide; simpl; naive_solver.
Qed.
Lemma filter_Forall_id (l : list A) : Forall P l → filter P l = l.
Proof. induction 1 as [|x l Hx _ IH]; [done|]. by rewrite filter_cons, decide_True, IH. Qed.

Lemma filter_filter_neg (l : list A) : filter P (filter (λ x, ¬ P x) l) = [].
Proof.
  induction l as [|x l IH]; simpl; [done|].
  rewrite filter_cons. case_decide; [|done]. rewrite filter_cons_False; auto.
Qed.
Lemma length_filter_filter (Q : A → Prop) `{!∀ x, Decision (Q x)} (l : list A) :
  length (filter P (filter Q l)) = length (filter (λ x, P x ∧ Q x) l).
Proof.
  induction l as [|x l IH]; simpl; [done|].
  rewrite !filter_cons. repeat case_decide; simpl; rewrite ?filter_cons;
    repeat case_decide; simpl; try lia; naive_solver.
Qed.

(** A key that is unique in [l] selects at most one element. *)
Lemma length_filter_key_le {K} (f : A → K) (k : K) (l : list A) :
  NoDup (f <$> l) → (∀ x, x ∈ l → P x → f x = k) → length (filter P l) ≤ 1.
Proof.
  induction l as [|x l IH]; intros Hnd Hk; simpl; [lia|].
  rewrite fmap_cons, NoDup_cons in Hnd. destruct Hnd as [Hx Hnd].
  rewrite filter_cons. case_decide as HP; simpl.
  - enough (length (filter P l) = 0) by lia.
    apply length_filter_nil_iff, Forall_forall. intros y Hy HPy.
    apply Hx, list_elem_of_fmap. exists y.
    rewrite (Hk x ltac:(set_solver) HP), (Hk y ltac:(set_solver) HPy). done.
  - apply IH; [done|]. intros y Hy. apply Hk. set_solver.
Qed.
End filter_count.

#[export] Hint Rewrite @length_filter_app : celucol_rw.

(** ** Keys made unique by [NoDup] *)

Lemma NoDup_fmap_elem_inj {A B} (f : A → B) (l : list A) x y :
  NoDup (f <$> l) → x ∈ l → y ∈ l → f x = f y → x = y.
Proof.
  induction l as [|a l IH]; [set_solver|].
  rewrite fmap_cons, NoDup_cons, !elem_of_cons. intros [Ha Hnd] Hx Hy Hf.
  destruct Hx as [->|Hx], Hy as [->|Hy]; auto;
    exfalso; apply Ha, list_elem_of_fmap; eauto.
Qed.

(** A decidable proposition about a concrete value, decided by evaluation. *)
Ltac decide_by_eval :=
  match goal with |- ?P => apply (bool_decide_unpack P) end; vm_compute; exact I.

(** In a list with unique keys, the rows of one key are at most that one. *)
Lemma last_filter_key {A B} `{EqDecision A} (l : list (A * B)) k v :
  NoDup (fst <$> l) → (k, v) ∈ l → last (filter (λ kv, kv.1 = k) l) = Some (k, v).
Proof.
  intros Hnd Hin.
  assert (length (filter (λ kv, kv.1 = k) l) ≤ 1) as Hle
    by (apply (length_filter_key_le _ fst k); naive_solver).
  assert ((k, v) ∈ filter (λ kv, kv.1 = k) l) as Hf by (by apply list_elem_of_filter).
  destruct (filter _ l) as [|x [|y r]]; simpl in *; [set_solver| |lia].
  apply list_elem_of_singleton in Hf. by subst.
Qed.

Lemma last_filter_key_none {A B} `{EqDecision A} (l : list (A * B)) k :
  (∀ v, (k, v) ∉ l) → last (filter (λ kv, kv.1 = k) l) = None.
Proof.
  intros Hnot. destruct (filter _ l) as [|x r] eqn:E; [done|].
  destruct x as [k' v']. assert ((k', v') ∈ filter (λ kv, kv.1 = k) l) as Hx by (rewrite E; set_solver).
  apply list_elem_of_filter in Hx as [<- Hx]. by destruct (Hnot v').
Qed.
