(* ===== verification/JsValue.v ===== *)
(** * JavaScript values as the edge functions read them

    A request body is [await req.json()]: a JSON value, read with object
    destructuring ([const { id, hard = false } = body]), tested with JS
    truthiness ([if (!name)]), [typeof] and strict equality, and passed to
    supabase-js query builders, which put it in a URL with a template
    literal ([`col=eq.${v}`]), that is, coerce it with [String(v)].

    [val] adds [undefined] to JSON, since a missing field reads as
    [undefined].  Numbers are modelled by [Z]: the bodies the code reads
    carry identifiers, flags and names, never fractions.  [json_stringify]
    renders a value as [JSON.stringify] does (string escaping, members
    whose value is [undefined] dropped, a repeated key printed once at its
    first position with its last value); the WhatsApp function puts it in
    its API error message. *)

From S2P Require Import Prelude.

#[warnings="-register-all"]
Inductive val : Type :=
| VUndef
| VNull
| VBool (b : bool)
| VNum (z : Z)
| VStr (s : string)
| VArr (l : list val)
| VObj (fields : list (string * val)).

(** JS truthiness: [false], [0], [""], [null], [undefined] are falsy. *)
Definition truthy (v : val) : bool :=
  match v with
  | VUndef | VNull => false
  | VBool b => b
  | VNum z => negb (Z.eqb z 0)
  | VStr s => negb (bool_decide (s = ""))
  | VArr _ | VObj _ => true
  end.

Inductive js_type := TUndefined | TObject | TBoolean | TNumber | TString.

#[export] Instance js_type_eq_dec : EqDecision js_type.
Proof. solve_decision. Defined.

(** [typeof]: note that [typeof null] and [typeof []] are ["object"]. *)
Definition typeof (v : val) : js_type :=
  match v with
  | VUndef => TUndefined
  | VNull | VArr _ | VObj _ => TObject
  | VBool _ => TBoolean
  | VNum _ => TNumber
  | VStr _ => TString
  end.

(** Field lookup in a parsed object: [JSON.parse] keeps the last of
    duplicated keys. *)
Fixpoint assoc_last (k : string) (fs : list (string * val)) : option val :=
  match fs with
  | [] => None
  | (k', v) :: fs' =>
      match assoc_last k fs' with
      | Some w => Some w
      | None => if bool_decide (k = k') then Some v else None
      end
  end.

(** Property read [v.k]; [None] is the [TypeError] raised when [v] is
    [null] or [undefined].  Primitive and array receivers read
    [undefined]: the code never reads a prototype property of a body. *)
Definition get (v : val) (k : string) : option val :=
  match v with
  | VUndef | VNull => None
  | VObj fs => Some (default VUndef (assoc_last k fs))
  | _ => Some VUndef
  end.

(** Destructuring with a default: [const { k = d } = v]. *)
Definition get_default (v : val) (k : string) (d : val) : option val :=
  match get v k with
  | Some VUndef => Some d
  | r => r
  end.

(** [a ?? b] *)
Definition nullish_or (a b : val) : val :=
  match a with
  | VUndef | VNull => b
  | _ => a
  end.

(** [v?.k] *)
Definition optional_get (v : val) (k : string) : val :=
  match v with
  | VUndef | VNull => VUndef
  | _ => default VUndef (get v k)
  end.

(** The ASCII white space and line terminators that [String.prototype.trim]
    (and [ToNumber] on a string) removes. *)
Definition is_js_space (a : ascii) : bool :=
  bool_decide (nat_of_ascii a ∈ [9; 10; 11; 12; 13; 32]).

Fixpoint drop_js_space (l : list ascii) : list ascii :=
  match l with
  | a :: l' => if is_js_space a then drop_js_space l' else l
  | [] => []
  end.

(** [s.trim()] *)
Definition trim (s : string) : string :=
  String.string_of_list_ascii
    (reverse (drop_js_space (reverse (drop_js_space (String.list_ascii_of_string s))))).

(** [v === "s"] for a string literal [s]. *)
Definition strict_eq_str (v : val) (s : string) : bool :=
  match v with
  | VStr s' => bool_decide (s' = s)
  | _ => false
  end.

(** [String(v)], as a template literal renders [v]. *)
Fixpoint to_text (v : val) : string :=
  match v with
  | VUndef => "undefined"
  | VNull => "null"
  | VBool b => if b then "true" else "false"
  | VNum z => pretty z
  | VStr s => s
  | VArr l =>
      (fix go (l : list val) : string :=
         match l with
         | [] => ""
         | x :: l' =>
             let t := match x with VUndef | VNull => "" | _ => to_text x end in
             match l' with [] => t | _ => t +:+ "," +:+ go l' end
         end) l
  | VObj _ => "[object Object]"
  end.

(** A JSON object literal as the handlers build their responses. *)
Definition obj (fs : list (string * val)) : val := VObj fs.

(** ** The permission list of a role payload

    [permissions.filter(p => typeof p === 'string')] and
    [permissions.filter(p => typeof p === 'object' && p.id).map(p => p.id)].
    A non-array [permissions] has no [filter] method, and [null.id] in the
    second callback raises: both are [None] (a [TypeError]). *)

Definition perm_names (l : list val) : list string :=
  omap (λ p, match p with VStr s => Some s | _ => None end) l.

Fixpoint perm_ids_from_body (l : list val) : option (list val) :=
  match l with
  | [] => Some []
  | p :: l' =>
      if bool_decide (typeof p = TObject) then
        match get p "id" with
        | None => None
        | Some i =>
            match perm_ids_from_body l' with
            | None => None
            | Some r => Some (if truthy i then i :: r else r)
            end
        end
      else perm_ids_from_body l'
  end.

(** ** Lemmas *)

Lemma truthy_str s : truthy (VStr s) = true ↔ s ≠ "".
Proof. simpl. destruct (bool_decide_reflect (s = "")); naive_solver. Qed.

Lemma truthy_nonempty u : u ≠ "" → truthy (VStr u) = true.
Proof. intros. by apply truthy_str. Qed.

Lemma strict_eq_str_iff v s : strict_eq_str v s = true ↔ v = VStr s.
Proof.
  destruct v; simpl; try (split; congruence).
  rewrite bool_decide_eq_true. naive_solver.
Qed.

Lemma get_obj_last k fs v :
  assoc_last k fs = Some v → get (VObj fs) k = Some v.
Proof. intros H. simpl. by rewrite H. Qed.

Lemma assoc_last_single k v : assoc_last k [(k, v)] = Some v.
Proof. simpl. by rewrite bool_decide_true. Qed.

Lemma perm_ids_from_body_strings (l : list val) :
  Forall (λ p, typeof p = TString) l → perm_ids_from_body l = Some [].
Proof.
  induction 1 as [|p l Hp _ IH]; [done|]. simpl.
  by rewrite bool_decide_false by (rewrite Hp; discriminate).
Qed.

Lemma perm_names_strings (ss : list string) :
  perm_names (VStr <$> ss) = ss.
Proof. induction ss; simpl; by f_equal. Qed.

#[export] Hint Resolve perm_ids_from_body_strings : celucol.
#[export] Hint Rewrite perm_names_strings : celucol_rw.

(** ** [JSON.stringify]

    Strings are escaped as the standard asks: quote and backslash, the
    short escapes of [\b \f \n \r \t], other control characters as
    [\u00XX].  [undefined] members of an object are left out, and in an
    array print as [null]; an object parsed with a repeated key keeps the
    first position and the last value. *)

Definition char (n : nat) : string := String (ascii_of_nat n) EmptyString.

Definition hex_digit (n : nat) : string := char (if n <? 10 then 48 + n else 87 + n).

Definition escape_char (a : ascii) : string :=
  let n := nat_of_ascii a in
  if n =? 34 then char 92 +:+ char 34
  else if n =? 92 then char 92 +:+ char 92
  else if n =? 8 then char 92 +:+ "b"
  else if n =? 12 then char 92 +:+ "f"
  else if n =? 10 then char 92 +:+ "n"
  else if n =? 13 then char 92 +:+ "r"
  else if n =? 9 then char 92 +:+ "t"
  else if n <? 32 then char 92 +:+ "u00" +:+ hex_digit (n / 16) +:+ hex_digit (n mod 16)
  else String a EmptyString.

Fixpoint escape_string (s : string) : string :=
  match s with
  | EmptyString => ""
  | String a s' => escape_char a +:+ escape_string s'
  end.

Definition quote (s : string) : string := char 34 +:+ escape_string s +:+ char 34.

(** The keys of an object in order of first occurrence. *)
Fixpoint first_keys {A} (seen : list string) (fs : list (string * A)) : list string :=
  match fs with
  | [] => []
  | (k, _) :: fs' =>
      if bool_decide (k ∈ seen) then first_keys seen fs' else k :: first_keys (k :: seen) fs'
  end.

Fixpoint last_value {A} (k : string) (fs : list (string * A)) : option A :=
  match fs with
  | [] => None
  | (k', a) :: fs' =>
      match last_value k fs' with
      | Some b => Some b
      | None => if bool_decide (k = k') then Some a else None
      end
  end.

Fixpoint join_comma (l : list string) : string :=
  match l with
  | [] => ""
  | [x] => x
  | x :: l' => x +:+ "," +:+ join_comma l'
  end.

(** An object whose members are already printed; [None] is [undefined]. *)
Definition render_object (fs : list (string * option string)) : string :=
  "{" +:+ join_comma (omap (λ k, match last_value k fs with
                                 | Some (Some s) => Some (quote k +:+ ":" +:+ s)
                                 | _ => None
                                 end) (first_keys [] fs)) +:+ "}".

Fixpoint json_stringify (v : val) : string :=
  match v with
  | VUndef | VNull => "null"
  | VBool b => if b then "true" else "false"
  | VNum z => pretty z
  | VStr s => quote s
  | VArr l =>
      "[" +:+ join_comma ((fix go (l : list val) : list string :=
                             match l with
                             | [] => []
                             | x :: l' => json_stringify x :: go l'
                             end) l) +:+ "]"
  | VObj fs =>
      render_object ((fix go (fs : list (string * val)) : list (string * option string) :=
                        match fs with
                        | [] => []
                        | (k, VUndef) :: fs' => (k, None) :: go fs'
                        | (k, w) :: fs' => (k, Some (json_stringify w)) :: go fs'
                        end) fs)
  end.
