(* ===== verification/Store.v ===== *)
(** * The hosted store: tables and the table operations the handlers call

    The tables are those the handlers name: [roles], [permissions],
    [role_permissions], [user_roles], [profiles], and the auth service's
    users, sessions and refresh tokens.  Their schema is not in the
    repository: the constraints modelled are the ones the spec states
    (role and permission names unique; role/permission pairs unique) and
    the primary keys the code's [upsert] calls rely on ([user_roles] on
    [(user_id, role_id)], [profiles] on [id]).  Foreign keys and column
    types are not modelled.  Row order of an unordered [select] is the
    insertion order for [user_roles] and key order for the maps.

    Each supabase-js call of the handlers is one function here, returning
    the [{ data, error }] pair as a [result] and the new store; the auth
    service's calls answer as the service does, including the two that
    change nothing ([auth_disable], [refresh_tokens_delete]). *)

From S2P Require Import Prelude JsValue.

Inductive result (A : Type) : Type :=
| Ok (a : A)
| Err (e : string).
Arguments Ok {A} a.
Arguments Err {A} e.

Record role_row := RoleRow {
  role_name : string;
  role_description : val;
  role_disabled : bool;
  role_created_at : nat
}.

Record user_role := UserRole {
  ur_user_id : string;
  ur_role_id : string;
  ur_assigned_at : nat
}.

Record auth_user := AuthUser {
  au_email : val;
  au_metadata : list (string * val)
}.

Record store := MkStore {
  st_roles : gmap string role_row;
  st_permissions : gmap string string;          (* id -> name *)
  st_role_permissions : gset (string * string);  (* (role_id, permission_id) *)
  st_user_roles : list user_role;
  st_profiles : gmap string bool;               (* id -> is_active *)
  st_auth_users : gmap string auth_user;
  st_sessions : gmap string string;             (* access token -> user id *)
  st_refresh_tokens : gset string;              (* users holding a refresh token *)
  st_clock : nat                                (* [new Date()] and [now()] *)
}.

(** ** Record updates *)

Definition set_roles (m : gmap string role_row) (s : store) : store :=
  MkStore m (st_permissions s) (st_role_permissions s) (st_user_roles s) (st_profiles s)
        (st_auth_users s) (st_sessions s) (st_refresh_tokens s) (st_clock s).
Definition set_permissions (m : gmap string string) (s : store) : store :=
  MkStore (st_roles s) m (st_role_permissions s) (st_user_roles s) (st_profiles s)
        (st_auth_users s) (st_sessions s) (st_refresh_tokens s) (st_clock s).
Definition set_role_permissions (m : gset (string * string)) (s : store) : store :=
  MkStore (st_roles s) (st_permissions s) m (st_user_roles s) (st_profiles s)
        (st_auth_users s) (st_sessions s) (st_refresh_tokens s) (st_clock s).
Definition set_user_roles (l : list user_role) (s : store) : store :=
  MkStore (st_roles s) (st_permissions s) (st_role_permissions s) l (st_profiles s)
        (st_auth_users s) (st_sessions s) (st_refresh_tokens s) (st_clock s).
Definition set_profiles (m : gmap string bool) (s : store) : store :=
  MkStore (st_roles s) (st_permissions s) (st_role_permissions s) (st_user_roles s) m
        (st_auth_users s) (st_sessions s) (st_refresh_tokens s) (st_clock s).
Definition set_auth_users (m : gmap string auth_user) (s : store) : store :=
  MkStore (st_roles s) (st_permissions s) (st_role_permissions s) (st_user_roles s)
        (st_profiles s) m (st_sessions s) (st_refresh_tokens s) (st_clock s).
Definition tick (s : store) : store :=
  MkStore (st_roles s) (st_permissions s) (st_role_permissions s) (st_user_roles s)
        (st_profiles s) (st_auth_users s) (st_sessions s) (st_refresh_tokens s)
        (S (st_clock s)).

(** ** Selections *)

(** [.maybeSingle()]: no row is [null], two rows are an error. *)
Definition maybe_single {A} (l : list A) : result (option A) :=
  match l with
  | [] => Ok None
  | [x] => Ok (Some x)
  | _ => Err "JSON object requested, multiple (or no) rows returned"
  end.

(** [roles.select('*').eq('name', n)] *)
Definition roles_named (n : string) (s : store) : list (string * role_row) :=
  filter (λ ir, role_name ir.2 = n) (map_to_list (st_roles s)).

(** [user_roles.select('role_id').eq('user_id', u)] *)
Definition role_ids_of_user (u : string) (s : store) : list string :=
  ur_role_id <$> filter (λ r, ur_user_id r = u) (st_user_roles s).

(** [user_roles.select('user_id').eq('role_id', rid)] *)
Definition user_ids_with_role (rid : string) (s : store) : list string :=
  ur_user_id <$> filter (λ r, ur_role_id r = rid) (st_user_roles s).

(** ** Writes on [user_roles] *)

(** [user_roles.delete().eq('user_id', u)] *)
Definition ur_delete_user (u : string) (s : store) : store :=
  set_user_roles (filter (λ r, ur_user_id r ≠ u) (st_user_roles s)) s.

(** [user_roles.insert({ user_id, role_id, assigned_at: new Date() })];
    a duplicate primary key is an error. *)
Definition ur_insert (u rid : string) (s : store) : result unit * store :=
  if bool_decide (Exists (λ r, ur_user_id r = u ∧ ur_role_id r = rid) (st_user_roles s))
  then (Err "duplicate key value violates unique constraint user_roles_pkey", s)
  else (Ok (), tick (set_user_roles (st_user_roles s ++ [UserRole u rid (st_clock s)]) s)).

(** ** Writes on [profiles] *)

Definition profile_insert (u : string) (b : bool) (s : store) : result unit * store :=
  match st_profiles s !! u with
  | Some _ => (Err "duplicate key value violates unique constraint profiles_pkey", s)
  | None => (Ok (), set_profiles (<[u := b]> (st_profiles s)) s)
  end.

(** [profiles.update({ is_active }).eq('id', u)]: no row, no change. *)
Definition profile_update (u : string) (b : bool) (s : store) : store :=
  set_profiles (alter (λ _, b) u (st_profiles s)) s.

Definition profile_delete (u : string) (s : store) : store :=
  set_profiles (delete u (st_profiles s)) s.

(** ** The auth service *)

(** [auth.getUser(token)]: the token's user, when it still exists. *)
Definition auth_get_user (token : string) (s : store) : result string :=
  match st_sessions s !! token with
  | Some u => if bool_decide (u ∈ dom (st_auth_users s)) then Ok u else Err "invalid JWT"
  | None => Err "invalid JWT"
  end.

(** [auth.admin.updateUserById(u, { user_metadata: { role } })]: the
    metadata object is merged key by key. *)
Definition auth_set_meta_role (u : string) (role : val) (s : store) : result unit * store :=
  match st_auth_users s !! u with
  | None => (Err "User not found", s)
  | Some a =>
      (Ok (), set_auth_users (<[u := AuthUser (au_email a)
                                  (("role", role) :: filter (λ kv, kv.1 ≠ "role") (au_metadata a))]>
                               (st_auth_users s)) s)
  end.

(** [auth.admin.updateUserById(u, { disabled: true })]: the admin API
    has no [disabled] attribute (its attributes are email, phone,
    password, metadata, [ban_duration], ...) and ignores the unknown
    key; the user is found and left as it is. *)
Definition auth_disable (u : string) (s : store) : result unit * store :=
  match st_auth_users s !! u with
  | None => (Err "User not found", s)
  | Some _ => (Ok (), s)
  end.

(** [auth.admin.deleteUser(u)] *)
Definition auth_delete (u : string) (s : store) : result unit * store :=
  match st_auth_users s !! u with
  | None => (Err "User not found", s)
  | Some _ => (Ok (), set_auth_users (delete u (st_auth_users s)) s)
  end.

(** [from('auth.refresh_tokens').delete().eq('user_id', u)]: PostgREST
    reaches only the exposed schema, where no table is named
    ["auth.refresh_tokens"]; the call answers an error and deletes
    nothing. *)
Definition REFRESH_TOKENS_MISSING : string := "Could not find the table 'public.auth.refresh_tokens'".

Definition refresh_tokens_delete (u : string) (s : store) : result unit * store :=
  (Err REFRESH_TOKENS_MISSING, s).

(** ** Administrators

    The trust anchor is the role named ["administrador"]; an administrator
    is a [user_roles] row pointing to it. *)

Definition ADMIN : string := "administrador".

Definition admin_role_ids (s : store) : list string :=
  fst <$> roles_named ADMIN s.

Definition is_admin_row (s : store) (r : user_role) : Prop :=
  ur_role_id r ∈ admin_role_ids s.

#[export] Instance is_admin_row_dec s r : Decision (is_admin_row s r).
Proof. unfold is_admin_row. apply _. Defined.

Definition admin_count (s : store) : nat :=
  length (filter (is_admin_row s) (st_user_roles s)).

Definition is_admin (s : store) (u : string) : Prop :=
  Exists (λ r, ur_user_id r = u ∧ is_admin_row s r) (st_user_roles s).

(** ** Well-formedness: the uniqueness constraints *)

Definition names_unique (s : store) : Prop :=
  ∀ i j r r', st_roles s !! i = Some r → st_roles s !! j = Some r' →
    role_name r = role_name r' → i = j.

Definition user_role_keys (s : store) : list (string * string) :=
  (λ r, (ur_user_id r, ur_role_id r)) <$> st_user_roles s.

Record store_wf (s : store) : Prop := {
  wf_role_ids : ∀ i, i ∈ dom (st_roles s) → i ≠ "";
  wf_role_names : names_unique s;
  wf_perm_names : ∀ i j n, st_permissions s !! i = Some n →
                    st_permissions s !! j = Some n → i = j;
  wf_user_roles : NoDup (user_role_keys s)
}.

(** ** Administrators when the administrator role is unique *)

Section admin_role.
Context (s : store) (aid : string) (Haid : admin_role_ids s = [aid]).

Lemma roles_named_admin : ∃ r, roles_named ADMIN s = [(aid, r)].
Proof.
  revert Haid. unfold admin_role_ids.
  destruct (roles_named ADMIN s) as [|[i r] [|]]; simpl; intros; simplify_eq; eauto.
Qed.

Lemma is_admin_row_single r : is_admin_row s r ↔ ur_role_id r = aid.
Proof. unfold is_admin_row. rewrite Haid. set_solver. Qed.

Lemma admin_count_single : admin_count s = length (user_ids_with_role aid s).
Proof.
  unfold admin_count, user_ids_with_role. rewrite length_fmap.
  apply length_filter_ext, Forall_forall. intros r _. apply is_admin_row_single.
Qed.

Lemma is_admin_single u : is_admin s u ↔ aid ∈ role_ids_of_user u s.
Proof.
  unfold is_admin, role_ids_of_user. rewrite Exists_exists, list_elem_of_fmap.
  setoid_rewrite list_elem_of_filter. setoid_rewrite is_admin_row_single.
  rewrite <-?list_elem_of_In. naive_solver.
Qed.
End admin_role.

(** Only [st_roles] decides who is an administrator. *)
Lemma admin_role_ids_roles s s' :
  st_roles s' = st_roles s → admin_role_ids s' = admin_role_ids s.
Proof. intros H. unfold admin_role_ids, roles_named. by rewrite H. Qed.

Lemma admin_count_user_roles s s' :
  st_roles s' = st_roles s → st_user_roles s' = st_user_roles s → admin_count s' = admin_count s.
Proof.
  intros H1 H2. unfold admin_count. rewrite H2.
  apply length_filter_ext, Forall_forall. intros r _.
  unfold is_admin_row. by rewrite (admin_role_ids_roles s s' H1).
Qed.

(** ** Replacing the roles of one user *)

Lemma ur_insert_after_delete u rid s :
  ur_insert u rid (ur_delete_user u s) =
    (Ok (), tick (set_user_roles (filter (λ r, ur_user_id r ≠ u) (st_user_roles s)
                                  ++ [UserRole u rid (st_clock s)]) s)).
Proof.
  unfold ur_insert, ur_delete_user; simpl.
  rewrite bool_decide_false; [done|].
  intros (r & Hr & ? & _)%Exists_exists.
  apply list_elem_of_filter in Hr. naive_solver.
Qed.

(** The [user_roles] table after [delete().eq('user_id', u)] followed by
    [insert({ user_id: u, role_id: rid })]. *)
Definition replaced_roles (u rid : string) (s : store) : list user_role :=
  filter (λ r, ur_user_id r ≠ u) (st_user_roles s) ++ [UserRole u rid (st_clock s)].

Lemma role_ids_of_user_replaced u rid s s' :
  st_user_roles s' = replaced_roles u rid s → role_ids_of_user u s' = [rid].
Proof.
  intros H. unfold role_ids_of_user. rewrite H. unfold replaced_roles.
  rewrite filter_app, filter_cons_True by done. by rewrite filter_filter_neg.
Qed.

Lemma roles_named_elem n s i r :
  (i, r) ∈ roles_named n s ↔ st_roles s !! i = Some r ∧ role_name r = n.
Proof. unfold roles_named. rewrite list_elem_of_filter, elem_of_map_to_list. naive_solver. Qed.

(** The administrator role's id is never empty, so [if (adminRoleId)]
    holds. *)
Lemma admin_role_id_nonempty s aid :
  store_wf s → admin_role_ids s = [aid] → aid ≠ "".
Proof.
  intros Hwf Haid. destruct (roles_named_admin s aid Haid) as [r Hr].
  apply (wf_role_ids s Hwf), elem_of_dom. exists r.
  apply (roles_named_elem ADMIN s aid r). rewrite Hr. set_solver.
Qed.

Lemma admin_count_roles_eq s s' l :
  st_roles s' = st_roles s →
  length (filter (is_admin_row s') l) = length (filter (is_admin_row s) l).
Proof.
  intros H. apply length_filter_ext, Forall_forall. intros r _.
  unfold is_admin_row. by rewrite (admin_role_ids_roles s s' H).
Qed.

(** With primary keys unique, a user holds the administrator role in at
    most one row. *)
Lemma admin_rows_of_user s aid u :
  store_wf s → admin_role_ids s = [aid] →
  length (filter (λ r, is_admin_row s r ∧ ur_user_id r = u) (st_user_roles s)) =
    if bool_decide (is_admin s u) then 1 else 0.
Proof.
  intros Hwf Haid. case_bool_decide as Ha.
  - enough (0 < length (filter (λ r, is_admin_row s r ∧ ur_user_id r = u) (st_user_roles s))
              ∧ length (filter (λ r, is_admin_row s r ∧ ur_user_id r = u) (st_user_roles s)) ≤ 1)
      by lia.
    split.
    + apply length_filter_pos_iff. unfold is_admin in Ha. eapply Exists_impl; [exact Ha|]. naive_solver.
    + apply (length_filter_key_le _ (λ r, (ur_user_id r, ur_role_id r)) (u, aid)).
      * apply (wf_user_roles s Hwf).
      * intros r _ [Hr ->]. by rewrite (is_admin_row_single s aid Haid) in Hr; rewrite Hr.
  - apply length_filter_nil_iff, Forall_forall. intros r Hr [Hadm Hu]. apply Ha.
    apply Exists_exists. eauto.
Qed.

(** The administrator count after replacing the roles of [u] by [rid]. *)
Lemma admin_count_replaced s s' aid u rid :
  store_wf s → admin_role_ids s = [aid] → st_roles s' = st_roles s →
  st_user_roles s' = replaced_roles u rid s →
  admin_count s' + (if bool_decide (is_admin s u) then 1 else 0) =
    admin_count s + (if bool_decide (rid = aid) then 1 else 0).
Proof.
  intros Hwf Haid Hr Hu. unfold admin_count. rewrite Hu, (admin_count_roles_eq s s' _ Hr).
  unfold replaced_roles. rewrite length_filter_app, length_filter_filter.
  rewrite (length_filter_split (is_admin_row s) (λ r, ur_user_id r = u) (st_user_roles s)).
  rewrite (admin_rows_of_user s aid u Hwf Haid), (filter_singleton _ _ []).
  case_decide as Hrow; rewrite (is_admin_row_single s aid Haid) in Hrow; simpl in Hrow;
    repeat case_bool_decide; simpl; (congruence || lia).
Qed.

Lemma is_admin_user_ids s aid u :
  admin_role_ids s = [aid] → is_admin s u ↔ u ∈ user_ids_with_role aid s.
Proof.
  intros Haid. unfold is_admin, user_ids_with_role. rewrite Exists_exists, list_elem_of_fmap.
  setoid_rewrite list_elem_of_filter. setoid_rewrite (is_admin_row_single s aid Haid).
  naive_solver.
Qed.

(** The administrator count after [user_roles.delete().eq('user_id', u)]. *)
Lemma admin_count_delete_user s aid u :
  store_wf s → admin_role_ids s = [aid] →
  admin_count (ur_delete_user u s) + (if bool_decide (is_admin s u) then 1 else 0) = admin_count s.
Proof.
  intros Hwf Haid. unfold admin_count at 1. simpl.
  rewrite (admin_count_roles_eq s (ur_delete_user u s)) by done.
  rewrite length_filter_filter, <-(admin_rows_of_user s aid u Hwf Haid).
  unfold admin_count. rewrite (length_filter_split (is_admin_row s) (λ r, ur_user_id r = u)). lia.
Qed.

(** Role names are unique, so at most one role is the administrator role. *)
Lemma admin_role_ids_at_most_one s :
  store_wf s → length (admin_role_ids s) ≤ 1.
Proof.
  intros Hwf. unfold admin_role_ids, roles_named. rewrite length_fmap.
  destruct (filter (λ ir : string * role_row, role_name ir.2 = ADMIN) (map_to_list (st_roles s)))
    as [|[i0 r0] l] eqn:E; [simpl; lia|rewrite <-E].
  assert ((i0, r0) ∈ filter (λ ir : string * role_row, role_name ir.2 = ADMIN)
                             (map_to_list (st_roles s))) as H0 by (rewrite E; set_solver).
  apply list_elem_of_filter in H0 as [Hn0 Hi0%elem_of_map_to_list].
  apply (length_filter_key_le _ fst i0); [apply NoDup_fst_map_to_list|].
  intros [j r] Hj%elem_of_map_to_list Hn. simpl in *.
  apply (wf_role_names s Hwf j i0 r r0); [done|done|congruence].
Qed.

Lemma admin_role_exists s :
  store_wf s → 1 ≤ admin_count s → ∃ aid, admin_role_ids s = [aid].
Proof.
  intros Hwf Hc. pose proof (admin_role_ids_at_most_one s Hwf) as Hle.
  destruct (admin_role_ids s) as [|aid [|]] eqn:E; simpl in Hle; [|eauto|lia].
  exfalso. unfold admin_count in Hc.
  rewrite (proj2 (length_filter_nil_iff _ _)) in Hc; [lia|].
  apply Forall_forall. intros r _. unfold is_admin_row. rewrite E. set_solver.
Qed.

(** ** Preservation of well-formedness by the table operations *)

Lemma store_wf_ext s s' :
  st_roles s' = st_roles s → st_permissions s' = st_permissions s →
  st_user_roles s' = st_user_roles s → store_wf s → store_wf s'.
Proof.
  intros Hr Hp Hu [Hi Hn Hpn Hk]. split; unfold names_unique, user_role_keys in *;
    rewrite ?Hr, ?Hp, ?Hu; auto.
Qed.

Lemma store_wf_user_roles s l :
  store_wf s → NoDup ((λ r, (ur_user_id r, ur_role_id r)) <$> l) →
  store_wf (set_user_roles l s).
Proof. intros [Hi Hn Hpn Hk] Hl. by split. Qed.

Lemma ur_delete_user_wf u s : store_wf s → store_wf (ur_delete_user u s).
Proof.
  intros Hwf. apply store_wf_user_roles; [done|].
  eapply sublist_NoDup; [apply (wf_user_roles s Hwf)|apply fmap_sublist, sublist_filter].
Qed.

Lemma ur_insert_wf u rid s : store_wf s → store_wf (ur_insert u rid s).2.
Proof.
  intros Hwf. unfold ur_insert. case_bool_decide as Hex; [done|]. simpl.
  apply (store_wf_ext (set_user_roles (st_user_roles s ++ [UserRole u rid (st_clock s)]) s));
    [done..|].
  apply store_wf_user_roles; [done|]. rewrite fmap_app, NoDup_app. split_and!.
  - apply (wf_user_roles s Hwf).
  - intros k Hk. rewrite list_elem_of_fmap in Hk. destruct Hk as (r & -> & Hr).
    intros Hin. apply list_elem_of_fmap in Hin as (r' & Heq & ->%list_elem_of_singleton).
    simplify_eq/=. apply Hex, Exists_exists. exists r. naive_solver.
  - apply NoDup_singleton.
Qed.

(** ** Well-formedness as a boolean check

    [store_wf_b] decides the four conditions of [store_wf] on a concrete
    store, so that a sample store is shown well formed by evaluation. *)

Definition store_wf_b (s : store) : bool :=
  bool_decide ("" ∉ dom (st_roles s)) &&
  bool_decide (NoDup ((role_name ∘ snd) <$> map_to_list (st_roles s))) &&
  bool_decide (NoDup (snd <$> map_to_list (st_permissions s))) &&
  bool_decide (NoDup (user_role_keys s)).

Lemma store_wf_b_sound s : store_wf_b s = true → store_wf s.
Proof.
  unfold store_wf_b. rewrite !andb_true_iff, !bool_decide_eq_true.
  intros [[[Hid Hn] Hp] Hu]. split; [| |intros i j n Hi Hj|done].
  - intros i Hi ->. done.
  - intros i j r r' Hi Hj Hrn.
    rewrite <-elem_of_map_to_list in Hi, Hj.
    by simplify_eq (NoDup_fmap_elem_inj _ _ _ _ Hn Hi Hj Hrn).
  - rewrite <-elem_of_map_to_list in Hi, Hj.
    by simplify_eq (NoDup_fmap_elem_inj _ _ _ _ Hp Hi Hj eq_refl).
Qed.

(** ** Sample stores *)

(** Roles [r1] (["administrador"]) and [r2] (["cliente"]); [u1] is the
    only administrator, [u2] a client; [tok1] is [u1]'s session. *)
Definition sample_store : store :=
  MkStore (<["r1" := RoleRow ADMIN VNull false 0]> (<["r2" := RoleRow "cliente" VNull false 1]> ∅))
        ∅ ∅ [UserRole "u1" "r1" 2; UserRole "u2" "r2" 3] ∅
        (<["u1" := AuthUser (VStr "u1@celucol.co") []]>
          (<["u2" := AuthUser (VStr "u2@celucol.co") []]> ∅))
        (<["tok1" := "u1"]> ∅) ∅ 10.

(** The same with [u2] an administrator too. *)
Definition sample_two_admins : store :=
  set_user_roles [UserRole "u1" "r1" 2; UserRole "u2" "r1" 3] sample_store.

Lemma sample_store_wf : store_wf sample_store.
Proof. apply store_wf_b_sound. by vm_compute. Qed.

Lemma sample_two_admins_wf : store_wf sample_two_admins.
Proof. apply store_wf_b_sound. by vm_compute. Qed.

