(* ===== verification/RoleStore.v ===== *)
(** * The role and permission tables: the calls of the role handlers

    The table operations behind [manage-roles]' role CRUD (lines 251-459
    of the deployed handler, and the older copy) and behind the legacy
    [/manage-roles/users] endpoint (lines 275-353).  Identifiers are
    opaque strings: a new row takes a fresh non-empty id, as the store's
    [gen_random_uuid()] default does.

    Two behaviours of PostgreSQL that the handlers run into are modelled:
    an [insert] or [update] that would give two roles the same name fails
    (names are unique, spec section 3), and an [upsert] whose batch holds
    the same conflict key twice fails with "ON CONFLICT DO UPDATE command
    cannot affect row a second time".  The [roles.name] column is taken to
    be NOT NULL.  A value sent in a JSON body to a text column is stored
    as its [String()] rendering; [undefined] fields are dropped by
    [JSON.stringify] and keep the column's value (its default on insert). *)

From stdpp Require Import sorting.
From S2P Require Import Prelude JsValue Store.

Definition UNIQUE_ROLE_NAME : string :=
  "duplicate key value violates unique constraint roles_name_key".
Definition NOT_NULL_NAME : string :=
  "null value in column name violates not-null constraint".
Definition UPSERT_TWICE : string :=
  "ON CONFLICT DO UPDATE command cannot affect row a second time".

(** A fresh identifier for a new row of a table keyed by [dom m]. *)
Definition new_id {A} (m : gmap string A) : string := fresh ({[""]} ∪ dom m).

(** A body field stored in a nullable column: [undefined] becomes the
    column default, [null]. *)
Definition column_value (v : val) : val :=
  match v with VUndef => VNull | _ => v end.

(** ** Reads *)

(** [.order('created_at', { ascending: false })] *)
Definition newer (a b : string * role_row) : Prop := role_created_at b.2 ≤ role_created_at a.2.

#[export] Instance newer_dec : RelDecision newer.
Proof. intros a b. unfold newer. apply _. Defined.

(** [roles.select('*').order('created_at', { ascending: false })] *)
Definition roles_newest_first (s : store) : list (string * role_row) :=
  merge_sort newer (map_to_list (st_roles s)).

(** [role_permissions.select('permission_id').eq('role_id', rid)] *)
Definition role_permission_ids (rid : string) (s : store) : list string :=
  snd <$> elements (filter (λ p, p.1 = rid) (st_role_permissions s)).

(** [permissions.select('*').in('id', ids)] *)
Definition permissions_with_ids (ids : list string) (s : store) : list (string * string) :=
  filter (λ ip, ip.1 ∈ ids) (map_to_list (st_permissions s)).

(** [permissions.select('id').in('name', ns)] *)
Definition permission_ids_named (ns : list string) (s : store) : list string :=
  fst <$> filter (λ ip, ip.2 ∈ ns) (map_to_list (st_permissions s)).

(** [user_roles.select('user_id').eq('role_id', rid).limit(1)] *)
Definition role_users_limit1 (rid : string) (s : store) : list string :=
  take 1 (user_ids_with_role rid s).

(** [roles.select('name').eq('id', rid).maybeSingle()] *)
Definition role_name_of_id (rid : string) (s : store) : option string :=
  role_name <$> st_roles s !! rid.

(** ** Writes on [roles] *)

(** [roles.insert({ name, description }).select('*').maybeSingle()] *)
Definition role_insert (name description : val) (s : store)
    : result (string * role_row) * store :=
  let n := to_text name in
  if bool_decide (roles_named n s = []) then
    let id := new_id (st_roles s) in
    let r := RoleRow n (column_value description) false (st_clock s) in
    (Ok (id, r), tick (set_roles (<[id := r]> (st_roles s)) s))
  else (Err UNIQUE_ROLE_NAME, s).

(** [roles.update({ name, description }).eq('id', id)]: no matching row is
    no change and no error. *)
Definition role_update (id : string) (name description : val) (s : store)
    : result unit * store :=
  match st_roles s !! id with
  | None => (Ok (), s)
  | Some r =>
      match name with
      | VNull => (Err NOT_NULL_NAME, s)
      | _ =>
          let n := match name with VUndef => role_name r | _ => to_text name end in
          let d := match description with VUndef => role_description r | _ => description end in
          if bool_decide (Exists (λ ir, ir.1 ≠ id) (roles_named n s)) then (Err UNIQUE_ROLE_NAME, s)
          else (Ok (), set_roles (<[id := RoleRow n d (role_disabled r) (role_created_at r)]>
                                   (st_roles s)) s)
      end
  end.

(** [roles.update({ disabled: true }).eq('id', id)] *)
Definition role_disable (id : string) (s : store) : store :=
  set_roles (alter (λ r, RoleRow (role_name r) (role_description r) true (role_created_at r))
                   id (st_roles s)) s.

(** [roles.delete().eq('id', id)] *)
Definition role_delete (id : string) (s : store) : store :=
  set_roles (delete id (st_roles s)) s.

(** ** Writes on [permissions] and [role_permissions] *)

(** One row of [permissions.upsert([{ name }], { onConflict: 'name' })]:
    an existing name is updated to itself, a new one is inserted. *)
Definition permission_add_name (s : store) (n : string) : store :=
  if bool_decide (n ∈ snd <$> map_to_list (st_permissions s)) then s
  else set_permissions (<[new_id (st_permissions s) := n]> (st_permissions s)) s.

Definition permission_upsert_names (ns : list string) (s : store) : result unit * store :=
  if bool_decide (NoDup ns) then (Ok (), foldl permission_add_name s ns)
  else (Err UPSERT_TWICE, s).

(** [role_permissions.upsert(mappings, { onConflict: 'role_id,permission_id' })] *)
Definition role_permissions_upsert (pairs : list (string * string)) (s : store)
    : result unit * store :=
  if bool_decide (NoDup pairs) then
    (Ok (), set_role_permissions (list_to_set pairs ∪ st_role_permissions s) s)
  else (Err UPSERT_TWICE, s).

(** [role_permissions.delete().eq('role_id', id)] *)
Definition role_permissions_delete (id : string) (s : store) : store :=
  set_role_permissions (filter (λ p, p.1 ≠ id) (st_role_permissions s)) s.

(** ** Writes of the legacy [/users] endpoint on [user_roles] *)

(** [user_roles.upsert({ user_id, role_id, assigned_at })] on the primary
    key [(user_id, role_id)]: an existing pair gets a new [assigned_at]. *)
Definition ur_upsert (u rid : string) (s : store) : store :=
  let row := UserRole u rid (st_clock s) in
  let same r := bool_decide (ur_user_id r = u ∧ ur_role_id r = rid) in
  tick (set_user_roles
          (if existsb same (st_user_roles s)
           then (λ r, if same r then row else r) <$> st_user_roles s
           else st_user_roles s ++ [row]) s).

(** [user_roles.delete().match({ user_id, role_id })] *)
Definition ur_delete_match (u rid : string) (s : store) : store :=
  set_user_roles (filter (λ r, ¬ (ur_user_id r = u ∧ ur_role_id r = rid)) (st_user_roles s)) s.

(** ** The lifecycle of a role

    [roles_step s s']: the clock does not go back, and every role enabled
    in [s'] was enabled in [s] with the same creation time, or was created
    after [s].  No operation sets [disabled] back to [false]. *)
Definition roles_step (s s' : store) : Prop :=
  st_clock s ≤ st_clock s' ∧
  ∀ rid r', st_roles s' !! rid = Some r' → role_disabled r' = false →
    (∃ r, st_roles s !! rid = Some r ∧ role_disabled r = false ∧ role_created_at r = role_created_at r') ∨
    st_clock s ≤ role_created_at r'.

(** ** Fresh identifiers *)

Lemma new_id_fresh {A} (m : gmap string A) : (new_id m ∉ dom m) ∧ new_id m ≠ "".
Proof.
  pose proof (is_fresh ({[""]} ∪ dom m)) as H. unfold new_id. set_solver.
Qed.

Lemma new_id_lookup {A} (m : gmap string A) : m !! new_id m = None.
Proof. apply not_elem_of_dom, new_id_fresh. Qed.

(** ** Preservation of well-formedness *)

Lemma store_wf_tick s : store_wf s → store_wf (tick s).
Proof. by apply store_wf_ext. Qed.

Lemma store_wf_set_roles s m :
  store_wf s → (∀ i, i ∈ dom m → i ≠ "") →
  (∀ i j r r', m !! i = Some r → m !! j = Some r' → role_name r = role_name r' → i = j) →
  store_wf (set_roles m s).
Proof. intros [] Hi Hn. by split. Qed.

Lemma store_wf_set_permissions s m :
  store_wf s → (∀ i j n, m !! i = Some n → m !! j = Some n → i = j) →
  store_wf (set_permissions m s).
Proof. intros [] Hn. by split. Qed.

Lemma roles_named_nil n s :
  roles_named n s = [] → ∀ i r, st_roles s !! i = Some r → role_name r ≠ n.
Proof.
  intros Hnil i r Hi Hn. assert ((i, r) ∈ roles_named n s) as Hin
    by (by apply roles_named_elem). rewrite Hnil in Hin. set_solver.
Qed.

(** Writing one row of [roles] keeps the store well formed when no other
    row has its name. *)
Lemma store_wf_roles_insert s id r :
  store_wf s → id ≠ "" →
  (∀ j r', st_roles s !! j = Some r' → j ≠ id → role_name r' ≠ role_name r) →
  store_wf (set_roles (<[id := r]> (st_roles s)) s).
Proof.
  intros Hwf Hne Hn. apply store_wf_set_roles; [done| |].
  - intros i. rewrite dom_insert_L, elem_of_union, elem_of_singleton.
    intros [->|Hi]; [done|by apply (wf_role_ids s Hwf)].
  - intros i j r1 r2. rewrite !lookup_insert_Some.
    intros [[<- <-]|[? Hi]] [[<- <-]|[? Hj]]; try done.
    + intros Heq. by destruct (Hn j r2 Hj).
    + intros Heq. by destruct (Hn i r1 Hi).
    + by apply (wf_role_names s Hwf).
Qed.

Lemma role_insert_wf name description s :
  store_wf s → store_wf (role_insert name description s).2.
Proof.
  intros Hwf. unfold role_insert. case_bool_decide as Hnil; [|done]. simpl.
  apply store_wf_tick, store_wf_roles_insert; [done|apply new_id_fresh|].
  intros j r' Hj _. by apply (roles_named_nil _ _ Hnil j).
Qed.

Lemma role_update_wf id name description s :
  store_wf s → store_wf (role_update id name description s).2.
Proof.
  intros Hwf. unfold role_update. destruct (st_roles s !! id) as [r0|] eqn:Hid; [|done].
  assert (id ≠ "") by (apply (wf_role_ids s Hwf), elem_of_dom; eauto).
  destruct name; simpl; try done; case_bool_decide as Hex; try done; simpl;
    apply store_wf_roles_insert; try done;
    intros j r' Hj Hji Heq; apply Hex, Exists_exists; exists (j, r');
    (split; [apply roles_named_elem; by split|done]).
Qed.

Lemma role_disable_wf id s : store_wf s → store_wf (role_disable id s).
Proof.
  intros Hwf. apply store_wf_set_roles; [done| |].
  - rewrite dom_alter_L. apply (wf_role_ids s Hwf).
  - intros i j r r'. rewrite !lookup_alter_Some.
    intros [[<- (x & Hx & ->)]|[? Hi]] [[<- (y & Hy & ->)]|[? Hj]]; simpl;
      by apply (wf_role_names s Hwf).
Qed.

Lemma role_delete_wf id s : store_wf s → store_wf (role_delete id s).
Proof.
  intros Hwf. apply store_wf_set_roles; [done| |].
  - rewrite dom_delete_L. intros i Hi. apply (wf_role_ids s Hwf). set_solver.
  - intros i j r r'. rewrite !lookup_delete_Some. intros [_ Hi] [_ Hj].
    by apply (wf_role_names s Hwf).
Qed.

Lemma permission_add_name_wf s n : store_wf s → store_wf (permission_add_name s n).
Proof.
  intros Hwf. unfold permission_add_name. case_bool_decide as Hin; [done|].
  apply store_wf_set_permissions; [done|].
  pose proof (new_id_lookup (st_permissions s)) as Hfr.
  intros i j m. rewrite !lookup_insert_Some.
  intros [[<- <-]|[? Hi]] [[<- Hm]|[? Hj]]; try done.
  - destruct Hin. apply list_elem_of_fmap. exists (j, n). by rewrite elem_of_map_to_list.
  - destruct Hin. apply list_elem_of_fmap. exists (i, n). by rewrite elem_of_map_to_list, Hm.
  - by apply (wf_perm_names s Hwf i j m).
Qed.

Lemma permission_upsert_names_wf ns s :
  store_wf s → store_wf (permission_upsert_names ns s).2.
Proof.
  intros Hwf. unfold permission_upsert_names. case_bool_decide as Hnd; [|done]. simpl.
  clear Hnd. revert s Hwf. induction ns as [|n ns IH]; intros s Hwf; simpl; [done|].
  apply IH, permission_add_name_wf, Hwf.
Qed.

Lemma ur_delete_match_wf u rid s : store_wf s → store_wf (ur_delete_match u rid s).
Proof.
  intros Hwf. apply store_wf_user_roles; [done|].
  eapply sublist_NoDup; [apply (wf_user_roles s Hwf)|apply fmap_sublist, sublist_filter].
Qed.

Lemma ur_upsert_wf u rid s : store_wf s → store_wf (ur_upsert u rid s).
Proof.
  intros Hwf. unfold ur_upsert. destruct (existsb _ _) eqn:Hex.
  - apply store_wf_tick, store_wf_user_roles; [done|].
    rewrite <-list_fmap_compose.
    erewrite list_fmap_ext; [apply (wf_user_roles s Hwf)|].
    intros _ r _. simpl. by case_bool_decide as Hs; [destruct Hs as [-> ->]|].
  - pose proof (ur_insert_wf u rid s Hwf) as H. unfold ur_insert in H.
    case_bool_decide as Hin; [|done].
    exfalso. apply Exists_exists in Hin as (r & Hr & Hs).
    apply not_true_iff_false in Hex. apply Hex, existsb_exists. exists r.
    split; [by apply list_elem_of_In|by apply bool_decide_eq_true].
Qed.

(** ** The permission upsert *)

(** A permission named [n] exists. *)
Definition has_permission (s : store) (n : string) : Prop :=
  ∃ pid, st_permissions s !! pid = Some n.

Lemma has_permission_names s n : has_permission s n ↔ n ∈ snd <$> map_to_list (st_permissions s).
Proof.
  unfold has_permission. rewrite list_elem_of_fmap. split.
  - intros [pid Hp]. exists (pid, n). by rewrite elem_of_map_to_list.
  - intros ([pid n'] & -> & Hp). rewrite elem_of_map_to_list in Hp. by exists pid.
Qed.

(** The upsert writes only the [permissions] table. *)
Lemma foldl_add_names_only_permissions ns s :
  foldl permission_add_name s ns = set_permissions (st_permissions (foldl permission_add_name s ns)) s.
Proof.
  revert s. induction ns as [|n ns IH]; intros s; simpl; [by destruct s|].
  rewrite IH. unfold permission_add_name. by case_bool_decide.
Qed.

Lemma foldl_add_names_frame ns s :
  st_roles (foldl permission_add_name s ns) = st_roles s ∧
  st_role_permissions (foldl permission_add_name s ns) = st_role_permissions s ∧
  st_user_roles (foldl permission_add_name s ns) = st_user_roles s.
Proof. by rewrite foldl_add_names_only_permissions. Qed.

Lemma permission_add_name_grows s n : st_permissions s ⊆ st_permissions (permission_add_name s n).
Proof.
  unfold permission_add_name. case_bool_decide; [done|].
  apply insert_subseteq, new_id_lookup.
Qed.

Lemma permission_add_name_present s n : has_permission (permission_add_name s n) n.
Proof.
  unfold permission_add_name. case_bool_decide as Hin.
  - by apply has_permission_names.
  - eexists. simpl. by rewrite lookup_insert_eq.
Qed.

Lemma foldl_add_names_grows ns s :
  st_permissions s ⊆ st_permissions (foldl permission_add_name s ns).
Proof.
  revert s. induction ns as [|n ns IH]; intros s; simpl; [done|].
  etrans; [apply permission_add_name_grows|apply IH].
Qed.

(** After the upsert every name of the batch exists. *)
Lemma foldl_add_names_present ns s n :
  n ∈ ns → has_permission (foldl permission_add_name s ns) n.
Proof.
  revert s. induction ns as [|m ns IH]; intros s; [set_solver|].
  rewrite elem_of_cons. intros [<-|Hn]; simpl; [|by apply IH].
  destruct (permission_add_name_present s n) as [pid Hp]. exists pid.
  eapply lookup_weaken; [done|apply foldl_add_names_grows].
Qed.

(** Upserting names that all exist changes nothing: the upsert is
    idempotent. *)
Lemma foldl_add_names_present_id ns s :
  (∀ n, n ∈ ns → has_permission s n) → foldl permission_add_name s ns = s.
Proof.
  revert s. induction ns as [|n ns IH]; intros s Hns; simpl; [done|].
  unfold permission_add_name at 2. rewrite bool_decide_true
    by (apply has_permission_names, Hns; set_solver).
  apply IH. intros m Hm. apply Hns. set_solver.
Qed.

Lemma permission_upsert_names_idem ns s s' :
  permission_upsert_names ns s = (Ok (), s') → permission_upsert_names ns s' = (Ok (), s').
Proof.
  unfold permission_upsert_names. case_bool_decide; [|done]. intros [= <-].
  f_equal. apply foldl_add_names_present_id. intros n. apply foldl_add_names_present.
Qed.

(** ** Reading permission ids back *)

Lemma permission_ids_named_elem ns s pid :
  pid ∈ permission_ids_named ns s ↔ ∃ n, st_permissions s !! pid = Some n ∧ n ∈ ns.
Proof.
  unfold permission_ids_named. rewrite list_elem_of_fmap. split.
  - intros ([pid' n] & -> & Hin). apply list_elem_of_filter in Hin as [Hn Hin].
    rewrite elem_of_map_to_list in Hin. eauto.
  - intros (n & Hp & Hn). exists (pid, n). rewrite list_elem_of_filter, elem_of_map_to_list. done.
Qed.

Lemma permission_ids_named_NoDup ns s : NoDup (permission_ids_named ns s).
Proof.
  unfold permission_ids_named.
  eapply sublist_NoDup; [apply (NoDup_fst_map_to_list (st_permissions s))|apply fmap_sublist, sublist_filter].
Qed.

(** The mapping rows of one role, [permIds.map(pid => ({ role_id, permission_id: pid }))]. *)
Definition role_pairs (rid : string) (pids : list string) : list (string * string) :=
  (λ pid, (rid, pid)) <$> pids.

Lemma role_pairs_NoDup rid pids : NoDup pids → NoDup (role_pairs rid pids).
Proof. intros. apply NoDup_fmap_2; [intros ?? [=]; done|done]. Qed.

Lemma role_pairs_elem rid pids r pid : (r, pid) ∈ role_pairs rid pids ↔ r = rid ∧ pid ∈ pids.
Proof. unfold role_pairs. rewrite list_elem_of_fmap. naive_solver. Qed.

Lemma roles_named_nil_iff n s :
  roles_named n s = [] ↔ ∀ i r, st_roles s !! i = Some r → role_name r ≠ n.
Proof.
  split; [apply roles_named_nil|]. intros H.
  destruct (roles_named n s) as [|[i r] l] eqn:E; [done|].
  assert ((i, r) ∈ roles_named n s) as [Hi Hr]%roles_named_elem by (rewrite E; set_solver).
  by destruct (H i r Hi).
Qed.

(** [roles.update] writes only the [roles] table. *)
Lemma role_update_only_roles id name description s res s1 :
  role_update id name description s = (res, s1) →
  st_permissions s1 = st_permissions s ∧ st_role_permissions s1 = st_role_permissions s.
Proof. unfold role_update. intros H. repeat case_match; by simplify_eq/=. Qed.

(** ** Administrators after the role writes *)

Lemma admin_count_no_admin_role s : admin_role_ids s = [] → admin_count s = 0.
Proof.
  intros H. apply length_filter_nil_iff, Forall_forall. intros r _.
  unfold is_admin_row. rewrite H. set_solver.
Qed.

Lemma admin_count_set_user_roles l s :
  admin_count (set_user_roles l s) = length (filter (is_admin_row s) l).
Proof. unfold admin_count. by apply admin_count_roles_eq. Qed.

(** [user_roles.delete().match({ user_id: u, role_id: aid })] on the
    administrator role removes exactly the administrator row of [u]. *)
Lemma admin_count_delete_match s aid u :
  store_wf s → admin_role_ids s = [aid] →
  admin_count (ur_delete_match u aid s) + (if bool_decide (is_admin s u) then 1 else 0) =
    admin_count s.
Proof.
  intros Hwf Haid. rewrite <-(admin_count_delete_user s aid u Hwf Haid). f_equal.
  unfold ur_delete_match, ur_delete_user. rewrite !admin_count_set_user_roles, !length_filter_filter.
  apply length_filter_ext, Forall_forall. intros r _.
  rewrite (is_admin_row_single s aid Haid). naive_solver.
Qed.

(** Renaming the administrator role leaves no role of that name. *)
Lemma roles_named_admin_renamed s aid r n' d :
  store_wf s → admin_role_ids s = [aid] → n' ≠ ADMIN →
  roles_named ADMIN (set_roles (<[aid := RoleRow n' d (role_disabled r) (role_created_at r)]>
                                  (st_roles s)) s) = [].
Proof.
  intros Hwf Haid Hn'. apply roles_named_nil_iff. simpl. intros i r'.
  rewrite lookup_insert_Some. intros [[<- <-]|[Hne Hi]]; [done|]. intros Hr.
  destruct (roles_named_admin s aid Haid) as [ra Hra].
  assert ((i, r') ∈ roles_named ADMIN s) as Hin by (by apply roles_named_elem).
  rewrite Hra in Hin. set_solver.
Qed.

(** ** Reads of the user listings (lines 52-93 and 277-310) *)

(** [auth.admin.listUsers()] without arguments answers the first page
    only: [per_page] defaults to 50.  The service orders the users by
    creation time, which the store does not record; the order of the map
    stands for it. *)
Definition AUTH_PER_PAGE : nat := 50.

Definition auth_list_users (s : store) : list (string * auth_user) :=
  take AUTH_PER_PAGE (map_to_list (st_auth_users s)).

(** [user_roles.select('user_id')] *)
Definition user_role_user_ids (s : store) : list string := ur_user_id <$> st_user_roles s.

(** [roles.select('*').in('id', ids)] *)
Definition roles_with_ids (ids : list string) (s : store) : list (string * role_row) :=
  filter (λ ir, ir.1 ∈ ids) (map_to_list (st_roles s)).

(** [profiles.select('id, is_active')] *)
Definition profile_rows (s : store) : list (string * bool) := map_to_list (st_profiles s).

(** ** No operation re-enables a role *)

#[export] Instance roles_step_preorder : PreOrder roles_step.
Proof.
  split.
  - intros s. split; [done|]. intros rid r' ? ?. left. by exists r'.
  - intros s1 s2 s3 [Hc12 H12] [Hc23 H23]. split; [lia|]. intros rid r3 Hr3 Hd3.
    destruct (H23 rid r3 Hr3 Hd3) as [(r2 & Hr2 & Hd2 & Hc2)|Hc]; [|right; lia].
    destruct (H12 rid r2 Hr2 Hd2) as [(r1 & ? & ? & ?)|?]; [left; exists r1; split_and!; congruence|right; lia].
Qed.

Lemma roles_step_same s s' :
  st_roles s' = st_roles s → st_clock s ≤ st_clock s' → roles_step s s'.
Proof. intros Hr Hc. split; [done|]. rewrite Hr. intros rid r' ? ?. left. by exists r'. Qed.

Lemma role_insert_roles_step name description s : roles_step s (role_insert name description s).2.
Proof.
  unfold role_insert. case_bool_decide; [|reflexivity]. split; simpl; [lia|].
  intros rid r'. destruct (decide (rid = new_id (st_roles s))) as [->|Hne].
  - rewrite lookup_insert_eq. intros [= <-] _. right. simpl. lia.
  - rewrite lookup_insert_ne by done. intros ? ?. left. by exists r'.
Qed.

Lemma role_update_roles_step id name description s : roles_step s (role_update id name description s).2.
Proof.
  unfold role_update. destruct (st_roles s !! id) as [r|] eqn:Hr; [|reflexivity].
  destruct name; try reflexivity; case_bool_decide; try reflexivity;
    (split; [done|]); intros rid r'; simpl;
    (destruct (decide (rid = id)) as [->|Hne];
     [rewrite lookup_insert_eq; intros [= <-] ?; left; by exists r
     |rewrite lookup_insert_ne by done; intros ? ?; left; by exists r']).
Qed.

Lemma role_disable_roles_step id s : roles_step s (role_disable id s).
Proof.
  split; [done|]. intros rid r'. simpl. destruct (decide (rid = id)) as [->|Hne].
  - rewrite lookup_alter_eq. by intros (? & _ & ->)%fmap_Some.
  - rewrite lookup_alter_ne by done. intros ? ?. left. by exists r'.
Qed.

Lemma role_delete_roles_step id s : roles_step s (role_delete id s).
Proof.
  split; [done|]. intros rid r'. simpl. destruct (decide (rid = id)) as [->|Hne].
  - by rewrite lookup_delete_eq.
  - rewrite lookup_delete_ne by done. intros ? ?. left. by exists r'.
Qed.
