(* ===== verification/Backend.v ===== *)
(** * Handlers as programs over backend calls

    A handler body is a chain of [await]ed supabase-js calls.  Each call is a
    constructor of [query B], where [B] is the type of the call's [data]; a
    call answers a [result B], the [{ data, error }] pair.  A handler is a
    [prog A]: a finite tree of calls whose leaves return a value or [throw].
    [bind] sequences (the [await] chain), [catch] is [try { } catch { }].

    [run] interprets a program against the store.  A fault schedule
    [fs : list bool] says, call by call, whether the hosted service answers
    with an upstream error (a network failure, a timeout, an outage) instead
    of running the call; an empty schedule means no more faults.  [exec] is
    the same semantics as a relation in which any call may fault, and
    [run_exec] shows that the two agree. *)

From S2P Require Import Prelude JsValue Store RoleStore.

(** ** The calls *)

Inductive query : Type → Type :=
(* auth service *)
| QGetUser (token : string) : query string
| QSetMetaRole (u : string) (role : val) : query unit
| QDisableAuthUser (u : string) : query unit
| QDeleteAuthUser (u : string) : query unit
| QDeleteRefreshTokens (u : string) : query unit
(* roles / user_roles *)
| QRoleByName (name : string) : query (option (string * role_row))
| QRoleIdsOfUser (u : string) : query (list string)
| QUsersWithRole (rid : string) : query (list string)
| QDeleteUserRoles (u : string) : query unit
| QInsertUserRole (u rid : string) : query unit
(* profiles *)
| QProfile (u : string) : query (option bool)
| QInsertProfile (u : string) (b : bool) : query unit
| QUpdateProfile (u : string) (b : bool) : query unit
| QDeleteProfile (u : string) : query unit
(* roles, permissions, role_permissions *)
| QRolesNewestFirst : query (list (string * role_row))
| QRolePermissionIds (rid : string) : query (list string)
| QPermissionsWithIds (ids : list string) : query (list (string * string))
| QInsertRole (name description : val) : query (string * role_row)
| QUpdateRole (id : string) (name description : val) : query unit
| QDisableRole (id : string) : query unit
| QDeleteRole (id : string) : query unit
| QUpsertPermissionNames (ns : list string) : query unit
| QPermissionIdsNamed (ns : list string) : query (list string)
| QUpsertRolePermissions (pairs : list (string * string)) : query unit
| QDeleteRolePermissions (id : string) : query unit
| QRoleUsersLimit1 (id : string) : query (list string)
(* the legacy /users endpoint *)
| QUpsertUserRole (u rid : string) : query unit
| QDeleteUserRole (u rid : string) : query unit
| QRoleNameById (rid : string) : query (option string)
(* the user listings *)
| QListAuthUsers : query (list (string * auth_user))
| QUserRoleUserIds : query (list string)
| QUserRoleRows : query (list user_role)
| QRolesWithIds (ids : list string) : query (list (string * role_row))
| QProfileRows : query (list (string * bool)).

(** The store's answer to one call. *)
Definition exec_query {B} (q : query B) (s : store) : result B * store :=
  match q with
  | QGetUser t => (auth_get_user t s, s)
  | QSetMetaRole u r => auth_set_meta_role u r s
  | QDisableAuthUser u => auth_disable u s
  | QDeleteAuthUser u => auth_delete u s
  | QDeleteRefreshTokens u => refresh_tokens_delete u s
  | QRoleByName n => (maybe_single (roles_named n s), s)
  | QRoleIdsOfUser u => (Ok (role_ids_of_user u s), s)
  | QUsersWithRole rid => (Ok (user_ids_with_role rid s), s)
  | QDeleteUserRoles u => (Ok (), ur_delete_user u s)
  | QInsertUserRole u rid => ur_insert u rid s
  | QProfile u => (Ok (st_profiles s !! u), s)
  | QInsertProfile u b => profile_insert u b s
  | QUpdateProfile u b => (Ok (), profile_update u b s)
  | QDeleteProfile u => (Ok (), profile_delete u s)
  | QRolesNewestFirst => (Ok (roles_newest_first s), s)
  | QRolePermissionIds rid => (Ok (role_permission_ids rid s), s)
  | QPermissionsWithIds ids => (Ok (permissions_with_ids ids s), s)
  | QInsertRole n d => role_insert n d s
  | QUpdateRole id n d => role_update id n d s
  | QDisableRole id => (Ok (), role_disable id s)
  | QDeleteRole id => (Ok (), role_delete id s)
  | QUpsertPermissionNames ns => permission_upsert_names ns s
  | QPermissionIdsNamed ns => (Ok (permission_ids_named ns s), s)
  | QUpsertRolePermissions ps => role_permissions_upsert ps s
  | QDeleteRolePermissions id => (Ok (), role_permissions_delete id s)
  | QRoleUsersLimit1 id => (Ok (role_users_limit1 id s), s)
  | QUpsertUserRole u rid => (Ok (), ur_upsert u rid s)
  | QDeleteUserRole u rid => (Ok (), ur_delete_match u rid s)
  | QRoleNameById rid => (Ok (role_name_of_id rid s), s)
  | QListAuthUsers => (Ok (auth_list_users s), s)
  | QUserRoleUserIds => (Ok (user_role_user_ids s), s)
  | QUserRoleRows => (Ok (st_user_roles s), s)
  | QRolesWithIds ids => (Ok (roles_with_ids ids s), s)
  | QProfileRows => (Ok (profile_rows s), s)
  end.

(** ** Programs *)

(** [Throw e] carries the thrown error's [message], which the router's
    [catch] puts in the 500 response ([error?.message ?? String(error)]). *)
Inductive prog (A : Type) : Type :=
| Ret (a : A)
| Throw (e : string)
| Call {B : Type} (q : query B) (k : result B → prog A).
Arguments Ret {A} a.
Arguments Throw {A} e.
Arguments Call {A B} q k.

Fixpoint prog_bind {A B} (p : prog A) (f : A → prog B) : prog B :=
  match p with
  | Ret a => f a
  | Throw e => Throw e
  | Call q k => Call q (λ r, prog_bind (k r) f)
  end.

(** [let* x := c in k] is [const x = await c; k]: the computation is
    elaborated before the continuation, so [k] may branch on [x]. *)
Notation "'let*' x := c 'in' k" := (prog_bind c (λ x, k))
  (at level 10, x binder, c at level 100, k at level 200) : celucol_scope.
Open Scope celucol_scope.

(** [try { p } catch (e) { h(e) }] *)
Fixpoint catch {A} (p : prog A) (h : string → prog A) : prog A :=
  match p with
  | Ret a => Ret a
  | Throw e => h e
  | Call q k => Call q (λ r, catch (k r) h)
  end.

(** [const { data, error } = await q; if (error) throw error;] *)
Definition call {B} (q : query B) : prog B :=
  Call q (λ r, match r with Ok b => Ret b | Err e => Throw e end).

(** [const res = await q;] when the code inspects [res.error] itself, or
    ignores it. *)
Definition call_res {B} (q : query B) : prog (result B) := Call q Ret.

(** ** Running a program *)

Definition UPSTREAM : string := "upstream request failed".

Record outcome (A : Type) := Outcome {
  out_res : result A;
  out_store : store;
  out_faults : list bool
}.
Arguments Outcome {A} _ _ _.
Arguments out_res {A} _.
Arguments out_store {A} _.
Arguments out_faults {A} _.

Fixpoint run {A} (p : prog A) (fs : list bool) (s : store) : outcome A :=
  match p with
  | Ret a => Outcome (Ok a) s fs
  | Throw e => Outcome (Err e) s fs
  | Call q k =>
      match fs with
      | true :: fs' => run (k (Err UPSTREAM)) fs' s
      | _ => let '(r, s') := exec_query q s in run (k r) (tail fs) s'
      end
  end.

(** All behaviours: any call may answer an upstream error. *)
Inductive exec {A} : prog A → store → result A → store → Prop :=
| exec_ret a s : exec (Ret a) s (Ok a) s
| exec_throw e s : exec (Throw e) s (Err e) s
| exec_call {B} (q : query B) k s r s' res s'' :
    exec_query q s = (r, s') → exec (k r) s' res s'' → exec (Call q k) s res s''
| exec_fault {B} (q : query B) k s res s' :
    exec (k (Err UPSTREAM)) s res s' → exec (Call q k) s res s'.

(** ** Equations of [run] *)

Lemma run_bind {A B} (p : prog A) (f : A → prog B) fs s :
  run (prog_bind p f) fs s =
    match run p fs s with
    | Outcome (Ok a) s' fs' => run (f a) fs' s'
    | Outcome (Err e) s' fs' => Outcome (Err e) s' fs'
    end.
Proof.
  revert fs s. induction p as [a|e|C q k IH]; intros fs s; [done|done|].
  simpl. destruct fs as [|[] fs]; [|apply IH|];
    destruct (exec_query q s); apply IH.
Qed.

Lemma run_catch {A} (p : prog A) (h : string → prog A) fs s :
  run (catch p h) fs s =
    match run p fs s with
    | Outcome (Err e) s' fs' => run (h e) fs' s'
    | o => o
    end.
Proof.
  revert fs s. induction p as [a|e|C q k IH]; intros fs s; [done|done|].
  simpl. destruct fs as [|[] fs]; [|apply IH|];
    destruct (exec_query q s); apply IH.
Qed.

Lemma run_call_ok {B} (q : query B) fs s :
  run (call q) (false :: fs) s =
    let '(r, s') := exec_query q s in
    Outcome (match r with Ok b => Ok b | Err e => Err e end) s' fs.
Proof. simpl. by destruct (exec_query q s) as [[]]. Qed.

(** The executable interpreter and the relational semantics agree: the
    behaviours of a program are exactly its runs under all schedules. *)
Lemma run_exec_sound {A} (p : prog A) fs s :
  exec p s (out_res (run p fs s)) (out_store (run p fs s)).
Proof.
  revert fs s. induction p as [a|e|C q k IH]; intros fs s; simpl; [constructor|constructor|].
  destruct fs as [|[] fs].
  - destruct (exec_query q s) eqn:E. econstructor; [done|apply IH].
  - apply exec_fault, IH.
  - destruct (exec_query q s) eqn:E. econstructor; [done|apply IH].
Qed.

Lemma run_exec_complete {A} (p : prog A) s res s' :
  exec p s res s' → ∃ fs, out_res (run p fs s) = res ∧ out_store (run p fs s) = s'.
Proof.
  induction 1 as [a s|e s|C q k s r s1 res s2 Hq _ [fs IH]|C q k s res s1 _ [fs IH]].
  - by exists [].
  - by exists [].
  - exists (false :: fs). simpl. by rewrite Hq.
  - by exists (true :: fs).
Qed.

(** ** Weakest preconditions

    [wp p Q s]: every run of [p] from [s], under every fault schedule,
    ends in a result and store satisfying [Q].  It is computed by
    structural recursion: a call contributes its fault branch and its
    answered branch. *)

Fixpoint wp {A} (p : prog A) (Q : result A → store → Prop) (s : store) : Prop :=
  match p with
  | Ret a => Q (Ok a) s
  | Throw e => Q (Err e) s
  | Call q k => wp (k (Err UPSTREAM)) Q s ∧ wp (k (exec_query q s).1) Q (exec_query q s).2
  end.

(** Adequacy of [wp] for the interpreter. *)
Lemma wp_run {A} (p : prog A) Q s :
  wp p Q s ↔ ∀ fs, Q (out_res (run p fs s)) (out_store (run p fs s)).
Proof.
  revert s. induction p as [a|e|C q k IH]; intros s; simpl;
    [split; [auto|intros H; apply (H [])]..|].
  rewrite !IH. split.
  - intros [Hf Hk] [|[] fs]; [| apply Hf |];
      simpl in Hk |- *; destruct (exec_query q s); apply Hk.
  - intros H. split; intros fs.
    + apply (H (true :: fs)).
    + specialize (H (false :: fs)). simpl in H.
      by destruct (exec_query q s).
Qed.

(** Adequacy of [wp] for the relational semantics. *)
Lemma wp_exec {A} (p : prog A) Q s :
  wp p Q s ↔ ∀ res s', exec p s res s' → Q res s'.
Proof.
  rewrite wp_run. split.
  - intros H res s' (fs & <- & <-)%run_exec_complete. apply H.
  - intros H fs. apply H, run_exec_sound.
Qed.

Lemma wp_mono {A} (p : prog A) (Q1 Q2 : result A → store → Prop) s :
  (∀ r s', Q1 r s' → Q2 r s') → wp p Q1 s → wp p Q2 s.
Proof.
  intros HQ. revert s. induction p as [a|e|C q k IH]; intros s; simpl; [auto|auto|].
  intros [??]; split; auto.
Qed.

(** Sequencing. *)
Lemma wp_bind {A B} (p : prog A) (f : A → prog B) Q s :
  wp (prog_bind p f) Q s ↔
    wp p (λ r s', match r with Ok a => wp (f a) Q s' | Err e => Q (Err e) s' end) s.
Proof.
  revert s. induction p as [a|e|C q k IH]; intros s; simpl; [done|done|].
  by rewrite !IH.
Qed.

Lemma wp_catch {A} (p : prog A) h Q s :
  wp (catch p h) Q s ↔
    wp p (λ r s', match r with Ok a => Q (Ok a) s' | Err e => wp (h e) Q s' end) s.
Proof.
  revert s. induction p as [a|e|C q k IH]; intros s; simpl; [done|done|].
  by rewrite !IH.
Qed.

(** ** Well-formedness is an invariant of every program *)

Lemma exec_query_wf {B} (q : query B) s : store_wf s → store_wf (exec_query q s).2.
Proof.
  intros Hwf. destruct q; simpl;
    try (by apply ur_delete_user_wf); try (by apply ur_insert_wf); try done;
    try (by apply role_insert_wf); try (by apply role_update_wf);
    try (by apply role_disable_wf); try (by apply role_delete_wf);
    try (by apply permission_upsert_names_wf); try (by apply ur_upsert_wf);
    try (by apply ur_delete_match_wf);
    try (unfold role_permissions_upsert; case_bool_decide; simpl; by apply (store_wf_ext s));
    try (by apply (store_wf_ext s));
    unfold auth_set_meta_role, auth_disable, auth_delete, profile_insert; repeat case_match; simpl;
    try done; by apply (store_wf_ext s).
Qed.

Lemma wp_and {A} (p : prog A) Q1 Q2 s :
  wp p Q1 s → wp p Q2 s → wp p (λ r s', Q1 r s' ∧ Q2 r s') s.
Proof.
  revert s. induction p as [a|e|C q k IH]; intros s; simpl; [done|done|]. naive_solver.
Qed.

(** A property of stores that every call keeps holds after every program,
    under every fault schedule. *)
Lemma wp_invariant (P : store → Prop) :
  (∀ B (q : query B) s, P s → P (exec_query q s).2) →
  ∀ A (p : prog A) s, P s → wp p (λ _ s', P s') s.
Proof.
  intros HP A p. induction p as [a|e|C q k IH]; intros s Hs; simpl; [done|done|].
  split; apply IH; [done|]. by apply HP.
Qed.

(** A preorder that relates the store before each call to the store
    after it relates the store before every program to every store after
    it. *)
Lemma wp_preorder (R : relation store) `{!PreOrder R} :
  (∀ B (q : query B) s, R s (exec_query q s).2) →
  ∀ A (p : prog A) s, wp p (λ _ s', R s s') s.
Proof.
  intros HR A p. induction p as [a|e|C q k IH]; intros s; simpl; [done|done|].
  split; [apply IH|]. eapply wp_mono; [|apply IH]. intros r s' Hs'. transitivity (exec_query q s).2; [apply HR|exact Hs'].
Qed.

(** Whatever the program and the fault schedule, a well-formed store stays
    well-formed: every call keeps the uniqueness constraints. *)
Lemma wp_store_wf {A} (p : prog A) s : store_wf s → wp p (λ _ s', store_wf s') s.
Proof. intros Hwf. apply wp_invariant; [|done]. intros B q s'. apply exec_query_wf. Qed.

(** No call re-enables a role. *)
Lemma exec_query_roles_step {B} (q : query B) s : roles_step s (exec_query q s).2.
Proof.
  destruct q; unfold exec_query; cbn [fst snd];
    first [ reflexivity | apply role_insert_roles_step | apply role_update_roles_step
          | apply role_disable_roles_step | apply role_delete_roles_step | idtac ];
    unfold auth_set_meta_role, auth_disable, auth_delete, profile_insert, ur_insert,
      permission_upsert_names, role_permissions_upsert;
    repeat case_match; cbn [fst snd]; try reflexivity;
    try (rewrite foldl_add_names_only_permissions);
    apply roles_step_same; try reflexivity;
    cbn [st_clock tick set_user_roles set_profiles set_role_permissions set_auth_users
         set_permissions ur_upsert ur_delete_match ur_delete_user profile_update profile_delete
         refresh_tokens_delete role_permissions_delete]; lia.
Qed.

(** Every program, under every fault schedule, takes the store one
    [roles_step] further. *)
Lemma wp_roles_step {A} (p : prog A) s : wp p (λ _ s', roles_step s s') s.
Proof. apply wp_preorder; [apply _|]. intros. apply exec_query_roles_step. Qed.

#[export] Hint Rewrite @run_bind @run_catch : celucol_rw.

(** ** What a program can return

    [rets P p]: every value [p] returns, whatever its calls answer and
    whatever the store, satisfies [P]. Unlike [wp] it does not look at the
    store, so it states a property of a handler's code alone, such as the
    shape of every response it builds. *)
Fixpoint rets {A} (P : A → Prop) (p : prog A) : Prop :=
  match p with
  | Ret a => P a
  | Throw _ => True
  | Call q k => ∀ r, rets P (k r)
  end.

Lemma rets_bind {A B} (P : B → Prop) (p : prog A) (f : A → prog B) :
  (∀ a, rets P (f a)) → rets P (prog_bind p f).
Proof. intros Hf. induction p as [a|e|C q k IH]; simpl; auto. Qed.

(** The continuation may use what [p] is known to return. *)
Lemma rets_bind_with {A B} (Q : A → Prop) (P : B → Prop) (p : prog A) (f : A → prog B) :
  rets Q p → (∀ a, Q a → rets P (f a)) → rets P (prog_bind p f).
Proof. intros Hp Hf. induction p as [a|e|C q k IH]; simpl in *; auto. Qed.

Lemma rets_catch {A} (P : A → Prop) (p : prog A) h :
  rets P p → (∀ e, rets P (h e)) → rets P (catch p h).
Proof. intros Hp Hh. induction p as [a|e|C q k IH]; simpl in *; auto. Qed.

(** A returned value satisfies [P] under every fault schedule. *)
Lemma rets_run {A} (P : A → Prop) (p : prog A) fs s a :
  rets P p → out_res (run p fs s) = Ok a → P a.
Proof.
  intros Hp. revert fs s. induction p as [b|e|C q k IH]; intros fs s; simpl in *.
  - by intros [= ->].
  - done.
  - destruct fs as [|[] fs]; try destruct (exec_query q s); eauto.
Qed.

#[export] Hint Resolve rets_bind rets_catch : celucol.

(** Proves [rets P p] by going through every bind, [try] and branch of
    [p]; a bound program whose [rets] is a hypothesis passes it on to the
    continuation, and [leaf] closes the goals at the [return]s. *)
Ltac rets_tac leaf :=
  repeat first
    [ progress cbn [prog_bind]
    | eapply rets_bind_with; [solve [eauto with celucol]|intros ? ?]
    | apply rets_bind; intros
    | apply rets_catch; intros
    | progress cbn [rets]
    | progress intros
    | progress case_match
    | progress leaf ].

(** ** Reading a request body *)

(** The message of the [TypeError] raised by destructuring [null]. *)
Definition TYPE_ERROR_DESTRUCTURE : string := "Cannot destructure property of null".

(** [const { k } = body] on a body that may be [null]. *)
Definition field (body : val) (k : string) : prog val :=
  match get body k with
  | Some v => Ret v
  | None => Throw TYPE_ERROR_DESTRUCTURE
  end.

(** [const { k = d } = body] *)
Definition field_default (body : val) (k : string) (d : val) : prog val :=
  match get_default body k d with
  | Some v => Ret v
  | None => Throw TYPE_ERROR_DESTRUCTURE
  end.

(** [try { await p } catch (e) { console.warn(...) }] around a call whose
    [error] the code does not read. *)
Definition best_effort {B} (q : query B) : prog unit :=
  catch (let* _ := call_res q in Ret ()) (λ _, Ret ()).

Lemma wp_best_effort {B} (q : query B) Q s :
  Q (Ok ()) s → Q (Ok ()) (exec_query q s).2 → wp (best_effort q) Q s.
Proof. intros. unfold best_effort; simpl. by destruct (exec_query q s).1. Qed.

Arguments best_effort : simpl never.

