(* ===== verification/Http.v ===== *)
(** * Requests, responses and path routing

    [serve] hands a handler a [Request]; the handler reads its method, the
    URL's [pathname], the [authorization] header and the JSON body, and
    answers a [Response] with a status and a JSON body (the CORS headers are
    the same constant on every response and are not modelled).

    Routing in [src/src/supabase/functions/manage-roles/index.ts] (lines
    34-43) splits the pathname on ['/'], drops empty segments
    ([filter(Boolean)]), finds the last ['manage-roles'] and the last
    ['manage-users'] segment with [lastIndexOf], and joins what follows with
    ['/'] ([slice(idx + 1).join('/')]). *)

From S2P Require Import Prelude JsValue.

Record request := Request {
  req_method : string;
  req_path : string;              (* new URL(req.url).pathname *)
  req_authorization : option string;
  req_body : option val           (* None: the body is not valid JSON *)
}.

Record response := Response {
  resp_status : nat;
  resp_body : val
}.

(** [response.ok]: a status in the range 200-299. *)
Definition response_ok (status : nat) : bool := bool_decide (200 ≤ status ≤ 299).

(** [new Response(JSON.stringify({ error: msg }), { status })] *)
Definition error_response (status : nat) (msg : string) : response :=
  Response status (obj [("error", VStr msg)]).

(** [new Response(JSON.stringify({ success: true }), { status })] *)
Definition success_response (status : nat) : response :=
  Response status (obj [("success", VBool true)]).

(** [json.k] is set: present and not [undefined]. *)
Definition has_field (v : val) (k : string) : bool :=
  match get v k with None | Some VUndef => false | Some _ => true end.

(** The answers the views read: [const json = await res.json()], then
    [json.data] (or [json.success]) when [res.ok], and [json.error] as
    the message otherwise.  An answer of this shape is a JSON object with
    [data] or [success] set when its status is 2xx, and with a string
    [error] otherwise. *)
Definition json_answer (resp : response) : bool :=
  match resp_body resp with
  | VObj _ =>
      if response_ok (resp_status resp)
      then has_field (resp_body resp) "data" || has_field (resp_body resp) "success"
      else match get (resp_body resp) "error" with Some (VStr _) => true | _ => false end
  | _ => false
  end.

(** ** [String.prototype.split] on a one-character separator *)

Fixpoint split_on (c : ascii) (s : string) : list string :=
  match s with
  | EmptyString => [""]
  | String a s' =>
      let rest := split_on c s' in
      if bool_decide (a = c) then "" :: rest
      else match rest with
           | [] => [String a ""]
           | x :: r => String a x :: r
           end
  end.

(** [Array.prototype.join] *)
Fixpoint join_with (sep : string) (l : list string) : string :=
  match l with
  | [] => ""
  | [x] => x
  | x :: l' => x +:+ sep +:+ join_with sep l'
  end.

(** [filter(Boolean)] on strings: drop the empty ones. *)
Definition non_empty (l : list string) : list string := filter (λ x, x ≠ "") l.

(** [Array.prototype.lastIndexOf]; [None] is [-1]. *)
Fixpoint last_index_of (x : string) (l : list string) : option nat :=
  match l with
  | [] => None
  | y :: l' =>
      match last_index_of x l' with
      | Some i => Some (S i)
      | None => if bool_decide (x = y) then Some 0 else None
      end
  end.

Definition path_parts (path : string) : list string := non_empty (split_on "/" path).

(** [idx >= 0 ? parts.slice(idx + 1).join('/') : ''] *)
Definition subpath_after (name : string) (parts : list string) : string :=
  match last_index_of name parts with
  | Some i => join_with "/" (drop (S i) parts)
  | None => ""
  end.

(** [String.prototype.startsWith] *)
Definition starts_with (pre s : string) : bool := String.prefix pre s.

(** [authHeader.startsWith('Bearer ') ? authHeader.substring(7) : authHeader]
    on [req.headers.get('authorization') || '']. *)
Definition bearer_token (h : option string) : string :=
  let a := default "" h in
  if starts_with "Bearer " a then String.substring 7 (String.length a - 7) a else a.

(** ** Lemmas *)

Lemma split_on_not_nil c s : split_on c s ≠ [].
Proof. destruct s; simpl; [done|]. case_bool_decide; [done|]. by destruct (split_on c s). Qed.

Lemma join_with_cons_not_nil sep x l :
  l ≠ [] → join_with sep (x :: l) = x +:+ sep +:+ join_with sep l.
Proof. by destruct l. Qed.
