(* ===== verification/ManageUsers.v ===== *)
(** * User management: [/manage-roles/manage-users/...]

    The handlers of [src/src/supabase/functions/manage-roles/index.ts]
    lines 46-249: the caller's identity from the bearer token
    ([getUserIdFromToken], lines 15-25), then

    - [POST .../assign-role] (lines 96-157): replace the user's roles by one;
      refuse to take the administrator role from the last administrator;
    - [PATCH .../disable] (lines 160-210): set [profiles.is_active]; when
      deactivating, try to disable the auth user and to drop its refresh
      tokens (neither call changes anything, see [Store.auth_disable]);
      refuse to disable the caller;
    - [DELETE .../delete] (lines 213-248): remove the user's roles, profile
      and auth record; refuse to delete the caller or the last
      administrator.

    Each handler is a [prog response] over the calls of [Backend]; a thrown
    error becomes the 500 response of the enclosing [try] (see the router).
    The [supabase.auth.admin.updateUserById] calls assume supabase-js v2,
    where that method exists, so the [updateUser] fallback is dead code. *)

From S2P Require Import Prelude JsValue Store Backend Http.

(** Lines 15-25: every failure, thrown or returned, reads as [null]. *)
Definition getUserIdFromToken (token : string) : prog (option string) :=
  if bool_decide (token = "") then Ret None
  else catch (let* r := call_res (QGetUser token) in
              match r with Ok u => Ret (Some u) | Err _ => Ret None end)
             (λ _, Ret None).

(** [currentUserId && currentUserId === user_id] *)
Definition is_self (currentUserId : option string) (user_id : val) : bool :=
  match currentUserId with
  | Some c => negb (bool_decide (c = "")) && strict_eq_str user_id c
  | None => false
  end.

(** [adminRoleRow?.id] tested for truthiness. *)
Definition admin_id_of (row : option (string * role_row)) : option string :=
  match row with
  | Some (aid, _) => if bool_decide (aid = "") then None else Some aid
  | None => None
  end.

(** ** [POST /manage-users/assign-role], lines 96-157 *)

(** Lines 111-130: [true] when the request must be refused. *)
Definition last_admin_guard (uid : string) (role_name : val) : prog bool :=
  let* currentUserRoles := call (QRoleIdsOfUser uid) in
  let* adminRoleRow := call (QRoleByName ADMIN) in
  match admin_id_of adminRoleRow with
  | Some aid =>
      if bool_decide (aid ∈ currentUserRoles) && negb (strict_eq_str role_name ADMIN) then
        let* admins := call (QUsersWithRole aid) in
        Ret (bool_decide (length admins ≤ 1))
      else Ret false
  | None => Ret false
  end.

(** Lines 132-156: drop the user's roles, insert the new one, mirror the
    role name into the auth metadata. *)
Definition replace_user_role (uid rid : string) (role_name : val) : prog response :=
  let* _ := call (QDeleteUserRoles uid) in
  let* _ := call (QInsertUserRole uid rid) in
  let* _ := best_effort (QSetMetaRole uid role_name) in
  Ret (success_response 200).

Definition assign_role (currentUserId : option string) (body : val) : prog response :=
  let* user_id := field body "user_id" in
  let* role_name := field body "role_name" in
  if negb (truthy user_id) || negb (truthy role_name) then
    Ret (error_response 400 "Missing user_id or role_name")
  else if bool_decide (currentUserId = None) then
    Ret (error_response 401 "Unauthorized")
  else
    let uid := to_text user_id in
    let* roleRow := call (QRoleByName (to_text role_name)) in
    match roleRow with
    | None => Ret (error_response 404 "Role not found")
    | Some (targetRoleId, _) =>
        let* refuse := last_admin_guard uid role_name in
        if refuse then Ret (error_response 400 "Cannot remove role: last administrator")
        else replace_user_role uid targetRoleId role_name
    end.

(** ** [PATCH /manage-users/disable], lines 160-210 *)

Definition disable_user (currentUserId : option string) (body : val) : prog response :=
  let* user_id := field body "user_id" in
  let* is_active := field body "is_active" in
  match is_active with
  | VBool b =>
      if negb (truthy user_id) then Ret (error_response 400 "Missing user_id or is_active")
      else if is_self currentUserId user_id then
        Ret (error_response 400 "Cannot disable current logged user")
      else
        let uid := to_text user_id in
        let* prof := call (QProfile uid) in
        let* _ := match prof with
            | None => call (QInsertProfile uid b)
            | Some _ => call (QUpdateProfile uid b)
            end in
        let* _ := (if b then Ret ()
                   else catch (let* _ := best_effort (QDisableAuthUser uid) in
                               best_effort (QDeleteRefreshTokens uid))
                              (λ _, Ret ())) in
        Ret (success_response 200)
  | _ => Ret (error_response 400 "Missing user_id or is_active")
  end.

(** ** [DELETE /manage-users/delete], lines 213-248 *)

(** Lines 220-231.  The error of the role lookup is not read
    ([adminRoleRes.data?.id]): a failed lookup reads as "no administrator
    role" and the guard lets the request through. *)
Definition delete_guard (user_id : val) : prog bool :=
  let* adminRoleRes := call_res (QRoleByName ADMIN) in
  match adminRoleRes with
  | Ok row =>
      match admin_id_of row with
      | Some aid =>
          let* admins := call (QUsersWithRole aid) in
          Ret (existsb (strict_eq_str user_id) admins && bool_decide (length admins ≤ 1))
      | None => Ret false
      end
  | Err _ => Ret false
  end.

(** Lines 233-247. *)
Definition remove_user (uid : string) : prog response :=
  let* _ := call (QDeleteUserRoles uid) in
  let* _ := call (QDeleteProfile uid) in
  let* _ := call (QDeleteAuthUser uid) in
  Ret (success_response 200).

Definition delete_user (currentUserId : option string) (body : val) : prog response :=
  let* user_id := field body "user_id" in
  if negb (truthy user_id) then Ret (error_response 400 "Missing user_id")
  else if is_self currentUserId user_id then
    Ret (error_response 400 "Cannot delete currently logged user")
  else
    let* refuse := delete_guard user_id in
    if refuse then Ret (error_response 400 "Cannot delete the last administrator")
    else remove_user (to_text user_id).

(** ** The last-administrator guard as a pure decision *)

Definition guard_refuses (uid : string) (role_name : val) (s : store) : bool :=
  match maybe_single (roles_named ADMIN s) with
  | Ok row =>
      match admin_id_of row with
      | Some aid =>
          bool_decide (aid ∈ role_ids_of_user uid s) && negb (strict_eq_str role_name ADMIN)
          && bool_decide (length (user_ids_with_role aid s) ≤ 1)
      | None => false
      end
  | Err _ => false
  end.

(** The guard only reads, and when it answers it answers [guard_refuses]. *)
Lemma last_admin_guard_spec uid rn s :
  wp (last_admin_guard uid rn)
     (λ r s', s' = s ∧ ∀ b, r = Ok b → b = guard_refuses uid rn s) s.
Proof.
  unfold last_admin_guard, guard_refuses; simpl.
  split; [naive_solver|]. split; [naive_solver|].
  destruct (maybe_single (roles_named ADMIN s)) as [row|e]; simpl; [|naive_solver].
  destruct (admin_id_of row) as [aid|]; simpl; [|naive_solver].
  destruct (bool_decide _ && _); simpl; naive_solver.
Qed.

Arguments last_admin_guard : simpl never.

(** Discharge a postcondition [∀ r, res = Ok r → resp_status r = 200 → _]
    at a response whose status is not 200. *)
Ltac not_200 := intros ? [= <-] [=].
Arguments replace_user_role : simpl never.

(** The writes of assign-role: on success the user's rows are replaced by
    one row; an upstream failure leaves the store as it was or with the
    user's rows deleted and nothing inserted (there is no rollback). *)
Lemma replace_user_role_spec uid rid rn s :
  wp (replace_user_role uid rid rn)
     (λ r s', (r = Ok (success_response 200) ∧ st_user_roles s' = replaced_roles uid rid s
               ∧ st_roles s' = st_roles s)
            ∨ (r = Err UPSTREAM ∧ (s' = s ∨ s' = ur_delete_user uid s))) s.
Proof.
  unfold replace_user_role; simpl. split; [naive_solver|].
  rewrite ur_insert_after_delete; simpl. split; [naive_solver|].
  split; [naive_solver|]. unfold auth_set_meta_role. case_match; simpl; naive_solver.
Qed.

Lemma admin_id_of_admin s aid :
  store_wf s → admin_role_ids s = [aid] →
  ∃ r, maybe_single (roles_named ADMIN s) = Ok (Some (aid, r)) ∧
       admin_id_of (Some (aid, r)) = Some aid.
Proof.
  intros Hwf Haid. destruct (roles_named_admin s aid Haid) as [r Hr].
  exists r. rewrite Hr. split; [done|]. simpl.
  by rewrite bool_decide_false by (eapply admin_role_id_nonempty; eauto).
Qed.

(** With the administrator role present, the guard refuses exactly a
    demotion of an administrator when at most one administrator row
    exists. *)
Lemma guard_refuses_iff s aid uid rn :
  store_wf s → admin_role_ids s = [aid] →
  guard_refuses uid rn s = true ↔ is_admin s uid ∧ rn ≠ VStr ADMIN ∧ admin_count s ≤ 1.
Proof.
  intros Hwf Haid. destruct (admin_id_of_admin s aid Hwf Haid) as (r & Hm & Hid).
  unfold guard_refuses. rewrite Hm, Hid, (is_admin_single s aid Haid), (admin_count_single s aid Haid).
  rewrite !andb_true_iff, negb_true_iff, !bool_decide_eq_true.
  destruct (strict_eq_str rn ADMIN) eqn:E.
  - apply strict_eq_str_iff in E. naive_solver.
  - assert (rn ≠ VStr ADMIN) by (intros ->; by rewrite (proj2 (strict_eq_str_iff _ _)) in E).
    naive_solver.
Qed.

(** Fault-free runs of the guard and of the writes. *)
Lemma last_admin_guard_run uid rn s row :
  maybe_single (roles_named ADMIN s) = Ok row →
  run (last_admin_guard uid rn) [] s = Outcome (Ok (guard_refuses uid rn s)) s [].
Proof.
  intros Hrow. unfold last_admin_guard, guard_refuses; simpl. rewrite Hrow; simpl.
  destruct (admin_id_of row); simpl; [|done]. by destruct (bool_decide _ && _).
Qed.

Lemma replace_user_role_run uid rid rn s :
  ∃ s', run (replace_user_role uid rid rn) [] s = Outcome (Ok (success_response 200)) s' [] ∧
        st_user_roles s' = replaced_roles uid rid s ∧ st_roles s' = st_roles s.
Proof.
  unfold replace_user_role, best_effort; simpl. rewrite ur_insert_after_delete; simpl.
  unfold auth_set_meta_role. destruct (st_auth_users _ !! uid); simpl; eauto.
Qed.

(** ** Assigning a role *)

Section assign.
Context (c : option string) (body user_id rn : val) (s : store).
Hypothesis (Hu : get body "user_id" = Some user_id) (Hr : get body "role_name" = Some rn)
           (Htu : truthy user_id = true) (Htr : truthy rn = true).

(** The prefix of the handler that runs before the guard, in [wp] form. *)
Lemma assign_role_unfold (Q : result response → store → Prop) :
  (c = None → Q (Ok (error_response 401 "Unauthorized")) s) →
  Q (Err UPSTREAM) s →
  (∀ e, Q (Err e) s) →
  Q (Ok (error_response 404 "Role not found")) s →
  (∀ rid rr, roles_named (to_text rn) s = [(rid, rr)] →
     wp (let* refuse := last_admin_guard (to_text user_id) rn in
         if refuse then Ret (error_response 400 "Cannot remove role: last administrator")
         else replace_user_role (to_text user_id) rid rn) Q s) →
  wp (assign_role c body) Q s.
Proof.
  intros Hc Hf He H404 Hk. unfold assign_role, field. rewrite Hu, Hr; simpl.
  rewrite Htu, Htr; simpl.
  destruct c as [cu|]; simpl; [|by apply Hc]. split; [done|].
  unfold maybe_single. destruct (roles_named (to_text rn) s) as [|[rid rr] [|]] eqn:E; simpl;
    [done| exact (Hk rid rr eq_refl) |done].
Qed.

(** After the guard: refuse, or run the writes. *)
Lemma assign_after_guard (Q : result response → store → Prop) rid :
  (∀ e, Q (Err e) s) →
  (guard_refuses (to_text user_id) rn s = true →
     Q (Ok (error_response 400 "Cannot remove role: last administrator")) s) →
  (guard_refuses (to_text user_id) rn s = false →
     wp (replace_user_role (to_text user_id) rid rn) Q s) →
  wp (let* refuse := last_admin_guard (to_text user_id) rn in
      if refuse then Ret (error_response 400 "Cannot remove role: last administrator")
      else replace_user_role (to_text user_id) rid rn) Q s.
Proof.
  intros He Hyes Hno. rewrite wp_bind.
  eapply wp_mono; [|apply last_admin_guard_spec].
  intros [b|e] s' [-> Hb]; [|apply He]. rewrite (Hb b eq_refl).
  destruct (guard_refuses _ _ _); [exact (Hyes eq_refl)|exact (Hno eq_refl)].
Qed.

(** C1: when assign-role answers 200, the user holds exactly one role:
    the one named in the request.  Under every fault schedule. *)
Theorem assign_role_one_row fs r :
  out_res (run (assign_role c body) fs s) = Ok r → resp_status r = 200 →
  ∃ rid rr, roles_named (to_text rn) s = [(rid, rr)] ∧
    role_ids_of_user (to_text user_id) (out_store (run (assign_role c body) fs s)) = [rid].
Proof.
  revert fs r. apply (wp_run _ (λ res s', ∀ r, res = Ok r → resp_status r = 200 →
    ∃ rid rr, roles_named (to_text rn) s = [(rid, rr)] ∧
              role_ids_of_user (to_text user_id) s' = [rid])).
  apply assign_role_unfold; [intros _; not_200|intros ? [=]|intros ? ? [=]|not_200|].
  intros rid rr E. apply assign_after_guard; [intros ? ? [=]|intros _; not_200|intros _].
  eapply wp_mono; [|apply replace_user_role_spec].
  intros res s' [(-> & Hur & _)|(-> & _)] r; [|done]. intros [= <-] _.
  exists rid, rr. split; [done|]. by apply (role_ids_of_user_replaced _ _ s).
Qed.

(** C2: the sole administrator cannot be demoted: under every fault
    schedule the store is left unchanged and the request does not
    succeed. *)
Theorem assign_role_sole_admin_refused aid fs :
  store_wf s → admin_role_ids s = [aid] → rn ≠ VStr ADMIN →
  is_admin s (to_text user_id) → admin_count s = 1 →
  out_store (run (assign_role c body) fs s) = s ∧
  out_res (run (assign_role c body) fs s) ≠ Ok (success_response 200).
Proof.
  intros Hwf Haid Hrn Ha Hcount. revert fs.
  apply (wp_run _ (λ res s', s' = s ∧ res ≠ Ok (success_response 200))).
  apply assign_role_unfold;
    [intros _; split; [done|intros [=]]|split; [done|intros [=]]
    |intros e; split; [done|intros [=]]|split; [done|intros [=]]|].
  intros rid rr _. apply assign_after_guard; [by intros e; split|by intros _; split; [|intros [=]]|].
  intros Hg. exfalso. apply not_true_iff_false in Hg. apply Hg.
  apply (guard_refuses_iff s aid); [done|done|]. split_and!; [done|done|lia].
Qed.

(** With two administrators, demoting one of them succeeds (fault
    free) and leaves one administrator. *)
Theorem assign_role_demote_one_of_two cu aid rid rr :
  c = Some cu → store_wf s → admin_role_ids s = [aid] →
  roles_named (to_text rn) s = [(rid, rr)] → rid ≠ aid →
  is_admin s (to_text user_id) → admin_count s = 2 →
  out_res (run (assign_role c body) [] s) = Ok (success_response 200) ∧
  admin_count (out_store (run (assign_role c body) [] s)) = 1.
Proof.
  intros -> Hwf Haid Hrole Hne Ha Hcount.
  destruct (admin_id_of_admin s aid Hwf Haid) as (ar & Hadm & _).
  unfold assign_role, field. rewrite Hu, Hr. cbn -[last_admin_guard replace_user_role].
  rewrite Htu, Htr. cbn -[last_admin_guard replace_user_role].
  rewrite Hrole. cbn -[last_admin_guard replace_user_role].
  rewrite run_bind, (last_admin_guard_run _ _ _ _ Hadm).
  assert (guard_refuses (to_text user_id) rn s = false) as ->.
  { apply not_true_iff_false. rewrite (guard_refuses_iff s aid) by done. lia. }
  cbn -[replace_user_role].
  destruct (replace_user_role_run (to_text user_id) rid rn s) as (s' & -> & Hur & Hro).
  split; [done|]. simpl.
  pose proof (admin_count_replaced s s' aid (to_text user_id) rid Hwf Haid Hro Hur) as Hc.
  rewrite bool_decide_true, bool_decide_false in Hc by done. lia.
Qed.
End assign.

(** ** Deleting a user *)

(** The decision of lines 220-231 when the role lookup answers. *)
Definition delete_refuses (user_id : val) (s : store) : bool :=
  match maybe_single (roles_named ADMIN s) with
  | Ok row =>
      match admin_id_of row with
      | Some aid => existsb (strict_eq_str user_id) (user_ids_with_role aid s)
                    && bool_decide (length (user_ids_with_role aid s) ≤ 1)
      | None => false
      end
  | Err _ => false
  end.

Arguments delete_guard : simpl never.
Arguments remove_user : simpl never.

Lemma delete_guard_run user_id s :
  run (delete_guard user_id) [] s = Outcome (Ok (delete_refuses user_id s)) s [].
Proof.
  unfold delete_guard, delete_refuses; simpl.
  destruct (maybe_single _) as [row|]; simpl; [|done]. by destruct (admin_id_of row).
Qed.

(** The guard only reads; it may let a request through that
    [delete_refuses] would stop (when the lookup fails), never the
    converse. *)
Lemma delete_guard_spec user_id s :
  wp (delete_guard user_id)
     (λ r s', s' = s ∧ ∀ b, r = Ok b → b = true → delete_refuses user_id s = true) s.
Proof.
  unfold delete_guard, delete_refuses; simpl. split; [naive_solver|].
  destruct (maybe_single _) as [row|]; simpl; [|naive_solver].
  destruct (admin_id_of row); simpl; naive_solver.
Qed.

Lemma existsb_strict_eq_str u l : existsb (strict_eq_str (VStr u)) l = true ↔ u ∈ l.
Proof.
  rewrite existsb_exists, list_elem_of_In. simpl.
  setoid_rewrite bool_decide_eq_true. naive_solver.
Qed.

Lemma delete_refuses_iff s aid u :
  store_wf s → admin_role_ids s = [aid] →
  delete_refuses (VStr u) s = true ↔ is_admin s u ∧ admin_count s ≤ 1.
Proof.
  intros Hwf Haid. destruct (admin_id_of_admin s aid Hwf Haid) as (r & Hm & Hid).
  unfold delete_refuses. rewrite Hm, Hid, andb_true_iff, existsb_strict_eq_str, bool_decide_eq_true.
  by rewrite (is_admin_user_ids s aid u Haid), (admin_count_single s aid Haid).
Qed.

Lemma remove_user_run uid s :
  ∃ r s', run (remove_user uid) [] s = Outcome r s' [] ∧
    st_roles s' = st_roles s ∧ st_user_roles s' = st_user_roles (ur_delete_user uid s) ∧
    (uid ∈ dom (st_auth_users s) → r = Ok (success_response 200)).
Proof.
  unfold remove_user; simpl. unfold auth_delete; simpl.
  destruct (st_auth_users s !! uid) eqn:E; simpl; do 2 eexists; (split; [reflexivity|]);
    rewrite elem_of_dom, E; naive_solver.
Qed.

Lemma remove_user_spec uid s :
  wp (remove_user uid)
     (λ r s', (s' = s ∧ r = Err UPSTREAM)
            ∨ (st_roles s' = st_roles s ∧ st_user_roles s' = st_user_roles (ur_delete_user uid s))) s.
Proof.
  unfold remove_user; simpl. split; [naive_solver|]. split; [naive_solver|].
  split; [naive_solver|]. unfold auth_delete; simpl. destruct (st_auth_users _ !! uid); simpl; naive_solver.
Qed.

Section delete.
Context (c : option string) (body user_id : val) (s : store).
Hypothesis (Hu : get body "user_id" = Some user_id) (Htu : truthy user_id = true)
           (Hself : is_self c user_id = false).

Lemma delete_user_unfold :
  delete_user c body =
    let* refuse := delete_guard user_id in
    if refuse then Ret (error_response 400 "Cannot delete the last administrator")
    else remove_user (to_text user_id).
Proof. unfold delete_user, field. rewrite Hu. cbn -[delete_guard remove_user]. by rewrite Htu, Hself. Qed.

(** C3: deleting the sole administrator is refused (no fault), and the
    store is left unchanged. *)
Theorem delete_user_sole_admin_refused u :
  user_id = VStr u → store_wf s → is_admin s u → admin_count s = 1 →
  run (delete_user c body) [] s =
    Outcome (Ok (error_response 400 "Cannot delete the last administrator")) s [].
Proof.
  intros Hv Hwf Ha Hc. destruct (admin_role_exists s Hwf) as [aid Haid]; [lia|].
  rewrite delete_user_unfold, run_bind, delete_guard_run, Hv.
  assert (delete_refuses (VStr u) s = true) as ->
    by (rewrite (delete_refuses_iff s aid) by done; split; [done|lia]).
  done.
Qed.
End delete.

Lemma disable_user_self cu body b :
  cu ≠ "" → get body "user_id" = Some (VStr cu) → get body "is_active" = Some (VBool b) →
  disable_user (Some cu) body = Ret (error_response 400 "Cannot disable current logged user").
Proof.
  intros Hcu Hu Ha. unfold disable_user, field, is_self. rewrite Hu, Ha; simpl.
  by rewrite bool_decide_false, bool_decide_true.
Qed.

Lemma delete_user_self cu body :
  cu ≠ "" → get body "user_id" = Some (VStr cu) →
  delete_user (Some cu) body = Ret (error_response 400 "Cannot delete currently logged user").
Proof.
  intros Hcu Hu. unfold delete_user, field, is_self. rewrite Hu; simpl.
  by rewrite bool_decide_false, bool_decide_true.
Qed.

(** C4: a caller cannot disable or delete their own account: the request
    is answered 400 before any backend call, under every fault schedule. *)
Theorem self_disable_delete_refused cu body b fs s :
  cu ≠ "" → get body "user_id" = Some (VStr cu) → get body "is_active" = Some (VBool b) →
  run (disable_user (Some cu) body) fs s =
    Outcome (Ok (error_response 400 "Cannot disable current logged user")) s fs ∧
  run (delete_user (Some cu) body) fs s =
    Outcome (Ok (error_response 400 "Cannot delete currently logged user")) s fs.
Proof. intros Hcu Hu Ha. by rewrite (disable_user_self cu body b), (delete_user_self cu body). Qed.

(** ** What the guards do not prevent *)

(** C5: the error of the administrator-role lookup in delete is not read
    (line 221-222).  If only that call fails, the guard is skipped and the
    sole administrator's role rows are deleted. *)
Theorem delete_user_lookup_fault_removes_last_admin c body u s :
  get body "user_id" = Some (VStr u) → u ≠ "" → is_self c (VStr u) = false →
  store_wf s → is_admin s u → admin_count s = 1 →
  admin_count (out_store (run (delete_user c body) [true] s)) = 0.
Proof.
  intros Hu Hne Hself Hwf Ha Hc. destruct (admin_role_exists s Hwf) as [aid Haid]; [lia|].
  rewrite (delete_user_unfold c body (VStr u) Hu (truthy_nonempty u Hne) Hself), run_bind.
  unfold delete_guard at 1. cbn -[remove_user].
  destruct (remove_user_run u s) as (r & s' & -> & Hro & Hur & _). simpl.
  pose proof (admin_count_delete_user s aid u Hwf Haid) as Hd.
  rewrite bool_decide_true in Hd by done.
  rewrite (admin_count_user_roles (ur_delete_user u s) s'); [lia|done|done].
Qed.

(** C6: there is no rollback.  Re-assigning ["administrador"] to the sole
    administrator skips the guard; if the insert then fails, the user's
    rows are already deleted and no administrator is left. *)
Theorem assign_role_insert_fault_removes_last_admin cu body u s :
  get body "user_id" = Some (VStr u) → get body "role_name" = Some (VStr ADMIN) → u ≠ "" →
  store_wf s → is_admin s u → admin_count s = 1 →
  out_res (run (assign_role (Some cu) body) [false; false; false; false; true] s) = Err UPSTREAM ∧
  admin_count (out_store (run (assign_role (Some cu) body) [false; false; false; false; true] s)) = 0.
Proof.
  intros Hu Hr Hne Hwf Ha Hc. destruct (admin_role_exists s Hwf) as [aid Haid]; [lia|].
  destruct (roles_named_admin s aid Haid) as [ar Har].
  unfold assign_role, field. rewrite Hu, Hr. cbn -[truthy last_admin_guard replace_user_role].
  rewrite !truthy_nonempty by done. cbn -[last_admin_guard replace_user_role].
  rewrite Har. cbn -[last_admin_guard replace_user_role].
  unfold last_admin_guard. cbn -[replace_user_role]. rewrite Har. cbn -[replace_user_role].
  rewrite bool_decide_false by (eapply admin_role_id_nonempty; eauto).
  rewrite andb_false_r; simpl. unfold replace_user_role; simpl.
  split; [done|].
  pose proof (admin_count_delete_user s aid u Hwf Haid) as Hd.
  rewrite bool_decide_true in Hd by done. lia.
Qed.

(** C7: the comment on line 101 says non-administrators may not change
    roles, but the code only requires an authenticated caller: any user
    who is not an administrator can make themselves one. *)
Theorem assign_role_self_promotion cu body s aid :
  get body "user_id" = Some (VStr cu) → get body "role_name" = Some (VStr ADMIN) → cu ≠ "" →
  store_wf s → admin_role_ids s = [aid] → ¬ is_admin s cu →
  out_res (run (assign_role (Some cu) body) [] s) = Ok (success_response 200) ∧
  is_admin (out_store (run (assign_role (Some cu) body) [] s)) cu.
Proof.
  intros Hu Hr Hne Hwf Haid Hna.
  destruct (roles_named_admin s aid Haid) as [ar Har].
  destruct (admin_id_of_admin s aid Hwf Haid) as (ar' & Hadm & _).
  unfold assign_role, field. rewrite Hu, Hr. cbn -[truthy last_admin_guard replace_user_role].
  rewrite !truthy_nonempty by done. cbn -[last_admin_guard replace_user_role].
  rewrite Har. cbn -[last_admin_guard replace_user_role].
  rewrite run_bind, (last_admin_guard_run _ _ _ _ Hadm).
  assert (guard_refuses cu (VStr ADMIN) s = false) as ->.
  { apply not_true_iff_false. rewrite (guard_refuses_iff s aid) by done. naive_solver. }
  cbn -[replace_user_role].
  destruct (replace_user_role_run cu aid (VStr ADMIN) s) as (s' & -> & Hur & Hro).
  split; [done|]. simpl.
  rewrite (is_admin_single s' aid); [|by rewrite (admin_role_ids_roles s s' Hro)].
  rewrite (role_ids_of_user_replaced cu aid s s' Hur). set_solver.
Qed.

(** C8: only assign-role checks that a caller is authenticated: without an
    [Authorization] header, delete removes any user who is not the last
    administrator. *)
Theorem delete_user_unauthenticated body u s aid :
  get body "user_id" = Some (VStr u) → u ≠ "" → store_wf s → admin_role_ids s = [aid] →
  ¬ is_admin s u → u ∈ dom (st_auth_users s) →
  out_res (run (delete_user None body) [] s) = Ok (success_response 200) ∧
  role_ids_of_user u (out_store (run (delete_user None body) [] s)) = [].
Proof.
  intros Hu Hne Hwf Haid Hna Hdom.
  rewrite (delete_user_unfold None body (VStr u) Hu (truthy_nonempty u Hne) eq_refl).
  rewrite run_bind, delete_guard_run.
  assert (delete_refuses (VStr u) s = false) as ->.
  { apply not_true_iff_false. rewrite (delete_refuses_iff s aid) by done. naive_solver. }
  cbn -[remove_user]. destruct (remove_user_run u s) as (r & s' & -> & Hro & Hur & Hok).
  simpl. split; [by apply Hok|].
  unfold role_ids_of_user. rewrite Hur. simpl. by rewrite filter_filter_neg.
Qed.

(** ** The at-least-one-administrator invariant, fault free *)

Lemma maybe_single_some {A} (l : list A) x : maybe_single l = Ok (Some x) → l = [x].
Proof. destruct l as [|? [|]]; simpl; congruence. Qed.

Lemma admin_lookup_ok s : store_wf s → ∃ row, maybe_single (roles_named ADMIN s) = Ok row.
Proof.
  intros Hwf. pose proof (admin_role_ids_at_most_one s Hwf) as H.
  unfold admin_role_ids in H. rewrite length_fmap in H.
  destruct (roles_named ADMIN s) as [|? [|]]; simpl in *; eauto; lia.
Qed.

(** Fault free, assign-role either leaves the store as it is or replaces
    the roles of the user after the guard let it through. *)
Lemma assign_role_run_cases c body s :
  store_wf s →
  out_store (run (assign_role c body) [] s) = s ∨
  ∃ user_id rn rid rr,
    roles_named (to_text rn) s = [(rid, rr)] ∧ guard_refuses (to_text user_id) rn s = false ∧
    st_roles (out_store (run (assign_role c body) [] s)) = st_roles s ∧
    st_user_roles (out_store (run (assign_role c body) [] s)) =
      replaced_roles (to_text user_id) rid s.
Proof.
  intros Hwf. destruct (admin_lookup_ok s Hwf) as [row Hrow].
  unfold assign_role, field.
  destruct (get body "user_id") as [user_id|]; [|by left].
  destruct (get body "role_name") as [rn|]; cbn -[last_admin_guard replace_user_role]; [|by left].
  destruct (negb (truthy user_id) || negb (truthy rn)); [by left|].
  destruct c; cbn -[last_admin_guard replace_user_role]; [|by left].
  destruct (maybe_single (roles_named (to_text rn) s)) as [[[rid rr]|]|] eqn:E;
    cbn -[last_admin_guard replace_user_role]; [|by left|by left].
  rewrite run_bind, (last_admin_guard_run _ _ _ _ Hrow).
  destruct (guard_refuses (to_text user_id) rn s) eqn:G; [by left|right].
  cbn -[replace_user_role].
  destruct (replace_user_role_run (to_text user_id) rid rn s) as (s' & -> & Hur & Hro).
  exists user_id, rn, rid, rr. split_and!; [by apply maybe_single_some|done..].
Qed.

(** Fault free, delete either leaves the store as it is or removes the
    roles of a user the guard let through. *)
Lemma delete_user_run_cases c body s :
  out_store (run (delete_user c body) [] s) = s ∨
  ∃ user_id, get body "user_id" = Some user_id ∧ truthy user_id = true ∧
    delete_refuses user_id s = false ∧
    st_roles (out_store (run (delete_user c body) [] s)) = st_roles s ∧
    st_user_roles (out_store (run (delete_user c body) [] s)) =
      st_user_roles (ur_delete_user (to_text user_id) s).
Proof.
  destruct (get body "user_id") as [user_id|] eqn:Hu;
    [|left; unfold delete_user, field; by rewrite Hu].
  destruct (truthy user_id) eqn:Ht;
    [|left; unfold delete_user, field; rewrite Hu; cbn -[truthy]; by rewrite Ht].
  destruct (is_self c user_id) eqn:Hs;
    [left; unfold delete_user, field; rewrite Hu; cbn -[truthy is_self]; by rewrite Ht, Hs|].
  rewrite (delete_user_unfold c body user_id Hu Ht Hs), run_bind, delete_guard_run.
  destruct (delete_refuses user_id s) eqn:G; [by left|right].
  cbn -[remove_user]. destruct (remove_user_run (to_text user_id) s) as (r & s' & -> & Hro & Hur & _).
  exists user_id. by split_and!.
Qed.

(** Disable writes the [profiles] table and nothing else, under every
    fault schedule: the admin API ignores [disabled], and
    [auth.refresh_tokens] is out of PostgREST's reach. *)
Lemma disable_user_only_profiles c body s :
  wp (disable_user c body) (λ _ s', s' = set_profiles (st_profiles s') s) s.
Proof.
  unfold disable_user, field.
  destruct (get body "user_id") as [user_id|]; [|by destruct s].
  destruct (get body "is_active") as [[]|]; simpl; try by destruct s.
  destruct (negb (truthy user_id)); [by destruct s|]. destruct (is_self c user_id); [by destruct s|].
  simpl. split; [by destruct s|].
  destruct (st_profiles s !! to_text user_id) eqn:E; simpl; (split; [by destruct s|]);
    [|unfold profile_insert; rewrite E; simpl];
    destruct b; simpl; unfold auth_disable; repeat case_match; simpl; by destruct s.
Qed.

Lemma disable_user_keeps_roles c body s :
  wp (disable_user c body) (λ _ s', st_roles s' = st_roles s ∧ st_user_roles s' = st_user_roles s) s.
Proof. eapply wp_mono; [|apply disable_user_only_profiles]. intros r s' Hs. cbn in Hs. by rewrite Hs. Qed.

Lemma disable_user_keeps_auth c body s :
  wp (disable_user c body)
     (λ _ s', st_auth_users s' = st_auth_users s ∧ st_sessions s' = st_sessions s ∧
              st_refresh_tokens s' = st_refresh_tokens s) s.
Proof. eapply wp_mono; [|apply disable_user_only_profiles]. intros r s' Hs. cbn in Hs. by rewrite Hs. Qed.

(** C9: deactivating a user does not stop them signing in: under every
    fault schedule, [PATCH /manage-users/disable] leaves the auth users,
    their sessions and their refresh tokens as they were, so every token
    authenticates the same user after the request as before it; only the
    profile's [is_active] flag records the deactivation. *)
Theorem disable_user_keeps_sign_in c body fs s :
  let s' := out_store (run (disable_user c body) fs s) in
  st_auth_users s' = st_auth_users s ∧ st_sessions s' = st_sessions s ∧
  st_refresh_tokens s' = st_refresh_tokens s ∧
  ∀ t, auth_get_user t s' = auth_get_user t s.
Proof.
  intros s'. destruct (proj1 (wp_run _ _ s) (disable_user_keeps_auth c body s) fs) as (Ha & Hs & Ht).
  subst s'. split_and!; [done..|]. intros t. unfold auth_get_user. by rewrite Ha, Hs.
Qed.

(** The bodies the panel sends carry [user_id] as a string (a uuid).  The
    column types that would reject another JSON value are not modelled, so
    the invariant is stated for such bodies. *)
Definition user_id_is_string (body : val) : Prop :=
  ∀ v, get body "user_id" = Some v → truthy v = true → ∃ u, v = VStr u.

Lemma assign_role_keeps_admin c body s :
  store_wf s → 1 ≤ admin_count s → 1 ≤ admin_count (out_store (run (assign_role c body) [] s)).
Proof.
  intros Hwf Hc. destruct (admin_role_exists s Hwf Hc) as [aid Haid].
  destruct (assign_role_run_cases c body s Hwf) as [-> | (uv & rn & rid & rr & Hrole & G & Hro & Hur)];
    [done|].
  pose proof (admin_count_replaced s _ aid (to_text uv) rid Hwf Haid Hro Hur) as Hcnt.
  apply not_true_iff_false in G. rewrite (guard_refuses_iff s aid) in G by done.
  destruct (decide (is_admin s (to_text uv))) as [Ha|Hna];
    [rewrite bool_decide_true in Hcnt by done|rewrite bool_decide_false in Hcnt by done; lia].
  destruct (strict_eq_str rn ADMIN) eqn:Es.
  - apply strict_eq_str_iff in Es as ->. destruct (roles_named_admin s aid Haid) as [ar Har]. simpl in Hrole.
    rewrite Har in Hrole. simplify_eq. rewrite bool_decide_true in Hcnt by done. lia.
  - assert (rn ≠ VStr ADMIN) by (intros ->; by rewrite (proj2 (strict_eq_str_iff _ _)) in Es).
    assert (2 ≤ admin_count s) by (apply Nat.nle_gt; naive_solver).
    case_bool_decide; lia.
Qed.

Lemma delete_user_keeps_admin c body s :
  store_wf s → 1 ≤ admin_count s → user_id_is_string body →
  1 ≤ admin_count (out_store (run (delete_user c body) [] s)).
Proof.
  intros Hwf Hc Hstr. destruct (admin_role_exists s Hwf Hc) as [aid Haid].
  destruct (delete_user_run_cases c body s) as [-> | (uv & Hu & Ht & G & Hro & Hur)]; [done|].
  destruct (Hstr uv Hu Ht) as [u ->].
  apply not_true_iff_false in G. rewrite (delete_refuses_iff s aid) in G by done.
  pose proof (admin_count_delete_user s aid u Hwf Haid) as Hd.
  rewrite (admin_count_user_roles (ur_delete_user u s) _) by done.
  case_bool_decide; [assert (2 ≤ admin_count s) by (apply Nat.nle_gt; naive_solver)|]; lia.
Qed.

Lemma disable_user_keeps_admin c body s fs :
  admin_count (out_store (run (disable_user c body) fs s)) = admin_count s.
Proof.
  pose proof (proj1 (wp_run _ _ _) (disable_user_keeps_roles c body s) fs) as [Hr Hu].
  by apply admin_count_user_roles.
Qed.

(** The requests of the user-management endpoints, each with the caller's
    identity and the JSON body. *)
Inductive user_request :=
| AssignRole (currentUserId : option string) (body : val)
| DisableUser (currentUserId : option string) (body : val)
| DeleteUser (currentUserId : option string) (body : val).

Definition handle_user_request (r : user_request) : prog response :=
  match r with
  | AssignRole c b => assign_role c b
  | DisableUser c b => disable_user c b
  | DeleteUser c b => delete_user c b
  end.

Definition request_body (r : user_request) : val :=
  match r with AssignRole _ b | DisableUser _ b | DeleteUser _ b => b end.

(** Requests served one after the other, without upstream faults. *)
Fixpoint serve_sequentially (rs : list user_request) (s : store) : store :=
  match rs with
  | [] => s
  | r :: rs' => serve_sequentially rs' (out_store (run (handle_user_request r) [] s))
  end.

Lemma handle_user_request_wf r s fs :
  store_wf s → store_wf (out_store (run (handle_user_request r) fs s)).
Proof. intros Hwf. apply (proj1 (wp_run _ _ _) (wp_store_wf _ s Hwf)). Qed.

Lemma handle_user_request_keeps_admin r s :
  store_wf s → 1 ≤ admin_count s → user_id_is_string (request_body r) →
  1 ≤ admin_count (out_store (run (handle_user_request r) [] s)).
Proof.
  intros Hwf Hc Hstr. destruct r as [c b|c b|c b]; simpl in *.
  - by apply assign_role_keeps_admin.
  - by rewrite disable_user_keeps_admin.
  - by apply delete_user_keeps_admin.
Qed.

(** C10: served one after the other and without upstream faults, the
    user-management requests keep the store well formed and keep at least
    one administrator. *)
Theorem serve_sequentially_keeps_admin rs s :
  store_wf s → 1 ≤ admin_count s → Forall (λ r, user_id_is_string (request_body r)) rs →
  store_wf (serve_sequentially rs s) ∧ 1 ≤ admin_count (serve_sequentially rs s).
Proof.
  intros Hwf Hc Hrs. revert s Hwf Hc.
  induction Hrs as [|r rs Hr _ IH]; intros s Hwf Hc; simpl; [done|].
  apply IH; [by apply handle_user_request_wf|by apply handle_user_request_keeps_admin].
Qed.

(** ** Sample stores and the claims at concrete inputs *)

Definition assign_body (u rn : string) : val :=
  VObj [("user_id", VStr u); ("role_name", VStr rn)].

Lemma assign_role_one_row_witness :
  ∃ rid rr, roles_named ADMIN sample_store = [(rid, rr)] ∧
    role_ids_of_user "u2"
      (out_store (run (assign_role (Some "u1") (assign_body "u2" ADMIN)) [] sample_store)) = [rid].
Proof.
  apply (assign_role_one_row (Some "u1") (assign_body "u2" ADMIN) (VStr "u2") (VStr ADMIN)
           sample_store eq_refl eq_refl eq_refl eq_refl [] (success_response 200));
    by vm_compute.
Defined.

Lemma assign_role_sole_admin_refused_witness :
  let o := run (assign_role (Some "u1") (assign_body "u1" "cliente")) [false; true] sample_store in
  out_store o = sample_store ∧ out_res o ≠ Ok (success_response 200).
Proof.
  apply (assign_role_sole_admin_refused (Some "u1") (assign_body "u1" "cliente") (VStr "u1")
           (VStr "cliente") sample_store eq_refl eq_refl eq_refl eq_refl "r1" [false; true]
           sample_store_wf);
    [by vm_compute|done|decide_by_eval|by vm_compute].
Defined.

Lemma assign_role_demote_one_of_two_witness :
  let o := run (assign_role (Some "u1") (assign_body "u2" "cliente")) [] sample_two_admins in
  out_res o = Ok (success_response 200) ∧ admin_count (out_store o) = 1.
Proof.
  apply (assign_role_demote_one_of_two (Some "u1") (assign_body "u2" "cliente") (VStr "u2")
           (VStr "cliente") sample_two_admins eq_refl eq_refl eq_refl eq_refl "u1" "r1" "r2"
           (RoleRow "cliente" VNull false 1) eq_refl sample_two_admins_wf);
    [by vm_compute|by vm_compute|done|decide_by_eval|by vm_compute].
Defined.

Lemma delete_user_sole_admin_refused_witness :
  run (delete_user None (VObj [("user_id", VStr "u1")])) [] sample_store =
    Outcome (Ok (error_response 400 "Cannot delete the last administrator")) sample_store [].
Proof.
  apply (delete_user_sole_admin_refused None (VObj [("user_id", VStr "u1")]) (VStr "u1")
           sample_store eq_refl eq_refl eq_refl "u1" eq_refl sample_store_wf);
    [decide_by_eval|by vm_compute].
Defined.

Lemma self_disable_delete_refused_witness :
  run (disable_user (Some "u1") (VObj [("user_id", VStr "u1"); ("is_active", VBool false)]))
      [true] sample_store =
    Outcome (Ok (error_response 400 "Cannot disable current logged user")) sample_store [true] ∧
  run (delete_user (Some "u1") (VObj [("user_id", VStr "u1"); ("is_active", VBool false)]))
      [true] sample_store =
    Outcome (Ok (error_response 400 "Cannot delete currently logged user")) sample_store [true].
Proof.
  apply (self_disable_delete_refused "u1" _ false [true] sample_store); [done|done|done].
Defined.

Lemma delete_user_lookup_fault_removes_last_admin_witness :
  admin_count sample_store = 1 ∧
  admin_count (out_store (run (delete_user None (VObj [("user_id", VStr "u1")])) [true]
                            sample_store)) = 0.
Proof.
  split; [by vm_compute|].
  apply (delete_user_lookup_fault_removes_last_admin None (VObj [("user_id", VStr "u1")]) "u1" sample_store eq_refl);
    [done|done|exact sample_store_wf|decide_by_eval|by vm_compute].
Defined.

Lemma assign_role_insert_fault_removes_last_admin_witness :
  let o := run (assign_role (Some "u1") (assign_body "u1" ADMIN)) [false; false; false; false; true]
             sample_store in
  out_res o = Err UPSTREAM ∧ admin_count (out_store o) = 0.
Proof.
  apply (assign_role_insert_fault_removes_last_admin "u1" (assign_body "u1" ADMIN) "u1" sample_store eq_refl eq_refl);
    [done|exact sample_store_wf|decide_by_eval|by vm_compute].
Defined.

Lemma assign_role_self_promotion_witness :
  let o := run (assign_role (Some "u2") (assign_body "u2" ADMIN)) [] sample_store in
  ¬ is_admin sample_store "u2" ∧ out_res o = Ok (success_response 200) ∧ is_admin (out_store o) "u2".
Proof.
  split; [decide_by_eval|].
  apply (assign_role_self_promotion "u2" (assign_body "u2" ADMIN) sample_store "r1" eq_refl eq_refl);
    [done|exact sample_store_wf|by vm_compute|decide_by_eval].
Defined.

Lemma delete_user_unauthenticated_witness :
  let o := run (delete_user None (VObj [("user_id", VStr "u2")])) [] sample_store in
  out_res o = Ok (success_response 200) ∧ role_ids_of_user "u2" (out_store o) = [].
Proof.
  apply (delete_user_unauthenticated (VObj [("user_id", VStr "u2")]) "u2" sample_store "r1" eq_refl);
    [done|exact sample_store_wf|by vm_compute|decide_by_eval|decide_by_eval].
Defined.

Lemma serve_sequentially_keeps_admin_witness :
  let rs := [AssignRole (Some "u2") (assign_body "u2" ADMIN);
             AssignRole (Some "u1") (assign_body "u1" "cliente");
             DeleteUser None (VObj [("user_id", VStr "u2")])] in
  store_wf (serve_sequentially rs sample_store) ∧ 1 ≤ admin_count (serve_sequentially rs sample_store).
Proof.
  apply serve_sequentially_keeps_admin; [exact sample_store_wf|by vm_compute|].
  repeat constructor; intros v [= <-] _; eauto.
Defined.
