(* ===== verification/ManageRoles.v ===== *)
(** * Role management: [/manage-roles] role CRUD and the legacy [/users]

    The role handlers of [src/src/supabase/functions/manage-roles/index.ts]
    (lines 251-272 and 355-459), identical to the whole of the older copy
    [src/supabase/functions/manage-roles/index.ts] (lines 22-149):

    - [GET] lists the roles, newest first, each with its permissions;
    - [POST] creates a role, upserts the permissions it names and maps them;
    - [PUT] renames a role and replaces its permission set by
      delete-then-insert;
    - [DELETE] soft-deletes a role (sets [disabled]) or hard-deletes it,
      refusing the hard delete while a user holds the role.

    and the legacy [/manage-roles/users] endpoint (lines 313-352), which
    adds or removes one [(user_id, role_id)] row without the guards of the
    [manage-users] endpoints.  The permission handling shared by [POST] and
    [PUT] (lines 366-390 and 407-429) is [attach_permissions]. *)

From S2P Require Import Prelude JsValue Store RoleStore Backend Http.

(** ** Rows as JSON *)

Definition role_fields (id : string) (r : role_row) : list (string * val) :=
  [("id", VStr id); ("name", VStr (role_name r)); ("description", role_description r);
   ("disabled", VBool (role_disabled r)); ("created_at", VNum (Z.of_nat (role_created_at r)))].

Definition permission_json (p : string * string) : val :=
  obj [("id", VStr p.1); ("name", VStr p.2)].

(** [{ ...role, permissions }] (line 268) *)
Definition role_with_permissions (id : string) (r : role_row) (ps : list (string * string)) : val :=
  obj (role_fields id r ++ [("permissions", VArr (permission_json <$> ps))]).

(** ** [GET], lines 251-272 *)

(** The loop of lines 258-269: one or two reads per role. *)
Fixpoint roles_with_permissions (roles : list (string * role_row)) : prog (list val) :=
  match roles with
  | [] => Ret []
  | (id, r) :: rest =>
      let* permIds := call (QRolePermissionIds id) in
      let* permissions := (if bool_decide (permIds = []) then Ret []
                           else call (QPermissionsWithIds permIds)) in
      let* tl := roles_with_permissions rest in
      Ret (role_with_permissions id r permissions :: tl)
  end.

Definition list_roles : prog response :=
  let* roles := call QRolesNewestFirst in
  let* result := roles_with_permissions roles in
  Ret (Response 200 (obj [("data", VArr result)])).

(** ** The permissions of a role payload, lines 366-390 and 407-429 *)

(** [permissions.filter(...)] on lines 367-368: only an array has a
    [filter] method, and [p.id] raises on a [null] element. *)
Definition permission_lists (permissions : val) : prog (list string * list val) :=
  match permissions with
  | VArr l =>
      match perm_ids_from_body l with
      | Some ids => Ret (perm_names l, ids)
      | None => Throw "Cannot read properties of null (reading 'id')"
      end
  | _ => Throw "permissions.filter is not a function"
  end.

Definition attach_permissions (roleId : string) (permissions : val) : prog unit :=
  let* lists := permission_lists permissions in
  let '(permNames, permIdsFromBody) := lists in
  let* _ := (if bool_decide (permNames = []) then Ret ()
             else call (QUpsertPermissionNames permNames)) in
  let* named := (if bool_decide (permNames = []) then Ret []
                 else call (QPermissionIdsNamed permNames)) in
  let permIds := named ++ (to_text <$> permIdsFromBody) in
  if bool_decide (permIds = []) then Ret ()
  else call (QUpsertRolePermissions (role_pairs roleId permIds)).

(** ** [POST], lines 355-393 *)

Definition create_role (body : val) : prog response :=
  let* name := field body "name" in
  let* description := field body "description" in
  let* permissions := field_default body "permissions" (VArr []) in
  if negb (truthy name) then Ret (error_response 400 "Missing role name")
  else
    let* inserted := call (QInsertRole name description) in
    let* _ := attach_permissions inserted.1 permissions in
    Ret (Response 201 (obj [("data", obj [("role", obj (role_fields inserted.1 inserted.2))])])).

(** ** [PUT], lines 395-432 *)

Definition update_role (body : val) : prog response :=
  let* id := field body "id" in
  let* name := field body "name" in
  let* description := field body "description" in
  let* permissions := field_default body "permissions" (VArr []) in
  if negb (truthy id) then Ret (error_response 400 "Missing role id")
  else
    let rid := to_text id in
    let* _ := call (QUpdateRole rid name description) in
    let* _ := call (QDeleteRolePermissions rid) in
    let* _ := attach_permissions rid permissions in
    Ret (success_response 200).

(** ** [DELETE], lines 434-459 *)

Definition delete_role (body : val) : prog response :=
  let* id := field body "id" in
  let* hard := field_default body "hard" (VBool false) in
  if negb (truthy id) then Ret (error_response 400 "Missing role id")
  else
    let rid := to_text id in
    let* users := call (QRoleUsersLimit1 rid) in
    if negb (bool_decide (users = [])) && truthy hard then
      Ret (error_response 400 "Role has associated users; cannot hard-delete")
    else if truthy hard then
      let* _ := call (QDeleteRolePermissions rid) in
      let* _ := call (QDeleteRole rid) in
      Ret (success_response 200)
    else
      let* _ := call (QDisableRole rid) in
      Ret (success_response 200).

(** ** The legacy [/manage-roles/users] endpoint, lines 313-352 *)

(** [POST /users], lines 313-342: add the row, then best-effort mirror the
    role's name into the auth metadata. *)
Definition add_user_role (body : val) : prog response :=
  let* user_id := field body "user_id" in
  let* role_id := field body "role_id" in
  if negb (truthy user_id) || negb (truthy role_id) then
    Ret (error_response 400 "Missing user_id or role_id")
  else
    let uid := to_text user_id in
    let rid := to_text role_id in
    let* _ := call (QUpsertUserRole uid rid) in
    let* _ := catch (let* roleRow := call_res (QRoleNameById rid) in
                     match roleRow with
                     | Ok (Some n) =>
                         if bool_decide (n = "") then Ret () else best_effort (QSetMetaRole uid (VStr n))
                     | _ => Ret ()
                     end) (λ _, Ret ()) in
    Ret (success_response 201).

(** [DELETE /users], lines 345-352. *)
Definition remove_user_role (body : val) : prog response :=
  let* user_id := field body "user_id" in
  let* role_id := field body "role_id" in
  if negb (truthy user_id) || negb (truthy role_id) then
    Ret (error_response 400 "Missing user_id or role_id")
  else
    let* _ := call (QDeleteUserRole (to_text user_id) (to_text role_id)) in
    Ret (success_response 200).

(** ** Runs of the permission handling *)

Lemma permission_lists_strings ns :
  permission_lists (VArr (VStr <$> ns)) = Ret (ns, []).
Proof.
  unfold permission_lists. rewrite perm_ids_from_body_strings, perm_names_strings; [done|].
  apply Forall_fmap, Forall_true. done.
Qed.

Lemma permission_ids_named_nonempty ns s :
  ns ≠ [] → permission_ids_named ns (foldl permission_add_name s ns) ≠ [].
Proof.
  destruct ns as [|n ns]; [done|]. intros _ Hnil.
  destruct (foldl_add_names_present (n :: ns) s n ltac:(set_solver)) as [pid Hp].
  assert (pid ∈ permission_ids_named (n :: ns) (foldl permission_add_name s (n :: ns))) as Hin
    by (apply permission_ids_named_elem; exists n; split; [done|set_solver]).
  rewrite Hnil in Hin. set_solver.
Qed.

(** The store after the permission handling of a payload of names. *)
Definition attached (rid : string) (ns : list string) (s : store) : store :=
  let s1 := foldl permission_add_name s ns in
  set_role_permissions
    (list_to_set (role_pairs rid (permission_ids_named ns s1)) ∪ st_role_permissions s1) s1.

Lemma attach_permissions_names_run rid ns s :
  NoDup ns → ns ≠ [] →
  run (attach_permissions rid (VArr (VStr <$> ns))) [] s = Outcome (Ok ()) (attached rid ns s) [].
Proof.
  intros Hnd Hne. unfold attach_permissions. rewrite permission_lists_strings.
  simpl. rewrite !bool_decide_false by done. simpl.
  unfold permission_upsert_names. rewrite bool_decide_true by done. simpl.
  rewrite app_nil_r, bool_decide_false by (by apply permission_ids_named_nonempty).
  simpl. unfold role_permissions_upsert.
  rewrite bool_decide_true by (apply role_pairs_NoDup, permission_ids_named_NoDup). done.
Qed.

Lemma attached_roles rid ns s : st_roles (attached rid ns s) = st_roles s.
Proof. unfold attached. by rewrite foldl_add_names_only_permissions. Qed.

(** After the permission handling every name of the payload is a
    permission mapped to the role. *)
Lemma attached_maps rid ns s nm :
  nm ∈ ns → ∃ pid, st_permissions (attached rid ns s) !! pid = Some nm ∧
                   (rid, pid) ∈ st_role_permissions (attached rid ns s).
Proof.
  intros Hnm. destruct (foldl_add_names_present ns s nm Hnm) as [pid Hp].
  exists pid. split; [done|]. simpl. apply elem_of_union_l, elem_of_list_to_set, role_pairs_elem.
  split; [done|]. apply permission_ids_named_elem. eauto.
Qed.

Arguments attached : simpl never.

(** ** [POST]: creation with permission names *)

Section create.
Context (body : val) (n : string) (d : val) (ns : list string) (s : store).
Hypothesis (Hn : get body "name" = Some (VStr n)) (Hd : get body "description" = Some d)
           (Hp : get_default body "permissions" (VArr []) = Some (VArr (VStr <$> ns)))
           (Hne : n ≠ "").

Lemma create_role_unfold :
  create_role body =
    let* inserted := call (QInsertRole (VStr n) d) in
    let* _ := attach_permissions inserted.1 (VArr (VStr <$> ns)) in
    Ret (Response 201 (obj [("data", obj [("role", obj (role_fields inserted.1 inserted.2))])])).
Proof.
  unfold create_role, field, field_default. rewrite Hn, Hd, Hp. cbn -[truthy].
  by rewrite truthy_nonempty.
Qed.

(** The new row of a successful insert. *)
Definition new_role_row (n : string) (d : val) (s : store) : role_row :=
  RoleRow n (column_value d) false (st_clock s).

Lemma create_role_run :
  roles_named n s = [] → NoDup ns → ns ≠ [] →
  run (create_role body) [] s =
    Outcome (Ok (Response 201 (obj [("data", obj [("role",
               obj (role_fields (new_id (st_roles s)) (new_role_row n d s)))])])))
            (attached (new_id (st_roles s)) ns
               (tick (set_roles (<[new_id (st_roles s) := new_role_row n d s]> (st_roles s)) s)))
            [].
Proof.
  intros Hfree Hnd Hnil. rewrite create_role_unfold, run_bind. simpl.
  unfold role_insert. rewrite bool_decide_true by done. simpl.
  by rewrite run_bind, attach_permissions_names_run.
Qed.

(** A second [POST] of a name that is taken fails at the insert, before
    any other write. *)
Lemma create_role_name_taken fs :
  roles_named n s ≠ [] →
  run (create_role body) (false :: fs) s = Outcome (Err UNIQUE_ROLE_NAME) s fs.
Proof.
  intros Htaken. rewrite create_role_unfold, run_bind. simpl.
  unfold role_insert. by rewrite bool_decide_false by done.
Qed.
End create.

Lemma attached_permissions rid ns s :
  st_permissions (attached rid ns s) = st_permissions (foldl permission_add_name s ns).
Proof. done. Qed.

Lemma roles_named_attached_free rid ns n n1 d s :
  n1 ≠ n → roles_named n s = [] →
  roles_named n (attached rid ns (tick (set_roles (<[rid := new_role_row n1 d s]> (st_roles s)) s))) = [].
Proof.
  intros Hne Hfree. apply roles_named_nil_iff. rewrite attached_roles. simpl.
  intros i r. rewrite lookup_insert_Some. intros [[_ <-]|[_ Hi]]; [done|].
  by apply (roles_named_nil n s Hfree i).
Qed.

(** C12: creating a role whose name is free, with a list of distinct
    permission names, answers 201 with the new row; afterwards the role
    exists and every named permission exists and is mapped to it. *)
Theorem create_role_maps_permissions body n d ns s :
  get body "name" = Some (VStr n) → get body "description" = Some d →
  get_default body "permissions" (VArr []) = Some (VArr (VStr <$> ns)) → n ≠ "" →
  roles_named n s = [] → NoDup ns → ns ≠ [] →
  let rid := new_id (st_roles s) in
  let o := run (create_role body) [] s in
  out_res o = Ok (Response 201 (obj [("data", obj [("role", obj (role_fields rid (new_role_row n d s)))])])) ∧
  st_roles (out_store o) !! rid = Some (new_role_row n d s) ∧
  ∀ nm, nm ∈ ns → ∃ pid, st_permissions (out_store o) !! pid = Some nm ∧
                         (rid, pid) ∈ st_role_permissions (out_store o).
Proof.
  intros Hn Hd Hp Hne Hfree Hnd Hnil. rewrite (create_role_run body n d ns s) by done.
  split_and!; [done| |by apply attached_maps].
  cbn [out_store]. rewrite attached_roles. simpl. by rewrite lookup_insert_eq.
Qed.

(** The permission upsert is idempotent.  Creating a second role with
    the same permission names adds no permission: the table is the one the
    first creation left, and the names are mapped to the second role too. *)
Theorem create_role_permissions_idempotent body1 body2 n1 n2 d1 d2 ns s :
  get body1 "name" = Some (VStr n1) → get body1 "description" = Some d1 →
  get_default body1 "permissions" (VArr []) = Some (VArr (VStr <$> ns)) →
  get body2 "name" = Some (VStr n2) → get body2 "description" = Some d2 →
  get_default body2 "permissions" (VArr []) = Some (VArr (VStr <$> ns)) →
  n1 ≠ "" → n2 ≠ "" → n1 ≠ n2 → roles_named n1 s = [] → roles_named n2 s = [] →
  NoDup ns → ns ≠ [] →
  let s1 := out_store (run (create_role body1) [] s) in
  let s2 := out_store (run (create_role body2) [] s1) in
  st_permissions s2 = st_permissions s1 ∧
  ∀ nm, nm ∈ ns → ∃ pid, st_permissions s2 !! pid = Some nm ∧
                         (new_id (st_roles s1), pid) ∈ st_role_permissions s2.
Proof.
  intros Hn1 Hd1 Hp1 Hn2 Hd2 Hp2 Hne1 Hne2 Hdiff Hf1 Hf2 Hnd Hnil. cbv zeta.
  rewrite (create_role_run body1 n1 d1 ns s) by done. cbn [out_store].
  rewrite (create_role_run body2 n2 d2 ns) by (try done; apply roles_named_attached_free; done).
  cbn [out_store]. split; [|by apply attached_maps].
  rewrite !attached_permissions, foldl_add_names_present_id; [done|].
  intros nm Hnm. destruct (foldl_add_names_present ns (tick (set_roles (<[new_id (st_roles s):=new_role_row n1 d1 s]> (st_roles s)) s)) nm Hnm) as [pid Hpid].
  by exists pid.
Qed.

(** Which mappings the permission handling leaves. *)
Lemma attached_pairs rid ns s r pid :
  (r, pid) ∈ st_role_permissions (attached rid ns s) ↔
    (r = rid ∧ ∃ nm, st_permissions (attached rid ns s) !! pid = Some nm ∧ nm ∈ ns) ∨
    (r, pid) ∈ st_role_permissions s.
Proof.
  unfold attached. cbn [st_role_permissions st_permissions set_role_permissions].
  rewrite elem_of_union, elem_of_list_to_set, role_pairs_elem, permission_ids_named_elem.
  by rewrite (proj1 (proj2 (foldl_add_names_frame ns s))).
Qed.

(** ** [PUT]: full replacement of the permission set *)

Section update.
Context (body : val) (rid : string) (name d : val) (ns : list string) (s : store).
Hypothesis (Hid : get body "id" = Some (VStr rid)) (Hn : get body "name" = Some name)
           (Hd : get body "description" = Some d)
           (Hp : get_default body "permissions" (VArr []) = Some (VArr (VStr <$> ns)))
           (Hne : rid ≠ "").

Lemma update_role_unfold :
  update_role body =
    let* _ := call (QUpdateRole rid name d) in
    let* _ := call (QDeleteRolePermissions rid) in
    let* _ := attach_permissions rid (VArr (VStr <$> ns)) in
    Ret (success_response 200).
Proof.
  unfold update_role, field, field_default. rewrite Hid, Hn, Hd, Hp. cbn -[truthy].
  by rewrite truthy_nonempty.
Qed.

Lemma update_role_run s1 :
  role_update rid name d s = (Ok (), s1) → NoDup ns → ns ≠ [] →
  run (update_role body) [] s =
    Outcome (Ok (success_response 200)) (attached rid ns (role_permissions_delete rid s1)) [].
Proof.
  intros Hu Hnd Hnil. rewrite update_role_unfold, run_bind. simpl. rewrite Hu. simpl.
  by rewrite run_bind, attach_permissions_names_run.
Qed.
End update.

Lemma role_permissions_delete_elem rid s r pid :
  (r, pid) ∈ st_role_permissions (role_permissions_delete rid s) ↔
    r ≠ rid ∧ (r, pid) ∈ st_role_permissions s.
Proof. unfold role_permissions_delete. simpl. by rewrite elem_of_filter. Qed.

(** C13: a successful [PUT] with distinct permission names replaces the
    role's permission set by exactly the permissions so named, and leaves
    the mappings of every other role as they were. *)
Theorem update_role_replaces_permissions body rid name d ns s s1 :
  get body "id" = Some (VStr rid) → get body "name" = Some name →
  get body "description" = Some d →
  get_default body "permissions" (VArr []) = Some (VArr (VStr <$> ns)) → rid ≠ "" →
  role_update rid name d s = (Ok (), s1) → NoDup ns → ns ≠ [] →
  let o := run (update_role body) [] s in
  out_res o = Ok (success_response 200) ∧
  (∀ pid, (rid, pid) ∈ st_role_permissions (out_store o) ↔
            ∃ nm, st_permissions (out_store o) !! pid = Some nm ∧ nm ∈ ns) ∧
  (∀ r pid, r ≠ rid →
     (r, pid) ∈ st_role_permissions (out_store o) ↔ (r, pid) ∈ st_role_permissions s).
Proof.
  intros Hid Hn Hd Hp Hne Hu Hnd Hnil. cbv zeta.
  rewrite (update_role_run body rid name d ns s Hid Hn Hd Hp Hne s1 Hu Hnd Hnil).
  cbn [out_store out_res].
  destruct (role_update_only_roles _ _ _ _ _ _ Hu) as [_ Hrp].
  split_and!; [done|intros pid|intros r pid Hr]; rewrite attached_pairs.
  - rewrite role_permissions_delete_elem. naive_solver.
  - rewrite role_permissions_delete_elem, Hrp. naive_solver.
Qed.

(** C14: there is no rollback of a [PUT].  If the permission upsert fails
    after the role's mappings were deleted, the request fails and the role
    is left with no permission at all, its new name kept. *)
Theorem update_role_upsert_fault_drops_permissions body rid name d ns s s1 :
  get body "id" = Some (VStr rid) → get body "name" = Some name →
  get body "description" = Some d →
  get_default body "permissions" (VArr []) = Some (VArr (VStr <$> ns)) → rid ≠ "" →
  role_update rid name d s = (Ok (), s1) → ns ≠ [] →
  let o := run (update_role body) [false; false; true] s in
  out_res o = Err UPSTREAM ∧ st_roles (out_store o) = st_roles s1 ∧
  ∀ pid, (rid, pid) ∉ st_role_permissions (out_store o).
Proof.
  intros Hid Hn Hd Hp Hne Hu Hnil. cbv zeta.
  rewrite (update_role_unfold body rid name d ns), run_bind by done. simpl. rewrite Hu. simpl.
  rewrite run_bind. unfold attach_permissions. rewrite permission_lists_strings. simpl.
  rewrite bool_decide_false by done. simpl. split_and!; [done..|].
  intros pid. rewrite elem_of_filter. naive_solver.
Qed.

(** ** [DELETE]: soft and hard delete *)

Section delete.
Context (body : val) (rid : string) (hard : val) (s : store).
Hypothesis (Hid : get body "id" = Some (VStr rid))
           (Hh : get_default body "hard" (VBool false) = Some hard) (Hne : rid ≠ "").

Lemma delete_role_unfold :
  delete_role body =
    let* users := call (QRoleUsersLimit1 rid) in
    if negb (bool_decide (users = [])) && truthy hard then
      Ret (error_response 400 "Role has associated users; cannot hard-delete")
    else if truthy hard then
      let* _ := call (QDeleteRolePermissions rid) in
      let* _ := call (QDeleteRole rid) in
      Ret (success_response 200)
    else
      let* _ := call (QDisableRole rid) in
      Ret (success_response 200).
Proof.
  unfold delete_role, field, field_default. rewrite Hid, Hh. cbn -[truthy].
  by rewrite truthy_nonempty.
Qed.

Lemma role_users_limit1_nil rs : role_users_limit1 rid rs = [] ↔ user_ids_with_role rid rs = [].
Proof. unfold role_users_limit1. destruct (user_ids_with_role rid rs); naive_solver. Qed.

(** A hard delete of a role nobody holds removes the role and its
    mappings. *)
Lemma delete_role_hard_run :
  truthy hard = true → user_ids_with_role rid s = [] →
  run (delete_role body) [] s =
    Outcome (Ok (success_response 200)) (role_delete rid (role_permissions_delete rid s)) [].
Proof.
  intros Hhard Hnone. rewrite delete_role_unfold, run_bind. simpl.
  rewrite (proj2 (role_users_limit1_nil s) Hnone), Hhard. done.
Qed.
End delete.

(** C15: a hard delete of a role that some user holds is refused: under
    every fault schedule the store is left unchanged and the request does
    not succeed. *)
Theorem delete_role_hard_refused body rid hard s fs :
  get body "id" = Some (VStr rid) → get_default body "hard" (VBool false) = Some hard →
  rid ≠ "" → truthy hard = true → user_ids_with_role rid s ≠ [] →
  out_store (run (delete_role body) fs s) = s ∧
  out_res (run (delete_role body) fs s) ≠ Ok (success_response 200).
Proof.
  intros Hid Hh Hne Hhard Hheld. revert fs.
  apply (wp_run _ (λ res s', s' = s ∧ res ≠ Ok (success_response 200))).
  rewrite (delete_role_unfold body rid hard) by done. simpl.
  rewrite bool_decide_false, Hhard by (by rewrite role_users_limit1_nil). done.
Qed.

Lemma delete_role_soft_run body rid hard s :
  get body "id" = Some (VStr rid) → get_default body "hard" (VBool false) = Some hard →
  rid ≠ "" → truthy hard = false →
  run (delete_role body) [] s = Outcome (Ok (success_response 200)) (role_disable rid s) [].
Proof.
  intros Hid Hh Hne Hsoft. rewrite (delete_role_unfold body rid hard), run_bind by done. simpl.
  by rewrite Hsoft, andb_false_r.
Qed.

(** C16: a soft delete always succeeds when the store answers, even while
    users hold the role, and changes nothing but the role's [disabled]
    flag. *)
Theorem delete_role_soft_only_disables body rid hard s :
  get body "id" = Some (VStr rid) → get_default body "hard" (VBool false) = Some hard →
  rid ≠ "" → truthy hard = false →
  run (delete_role body) [] s = Outcome (Ok (success_response 200)) (role_disable rid s) [] ∧
  (∀ r, st_roles s !! rid = Some r →
     st_roles (role_disable rid s) = <[rid := RoleRow (role_name r) (role_description r) true
                                                     (role_created_at r)]> (st_roles s)) ∧
  set_roles (st_roles s) (role_disable rid s) = s.
Proof.
  intros Hid Hh Hne Hsoft. split_and!.
  - by apply (delete_role_soft_run body rid hard).
  - intros r Hr. unfold role_disable. simpl. by erewrite alter_alt_Some.
  - by destruct s.
Qed.

(** ** Renaming the administrator role *)

Lemma attach_permissions_nil_run rid fs s :
  run (attach_permissions rid (VArr [])) fs s = Outcome (Ok ()) s fs.
Proof. done. Qed.

Lemma update_role_no_permissions_run body rid name d s s1 :
  get body "id" = Some (VStr rid) → get body "name" = Some name →
  get body "description" = Some d → get_default body "permissions" (VArr []) = Some (VArr []) →
  rid ≠ "" → role_update rid name d s = (Ok (), s1) →
  run (update_role body) [] s = Outcome (Ok (success_response 200)) (role_permissions_delete rid s1) [].
Proof.
  intros Hid Hn Hd Hp Hne Hu.
  rewrite (update_role_unfold body rid name d []), run_bind by done. simpl. by rewrite Hu.
Qed.

(** C18: [PUT] does not protect the administrator role.  Renaming
    ["administrador"] succeeds and leaves no administrator role, hence no
    administrator at all, though every role row is kept. *)
Theorem update_role_renames_admin body aid n' d s :
  get body "id" = Some (VStr aid) → get body "name" = Some (VStr n') →
  get body "description" = Some d → get_default body "permissions" (VArr []) = Some (VArr []) →
  store_wf s → admin_role_ids s = [aid] → n' ≠ ADMIN → roles_named n' s = [] →
  let o := run (update_role body) [] s in
  out_res o = Ok (success_response 200) ∧ admin_role_ids (out_store o) = [] ∧
  admin_count (out_store o) = 0 ∧ dom (st_roles (out_store o)) = dom (st_roles s).
Proof.
  intros Hid Hn Hd Hp Hwf Haid Hn' Hfree. cbv zeta.
  destruct (roles_named_admin s aid Haid) as [r Hr].
  assert (st_roles s !! aid = Some r ∧ role_name r = ADMIN) as [Hl Hrn]
    by (apply roles_named_elem; rewrite Hr; set_solver).
  assert (aid ≠ "") as Hne by (apply (wf_role_ids s Hwf), elem_of_dom; eauto).
  set (d' := match d with VUndef => role_description r | _ => d end).
  set (s1 := set_roles (<[aid := RoleRow n' d' (role_disabled r) (role_created_at r)]> (st_roles s)) s).
  assert (role_update aid (VStr n') d s = (Ok (), s1)) as Hu.
  { unfold role_update. rewrite Hl. cbn [to_text]. rewrite bool_decide_false; [done|].
    rewrite Hfree. inversion 1. }
  rewrite (update_role_no_permissions_run body aid (VStr n') d s s1) by done. cbn [out_res out_store].
  assert (admin_role_ids (role_permissions_delete aid s1) = []) as Hnone.
  { rewrite (admin_role_ids_roles s1) by done. unfold admin_role_ids, s1.
    by rewrite roles_named_admin_renamed. }
  split_and!; [done|done|by apply admin_count_no_admin_role|].
  simpl. rewrite dom_insert_L. apply elem_of_dom_2 in Hl. set_solver.
Qed.

(** ** The legacy [/users] endpoint *)

Lemma auth_set_meta_role_user_roles u v s :
  st_user_roles (auth_set_meta_role u v s).2 = st_user_roles s.
Proof. unfold auth_set_meta_role. by case_match. Qed.

Section legacy.
Context (body : val) (u rid : string) (s : store).
Hypothesis (Hu : get body "user_id" = Some (VStr u)) (Hr : get body "role_id" = Some (VStr rid))
           (Hune : u ≠ "") (Hrne : rid ≠ "").

Lemma add_user_role_run :
  out_res (run (add_user_role body) [] s) = Ok (success_response 201) ∧
  st_user_roles (out_store (run (add_user_role body) [] s)) = st_user_roles (ur_upsert u rid s).
Proof.
  unfold add_user_role, field. rewrite Hu, Hr. cbn -[truthy ur_upsert].
  rewrite !truthy_nonempty by done. cbn -[ur_upsert].
  destruct (role_name_of_id rid (ur_upsert u rid s)) as [n|]; [|done].
  case_bool_decide; [done|]. cbn -[ur_upsert]. unfold best_effort. simpl.
  destruct (auth_set_meta_role u (VStr n) (ur_upsert u rid s)) as [res s2] eqn:E.
  pose proof (auth_set_meta_role_user_roles u (VStr n) (ur_upsert u rid s)) as Hs.
  rewrite E in Hs. by destruct res.
Qed.

Lemma remove_user_role_run :
  run (remove_user_role body) [] s = Outcome (Ok (success_response 200)) (ur_delete_match u rid s) [].
Proof.
  unfold remove_user_role, field. rewrite Hu, Hr. cbn -[truthy].
  by rewrite !truthy_nonempty.
Qed.
End legacy.

Lemma role_ids_of_user_upsert u rid s :
  rid ∉ role_ids_of_user u s →
  role_ids_of_user u (ur_upsert u rid s) = role_ids_of_user u s ++ [rid].
Proof.
  intros Hnot. unfold ur_upsert. destruct (existsb _ _) eqn:Hex.
  - exfalso. apply existsb_exists in Hex as (r & Hr%list_elem_of_In & Hs).
    apply bool_decide_eq_true in Hs as [Hru Hrr]. apply Hnot.
    unfold role_ids_of_user. apply list_elem_of_fmap. exists r.
    by rewrite list_elem_of_filter.
  - unfold role_ids_of_user. simpl. rewrite filter_app, fmap_app, filter_cons_True by done.
    done.
Qed.

(** The legacy [POST /manage-roles/users] adds a role row without
    removing the user's other roles: a user who held a role holds two
    afterwards, against the one-role-per-user rule of assign-role. *)
Theorem add_user_role_second_role body u rid s :
  get body "user_id" = Some (VStr u) → get body "role_id" = Some (VStr rid) →
  u ≠ "" → rid ≠ "" → rid ∉ role_ids_of_user u s →
  out_res (run (add_user_role body) [] s) = Ok (success_response 201) ∧
  role_ids_of_user u (out_store (run (add_user_role body) [] s)) = role_ids_of_user u s ++ [rid].
Proof.
  intros Hu Hr Hune Hrne Hnot.
  destruct (add_user_role_run body u rid s Hu Hr Hune Hrne) as [Hres Hur].
  split; [done|]. unfold role_ids_of_user at 1. rewrite Hur.
  by apply role_ids_of_user_upsert.
Qed.

(** C19: the legacy [DELETE /manage-roles/users] has no last-administrator
    guard: it removes the administrator role of the sole administrator,
    leaving none. *)
Theorem remove_user_role_last_admin body u aid s :
  get body "user_id" = Some (VStr u) → get body "role_id" = Some (VStr aid) → u ≠ "" →
  store_wf s → admin_role_ids s = [aid] → is_admin s u → admin_count s = 1 →
  out_res (run (remove_user_role body) [] s) = Ok (success_response 200) ∧
  admin_count (out_store (run (remove_user_role body) [] s)) = 0.
Proof.
  intros Hu Hr Hune Hwf Haid Ha Hc.
  assert (aid ≠ "") by (by eapply admin_role_id_nonempty).
  rewrite (remove_user_role_run body u aid s) by done. split; [done|]. simpl.
  pose proof (admin_count_delete_match s aid u Hwf Haid) as Hd.
  rewrite bool_decide_true in Hd by done. lia.
Qed.

(** C20: a [POST] whose permission list names a permission twice creates
    the role and then fails: the upsert batch hits the same name twice, the
    request is answered with that error and the role stays, without its
    permissions. *)
Theorem create_role_duplicate_names_partial body n d ns s :
  get body "name" = Some (VStr n) → get body "description" = Some d →
  get_default body "permissions" (VArr []) = Some (VArr (VStr <$> ns)) → n ≠ "" →
  roles_named n s = [] → ¬ NoDup ns →
  let o := run (create_role body) [] s in
  out_res o = Err UPSERT_TWICE ∧
  st_roles (out_store o) !! new_id (st_roles s) = Some (new_role_row n d s) ∧
  st_role_permissions (out_store o) = st_role_permissions s.
Proof.
  intros Hn Hd Hp Hne Hfree Hdup. cbv zeta.
  rewrite (create_role_unfold body n d ns), run_bind by done. simpl.
  unfold role_insert. rewrite bool_decide_true by done. simpl.
  rewrite run_bind. unfold attach_permissions. rewrite permission_lists_strings. simpl.
  rewrite bool_decide_false by (intros ->; apply Hdup, NoDup_nil_2). simpl.
  unfold permission_upsert_names. rewrite bool_decide_false by done. simpl.
  split_and!; [done| |done]. unfold new_role_row. by rewrite lookup_insert_eq.
Qed.

(** ** The claims at concrete inputs *)

Definition role_body (n : string) (ps : list string) : val :=
  VObj [("name", VStr n); ("permissions", VArr (VStr <$> ps))].

Lemma create_role_maps_permissions_witness :
  let rid := new_id (st_roles sample_store) in
  let o := run (create_role (role_body "vendedor" ["ver"; "editar"])) [] sample_store in
  out_res o = Ok (Response 201 (obj [("data", obj [("role",
                obj (role_fields rid (new_role_row "vendedor" VUndef sample_store)))])])) ∧
  st_roles (out_store o) !! rid = Some (new_role_row "vendedor" VUndef sample_store) ∧
  ∀ nm, nm ∈ ["ver"; "editar"] → ∃ pid, st_permissions (out_store o) !! pid = Some nm ∧
                                  (rid, pid) ∈ st_role_permissions (out_store o).
Proof.
  apply (create_role_maps_permissions (role_body "vendedor" ["ver"; "editar"]) "vendedor" VUndef
           ["ver"; "editar"] sample_store); [done|done|done|done|by vm_compute|decide_by_eval|done].
Defined.

Lemma create_role_permissions_idempotent_witness :
  let s1 := out_store (run (create_role (role_body "vendedor" ["ver"; "editar"])) [] sample_store) in
  let s2 := out_store (run (create_role (role_body "supervisor" ["ver"; "editar"])) [] s1) in
  st_permissions s2 = st_permissions s1 ∧
  ∀ nm, nm ∈ ["ver"; "editar"] → ∃ pid, st_permissions s2 !! pid = Some nm ∧
                                  (new_id (st_roles s1), pid) ∈ st_role_permissions s2.
Proof.
  apply (create_role_permissions_idempotent (role_body "vendedor" ["ver"; "editar"])
           (role_body "supervisor" ["ver"; "editar"]) "vendedor" "supervisor" VUndef VUndef
           ["ver"; "editar"] sample_store);
    [done..|by vm_compute|by vm_compute|decide_by_eval|done].
Defined.

Definition update_body : val := VObj [("id", VStr "r2"); ("permissions", VArr [VStr "ver"])].

Lemma update_role_replaces_permissions_witness :
  let o := run (update_role update_body) [] sample_store in
  out_res o = Ok (success_response 200) ∧
  (∀ pid, ("r2", pid) ∈ st_role_permissions (out_store o) ↔
            ∃ nm, st_permissions (out_store o) !! pid = Some nm ∧ nm ∈ ["ver"]) ∧
  (∀ r pid, r ≠ "r2" →
     (r, pid) ∈ st_role_permissions (out_store o) ↔ (r, pid) ∈ st_role_permissions sample_store).
Proof.
  apply (update_role_replaces_permissions update_body "r2" VUndef VUndef ["ver"] sample_store
           (role_update "r2" VUndef VUndef sample_store).2); [done..|by vm_compute|decide_by_eval|done].
Defined.

Lemma update_role_upsert_fault_drops_permissions_witness :
  let o := run (update_role update_body) [false; false; true] sample_store in
  out_res o = Err UPSTREAM ∧
  st_roles (out_store o) = st_roles (role_update "r2" VUndef VUndef sample_store).2 ∧
  ∀ pid, ("r2", pid) ∉ st_role_permissions (out_store o).
Proof.
  apply (update_role_upsert_fault_drops_permissions update_body "r2" VUndef VUndef ["ver"] sample_store
           (role_update "r2" VUndef VUndef sample_store).2); [done..|by vm_compute|done].
Defined.

Lemma delete_role_hard_refused_witness :
  let o := run (delete_role (VObj [("id", VStr "r2"); ("hard", VBool true)])) [false] sample_store in
  out_store o = sample_store ∧ out_res o ≠ Ok (success_response 200).
Proof.
  apply (delete_role_hard_refused _ "r2" (VBool true) sample_store [false]); [done..|by vm_compute].
Defined.

Lemma delete_role_soft_only_disables_witness :
  run (delete_role (VObj [("id", VStr "r2")])) [] sample_store =
    Outcome (Ok (success_response 200)) (role_disable "r2" sample_store) [] ∧
  (∀ r, st_roles sample_store !! "r2" = Some r →
     st_roles (role_disable "r2" sample_store) =
       <["r2" := RoleRow (role_name r) (role_description r) true (role_created_at r)]>
         (st_roles sample_store)) ∧
  set_roles (st_roles sample_store) (role_disable "r2" sample_store) = sample_store.
Proof. apply (delete_role_soft_only_disables _ "r2" (VBool false) sample_store); done. Defined.

Lemma update_role_renames_admin_witness :
  let o := run (update_role (VObj [("id", VStr "r1"); ("name", VStr "superusuario")])) [] sample_store in
  out_res o = Ok (success_response 200) ∧ admin_role_ids (out_store o) = [] ∧
  admin_count (out_store o) = 0 ∧ dom (st_roles (out_store o)) = dom (st_roles sample_store).
Proof.
  apply (update_role_renames_admin _ "r1" "superusuario" VUndef sample_store);
    [done|done|done|done|exact sample_store_wf|by vm_compute|done|by vm_compute].
Defined.

Lemma add_user_role_second_role_witness :
  let o := run (add_user_role (VObj [("user_id", VStr "u2"); ("role_id", VStr "r1")])) [] sample_store in
  out_res o = Ok (success_response 201) ∧ role_ids_of_user "u2" (out_store o) = ["r2"; "r1"].
Proof.
  apply (add_user_role_second_role _ "u2" "r1" sample_store); [done..|decide_by_eval].
Defined.

Lemma remove_user_role_last_admin_witness :
  let o := run (remove_user_role (VObj [("user_id", VStr "u1"); ("role_id", VStr "r1")])) [] sample_store in
  out_res o = Ok (success_response 200) ∧ admin_count (out_store o) = 0.
Proof.
  apply (remove_user_role_last_admin _ "u1" "r1" sample_store);
    [done|done|done|exact sample_store_wf|by vm_compute|decide_by_eval|by vm_compute].
Defined.

Lemma create_role_duplicate_names_partial_witness :
  let o := run (create_role (role_body "auditor" ["ver"; "ver"])) [] sample_store in
  out_res o = Err UPSERT_TWICE ∧
  st_roles (out_store o) !! new_id (st_roles sample_store) = Some (new_role_row "auditor" VUndef sample_store) ∧
  st_role_permissions (out_store o) = st_role_permissions sample_store.
Proof.
  apply (create_role_duplicate_names_partial _ "auditor" VUndef ["ver"; "ver"] sample_store);
    [done|done|done|done|by vm_compute|decide_by_eval].
Defined.
