(* ===== verification/Listing.v ===== *)
(** * The user listings: [GET /manage-users] and the legacy [GET /users]

    [src/src/supabase/functions/manage-roles/index.ts] lines 52-93 and
    277-310.  Both read the users from the auth admin API, falling back to
    the user ids found in [user_roles] when that call fails, then join
    each user with its role rows and (deployed endpoint only) its profile.
    Both only read: the theorems show that they leave the store unchanged
    and what each entry of the answer holds. *)

From S2P Require Import Prelude JsValue Store RoleStore Backend Http ManageRoles.

(** An element of [usersList]: the admin API's user, or [{ id }] in the
    fallback, where [email] and the metadata read [undefined]. *)
Record listed_user := ListedUser {
  lu_id : string;
  lu_email : val;
  lu_metadata : val
}.

Definition from_auth (p : string * auth_user) : listed_user :=
  ListedUser p.1 (au_email p.2) (VObj (au_metadata p.2)).

(** [[...new Set(l)]]: the distinct elements in order of first occurrence
    ([remove_dups] keeps last occurrences). *)
Definition nub_first (l : list string) : list string := reverse (remove_dups (reverse l)).

(** Lines 55-66 (and 279-290). *)
Definition users_list : prog (list listed_user) :=
  catch (let* users := call QListAuthUsers in Ret (from_auth <$> users))
        (λ _, let* ur := call QUserRoleUserIds in
              Ret ((λ id, ListedUser id VUndef VUndef) <$> nub_first ur)).

(** [roleById[rid]]: the table built on line 75, in which a later row
    overwrites an earlier one. *)
Definition role_by_id (roles : list (string * role_row)) (rid : string) : option (string * role_row) :=
  last (filter (λ ir, ir.1 = rid) roles).

(** Line 84: [userRoles.filter(ur => ur.user_id === u.id).map(ur =>
    roleById[ur.role_id]).filter(Boolean)]. *)
Definition assigned (userRoles : list user_role) (roles : list (string * role_row)) (u : string)
    : list (string * role_row) :=
  omap (λ ur, role_by_id roles (ur_role_id ur)) (filter (λ ur, ur_user_id ur = u) userRoles).

(** [metadata?.role] *)
Definition optional_role (metadata : val) : val :=
  match metadata with
  | VUndef | VNull => VUndef
  | m => default VUndef (get m "role")
  end.

(** Line 88: the first assigned role's name, else [metadata?.role ?? null]. *)
Definition role_name_of (asg : list (string * role_row)) (metadata : val) : val :=
  match asg with
  | (_, r) :: _ => VStr (role_name r)
  | [] => nullish_or (optional_role metadata) VNull
  end.

(** Line 86: [profileById[u.id]?.is_active ?? true]. *)
Definition is_active_of (profiles : list (string * bool)) (u : string) : bool :=
  match last (filter (λ p, p.1 = u) profiles) with
  | Some (_, b) => b
  | None => true
  end.

(** Line 89. *)
Definition user_entry (userRoles : list user_role) (roles : list (string * role_row))
    (profiles : list (string * bool)) (u : listed_user) : val :=
  let asg := assigned userRoles roles (lu_id u) in
  obj [("id", VStr (lu_id u)); ("email", lu_email u);
       ("roles", VArr ((λ ir, obj (role_fields ir.1 ir.2)) <$> asg));
       ("role", role_name_of asg (lu_metadata u)); ("user_metadata", lu_metadata u);
       ("is_active", VBool (is_active_of profiles (lu_id u)))].

(** Line 306, without the profile. *)
Definition legacy_user_entry (userRoles : list user_role) (roles : list (string * role_row))
    (u : listed_user) : val :=
  let asg := assigned userRoles roles (lu_id u) in
  obj [("id", VStr (lu_id u)); ("email", lu_email u); ("user_metadata", lu_metadata u);
       ("roles", VArr ((λ ir, obj (role_fields ir.1 ir.2)) <$> asg));
       ("role", role_name_of asg (lu_metadata u))].

(** [GET /manage-users], lines 53-93. *)
Definition list_users : prog response :=
  let* usersList := users_list in
  let* userRoles := call QUserRoleRows in
  let* roles := call (QRolesWithIds (nub_first (ur_role_id <$> userRoles))) in
  let* profiles := call QProfileRows in
  Ret (Response 200 (obj [("data", VArr (user_entry userRoles roles profiles <$> usersList))])).

(** [GET /manage-roles/users], lines 277-310. *)
Definition list_users_legacy : prog response :=
  let* usersList := users_list in
  let* userRoles := call QUserRoleRows in
  let* roles := call (QRolesWithIds (nub_first (ur_role_id <$> userRoles))) in
  Ret (Response 200 (obj [("data", VArr (legacy_user_entry userRoles roles <$> usersList))])).

(** ** Lemmas on the joins *)

Lemma nub_first_elem l x : x ∈ nub_first l ↔ x ∈ l.
Proof. unfold nub_first. by rewrite elem_of_reverse, elem_of_remove_dups, elem_of_reverse. Qed.

Lemma nub_first_NoDup l : NoDup (nub_first l).
Proof. unfold nub_first. rewrite reverse_Permutation. apply NoDup_remove_dups. Qed.

Lemma role_by_id_found ids s rid r :
  rid ∈ ids → st_roles s !! rid = Some r → role_by_id (roles_with_ids ids s) rid = Some (rid, r).
Proof.
  intros Hin Hr. apply last_filter_key.
  - eapply sublist_NoDup; [apply (NoDup_fst_map_to_list (st_roles s))|].
    apply fmap_sublist, sublist_filter.
  - apply list_elem_of_filter. by rewrite elem_of_map_to_list.
Qed.

Lemma is_active_of_profiles s u : is_active_of (profile_rows s) u = default true (st_profiles s !! u).
Proof.
  unfold is_active_of, profile_rows. destruct (st_profiles s !! u) as [b|] eqn:E; simpl.
  - rewrite (last_filter_key _ u b); [done|apply NoDup_fst_map_to_list|by apply elem_of_map_to_list].
  - rewrite last_filter_key_none; [done|]. intros b. rewrite elem_of_map_to_list. by rewrite E.
Qed.

(** The role ids [.in('id', roleIds)] asks for. *)
Definition listed_role_ids (s : store) : list string := nub_first (ur_role_id <$> st_user_roles s).

Lemma assigned_head s u rid rest r :
  role_ids_of_user u s = rid :: rest → st_roles s !! rid = Some r →
  ∃ asg, assigned (st_user_roles s) (roles_with_ids (listed_role_ids s) s) u = (rid, r) :: asg.
Proof.
  unfold role_ids_of_user, assigned. intros Hids Hr.
  destruct (filter _ (st_user_roles s)) as [|ur urs] eqn:E; [done|]. simpl in Hids.
  injection Hids as Hrid _. simpl. rewrite Hrid, (role_by_id_found _ s rid r); [by eexists|..|done].
  assert (ur ∈ filter (λ ur, ur_user_id ur = u) (st_user_roles s)) as Hur by (rewrite E; set_solver).
  apply list_elem_of_filter in Hur as [_ Hur]. apply nub_first_elem, list_elem_of_fmap.
  by exists ur.
Qed.

Lemma assigned_nil s u ids :
  role_ids_of_user u s = [] → assigned (st_user_roles s) (roles_with_ids ids s) u = [].
Proof.
  unfold role_ids_of_user, assigned. intros H. apply fmap_nil_inv in H. by rewrite H.
Qed.

Lemma list_users_run s :
  run list_users [] s =
    Outcome (Ok (Response 200 (obj [("data", VArr (user_entry (st_user_roles s)
               (roles_with_ids (listed_role_ids s) s) (profile_rows s) <$> (from_auth <$> auth_list_users s)))])))
            s [].
Proof. done. Qed.

(** ** What the listings answer *)

(** C21: without upstream faults, [GET /manage-users] lists the first
    page of auth users only, [min 50 n] entries for [n] auth users; each
    user of that page is listed with its email and metadata, the name of
    the role of its first role row (or, without a row, the metadata's
    [role], else [null]) and its profile's [is_active] flag, [true] when
    it has no profile. *)
Theorem list_users_reports s u a :
  (u, a) ∈ auth_list_users s →
  (∀ rid, rid ∈ role_ids_of_user u s → rid ∈ dom (st_roles s)) →
  ∃ es, out_res (run list_users [] s) = Ok (Response 200 (obj [("data", VArr es)])) ∧
  length es = min AUTH_PER_PAGE (size (st_auth_users s)) ∧
  ∃ rs role, obj [("id", VStr u); ("email", au_email a); ("roles", rs); ("role", role);
                  ("user_metadata", VObj (au_metadata a));
                  ("is_active", VBool (default true (st_profiles s !! u)))] ∈ es ∧
    match role_ids_of_user u s with
    | rid :: _ => ∃ r, st_roles s !! rid = Some r ∧ role = VStr (role_name r)
    | [] => role = nullish_or (optional_role (VObj (au_metadata a))) VNull
    end.
Proof.
  intros Ha Hfk. rewrite list_users_run. eexists. split; [done|]. split.
  { unfold auth_list_users. by rewrite !length_fmap, length_take, length_map_to_list. }
  set (asg := assigned (st_user_roles s) (roles_with_ids (listed_role_ids s) s) u).
  exists (VArr ((λ ir, obj (role_fields ir.1 ir.2)) <$> asg)), (role_name_of asg (VObj (au_metadata a))).
  split.
  - apply list_elem_of_fmap. exists (ListedUser u (au_email a) (VObj (au_metadata a))).
    split; [by unfold user_entry; rewrite is_active_of_profiles|].
    apply list_elem_of_fmap. by exists (u, a).
  - destruct (role_ids_of_user u s) as [|rid rest] eqn:E.
    + unfold asg. by rewrite assigned_nil.
    + assert (rid ∈ dom (st_roles s)) as [r Hr]%elem_of_dom by (apply Hfk; try rewrite E; set_solver).
      exists r. split; [done|]. unfold asg.
      by destruct (assigned_head s u rid rest r E Hr) as [asg' ->].
Qed.

(** Both listings only read: under every fault schedule they leave
    the store unchanged. *)
Theorem listings_read_only s fs :
  out_store (run list_users fs s) = s ∧ out_store (run list_users_legacy fs s) = s.
Proof.
  split; revert fs; [apply (wp_run _ (λ _ s', s' = s))|apply (wp_run _ (λ _ s', s' = s))];
    simpl; naive_solver.
Qed.

(** When the auth admin API fails, [GET /manage-users] falls back to
    the users found in [user_roles]: one entry per distinct user id, in
    order of first occurrence, each with its id. *)
Theorem list_users_fallback s :
  ∃ es, out_res (run list_users [true] s) = Ok (Response 200 (obj [("data", VArr es)])) ∧
    (λ e, get e "id") <$> es = (λ id, Some (VStr id)) <$> nub_first (user_role_user_ids s) ∧
    NoDup (nub_first (user_role_user_ids s)).
Proof.
  eexists. split; [done|]. split; [|apply nub_first_NoDup].
  simpl. rewrite <-!list_fmap_compose. apply list_fmap_ext. done.
Qed.

(** ** The claims at concrete inputs *)

Lemma list_users_reports_witness :
  ("u1", AuthUser (VStr "u1@celucol.co") []) ∈ auth_list_users sample_store ∧
  ∃ es, out_res (run list_users [] sample_store) = Ok (Response 200 (obj [("data", VArr es)])) ∧
  length es = min AUTH_PER_PAGE (size (st_auth_users sample_store)) ∧
  ∃ rs role, obj [("id", VStr "u1"); ("email", VStr "u1@celucol.co"); ("roles", rs); ("role", role);
                  ("user_metadata", VObj []); ("is_active", VBool true)] ∈ es ∧
    ∃ r, st_roles sample_store !! "r1" = Some r ∧ role = VStr (role_name r).
Proof.
  assert (("u1", AuthUser (VStr "u1@celucol.co") []) ∈ auth_list_users sample_store) as Hin
    by (apply list_elem_of_In; vm_compute; auto).
  split; [exact Hin|].
  apply (list_users_reports sample_store "u1" (AuthUser (VStr "u1@celucol.co") []) Hin).
  apply Forall_forall. decide_by_eval.
Defined.
