(* ===== verification/Router.v ===== *)
(** * The two [serve] functions: dispatch on method and path

    [serve_manage_roles] is the request handler of
    [src/src/supabase/functions/manage-roles/index.ts] (lines 27-466):
    [OPTIONS] is answered at once; otherwise, inside one [try], a path
    containing a ['manage-users'] segment is first offered to the user
    endpoints (which read the caller from the bearer token), and a request
    none of them takes falls through to the role endpoints; the [catch]
    turns any thrown error into a 500 response.

    [serve_manage_roles_v0] is the handler of the older copy
    [src/supabase/functions/manage-roles/index.ts] (lines 14-156), which
    dispatches on the method alone. *)

From S2P Require Import Prelude JsValue Store RoleStore Backend Http ManageUsers ManageRoles Listing.

(** [await req.json()]: a body that is not JSON throws a [SyntaxError]. *)
Definition json_body (r : request) : prog val :=
  match req_body r with
  | Some b => Ret b
  | None => Throw "Unexpected end of JSON input"
  end.

Definition with_body (r : request) (h : val → prog response) : prog response :=
  let* b := json_body r in h b.

Definition answered (p : prog response) : prog (option response) :=
  let* resp := p in Ret (Some resp).

Definition is_method (r : request) (m : string) : bool := bool_decide (req_method r = m).

(** Lines 46-249: the user endpoints; [None] when none of them matches. *)
Definition users_route (r : request) (usersSubpath : string) : prog (option response) :=
  let* currentUserId := getUserIdFromToken (bearer_token (req_authorization r)) in
  if is_method r "GET" && bool_decide (usersSubpath = "") then answered list_users
  else if is_method r "POST" && starts_with "assign-role" usersSubpath then
    answered (with_body r (assign_role currentUserId))
  else if is_method r "PATCH" && starts_with "disable" usersSubpath then
    answered (with_body r (disable_user currentUserId))
  else if is_method r "DELETE" && starts_with "delete" usersSubpath then
    answered (with_body r (delete_user currentUserId))
  else Ret None.

(** Lines 33-461: the body of the [try]. *)
Definition route (r : request) : prog response :=
  let parts := path_parts (req_path r) in
  let subpath := subpath_after "manage-roles" parts in
  let usersSubpath := subpath_after "manage-users" parts in
  let* handled := (if bool_decide ("manage-users" ∈ parts) then users_route r usersSubpath
                   else Ret None) in
  match handled with
  | Some resp => Ret resp
  | None =>
      if is_method r "GET" && bool_decide (subpath = "") then list_roles
      else if (is_method r "GET" || is_method r "POST" || is_method r "DELETE")
              && starts_with "users" subpath then
        if is_method r "GET" then list_users_legacy
        else if is_method r "POST" then with_body r add_user_role
        else with_body r remove_user_role
      else if is_method r "POST" then with_body r create_role
      else if is_method r "PUT" then with_body r update_role
      else if is_method r "DELETE" then with_body r delete_role
      else Ret (error_response 405 "Method not allowed")
  end.

(** [catch (error) { return new Response(..., { status: 500 }) }] *)
Definition catch_500 (p : prog response) : prog response :=
  catch p (λ e, Ret (error_response 500 e)).

(** [new Response("ok", { headers: corsHeaders })] *)
Definition preflight_response : response := Response 200 (VStr "ok").

Definition serve_manage_roles (r : request) : prog response :=
  if is_method r "OPTIONS" then Ret preflight_response else catch_500 (route r).

(** The older copy, lines 14-156. *)
Definition serve_manage_roles_v0 (r : request) : prog response :=
  if is_method r "OPTIONS" then Ret preflight_response
  else catch_500
         (if is_method r "GET" then list_roles
          else if is_method r "POST" then with_body r create_role
          else if is_method r "PUT" then with_body r update_role
          else if is_method r "DELETE" then with_body r delete_role
          else Ret (error_response 405 "Method not allowed")).

(** ** Routing *)

(** The caller [getUserIdFromToken] finds. *)
Definition token_user (token : string) (s : store) : option string :=
  if bool_decide (token = "") then None
  else match auth_get_user token s with Ok u => Some u | Err _ => None end.

Lemma getUserIdFromToken_run token s :
  run (getUserIdFromToken token) [] s = Outcome (Ok (token_user token s)) s [].
Proof.
  unfold getUserIdFromToken, token_user. case_bool_decide; [done|].
  simpl. by destruct (auth_get_user token s).
Qed.

Lemma substring_0_length (t : string) : String.substring 0 (String.length t) t = t.
Proof. induction t as [|a t IH]; simpl; [done|]. by rewrite IH. Qed.

Lemma prefix_app (p t : string) : String.prefix p (p +:+ t) = true.
Proof.
  induction p as [|a p IH]; simpl; [by destruct t|].
  destruct (Ascii.ascii_dec a a); [done|congruence].
Qed.

Lemma substring_app (p t : string) :
  String.substring (String.length p) (String.length (p +:+ t) - String.length p) (p +:+ t) = t.
Proof. induction p as [|a p IH]; simpl; [rewrite Nat.sub_0_r; apply substring_0_length|done]. Qed.

Lemma bearer_token_bearer tok : bearer_token (Some ("Bearer " +:+ tok)) = tok.
Proof.
  unfold bearer_token, starts_with. simpl default. rewrite prefix_app.
  apply (substring_app "Bearer " tok).
Qed.

Section users_path.
Context (r : request) (s : store).
Hypothesis (Hpath : "manage-users" ∈ path_parts (req_path r)).

Lemma route_users_path :
  run (route r) [] s =
    let c := token_user (bearer_token (req_authorization r)) s in
    let usersSubpath := subpath_after "manage-users" (path_parts (req_path r)) in
    run (let* handled :=
           (if is_method r "GET" && bool_decide (usersSubpath = "") then answered list_users
            else if is_method r "POST" && starts_with "assign-role" usersSubpath then
              answered (with_body r (assign_role c))
            else if is_method r "PATCH" && starts_with "disable" usersSubpath then
              answered (with_body r (disable_user c))
            else if is_method r "DELETE" && starts_with "delete" usersSubpath then
              answered (with_body r (delete_user c))
            else Ret None) in
         match handled with
         | Some resp => Ret resp
         | None =>
             let subpath := subpath_after "manage-roles" (path_parts (req_path r)) in
             if is_method r "GET" && bool_decide (subpath = "") then list_roles
             else if (is_method r "GET" || is_method r "POST" || is_method r "DELETE")
                     && starts_with "users" subpath then
               if is_method r "GET" then list_users_legacy
               else if is_method r "POST" then with_body r add_user_role
               else with_body r remove_user_role
             else if is_method r "POST" then with_body r create_role
             else if is_method r "PUT" then with_body r update_role
             else if is_method r "DELETE" then with_body r delete_role
             else Ret (error_response 405 "Method not allowed")
         end) [] s.
Proof.
  unfold route. rewrite bool_decide_true by done. rewrite !run_bind.
  unfold users_route. rewrite run_bind, getUserIdFromToken_run. done.
Qed.
End users_path.

(** C23: a [POST] under [/manage-users] that names no user endpoint falls
    through to the role endpoints: without faults it does exactly what
    [POST /manage-roles] does, creating a role from the body. *)
Theorem serve_users_path_falls_through_to_create r b s :
  req_method r = "POST" → req_body r = Some b → "manage-users" ∈ path_parts (req_path r) →
  starts_with "assign-role" (subpath_after "manage-users" (path_parts (req_path r))) = false →
  starts_with "users" (subpath_after "manage-roles" (path_parts (req_path r))) = false →
  run (serve_manage_roles r) [] s = run (catch_500 (create_role b)) [] s.
Proof.
  intros Hm Hb Hpath Ha Hu. unfold serve_manage_roles, catch_500, is_method.
  rewrite Hm. simpl. rewrite !run_catch, route_users_path by done. unfold is_method.
  rewrite Hm, Ha, Hu. simpl. unfold with_body, json_body. by rewrite Hb.
Qed.

(** End to end, a request of a logged-in user to disable their own
    account is refused: the bearer token is read, its user found, the
    request routed to the disable endpoint, and answered 400 with the store
    unchanged. *)
Theorem serve_self_disable_refused r tok u body b s :
  req_method r = "PATCH" → "manage-users" ∈ path_parts (req_path r) →
  starts_with "disable" (subpath_after "manage-users" (path_parts (req_path r))) = true →
  req_authorization r = Some ("Bearer " +:+ tok) → tok ≠ "" →
  st_sessions s !! tok = Some u → u ∈ dom (st_auth_users s) → u ≠ "" →
  req_body r = Some body → get body "user_id" = Some (VStr u) → get body "is_active" = Some (VBool b) →
  run (serve_manage_roles r) [] s =
    Outcome (Ok (error_response 400 "Cannot disable current logged user")) s [].
Proof.
  intros Hm Hpath Hd Hauth Htok Hs Hdom Hu Hb Huid Hact.
  unfold serve_manage_roles, catch_500, is_method. rewrite Hm. simpl.
  rewrite run_catch, route_users_path by done. unfold is_method.
  rewrite Hm, Hd, Hauth, bearer_token_bearer. simpl.
  unfold token_user, auth_get_user. rewrite bool_decide_false, Hs, bool_decide_true by done.
  unfold with_body, json_body. rewrite Hb. simpl.
  by rewrite (disable_user_self u body b).
Qed.

(** ** The lifecycle of a role *)

(** Every run of a program takes the store one [roles_step] further. *)
Lemma run_roles_step {A} (p : prog A) fs s : roles_step s (out_store (run p fs s)).
Proof. revert fs. apply (proj1 (wp_run p (λ _ s', roles_step s s') s)), wp_roles_step. Qed.

Lemma roles_step_disabled s s' rid row row' :
  roles_step s s' → st_roles s !! rid = Some row → role_disabled row = true →
  st_roles s' !! rid = Some row' → role_disabled row' = true ∨ st_clock s ≤ role_created_at row'.
Proof.
  intros [_ H] Hr Hd Hr'. destruct (role_disabled row') eqn:Hd'; [by left|right].
  destruct (H rid row' Hr' Hd') as [(r0 & Hr0 & Hd0 & _)|]; [|done]. congruence.
Qed.

(** C17: no request re-enables a role.  Under every fault
    schedule, a role that is disabled before a request to either handler
    is, after it, disabled or gone; a row found under its id that is
    enabled can only be one the request created.  Leaving [disabled]
    takes a hard delete: the "reversible" of the role list's confirmation
    has no endpoint behind it. *)
Theorem serve_disabled_role_stays r fs s rid row :
  st_roles s !! rid = Some row → role_disabled row = true →
  (∀ row', st_roles (out_store (run (serve_manage_roles r) fs s)) !! rid = Some row' →
     role_disabled row' = true ∨ st_clock s ≤ role_created_at row') ∧
  (∀ row', st_roles (out_store (run (serve_manage_roles_v0 r) fs s)) !! rid = Some row' →
     role_disabled row' = true ∨ st_clock s ≤ role_created_at row').
Proof.
  intros Hr Hd. split; intros row'; apply (roles_step_disabled s _ rid row row'), Hd; [|done| |done];
    apply run_roles_step.
Qed.

(** ** The shape of every answer

    Every handler builds its responses with [error_response] (statuses
    400-405), [success_response] or a 200/201 [{ data }] object; [rets_tac]
    walks each handler's binds and branches to its [return]s. *)

Local Ltac json_leaf := first [reflexivity | by auto].

Lemma list_roles_json : rets (λ resp, json_answer resp = true) list_roles.
Proof. unfold list_roles. rets_tac json_leaf. Qed.

Lemma listings_json :
  rets (λ resp, json_answer resp = true) list_users ∧
  rets (λ resp, json_answer resp = true) list_users_legacy.
Proof. unfold list_users, list_users_legacy. split; rets_tac json_leaf. Qed.

Lemma body_handlers_json :
  (∀ b, rets (λ resp, json_answer resp = true) (create_role b)) ∧
  (∀ b, rets (λ resp, json_answer resp = true) (update_role b)) ∧
  (∀ b, rets (λ resp, json_answer resp = true) (delete_role b)) ∧
  (∀ b, rets (λ resp, json_answer resp = true) (add_user_role b)) ∧
  (∀ b, rets (λ resp, json_answer resp = true) (remove_user_role b)) ∧
  (∀ u b, rets (λ resp, json_answer resp = true) (assign_role u b)) ∧
  (∀ u b, rets (λ resp, json_answer resp = true) (disable_user u b)) ∧
  (∀ u b, rets (λ resp, json_answer resp = true) (delete_user u b)).
Proof.
  unfold create_role, update_role, delete_role, add_user_role, remove_user_role, assign_role,
    disable_user, delete_user.
  split_and!; intros; rets_tac json_leaf.
Qed.

(** The shape of every handler's answers, as hypotheses for [rets_tac]. *)
Local Ltac json_hyps :=
  pose proof list_roles_json; pose proof listings_json; pose proof body_handlers_json;
  destruct_and!.

Lemma users_route_json r sub :
  rets (λ o, ∀ resp, o = Some resp → json_answer resp = true) (users_route r sub).
Proof.
  json_hyps. unfold users_route, answered, with_body.
  rets_tac ltac:(by simplify_eq/=).
Qed.

Lemma route_json r : rets (λ resp, json_answer resp = true) (route r).
Proof.
  pose proof (users_route_json r). json_hyps. unfold route, with_body.
  case_bool_decide; rets_tac json_leaf.
Qed.

Lemma catch_500_json p :
  rets (λ resp, json_answer resp = true) p →
  rets (λ resp, json_answer resp = true) (catch_500 p).
Proof. intros Hp. by apply rets_catch. Qed.

(** C22: every answer either handler gives, to any request under any
    fault schedule, has the shape the views read: an object with [data] or
    [success] when its status is 2xx and with a string [error] otherwise.
    The only exception is the CORS preflight, answered with the text
    ["ok"]. *)
Theorem serve_answers_json r fs s resp :
  out_res (run (serve_manage_roles r) fs s) = Ok resp ∨
  out_res (run (serve_manage_roles_v0 r) fs s) = Ok resp →
  if is_method r "OPTIONS" then resp = preflight_response else json_answer resp = true.
Proof.
  unfold serve_manage_roles, serve_manage_roles_v0.
  case_if; [by intros [[= ->]|[= ->]]|].
  intros [Hr|Hr]; (eapply (rets_run (λ resp, json_answer resp = true)); [|exact Hr]);
    apply catch_500_json;
    [apply route_json|].
  json_hyps. unfold with_body. rets_tac json_leaf.
Qed.

(** ** The claims at concrete inputs *)

Definition sample_request (m path : string) (b : option val) : request :=
  Request m path (Some ("Bearer " +:+ "tok1")) b.

(** [sample_store] with a third, disabled role. *)
Definition sample_disabled_role_store : store :=
  set_roles (<["r3" := RoleRow "ventas" VNull true 5]> (st_roles sample_store)) sample_store.

Lemma serve_users_path_falls_through_to_create_witness :
  let b := VObj [("name", VStr "vendedor")] in
  run (serve_manage_roles (sample_request "POST" "/functions/v1/manage-roles/manage-users/invite" (Some b)))
      [] sample_store = run (catch_500 (create_role b)) [] sample_store.
Proof.
  apply serve_users_path_falls_through_to_create; [done|done|decide_by_eval|by vm_compute|by vm_compute].
Defined.

Lemma serve_self_disable_refused_witness :
  run (serve_manage_roles (sample_request "PATCH" "/functions/v1/manage-roles/manage-users/disable"
                             (Some (VObj [("user_id", VStr "u1"); ("is_active", VBool false)]))))
      [] sample_store =
    Outcome (Ok (error_response 400 "Cannot disable current logged user")) sample_store [].
Proof.
  apply (serve_self_disable_refused _ "tok1" "u1" (VObj [("user_id", VStr "u1"); ("is_active", VBool false)])
           false sample_store);
    [done|decide_by_eval|by vm_compute|done|done|by vm_compute|decide_by_eval|done..].
Defined.

Lemma serve_disabled_role_stays_witness :
  st_roles sample_disabled_role_store !! "r3" = Some (RoleRow "ventas" VNull true 5) ∧
  role_disabled (RoleRow "ventas" VNull true 5) = true ∧
  let r := sample_request "PUT" "/functions/v1/manage-roles" (Some (obj [("id", VStr "r3"); ("name", VStr "ventas2")])) in
  (∀ row', st_roles (out_store (run (serve_manage_roles r) [] sample_disabled_role_store)) !! "r3" = Some row' →
     role_disabled row' = true ∨ st_clock sample_disabled_role_store ≤ role_created_at row') ∧
  (∀ row', st_roles (out_store (run (serve_manage_roles_v0 r) [] sample_disabled_role_store)) !! "r3" = Some row' →
     role_disabled row' = true ∨ st_clock sample_disabled_role_store ≤ role_created_at row').
Proof.
  split; [by vm_compute|]. split; [done|].
  apply (serve_disabled_role_stays _ [] sample_disabled_role_store "r3" (RoleRow "ventas" VNull true 5));
    [by vm_compute|done].
Defined.


Lemma serve_answers_json_witness :
  let r := sample_request "POST" "/functions/v1/manage-roles" (Some (obj [("name", VStr "vendedor")])) in
  ∃ resp, out_res (run (serve_manage_roles r) [] sample_store) = Ok resp ∧
    resp_status resp = 201 ∧ json_answer resp = true.
Proof.
  intros r. eexists. split; [vm_compute; reflexivity|]. split; [reflexivity|].
  apply (serve_answers_json r [] sample_store). left. vm_compute. reflexivity.
Defined.
