(* ===== verification/World.v ===== *)
(** * A view beside the server

    The React views of [src/src/components] talk to the [manage-roles]
    function only through [fetch]: a handler runs up to its
    [await fetch(...)], and resumes when the answer arrives.  [world V]
    puts the state of a view [V] beside the store of [Router.v] with the
    requests sent and not yet served and the answers not yet delivered.
    A schedule of [world_event]s orders the view's clicks ([UI]), the
    server's handling of one request ([Serve], [serve_manage_roles]
    without upstream faults) and the delivery of one answer to the view
    ([Deliver]).  [find_call] reads the ghost list of calls in flight
    that each view keeps.

    The last section shows that the world comes to rest without clicks:
    when the answer to a call lets the view send at most a bounded
    number of follow-up requests ([pot]), every sequence of serves and
    deliveries is finite ([world_quiesces]), by a weight that each such
    step decreases.  The lemmas [take_key_sum] and [sum_list_with_le]
    on the items' weights serve the measures of the views too. *)

From stdpp Require Import well_founded.
From S2P Require Import Prelude JsValue Store Backend Http Router.

(** The stage call [c] waits at, in a view's list of calls in flight. *)
Fixpoint find_call {A} (c : nat) (cs : list (nat * A)) : option A :=
  match cs with
  | [] => None
  | (c', k) :: cs' => if bool_decide (c = c') then Some k else find_call c cs'
  end.


(** ** A view beside the server

    [world V]: a view's state, the store, the requests sent and not yet
    served, and the answers not yet delivered, each tagged with the call
    that sent it.  A schedule of [world_event]s orders the view's clicks,
    the server's handling of each request and the delivery of each
    answer. *)

Record world (V : Type) := World {
  w_view : V;
  w_store : store;
  w_sent : list (nat * request);       (* requests not yet served *)
  w_answers : list (nat * response)    (* answers not yet delivered *)
}.
Arguments World {V} _ _ _ _.
Arguments w_view {V} _.
Arguments w_store {V} _.
Arguments w_sent {V} _.
Arguments w_answers {V} _.

Inductive world_event (E : Type) :=
| UI (ev : E)               (* a click or key press *)
| Serve (c : nat)           (* the server handles the request of call [c] *)
| Deliver (c : nat).        (* its answer reaches the view *)
Arguments UI {E} _.
Arguments Serve {E} _.
Arguments Deliver {E} _.

Fixpoint take_key {A} (c : nat) (l : list (nat * A)) : option (A * list (nat * A)) :=
  match l with
  | [] => None
  | (c', x) :: l' =>
      if bool_decide (c = c') then Some (x, l')
      else '(y, l'') ← take_key c l'; Some (y, (c', x) :: l'')
  end.

Definition send (c : nat) (req : option request) (sent : list (nat * request)) : list (nat * request) :=
  sent ++ (match req with Some r => [(c, r)] | None => [] end).

Section world.
Context {V E : Type}.
(** The view's step; the event that delivers the answer to call [c]; and
    the call a click starts, [None] for the events that only [Deliver]
    performs. *)
Context (view_step : E → V → V * option request) (answer : nat → response → E) (ui_call : E → option nat).

Definition world_step (e : world_event E) (w : world V) : world V :=
  match e with
  | UI ev =>
      match ui_call ev with
      | None => w
      | Some c =>
          let '(v, req) := view_step ev (w_view w) in
          World v (w_store w) (send c req (w_sent w)) (w_answers w)
      end
  | Serve c =>
      match take_key c (w_sent w) with
      | None => w
      | Some (req, sent') =>
          let o := run (serve_manage_roles req) [] (w_store w) in
          match out_res o with
          | Ok resp => World (w_view w) (out_store o) sent' (w_answers w ++ [(c, resp)])
          | Err _ => World (w_view w) (out_store o) sent' (w_answers w)
          end
      end
  | Deliver c =>
      match take_key c (w_answers w) with
      | None => w
      | Some (resp, answers') =>
          let '(v, req) := view_step (answer c resp) (w_view w) in
          World v (w_store w) (send c req (w_sent w)) answers'
      end
  end.

Fixpoint world_run (es : list (world_event E)) (w : world V) : world V :=
  match es with
  | [] => w
  | e :: es' => world_run es' (world_step e w)
  end.

End world.


Lemma take_key_single {A} c (x : A) : take_key c [(c, x)] = Some (x, []).
Proof. cbn. by rewrite bool_decide_true. Qed.


Section world_lemmas.
Context {V E : Type} (view_step : E → V → V * option request) (answer : nat → response → E)
  (ui_call : E → option nat).

Lemma world_step_ui ev c v s :
  ui_call ev = Some c →
  world_step view_step answer ui_call (UI ev) (World v s [] []) =
    World (view_step ev v).1 s (send c (view_step ev v).2 []) [].
Proof. intros H. cbn. rewrite H. by destruct (view_step ev v). Qed.

Lemma world_step_serve c req v s :
  world_step view_step answer ui_call (Serve c) (World v s [(c, req)] []) =
    match out_res (run (serve_manage_roles req) [] s) with
    | Ok resp => World v (out_store (run (serve_manage_roles req) [] s)) [] [(c, resp)]
    | Err _ => World v (out_store (run (serve_manage_roles req) [] s)) [] []
    end.
Proof. unfold world_step. cbn [w_sent w_answers w_store w_view]. by rewrite take_key_single. Qed.

Lemma world_step_deliver c resp v s :
  world_step view_step answer ui_call (Deliver c) (World v s [] [(c, resp)]) =
    World (view_step (answer c resp) v).1 s (send c (view_step (answer c resp) v).2 []) [].
Proof.
  unfold world_step. cbn [w_sent w_answers w_store w_view]. rewrite take_key_single.
  by destruct (view_step _ _).
Qed.

End world_lemmas.


Lemma world_run_app {V E} (vs : E → V → V * option request) ans uc es1 es2 w :
  world_run vs ans uc (es1 ++ es2) w = world_run vs ans uc es2 (world_run vs ans uc es1 w).
Proof. revert w. induction es1; intros w; simpl; auto. Qed.

(** ** The world comes to rest without clicks *)

Lemma find_call_end_filter {A} c c' (cs : list (nat * A)) :
  find_call c' (filter (λ ck, ck.1 ≠ c) cs) = if bool_decide (c' = c) then None else find_call c' cs.
Proof.
  induction cs as [|[c'' k] cs IH]; [cbn; by case_bool_decide|].
  rewrite filter_cons. cbn [fst]. destruct (decide (c'' ≠ c)); cbn [find_call]; rewrite IH;
    repeat case_bool_decide; naive_solver.
Qed.

Lemma find_call_set_filter {A} c c' k (cs : list (nat * A)) :
  find_call c' ((c, k) :: filter (λ ck, ck.1 ≠ c) cs) =
    if bool_decide (c' = c) then Some k else find_call c' cs.
Proof. cbn. rewrite find_call_end_filter. by case_bool_decide. Qed.

(** A bound read off the stage a call waits at: [weight k] for a call
    waiting at [k], nothing for a call not in flight. *)
Definition call_pot {V K} (calls : V → list (nat * K)) (weight : K → nat) (v : V) (c : nat) : nat :=
  from_option weight 0 (find_call c (calls v)).

(** Goes through the branches of a view's answer step, reading the
    calls in flight after [set_call]/[end_call]. *)
Ltac deliver_pot_tac Hf :=
  unfold call_pot; repeat case_match; simplify_eq/=;
  rewrite ?find_call_end_filter, ?find_call_set_filter; repeat case_bool_decide; subst;
  rewrite ?Hf; cbn; lia.

Lemma take_key_sum {A} (f : nat * A → nat) c l x l' :
  take_key c l = Some (x, l') → sum_list_with f l = f (c, x) + sum_list_with f l'.
Proof.
  revert l'. induction l as [|[c' y] l IH]; intros l'; cbn; [done|].
  case_bool_decide; [intros [= <- <-]; subst; lia|].
  destruct (take_key c l) as [[z l'']|] eqn:E; cbn; intros; simplify_eq/=.
  rewrite (IH l'' eq_refl). lia.
Qed.

Lemma sum_list_with_le {A} (f g : A → nat) l :
  (∀ x, f x ≤ g x) → sum_list_with f l ≤ sum_list_with g l.
Proof. intros H. induction l as [|x l IH]; cbn; [lia|]. specialize (H x). lia. Qed.

Section quiescence.
Context {V E : Type} (view_step : E → V → V * option request) (answer : nat → response → E)
  (ui_call : E → option nat).

(** [pot v c]: how many more requests, weighted by two, call [c] may
    still send.  Delivering an answer never raises it, and lowers it by
    two for the call that sends a follow-up request. *)
Context (pot : V → nat → nat).
Hypothesis deliver_pot_le : ∀ c resp v c', pot (view_step (answer c resp) v).1 c' ≤ pot v c'.
Hypothesis deliver_send_pot : ∀ c resp v,
  is_Some (view_step (answer c resp) v).2 → 2 + pot (view_step (answer c resp) v).1 c ≤ pot v c.

Definition world_weight (w : world V) : nat :=
  sum_list_with (λ cr, 2 + pot (w_view w) cr.1) (w_sent w) +
  sum_list_with (λ ca, 1 + pot (w_view w) ca.1) (w_answers w).

(** A serve or a delivery that finds its request or answer. *)
Inductive quiet_step : relation (world V) :=
| quiet_serve c w :
    is_Some (take_key c (w_sent w)) → quiet_step w (world_step view_step answer ui_call (Serve c) w)
| quiet_deliver c w :
    is_Some (take_key c (w_answers w)) → quiet_step w (world_step view_step answer ui_call (Deliver c) w).

Lemma quiet_step_weight w w' : quiet_step w w' → world_weight w' < world_weight w.
Proof.
  unfold world_weight.
  destruct 1 as [c w [[req sent'] Hk]|c w [[resp ans'] Hk]]; cbn [world_step]; rewrite Hk.
  - rewrite (take_key_sum _ _ _ _ _ Hk).
    destruct (out_res _); cbn [w_sent w_answers w_view]; rewrite ?sum_list_with_app; cbn; lia.
  - rewrite (take_key_sum _ _ _ _ _ Hk).
    pose proof (deliver_pot_le c resp (w_view w)) as Hle.
    pose proof (deliver_send_pot c resp (w_view w)) as Hsend.
    destruct (view_step (answer c resp) (w_view w)) as [v' req]; cbn in *; unfold send.
    rewrite sum_list_with_app.
    assert (sum_list_with (λ cr, 2 + pot v' cr.1) (w_sent w) ≤
            sum_list_with (λ cr, 2 + pot (w_view w) cr.1) (w_sent w)).
    { apply sum_list_with_le. intros x. specialize (Hle x.1). lia. }
    assert (sum_list_with (λ ca, 1 + pot v' ca.1) ans' ≤ sum_list_with (λ ca, 1 + pot (w_view w) ca.1) ans').
    { apply sum_list_with_le. intros x. specialize (Hle x.1). lia. }
    specialize (Hle c).
    destruct req; cbn in *; [specialize (Hsend ltac:(done))|]; lia.
Qed.

(** Without clicks the world comes to rest: no sequence of serves and
    deliveries goes on for ever. *)
Lemma world_quiesces : well_founded (λ w' w, quiet_step w w').
Proof. apply (wf_projected (<) world_weight); [intros ??; apply quiet_step_weight|apply lt_wf]. Qed.

End quiescence.
