(* ===== verification/WhatsApp.v ===== *)
(** * The WhatsApp notification function

    [src/supabase/functions/whatsapp-notify/index.ts]: a [POST] with
    [{ phone, message }] is validated (environment, JSON body, required
    fields, phone format, non-blank message) and then sent as one call to
    the WhatsApp Cloud API; the API's answer is translated into the
    function's response.  The function keeps no state.  Its one external
    call is modelled by its answer, given as an argument: [wa_notify]
    returns the response together with the request it sent to the API, if
    any, so that "rejected before any external call" is a statement about
    that second component.

    The phone check is the regular expression [^\+[1-9]\d{1,14}$] of line
    49; [phone_regex_spec] states its language and [isValidPhoneNumber]
    is shown to decide it. *)

From S2P Require Import Prelude JsValue Http.

(** ** The phone number check, lines 47-51 *)

Definition is_digit (a : ascii) : bool :=
  bool_decide (48 ≤ nat_of_ascii a ≤ 57).

Definition all_digits (s : string) : bool :=
  forallb is_digit (String.list_ascii_of_string s).

(** [/^\+[1-9]\d{1,14}$/.test(phone)] *)
Definition isValidPhoneNumber (phone : string) : bool :=
  match phone with
  | String a (String d rest) =>
      bool_decide (nat_of_ascii a = 43) && is_digit d && negb (bool_decide (nat_of_ascii d = 48)) &&
      all_digits rest && bool_decide (1 ≤ String.length rest ≤ 14)
  | _ => false
  end.

(** The language of the expression: a ['+'], a digit other than ['0'],
    then between 1 and 14 digits. *)
Definition phone_regex_spec (phone : string) : Prop :=
  ∃ d rest, phone = String "+" (String d rest) ∧ is_digit d = true ∧ d ≠ "0"%char ∧
            Forall (λ c, is_digit c = true) (String.list_ascii_of_string rest) ∧
            1 ≤ String.length rest ≤ 14.

(** ** [String.prototype.trim], line 186 *)

(** [s.trim().length === 0] *)
Definition blank (s : string) : bool := forallb is_js_space (String.list_ascii_of_string s).

(** ** The environment and the external call *)

Record wa_env := WaEnv {
  env_whatsapp_token : option string;            (* WHATSAPP_TOKEN *)
  env_phone_number_id : option string            (* WHATSAPP_PHONE_NUMBER_ID *)
}.

(** A [fetch] request. *)
Record outbound := Outbound {
  ob_url : string;
  ob_headers : list (string * string);
  ob_body : val
}.

(** What [fetch] gives back: a rejection with its message, or a response
    with its status and its body parsed as JSON ([None]: not JSON). *)
Inductive fetch_answer :=
| FetchRejected (msg : string)
| FetchAnswered (status : nat) (body : option val).

(** The message of the [SyntaxError] of [response.json()] on a body that
    is not JSON. *)
Definition JSON_SYNTAX_ERROR : string := "Unexpected end of JSON input".

(** [sendWhatsAppMessage], lines 61-95: the request sent, and the parsed
    answer or the message of the error thrown. *)
Definition graph_request (phone : val) (message token phoneNumberId : string) : outbound :=
  Outbound ("https://graph.facebook.com/v18.0/" +:+ phoneNumberId +:+ "/messages")
           [("Authorization", "Bearer " +:+ token); ("Content-Type", "application/json")]
           (obj [("messaging_product", VStr "whatsapp"); ("to", phone); ("type", VStr "text");
                 ("text", obj [("body", VStr message)])]).

Definition graph_result (api : fetch_answer) : string + val :=
  match api with
  | FetchRejected msg => inl msg
  | FetchAnswered st body =>
      if response_ok st then
        match body with Some v => inr v | None => inl JSON_SYNTAX_ERROR end
      else
        match body with
        | Some errorData =>
            inl ("WhatsApp API error: " +:+ pretty st +:+ " - " +:+ json_stringify errorData)
        | None => inl JSON_SYNTAX_ERROR
        end
  end.

(** ** The handler, lines 100-236 *)

Definition wa_error (status : nat) (error details : string) : response :=
  Response status (obj [("error", VStr error); ("details", VStr details)]).

(** The [catch] of lines 221-235. *)
Definition wa_failure (msg : string) : response :=
  wa_error 500 "Error al enviar mensaje" msg.

(** [v[0]]; [None] is the [TypeError] on [undefined] or [null]. *)
Definition index0 (v : val) : option val :=
  match v with
  | VUndef | VNull => None
  | VArr l => Some (default VUndef (head l))
  | VStr (String a _) => Some (VStr (String a EmptyString))
  | _ => Some VUndef
  end.

(** Lines 209-220: [result.messages[0]?.id] and [result.contacts[0]?.wa_id]. *)
Definition wa_success (result : val) : response :=
  match get result "messages" with
  | None => wa_failure "Cannot read properties of null (reading 'messages')"
  | Some msgs =>
      match index0 msgs with
      | None => wa_failure "Cannot read properties of undefined (reading '0')"
      | Some m0 =>
          match get result "contacts" with
          | None => wa_failure "Cannot read properties of null (reading 'contacts')"
          | Some cs =>
              match index0 cs with
              | None => wa_failure "Cannot read properties of undefined (reading '0')"
              | Some c0 =>
                  Response 200 (obj [("success", VBool true);
                                     ("message", VStr "Mensaje enviado exitosamente");
                                     ("messageId", optional_get m0 "id");
                                     ("whatsappId", optional_get c0 "wa_id")])
              end
          end
      end
  end.

Definition method_not_allowed : response :=
  wa_error 405 "Método no permitido" "Esta función solo acepta solicitudes POST".

Definition wa_notify (env : wa_env) (r : request) (api : fetch_answer) : response * option outbound :=
  if bool_decide (req_method r = "OPTIONS") then (Response 200 (VStr "ok"), None)
  else if negb (bool_decide (req_method r = "POST")) then (method_not_allowed, None)
  else
    match env_whatsapp_token env, env_phone_number_id env with
    | Some token, Some phoneNumberId =>
        if negb (truthy (VStr token)) || negb (truthy (VStr phoneNumberId)) then
          (wa_error 500 "Configuración incompleta"
             "Faltan variables de entorno WHATSAPP_TOKEN o WHATSAPP_PHONE_NUMBER_ID", None)
        else
          match req_body r with
          | None => (wa_error 400 "JSON inválido" "El cuerpo de la solicitud debe ser un JSON válido", None)
          | Some requestData =>
              match get requestData "phone", get requestData "message" with
              | Some phone, Some message =>
                  if negb (truthy phone) || negb (truthy message) then
                    (wa_error 400 "Parámetros faltantes" "Se requieren los campos 'phone' y 'message'", None)
                  else if negb (isValidPhoneNumber (to_text phone)) then
                    (wa_error 400 "Formato de teléfono inválido"
                       "El teléfono debe estar en formato internacional (ej: +573001234567)", None)
                  else
                    match message with
                    | VStr m =>
                        if blank m then (wa_error 400 "Mensaje vacío" "El mensaje no puede estar vacío", None)
                        else
                          let ob := graph_request phone m token phoneNumberId in
                          match graph_result api with
                          | inl msg => (wa_failure msg, Some ob)
                          | inr result => (wa_success result, Some ob)
                          end
                    | _ => (wa_failure "requestData.message.trim is not a function", None)
                    end
              | _, _ => (wa_failure "Cannot read properties of null (reading 'phone')", None)
              end
          end
    | _, _ =>
        (wa_error 500 "Configuración incompleta"
           "Faltan variables de entorno WHATSAPP_TOKEN o WHATSAPP_PHONE_NUMBER_ID", None)
    end.

(** ** Sample inputs *)

Definition sample_wa_env : wa_env := WaEnv (Some "EAAG-token") (Some "1055").

Definition sample_wa_body (phone message : string) : val :=
  obj [("phone", VStr phone); ("message", VStr message)].

Definition sample_wa_request (phone message : string) : request :=
  Request "POST" "/functions/v1/whatsapp-notify" None (Some (sample_wa_body phone message)).

Definition sample_api_ok : fetch_answer :=
  FetchAnswered 200 (Some (obj [("messages", VArr [obj [("id", VStr "wamid.1")]]);
                                ("contacts", VArr [obj [("wa_id", VStr "573001234567")]])])).

(** ** The phone check decides the expression's language *)

Lemma all_digits_Forall s : all_digits s = true ↔ Forall (λ c, is_digit c = true) (String.list_ascii_of_string s).
Proof. unfold all_digits. by rewrite forallb_forall, List.Forall_forall. Qed.

Lemma plus_char a : nat_of_ascii a = 43 ↔ a = "+"%char.
Proof.
  split; [intros H; rewrite <-(ascii_nat_embedding a), H; done|intros ->; done].
Qed.

Lemma zero_char d : nat_of_ascii d = 48 ↔ d = "0"%char.
Proof.
  split; [intros H; rewrite <-(ascii_nat_embedding d), H; done|intros ->; done].
Qed.

Lemma isValidPhoneNumber_reflect phone : reflect (phone_regex_spec phone) (isValidPhoneNumber phone).
Proof.
  apply iff_reflect. symmetry. unfold isValidPhoneNumber, phone_regex_spec. split.
  - destruct phone as [|a [|d rest]]; try done.
    rewrite !andb_true_iff, negb_true_iff, !bool_decide_eq_true, bool_decide_eq_false,
      plus_char, zero_char, all_digits_Forall.
    intros [[[[-> Hd] Hz] Hr] Hl]. by exists d, rest.
  - intros (d & rest & -> & Hd & Hz & Hr & Hl).
    rewrite !andb_true_iff, negb_true_iff, !bool_decide_eq_true, bool_decide_eq_false,
      plus_char, zero_char, all_digits_Forall. done.
Qed.

(** ** What the handler answers *)

(** C25: the handler calls the WhatsApp API only for a [POST] with a
    configured, non-empty token and phone-number id, a JSON body whose
    [phone] is truthy and matches the phone expression and whose [message]
    is a non-blank string; the call it makes is then the [POST] of
    [{ messaging_product, to: phone, type: "text", text: { body } }] to
    the configured number's [messages] endpoint with the token. *)
Theorem wa_notify_outbound env r api resp ob :
  wa_notify env r api = (resp, Some ob) →
  req_method r = "POST" ∧
  ∃ token phoneNumberId requestData phone m,
    env_whatsapp_token env = Some token ∧ env_phone_number_id env = Some phoneNumberId ∧
    token ≠ "" ∧ phoneNumberId ≠ "" ∧ req_body r = Some requestData ∧
    get requestData "phone" = Some phone ∧ truthy phone = true ∧
    get requestData "message" = Some (VStr m) ∧
    phone_regex_spec (to_text phone) ∧ blank m = false ∧
    ob = graph_request phone m token phoneNumberId.
Proof.
  unfold wa_notify. intros H. repeat (case_match; simplify_eq/=);
    repeat match goal with Hb : _ || _ = false |- _ => apply orb_false_iff in Hb as [? ?] end;
    rewrite ?negb_involutive, ?negb_false_iff, ?bool_decide_eq_true, ?bool_decide_eq_false in *;
    (split; [done|]); eexists _, _, _, _, _; (split_and!; try done);
    by apply (reflect_iff _ _ (isValidPhoneNumber_reflect _)).
Qed.

Section post.
Context (env : wa_env) (r : request) (token phoneNumberId : string) (requestData phone message : val).
Hypothesis Hpost : req_method r = "POST".
Hypothesis Htoken : env_whatsapp_token env = Some token.
Hypothesis Hid : env_phone_number_id env = Some phoneNumberId.
Hypothesis Htoken_ne : token ≠ "".
Hypothesis Hid_ne : phoneNumberId ≠ "".
Hypothesis Hbody : req_body r = Some requestData.
Hypothesis Hphone : get requestData "phone" = Some phone.
Hypothesis Hmessage : get requestData "message" = Some message.
Hypothesis Hphone_t : truthy phone = true.
Hypothesis Hmessage_t : truthy message = true.

(** A configured [POST] with both fields present reaches the phone check. *)
Lemma wa_notify_fields api :
  wa_notify env r api =
    if negb (isValidPhoneNumber (to_text phone)) then
      (wa_error 400 "Formato de teléfono inválido"
         "El teléfono debe estar en formato internacional (ej: +573001234567)", None)
    else
      match message with
      | VStr m =>
          if blank m then (wa_error 400 "Mensaje vacío" "El mensaje no puede estar vacío", None)
          else
            let ob := graph_request phone m token phoneNumberId in
            match graph_result api with
            | inl msg => (wa_failure msg, Some ob)
            | inr result => (wa_success result, Some ob)
            end
      | _ => (wa_failure "requestData.message.trim is not a function", None)
      end.
Proof.
  unfold wa_notify. rewrite Hpost, Htoken, Hid, Hbody, Hphone, Hmessage, Hphone_t, Hmessage_t.
  cbn [truthy]. rewrite (bool_decide_eq_false_2 (token = "")), (bool_decide_eq_false_2 (phoneNumberId = "")) by done.
  by rewrite (bool_decide_eq_true_2 ("POST" = "POST")), (bool_decide_eq_false_2 ("POST" = "OPTIONS")).

Qed.

(** A configured [POST] whose [phone] does not match the phone
    expression (e.g. ["123456"]) is answered 400 ["Formato de teléfono
    inválido"] and no request is sent to the WhatsApp API. *)
Theorem wa_invalid_phone_rejected api :
  ¬ phone_regex_spec (to_text phone) →
  wa_notify env r api =
    (wa_error 400 "Formato de teléfono inválido"
       "El teléfono debe estar en formato internacional (ej: +573001234567)", None).
Proof.
  intros Hn. rewrite wa_notify_fields.
  by destruct (isValidPhoneNumber_reflect (to_text phone)).
Qed.

(** A configured [POST] with a valid phone and a non-blank string
    message sends exactly one request, the [graph_request] of that phone
    and message, and answers with the translation of the API's answer:
    the success body built from [messages[0].id] and [contacts[0].wa_id],
    or 500 ["Error al enviar mensaje"] with the error's message (the
    [fetch] rejection, the body's JSON syntax error, or ["WhatsApp API
    error: <status> - <JSON body>"] for a non-2xx answer). *)
Theorem wa_valid_sends api m :
  phone_regex_spec (to_text phone) → message = VStr m → blank m = false →
  wa_notify env r api =
    (match graph_result api with inl msg => wa_failure msg | inr result => wa_success result end,
     Some (graph_request phone m token phoneNumberId)).
Proof.
  intros Hv Hm Hb. rewrite wa_notify_fields, Hm, Hb.
  destruct (isValidPhoneNumber_reflect (to_text phone)); [|done].
  by destruct (graph_result api).
Qed.

End post.

(** A configured [POST] whose body is the JSON value [null] is
    answered 500 with the [TypeError] of [requestData.phone], not with a
    4xx validation error, and nothing is sent. *)
Theorem wa_null_body_500 env r token phoneNumberId api :
  req_method r = "POST" → env_whatsapp_token env = Some token →
  env_phone_number_id env = Some phoneNumberId → token ≠ "" → phoneNumberId ≠ "" →
  req_body r = Some VNull →
  wa_notify env r api = (wa_failure "Cannot read properties of null (reading 'phone')", None).
Proof.
  intros Hp Ht Hi Htn Hin Hb. unfold wa_notify. rewrite Hp, Ht, Hi, Hb. cbn [truthy].
  rewrite (bool_decide_eq_false_2 (token = "")), (bool_decide_eq_false_2 (phoneNumberId = "")) by done.
  by rewrite (bool_decide_eq_true_2 ("POST" = "POST")), (bool_decide_eq_false_2 ("POST" = "OPTIONS")).
Qed.

(** The phone check accepts every ['+'] followed by two digits, the
    first non-zero, although the comment on line 48 requires between 10
    and 15 digits. *)
Theorem isValidPhoneNumber_two_digits d1 d2 :
  is_digit d1 = true → d1 ≠ "0"%char → is_digit d2 = true →
  isValidPhoneNumber (String "+" (String d1 (String d2 EmptyString))) = true.
Proof.
  intros H1 H0 H2. cbn. rewrite H1, H2, (bool_decide_eq_false_2 (nat_of_ascii d1 = 48)); [done|].
  by rewrite zero_char.
Qed.

(** ** The shape of every answer *)

Lemma wa_success_json result : json_answer (wa_success result) = true.
Proof. unfold wa_success. by repeat case_match. Qed.

(** Every answer of the function but the CORS preflight is a JSON object
    with [success] when 2xx and a string [error] otherwise, the shape of
    [Http.json_answer]. *)
Theorem wa_notify_json env r api :
  req_method r ≠ "OPTIONS" → json_answer (wa_notify env r api).1 = true.
Proof.
  intros Hm. unfold wa_notify. rewrite bool_decide_false by done.
  repeat case_match; cbn [fst]; try reflexivity; apply wa_success_json.
Qed.

(** [n] digits ['1'] after the ['+']. *)
Definition ones_number (n : nat) : string :=
  String "+" (String.string_of_list_ascii (repeat "1"%char n)).

Lemma length_string_of_list_ascii l : String.length (String.string_of_list_ascii l) = length l.
Proof. induction l as [|a l IH]; cbn; auto. Qed.

(** C24: the phone check bounds the length of a number to 3-16
    characters, a ['+'] and 2 to 15 digits, and every digit count in that
    range is accepted: the lower bound is 2 digits, not the 10 of the
    comment on line 48. *)
Theorem isValidPhoneNumber_length_bounds :
  (∀ phone, isValidPhoneNumber phone = true → 3 ≤ String.length phone ≤ 16) ∧
  (∀ n, 2 ≤ n ≤ 15 → isValidPhoneNumber (ones_number n) = true).
Proof.
  split.
  - intros [|a [|d rest]]; cbn; try done.
    intros H. apply andb_prop in H as [_ H%bool_decide_eq_true]. lia.
  - intros n Hn. destruct n as [|[|n]]; [lia|lia|]. unfold ones_number. cbn.
    unfold all_digits. rewrite String.list_ascii_of_string_of_list_ascii, length_string_of_list_ascii,
      repeat_length.
    rewrite (bool_decide_eq_true_2 (1 ≤ S n ≤ 14)); [|lia]. cbn.
    rewrite andb_true_r. apply forallb_forall. intros c Hc. apply repeat_spec in Hc. by subst.
Qed.

(** ** The claims at concrete inputs *)

Lemma wa_invalid_phone_rejected_witness :
  ¬ phone_regex_spec "123456" ∧
  wa_notify sample_wa_env (sample_wa_request "123456" "Hola") sample_api_ok =
    (wa_error 400 "Formato de teléfono inválido"
       "El teléfono debe estar en formato internacional (ej: +573001234567)", None).
Proof.
  assert (¬ phone_regex_spec "123456") as Hn by (intros (? & ? & [=] & _)).
  split; [exact Hn|].
  exact (wa_invalid_phone_rejected sample_wa_env (sample_wa_request "123456" "Hola") "EAAG-token" "1055"
           (sample_wa_body "123456" "Hola") (VStr "123456") (VStr "Hola")
           eq_refl eq_refl eq_refl ltac:(done) ltac:(done) eq_refl eq_refl eq_refl eq_refl eq_refl
           sample_api_ok Hn).
Defined.

Lemma wa_notify_outbound_witness :
  ∃ resp ob, wa_notify sample_wa_env (sample_wa_request "+573001234567" "Hola") sample_api_ok = (resp, Some ob) ∧
    ob = graph_request (VStr "+573001234567") "Hola" "EAAG-token" "1055".
Proof.
  eexists _, _. split; [reflexivity|].
  destruct (wa_notify_outbound sample_wa_env (sample_wa_request "+573001234567" "Hola") sample_api_ok _ _ eq_refl)
    as (_ & t & i & d & p & m & Ht & Hi & _ & _ & Hd & Hp & _ & Hm & _ & _ & Hob).
  rewrite Hob. vm_compute in Ht, Hi, Hd. simplify_eq. vm_compute in Hp, Hm. by simplify_eq.
Defined.

Lemma wa_valid_sends_witness :
  wa_notify sample_wa_env (sample_wa_request "+573001234567" "Hola") sample_api_ok =
    (wa_success (obj [("messages", VArr [obj [("id", VStr "wamid.1")]]);
                      ("contacts", VArr [obj [("wa_id", VStr "573001234567")]])]),
     Some (graph_request (VStr "+573001234567") "Hola" "EAAG-token" "1055")).
Proof.
  exact (wa_valid_sends sample_wa_env (sample_wa_request "+573001234567" "Hola") "EAAG-token" "1055"
           (sample_wa_body "+573001234567" "Hola") (VStr "+573001234567") (VStr "Hola")
           eq_refl eq_refl eq_refl ltac:(done) ltac:(done) eq_refl eq_refl eq_refl eq_refl eq_refl
           sample_api_ok "Hola"
           (proj2 (reflect_iff _ _ (isValidPhoneNumber_reflect "+573001234567")) eq_refl) eq_refl eq_refl).
Defined.

Lemma wa_null_body_500_witness :
  wa_notify sample_wa_env (Request "POST" "/functions/v1/whatsapp-notify" None (Some VNull)) sample_api_ok =
    (wa_failure "Cannot read properties of null (reading 'phone')", None).
Proof.
  exact (wa_null_body_500 sample_wa_env (Request "POST" "/functions/v1/whatsapp-notify" None (Some VNull))
           "EAAG-token" "1055" sample_api_ok eq_refl eq_refl eq_refl ltac:(done) ltac:(done) eq_refl).
Defined.

Lemma isValidPhoneNumber_two_digits_witness : isValidPhoneNumber "+12" = true.
Proof. exact (isValidPhoneNumber_two_digits "1" "2" eq_refl ltac:(done) eq_refl). Defined.

Lemma isValidPhoneNumber_length_bounds_witness :
  2 ≤ 9 ≤ 15 ∧ isValidPhoneNumber (ones_number 9) = true.
Proof. split; [lia|]. apply isValidPhoneNumber_length_bounds. lia. Defined.
