(* ===== verification/WhatsAppHelpers.v ===== *)
(** * The WhatsApp client helpers

    [src/supabase/functions/whatsapp-notify/helpers.ts]: server-side code
    that calls the [whatsapp-notify] function over HTTP with
    [{ phone, message }] and turns its answer into
    [{ success, messageId?, error? }].  [sendPaymentConfirmation],
    [sendOrderStatusUpdate] and [sendCustomMessage] build the message (from
    fixed templates for the first two) and share [sendWhatsAppMessage].

    The helpers are modelled with the function's answer as a parameter
    ([transport]); [via_function] plugs in the function of [WhatsApp.v], so
    that the end-to-end theorems say what reaches the WhatsApp API for a
    helper call.  The function's JSON response body is handed to the helper
    as the value it serialises: [JSON.parse (JSON.stringify v)] only drops
    [undefined] members, which every [get] reads as [undefined] anyway. *)

From S2P Require Import Prelude JsValue Http WhatsApp.

Module Helpers.

(** ** Configuration, lines 13-31 *)

Record wa_config := WaConfig {
  functionUrl : option string;
  supabaseKey : option string
}.

Record helper_env := HelperEnv {
  env_supabase_url : option string;              (* SUPABASE_URL *)
  env_supabase_anon_key : option string          (* SUPABASE_ANON_KEY *)
}.

Definition truthy_opt (s : option string) : option string :=
  match s with Some x => if truthy (VStr x) then Some x else None | None => None end.

(** [getWhatsAppFunctionUrl]; [inl] is the message of the error thrown. *)
Definition getWhatsAppFunctionUrl (env : helper_env) : string + string :=
  match truthy_opt (env_supabase_url env) with
  | Some supabaseUrl => inr (supabaseUrl +:+ "/functions/v1/whatsapp-notify")
  | None => inl "SUPABASE_URL no está configurada"
  end.

(** ** [sendWhatsAppMessage], lines 40-63: the request sent to the function *)

(** Line 45: [config?.functionUrl || getWhatsAppFunctionUrl()]. *)
Definition function_url (config : option wa_config) (env : helper_env) : string + string :=
  match truthy_opt (config ≫= functionUrl) with
  | Some u => inr u
  | None => getWhatsAppFunctionUrl env
  end.

Definition sendWhatsAppMessage (phone message : string) (config : option wa_config) (env : helper_env)
    : string + outbound :=
  match function_url config env with
  | inl e => inl e
  | inr functionUrl =>
      let key := match truthy_opt (config ≫= supabaseKey) with
                 | Some k => Some k
                 | None => env_supabase_anon_key env
                 end in
      let auth := match truthy_opt key with
                  | Some k => [("Authorization", "Bearer " +:+ k); ("apikey", k)]
                  | None => []
                  end in
      inr (Outbound functionUrl ([("Content-Type", "application/json")] ++ auth)
                    (obj [("phone", VStr phone); ("message", VStr message)]))
  end.

(** ** The helpers' result *)

Definition failure_result (error : val) : val := obj [("success", VBool false); ("error", error)].

(** Lines 92-105 (and 174-187, 222-235): [errorData.error || "Error
    desconocido"] on a failed answer, [data.messageId] on a successful one;
    [response.json()] on a body that is not JSON and a [null] body throw. *)
Definition notify_result (ans : fetch_answer) : val :=
  match ans with
  | FetchRejected msg => failure_result (VStr msg)
  | FetchAnswered st None => failure_result (VStr JSON_SYNTAX_ERROR)
  | FetchAnswered st (Some data) =>
      if negb (response_ok st) then
        match get data "error" with
        | Some e => failure_result (if truthy e then e else VStr "Error desconocido")
        | None => failure_result (VStr "Cannot read properties of null (reading 'error')")
        end
      else
        match get data "messageId" with
        | Some mid => obj [("success", VBool true); ("messageId", mid)]
        | None => failure_result (VStr "Cannot read properties of null (reading 'messageId')")
        end
  end.

(** The [try] body shared by the three helpers, with the function's answer
    to each request given by [transport]. *)
Definition send_and_report (transport : outbound → fetch_answer) (phone message : string)
    (config : option wa_config) (env : helper_env) : val :=
  match sendWhatsAppMessage phone message config env with
  | inl e => failure_result (VStr e)
  | inr creq => notify_result (transport creq)
  end.

(** ** The messages, lines 88 and 120-129 *)

Definition nl : string := char 10.

Definition payment_message (orderId : string) : string :=
  "🎉 ¡Pago confirmado!" +:+ nl +:+ nl +:+ "Tu pedido #" +:+ orderId +:+ " fue recibido exitosamente." +:+
  nl +:+ nl +:+ "Te mantendremos informado sobre el estado de tu pedido." +:+ nl +:+ nl +:+
  "¡Gracias por tu compra! 🛍️".

(** [OrderStatus], line 11. *)
Inductive OrderStatus := PREPARING | SHIPPED | DELIVERED | CANCELED.

(** Line 157. *)
Definition validStatuses : list string := ["PREPARING"; "SHIPPED"; "DELIVERED"; "CANCELED"].

(** [validStatuses.includes(status)]: the type is erased at run time, so a
    caller can pass any string. *)
Definition order_status_of_string (status : string) : option OrderStatus :=
  if bool_decide (status = "PREPARING") then Some PREPARING
  else if bool_decide (status = "SHIPPED") then Some SHIPPED
  else if bool_decide (status = "DELIVERED") then Some DELIVERED
  else if bool_decide (status = "CANCELED") then Some CANCELED
  else None.

Definition getStatusMessage (status : OrderStatus) : string :=
  match status with
  | PREPARING => "📦 Tu pedido está siendo preparado." +:+ nl +:+ nl +:+
      "Nuestro equipo está trabajando para tener tu pedido listo lo antes posible." +:+ nl +:+ nl +:+
      "Te notificaremos cuando esté listo para enviar."
  | SHIPPED => "🚚 ¡Tu pedido fue enviado!" +:+ nl +:+ nl +:+ "Ya está en camino a tu dirección." +:+
      nl +:+ nl +:+ "Podrás recibirlo pronto. Mantente atento a las actualizaciones de entrega."
  | DELIVERED => "✅ ¡Tu pedido fue entregado!" +:+ nl +:+ nl +:+ "Esperamos que disfrutes tu compra." +:+
      nl +:+ nl +:+ "Gracias por confiar en nosotros. 😊"
  | CANCELED => "❌ Tu pedido fue cancelado." +:+ nl +:+ nl +:+
      "Si tienes alguna pregunta o necesitas asistencia, no dudes en contactarnos." +:+ nl +:+ nl +:+
      "Estamos aquí para ayudarte."
  end.

(** Lines 165-170. *)
Definition status_text (status : OrderStatus) (orderId : option string) : string :=
  match truthy_opt orderId with
  | Some o => "Pedido #" +:+ o +:+ nl +:+ nl +:+ getStatusMessage status
  | None => getStatusMessage status
  end.

(** ** The exported helpers *)

(** [sendPaymentConfirmation], lines 78-113. *)
Definition sendPaymentConfirmation (transport : outbound → fetch_answer) (phone orderId : string)
    (config : option wa_config) (env : helper_env) : val :=
  send_and_report transport phone (payment_message orderId) config env.

(** [sendOrderStatusUpdate], lines 145-195. *)
Definition sendOrderStatusUpdate (transport : outbound → fetch_answer) (phone status : string)
    (orderId : option string) (config : option wa_config) (env : helper_env) : val :=
  match order_status_of_string status with
  | None => failure_result (VStr ("Estado inválido: " +:+ status +:+ ". Debe ser uno de: " +:+
                                  String.concat ", " validStatuses))
  | Some st => send_and_report transport phone (status_text st orderId) config env
  end.

(** [sendCustomMessage], lines 210-243. *)
Definition sendCustomMessage (transport : outbound → fetch_answer) (phone message : string)
    (config : option wa_config) (env : helper_env) : val :=
  send_and_report transport phone message config env.

(** ** The helpers calling the function *)

(** The function's view of a helper's request. *)
Definition function_request (creq : outbound) : request :=
  Request "POST" "/functions/v1/whatsapp-notify"
          (snd <$> last (filter (λ h, h.1 = "Authorization") (ob_headers creq)))
          (Some (ob_body creq)).

(** A helper's request answered by the function of [WhatsApp.v]: the
    function's answer, and the request it sent to the WhatsApp API. *)
Definition via_function (fn_env : wa_env) (api : fetch_answer) (creq : outbound)
    : fetch_answer * option outbound :=
  let (resp, ob) := wa_notify fn_env (function_request creq) api in
  (FetchAnswered (resp_status resp) (Some (resp_body resp)), ob).

(** ** Sample inputs *)

Definition sample_helper_env : helper_env :=
  HelperEnv (Some "https://celucol.supabase.co") (Some "anon-key").

Definition sample_function_url : string := "https://celucol.supabase.co/functions/v1/whatsapp-notify".

Definition sample_result : val :=
  obj [("messages", VArr [obj [("id", VStr "wamid.1")]]);
       ("contacts", VArr [obj [("wa_id", VStr "573001234567")]])].

(** ** Lemmas *)

Lemma sendWhatsAppMessage_body phone message config env u :
  function_url config env = inr u →
  ∃ creq, sendWhatsAppMessage phone message config env = inr creq ∧
          ob_body creq = obj [("phone", VStr phone); ("message", VStr message)].
Proof. intros Hu. unfold sendWhatsAppMessage. rewrite Hu. by eexists. Qed.

Lemma order_status_of_string_None status :
  order_status_of_string status = None ↔ status ∉ validStatuses.
Proof.
  unfold order_status_of_string, validStatuses.
  repeat case_bool_decide; subst; rewrite ?elem_of_cons, ?elem_of_nil; naive_solver.
Qed.

Lemma blank_cons c s : is_js_space c = false → blank (String c s) = false.
Proof. intros H. unfold blank. cbn. by rewrite H. Qed.

Lemma status_text_not_blank st orderId : blank (status_text st orderId) = false.
Proof. unfold status_text. by destruct (truthy_opt orderId), st; apply blank_cons. Qed.

Lemma payment_message_not_blank orderId : blank (payment_message orderId) = false.
Proof. by apply blank_cons. Qed.

Section e2e.
Context (fn_env : wa_env) (api : fetch_answer) (token phoneNumberId : string).
Context (config : option wa_config) (env : helper_env) (u : string).
Hypothesis Htoken : env_whatsapp_token fn_env = Some token.
Hypothesis Hid : env_phone_number_id fn_env = Some phoneNumberId.
Hypothesis Htoken_ne : token ≠ "".
Hypothesis Hid_ne : phoneNumberId ≠ "".
Hypothesis Hurl : function_url config env = inr u.

(** What the function does with a helper's request. *)
Lemma wa_notify_helper_request phone message creq :
  sendWhatsAppMessage phone message config env = inr creq → phone ≠ "" → message ≠ "" →
  wa_notify fn_env (function_request creq) api =
    if negb (isValidPhoneNumber phone) then
      (wa_error 400 "Formato de teléfono inválido"
         "El teléfono debe estar en formato internacional (ej: +573001234567)", None)
    else if blank message then (wa_error 400 "Mensaje vacío" "El mensaje no puede estar vacío", None)
    else
      let ob := graph_request (VStr phone) message token phoneNumberId in
      match graph_result api with
      | inl msg => (wa_failure msg, Some ob)
      | inr result => (wa_success result, Some ob)
      end.
Proof.
  intros Hs Hp Hm.
  rewrite (wa_notify_fields fn_env (function_request creq) token phoneNumberId
             (obj [("phone", VStr phone); ("message", VStr message)]) (VStr phone) (VStr message));
    try done; [|by cbn; rewrite bool_decide_eq_false_2..].
  unfold sendWhatsAppMessage in Hs. rewrite Hurl in Hs. by simplify_eq.
Qed.

Lemma not_blank_nonempty m : blank m = false → m ≠ "".
Proof. by intros Hb ->. Qed.

Lemma phone_regex_nonempty phone : phone_regex_spec phone → phone ≠ "".
Proof. by intros (? & ? & -> & _). Qed.

(** End to end, [sendCustomMessage] with a non-empty message and a
    phone that does not match the phone expression returns
    [{ success: false, error: "Formato de teléfono inválido" }], and the
    function it calls sends nothing to the WhatsApp API. *)
Theorem sendCustomMessage_invalid_phone phone message :
  phone ≠ "" → message ≠ "" → ¬ phone_regex_spec phone →
  sendCustomMessage (λ c, fst (via_function fn_env api c)) phone message config env =
    failure_result (VStr "Formato de teléfono inválido") ∧
  ∀ creq, sendWhatsAppMessage phone message config env = inr creq → snd (via_function fn_env api creq) = None.
Proof.
  intros Hp Hm Hn. destruct (sendWhatsAppMessage_body phone message config env u Hurl) as [creq [Hs _]].
  pose proof (wa_notify_helper_request phone message creq Hs Hp Hm) as Hf.
  destruct (isValidPhoneNumber_reflect phone); [done|].
  unfold sendCustomMessage, send_and_report, via_function. rewrite Hs, Hf. split; [done|].
  intros c Hc. simplify_eq. by rewrite Hf.
Qed.

(** C26: end to end, [sendOrderStatusUpdate] with a valid phone and one of
    the four statuses sends exactly one message to the WhatsApp API, the
    status template (prefixed with ["Pedido #<id>"] when an order id is
    given), and returns the function's [messageId] on success; on every
    failure of the API call it returns [{ success: false, error: "Error al
    enviar mensaje" }], without the failure's details. *)
Theorem sendOrderStatusUpdate_delivers phone status st orderId :
  phone_regex_spec phone → order_status_of_string status = Some st →
  ∃ creq, sendWhatsAppMessage phone (status_text st orderId) config env = inr creq ∧
    snd (via_function fn_env api creq) =
      Some (graph_request (VStr phone) (status_text st orderId) token phoneNumberId) ∧
    sendOrderStatusUpdate (λ c, fst (via_function fn_env api c)) phone status orderId config env =
      match graph_result api with
      | inl _ => failure_result (VStr "Error al enviar mensaje")
      | inr result =>
          notify_result (FetchAnswered (resp_status (wa_success result)) (Some (resp_body (wa_success result))))
      end.
Proof.
  intros Hv Hst. destruct (sendWhatsAppMessage_body phone (status_text st orderId) config env u Hurl) as [creq [Hs _]].
  exists creq. split; [done|].
  pose proof (status_text_not_blank st orderId) as Hb.
  unfold sendOrderStatusUpdate, send_and_report, via_function.
  rewrite Hst, Hs, (wa_notify_helper_request _ _ creq Hs (phone_regex_nonempty _ Hv) (not_blank_nonempty _ Hb)), Hb.
  destruct (isValidPhoneNumber_reflect phone); [|done]. by destruct (graph_result api).
Qed.

(** End to end, [sendPaymentConfirmation] with a valid phone sends
    the payment template for the order to the WhatsApp API, and when the
    API accepts it returns [{ success: true, messageId }] with the id of
    the API's first message. *)
Theorem sendPaymentConfirmation_success phone orderId st result m0 ms c0 cs :
  phone_regex_spec phone → api = FetchAnswered st (Some result) → response_ok st = true →
  get result "messages" = Some (VArr (m0 :: ms)) → get result "contacts" = Some (VArr (c0 :: cs)) →
  sendPaymentConfirmation (λ c, fst (via_function fn_env api c)) phone orderId config env =
    obj [("success", VBool true); ("messageId", optional_get m0 "id")] ∧
  ∃ creq, sendWhatsAppMessage phone (payment_message orderId) config env = inr creq ∧
    snd (via_function fn_env api creq) =
      Some (graph_request (VStr phone) (payment_message orderId) token phoneNumberId).
Proof.
  intros Hv Ha Hok Hms Hcs.
  destruct (sendWhatsAppMessage_body phone (payment_message orderId) config env u Hurl) as [creq [Hs _]].
  pose proof (payment_message_not_blank orderId) as Hb.
  pose proof (wa_notify_helper_request _ _ creq Hs (phone_regex_nonempty _ Hv) (not_blank_nonempty _ Hb)) as Hf.
  destruct (isValidPhoneNumber_reflect phone); [|done].
  rewrite Hb, Ha in Hf. unfold graph_result, wa_success in Hf. rewrite Hok, Hms, Hcs in Hf.
  unfold sendPaymentConfirmation, send_and_report, via_function. rewrite Hs, Ha, Hf.
  split; [reflexivity|exists creq; by rewrite Hf].
Qed.

End e2e.

(** [sendOrderStatusUpdate] with a status outside the four of
    [validStatuses] returns [{ success: false, error: "Estado inválido:
    <status>. Debe ser uno de: PREPARING, SHIPPED, DELIVERED, CANCELED" }]
    whatever the function would answer: no request is made. *)
Theorem sendOrderStatusUpdate_invalid_status transport phone status orderId config env :
  status ∉ validStatuses →
  sendOrderStatusUpdate transport phone status orderId config env =
    failure_result (VStr ("Estado inválido: " +:+ status +:+
                          ". Debe ser uno de: PREPARING, SHIPPED, DELIVERED, CANCELED")).
Proof. intros H. apply order_status_of_string_None in H. unfold sendOrderStatusUpdate. by rewrite H. Qed.

(** ** The claims at concrete inputs *)

Lemma sendCustomMessage_invalid_phone_witness :
  ¬ phone_regex_spec "123456" ∧
  sendCustomMessage (λ c, fst (via_function sample_wa_env sample_api_ok c)) "123456" "Hola" None sample_helper_env =
    failure_result (VStr "Formato de teléfono inválido") ∧
  ∀ creq, sendWhatsAppMessage "123456" "Hola" None sample_helper_env = inr creq →
    snd (via_function sample_wa_env sample_api_ok creq) = None.
Proof.
  assert (¬ phone_regex_spec "123456") as Hn by (intros (? & ? & [=] & _)).
  split; [exact Hn|].
  exact (sendCustomMessage_invalid_phone sample_wa_env sample_api_ok "EAAG-token" "1055" None sample_helper_env
           sample_function_url eq_refl eq_refl ltac:(done) ltac:(done) eq_refl "123456" "Hola"
           ltac:(done) ltac:(done) Hn).
Defined.

Lemma sendOrderStatusUpdate_invalid_status_witness :
  sendOrderStatusUpdate (λ c, fst (via_function sample_wa_env sample_api_ok c)) "+573001234567" "SENT"
    (Some "ORD-12345") None sample_helper_env =
    failure_result (VStr ("Estado inválido: SENT. Debe ser uno de: PREPARING, SHIPPED, DELIVERED, CANCELED")).
Proof.
  exact (sendOrderStatusUpdate_invalid_status _ "+573001234567" "SENT" (Some "ORD-12345") None sample_helper_env
           ltac:(unfold validStatuses; rewrite !elem_of_cons, elem_of_nil; naive_solver)).
Defined.

Lemma sendOrderStatusUpdate_delivers_witness :
  ∃ creq, sendWhatsAppMessage "+573001234567" (status_text SHIPPED (Some "ORD-12345")) None sample_helper_env = inr creq ∧
    snd (via_function sample_wa_env sample_api_ok creq) =
      Some (graph_request (VStr "+573001234567") (status_text SHIPPED (Some "ORD-12345")) "EAAG-token" "1055") ∧
    sendOrderStatusUpdate (λ c, fst (via_function sample_wa_env sample_api_ok c)) "+573001234567" "SHIPPED"
      (Some "ORD-12345") None sample_helper_env =
      match graph_result sample_api_ok with
      | inl _ => failure_result (VStr "Error al enviar mensaje")
      | inr result =>
          notify_result (FetchAnswered (resp_status (wa_success result)) (Some (resp_body (wa_success result))))
      end.
Proof.
  exact (sendOrderStatusUpdate_delivers sample_wa_env sample_api_ok "EAAG-token" "1055" None sample_helper_env
           sample_function_url eq_refl eq_refl ltac:(done) ltac:(done) eq_refl "+573001234567" "SHIPPED" SHIPPED
           (Some "ORD-12345") (proj2 (reflect_iff _ _ (isValidPhoneNumber_reflect "+573001234567")) eq_refl) eq_refl).
Defined.

Lemma sendPaymentConfirmation_success_witness :
  sendPaymentConfirmation (λ c, fst (via_function sample_wa_env sample_api_ok c)) "+573001234567" "ORD-12345"
    None sample_helper_env = obj [("success", VBool true); ("messageId", VStr "wamid.1")] ∧
  ∃ creq, sendWhatsAppMessage "+573001234567" (payment_message "ORD-12345") None sample_helper_env = inr creq ∧
    snd (via_function sample_wa_env sample_api_ok creq) =
      Some (graph_request (VStr "+573001234567") (payment_message "ORD-12345") "EAAG-token" "1055").
Proof.
  exact (sendPaymentConfirmation_success sample_wa_env sample_api_ok "EAAG-token" "1055" None sample_helper_env
           sample_function_url eq_refl eq_refl ltac:(done) ltac:(done) eq_refl "+573001234567" "ORD-12345" 200
           sample_result (obj [("id", VStr "wamid.1")]) [] (obj [("wa_id", VStr "573001234567")]) []
           (proj2 (reflect_iff _ _ (isValidPhoneNumber_reflect "+573001234567")) eq_refl) eq_refl eq_refl eq_refl eq_refl).
Defined.

End Helpers.
