(* ===== verification/Examples.v ===== *)
(** * The usage examples of the WhatsApp notification service

    [src/supabase/functions/whatsapp-notify/examples.ts]: callers of the
    [whatsapp-notify] function, from another edge function (through the
    helpers of [helpers.ts], or by a direct [fetch]), from the browser (a
    [fetch] utility, a React hook and the components that use it) and
    through [supabase.functions.invoke].  None of them is imported by the
    application; they are the documented way to call the function.

    Each example is modelled as the requests it sends and the value it
    returns, with [fetch]'s answer a parameter ([transport]) as in
    [WhatsAppHelpers.v]; [via_function] plugs in the function itself.  The
    hook [useWhatsAppNotification] is a state machine over its two
    [useState] cells, with the calls in flight as a ghost component, and
    events for a call's start and its completion, so that overlapping calls
    are explicit interleavings.  Logging is modelled only where an example's
    observable behaviour is its log line or its [alert]. *)

From S2P Require Import Prelude JsValue Http WhatsApp WhatsAppHelpers.
Import Helpers.

(** [${v}] of an environment variable, [undefined] when it is unset. *)
Definition env_text (o : option string) : string := default "undefined" o.

Definition function_path : string := "/functions/v1/whatsapp-notify".

(** The request of examples 2.1 and 3.1: [fetch(`${URL}/functions/v1/
    whatsapp-notify`, ...)] with the key as bearer token and [apikey]
    (lines 92-103 and 170-178). *)
Definition notify_fetch (url key : option string) (phone : val) (message : string) : outbound :=
  Outbound (env_text url +:+ function_path)
           [("Content-Type", "application/json"); ("Authorization", "Bearer " +:+ env_text key);
            ("apikey", env_text key)]
           (obj [("phone", phone); ("message", VStr message)]).

(** ** Example 1: the helpers from another edge function, lines 20-79 *)

(** Lines 25-31 and 47-53: [{ success: true }] or
    [{ success: false, error: result.error }]; the helpers never throw, so
    the [catch] of lines 32-35 and 54-57 is not reached. *)
Definition report (result : val) : val :=
  if truthy (optional_get result "success") then obj [("success", VBool true)]
  else obj [("success", VBool false); ("error", optional_get result "error")].

(** Example 1.1, [handlePaymentConfirmation] (lines 20-36); [env] is the
    [Deno.env] the helpers read. *)
Definition handlePaymentConfirmation (transport : outbound → fetch_answer) (env : helper_env)
    (orderId customerPhone : string) : val :=
  report (sendPaymentConfirmation transport customerPhone orderId None env).

(** Example 1.2, [handleOrderStatusChange] (lines 39-58). *)
Definition handleOrderStatusChange (transport : outbound → fetch_answer) (env : helper_env)
    (orderId customerPhone newStatus : string) : val :=
  report (sendOrderStatusUpdate transport customerPhone newStatus (Some orderId) None env).

(** A call of a helper, as example 1.3 makes them. *)
Inductive helper_call :=
| CallPaymentConfirmation (phone orderId : string)
| CallOrderStatusUpdate (phone status orderId : string).

Definition perform (transport : outbound → fetch_answer) (env : helper_env) (c : helper_call) : val :=
  match c with
  | CallPaymentConfirmation phone orderId => sendPaymentConfirmation transport phone orderId None env
  | CallOrderStatusUpdate phone status orderId =>
      sendOrderStatusUpdate transport phone status (Some orderId) None env
  end.

Definition paymentResult : val := obj [("success", VBool true); ("orderId", VStr "ORD-12345")].

(** Example 1.3, [processPaymentWithNotification] (lines 61-79): the value
    returned and the helper calls made, in order.  Both calls are made
    whatever the first one reports, and their results are dropped. *)
Definition processPaymentWithNotification : val * list helper_call :=
  (paymentResult,
   [CallPaymentConfirmation "+573001234567" "ORD-12345";
    CallOrderStatusUpdate "+573001234567" "PREPARING" "ORD-12345"]).

(** ** Example 2: a direct [fetch] from the backend, lines 88-146 *)

Record backend_env := BackendEnv {
  be_supabase_url : option string;               (* SUPABASE_URL *)
  be_service_role_key : option string            (* SUPABASE_SERVICE_ROLE_KEY *)
}.

(** Lines 105-114: [inl] is the message of the error thrown (the
    rejection of [fetch] or of [response.json()], or the [Error] of line
    107), [inr] the data returned. *)
Definition direct_result (ans : fetch_answer) : string + val :=
  match ans with
  | FetchRejected msg => inl msg
  | FetchAnswered st None => inl JSON_SYNTAX_ERROR
  | FetchAnswered st (Some data) =>
      if response_ok st then inr data
      else match get data "error" with
           | Some e => inl ("Error al enviar WhatsApp: " +:+ to_text e)
           | None => inl "Cannot read properties of null (reading 'error')"
           end
  end.

(** Example 2.1, [sendWhatsAppDirectFromBackend] (lines 88-118). *)
Definition sendWhatsAppDirectFromBackend (transport : outbound → fetch_answer) (env : backend_env)
    (phone : val) (message : string) : string + val :=
  direct_result (transport (notify_fetch (be_supabase_url env) (be_service_role_key env) phone message)).

(** Line 130. *)
Definition approved_message (order_id : val) : string :=
  "¡Pago confirmado! Tu pedido #" +:+ to_text order_id +:+ " fue recibido.".

Definition webhook_ok : response := Response 200 (obj [("success", VBool true)]).
Definition webhook_error : response := Response 500 (obj [("error", VStr "Internal error")]).

(** Example 2.2, [paymentWebhookHandler] (lines 121-146): [req.json()]
    failing, [paymentData.status] on [null] and a failed notification all
    reach the [catch] and answer 500. *)
Definition paymentWebhookHandler (transport : outbound → fetch_answer) (env : backend_env)
    (req : request) : response :=
  match req_body req with
  | None => webhook_error
  | Some paymentData =>
      match get paymentData "status" with
      | None => webhook_error
      | Some status =>
          if strict_eq_str status "approved" then
            match sendWhatsAppDirectFromBackend transport env (optional_get paymentData "customer_phone")
                    (approved_message (optional_get paymentData "order_id")) with
            | inl _ => webhook_error
            | inr _ => webhook_ok
            end
          else webhook_ok
      end
  end.

(** ** Example 3: the browser, lines 159-293 *)

Record vite_env := ViteEnv {
  vite_supabase_url : option string;             (* VITE_SUPABASE_URL *)
  vite_supabase_anon_key : option string         (* VITE_SUPABASE_ANON_KEY *)
}.

(** Lines 178-187: [errorData.error || "Error al enviar mensaje"] on a
    failed answer, [{ success: true }] once the body parses; a rejection of
    [fetch] or of [response.json()] is caught by lines 188-195. *)
Definition notification_result (ans : fetch_answer) : val :=
  match ans with
  | FetchRejected msg => failure_result (VStr msg)
  | FetchAnswered st None => failure_result (VStr JSON_SYNTAX_ERROR)
  | FetchAnswered st (Some data) =>
      if negb (response_ok st) then
        match get data "error" with
        | Some e => failure_result (if truthy e then e else VStr "Error al enviar mensaje")
        | None => failure_result (VStr "Cannot read properties of null (reading 'error')")
        end
      else obj [("success", VBool true)]
  end.

(** Example 3.1, [sendWhatsAppNotification] (lines 159-197).  The phone is
    a [val]: callers pass [formData.get(...)], which may be [null]. *)
Definition sendWhatsAppNotification_request (env : vite_env) (phone : val) (message : string) : outbound :=
  notify_fetch (vite_supabase_url env) (vite_supabase_anon_key env) phone message.

Definition sendWhatsAppNotification (transport : outbound → fetch_answer) (env : vite_env)
    (phone : val) (message : string) : val :=
  notification_result (transport (sendWhatsAppNotification_request env phone message)).

(** *** Example 3.2, the hook [useWhatsAppNotification], lines 200-226 *)

(** Its two [useState] cells (lines 201-202), and the calls of
    [sendNotification] in flight, which the code does not keep. *)
Record hook_state := HookState {
  hs_loading : bool;
  hs_error : val;
  hs_pending : list nat
}.

Definition hook_init : hook_state := HookState false VNull [].

(** A call [c] of [sendNotification] runs lines 205-209 up to its [await]
    ([HookStart c]); it resumes when [fetch] answers ([HookFinish c ans]).
    Calls of several clicks interleave at their [await]s. *)
Inductive hook_event :=
| HookStart (c : nat)
| HookFinish (c : nat) (ans : fetch_answer).

(** Line 212: [result.error || "Error al enviar notificación"]. *)
Definition hook_error (result : val) : val :=
  let e := optional_get result "error" in
  if truthy e then e else VStr "Error al enviar notificación".

(** The value [sendNotification] returns (lines 211-215);
    [sendWhatsAppNotification] never throws, so the [catch] of lines
    217-219 is not reached. *)
Definition hook_returns (ans : fetch_answer) : bool :=
  truthy (optional_get (notification_result ans) "success").

Definition hook_step (ev : hook_event) (st : hook_state) : hook_state :=
  match ev with
  | HookStart c => HookState true VNull (c :: hs_pending st)
  | HookFinish c ans =>
      if bool_decide (c ∈ hs_pending st) then
        HookState false
          (if hook_returns ans then hs_error st else hook_error (notification_result ans))
          (filter (λ c', c' ≠ c) (hs_pending st))
      else st
  end.

Fixpoint hook_run (evs : list hook_event) (st : hook_state) : hook_state :=
  match evs with
  | [] => st
  | ev :: evs' => hook_run evs' (hook_step ev st)
  end.

(** A run in which no call starts while another is in flight. *)
Fixpoint non_overlapping (evs : list hook_event) (st : hook_state) : bool :=
  match evs with
  | [] => true
  | HookStart c :: evs' => bool_decide (hs_pending st = []) && non_overlapping evs' (hook_step (HookStart c) st)
  | ev :: evs' => non_overlapping evs' (hook_step ev st)
  end.

(** The completion of the calls [cs], each with the answer [ans c]. *)
Definition finish_all (ans : nat → fetch_answer) (cs : list nat) : list hook_event :=
  (λ c, HookFinish c (ans c)) <$> cs.

(** *** Example 3.3, [CheckoutComponent], lines 229-256 *)

Definition checkout_message (orderId : string) : string :=
  "🎉 ¡Pago confirmado! Tu pedido #" +:+ orderId +:+ " fue recibido.".

(** What [handlePaymentSuccess] logs (lines 239-247) once
    [sendNotification] returns [success].  The closure was created by a
    render, and [error] is the value of that render (line 230), not the
    one [sendNotification] has just set. *)
Definition handlePaymentSuccess_log (rendered_error : val) (success : bool) : list val :=
  if success then [VStr "Notificación enviada exitosamente"]
  else [VStr "Error al enviar notificación:"; rendered_error].

(** *** Examples 3.4 and 3.5, lines 259-293 *)

(** [handleSendOrderUpdate] (lines 259-270): the request and the text of
    the [alert]. *)
Definition handleSendOrderUpdate (transport : outbound → fetch_answer) (env : vite_env) : outbound * string :=
  let ob := sendWhatsAppNotification_request env (VStr "+573001234567") "Tu pedido está siendo preparado." in
  let result := notification_result (transport ob) in
  (ob, if truthy (optional_get result "success") then "Notificación enviada exitosamente"
       else "Error: " +:+ to_text (optional_get result "error")).

(** [FormData.get]: the first value under [k], [null] when there is none. *)
Fixpoint form_data_get (fd : list (string * string)) (k : string) : val :=
  match fd with
  | [] => VNull
  | (k', v) :: fd' => if bool_decide (k = k') then VStr v else form_data_get fd' k
  end.

Definition submit_order_message (orderId : val) : string :=
  "¡Pedido #" +:+ to_text orderId +:+ " creado exitosamente! Te mantendremos informado.".

(** [handleSubmitOrder] (lines 273-293): the request it sends; its
    result is only logged. *)
Definition handleSubmitOrder (env : vite_env) (fd : list (string * string)) : outbound :=
  sendWhatsAppNotification_request env (form_data_get fd "phone")
    (submit_order_message (form_data_get fd "orderId")).

(** ** Example 4: [supabase.functions.invoke], lines 301-356 *)

(** What [invoke] gives back: a rejection, or its [{ data, error }]. *)
Inductive invoke_answer :=
| InvokeThrows (msg : string)
| Invoked (data error : val).

Definition invoke_body (phone : val) (message : string) : val :=
  obj [("phone", phone); ("message", VStr message)].

(** Example 4.1, [sendNotificationWithSupabaseClient] (lines 301-323). *)
Definition sendNotificationWithSupabaseClient (invoke : val → invoke_answer) (phone message : string) : val :=
  match invoke (invoke_body (VStr phone) message) with
  | InvokeThrows _ => obj [("success", VBool false); ("error", VStr "Error inesperado")]
  | Invoked data error =>
      if truthy error then obj [("success", VBool false); ("error", optional_get error "message")]
      else obj [("success", VBool true); ("data", data)]
  end.

(** What [insert([orderData]).select().single()] gives back. *)
Inductive insert_answer :=
| InsertThrows (e : val)
| Inserted (order orderError : val).

(** Example 4.2, [createOrderAndNotify] (lines 326-356): the value
    returned and the bodies passed to [invoke].  A [TypeError] is
    represented by its message. *)
Definition createOrderAndNotify (insert : val → insert_answer) (invoke : val → invoke_answer)
    (orderData : val) : val * list val :=
  let fail e := obj [("success", VBool false); ("error", e)] in
  match insert orderData with
  | InsertThrows e => (fail e, [])
  | Inserted order orderError =>
      if truthy orderError then (fail orderError, [])
      else
        match get orderData "customer_phone", get order "id" with
        | None, _ => (fail (VStr "Cannot read properties of null (reading 'customer_phone')"), [])
        | _, None => (fail (VStr "Cannot read properties of null (reading 'id')"), [])
        | Some phone, Some id =>
            let body := invoke_body phone ("¡Gracias por tu pedido #" +:+ to_text id +:+ "! Lo estamos procesando.") in
            match invoke body with
            | InvokeThrows msg => (fail (VStr msg), [body])
            | Invoked _ _ => (obj [("success", VBool true); ("order", order)], [body])
            end
        end
  end.

(** ** Example 5: testing, lines 362-412 *)

Definition test_phone : string := "+573001234567".

(** [testWhatsAppNotification] (lines 362-374): the request it sends. *)
Definition testWhatsAppNotification (env : vite_env) : outbound :=
  sendWhatsAppNotification_request env (VStr test_phone) "Este es un mensaje de prueba desde CeluCol 🚀".

(** Lines 403-412. *)
Definition getStatusMessageForTesting (status : string) : string :=
  if bool_decide (status = "PREPARING") then "Tu pedido está siendo preparado."
  else if bool_decide (status = "SHIPPED") then "¡Tu pedido fue enviado!"
  else if bool_decide (status = "DELIVERED") then "¡Tu pedido fue entregado!"
  else if bool_decide (status = "CANCELED") then "Tu pedido fue cancelado."
  else "Estado desconocido".

(** Lines 381-385. *)
Definition test_statuses : list string := ["PREPARING"; "SHIPPED"; "DELIVERED"].

(** [testAllOrderStatuses] (lines 377-401): the requests it sends, one per
    status and in order; a failed send does not stop the loop. *)
Definition testAllOrderStatuses (env : vite_env) : list outbound :=
  (λ status, sendWhatsAppNotification_request env (VStr test_phone)
               ("Pedido #" +:+ "TEST-001" +:+ nl +:+ nl +:+ getStatusMessageForTesting status))
    <$> test_statuses.

(** ** Sample inputs *)

Definition sample_vite_env : vite_env := ViteEnv (Some "https://celucol.supabase.co") (Some "anon-key").
Definition sample_backend_env : backend_env :=
  BackendEnv (Some "https://celucol.supabase.co") (Some "service-role-key").

(** ** Lemmas *)

Lemma truthy_opt_nonempty x : x ≠ "" → truthy_opt (Some x) = Some x.
Proof. intros Hx. unfold truthy_opt. by rewrite truthy_nonempty. Qed.

(** With its URL and key set, the helpers' [sendWhatsAppMessage] (no
    [config]) builds exactly the request of [sendWhatsAppNotification]. *)
Lemma sendWhatsAppMessage_notification u k phone message :
  u ≠ "" → k ≠ "" →
  sendWhatsAppMessage phone message None (HelperEnv (Some u) (Some k)) =
    inr (sendWhatsAppNotification_request (ViteEnv (Some u) (Some k)) (VStr phone) message).
Proof.
  intros Hu Hk. unfold sendWhatsAppMessage, function_url, getWhatsAppFunctionUrl, truthy_opt.
  cbn -[truthy]. by rewrite !truthy_nonempty.
Qed.

(** Both callers report [success] alike on every answer but a 2xx one
    whose body is [null]. *)
Lemma notification_result_success ans :
  (∀ st d, ans = FetchAnswered st (Some d) → response_ok st = true → d ≠ VNull ∧ d ≠ VUndef) →
  optional_get (notification_result ans) "success" = optional_get (notify_result ans) "success".
Proof.
  intros H. destruct ans as [msg|st [d|]]; [done| |done].
  cbn [notification_result notify_result]. destruct (response_ok st) eqn:Hok; simpl.
  - destruct (H st d eq_refl Hok). by destruct d.
  - by destruct (get d "error").
Qed.

Lemma blank_approved_message o : blank (approved_message o) = false.
Proof. by apply blank_cons. Qed.

Lemma wa_success_obj result : ∃ fs, resp_body (wa_success result) = VObj fs.
Proof. unfold wa_success, wa_failure, wa_error. repeat case_match; eauto. Qed.

(** The function's view of a request of the examples with a valid phone. *)
Lemma wa_notify_notify_fetch fn_env api token pnid url key phone message :
  env_whatsapp_token fn_env = Some token → env_phone_number_id fn_env = Some pnid →
  token ≠ "" → pnid ≠ "" → phone_regex_spec phone → blank message = false →
  wa_notify fn_env (function_request (notify_fetch url key (VStr phone) message)) api =
    (match graph_result api with inl msg => wa_failure msg | inr result => wa_success result end,
     Some (graph_request (VStr phone) message token pnid)).
Proof.
  intros Ht Hi Htn Hin Hp Hb.
  apply (wa_valid_sends fn_env _ token pnid (obj [("phone", VStr phone); ("message", VStr message)])
           (VStr phone) (VStr message)); try done.
  - by apply truthy_nonempty, phone_regex_nonempty.
  - by apply truthy_nonempty, not_blank_nonempty.
Qed.

(** The hook's idle state: no call in flight, no loading indicator. *)
Definition hook_idle_inv (st : hook_state) : Prop := hs_pending st = [] → hs_loading st = false.

Lemma hook_step_idle_inv ev st : hook_idle_inv st → hook_idle_inv (hook_step ev st).
Proof. unfold hook_idle_inv. destruct ev; simpl; [done|]. by case_bool_decide. Qed.

Lemma hook_run_idle_inv evs st : hook_idle_inv st → hook_idle_inv (hook_run evs st).
Proof. revert st. induction evs; simpl; eauto using hook_step_idle_inv. Qed.

Lemma filter_ne_notin (c : nat) (l : list nat) : c ∉ l → filter (λ c', c' ≠ c) l = l.
Proof. intros Hc. apply filter_Forall_id, Forall_forall. set_solver. Qed.

Lemma hook_finish_pending c a st :
  hs_pending (hook_step (HookFinish c a) st) = filter (λ c', c' ≠ c) (hs_pending st).
Proof. simpl. case_bool_decide; [done|]. by rewrite filter_ne_notin. Qed.

Lemma finish_all_pending ans cs st :
  hs_pending (hook_run (finish_all ans cs) st) = filter (λ c, c ∉ cs) (hs_pending st).
Proof.
  revert st. induction cs as [|c cs IH]; intros st.
  - symmetry. apply filter_Forall_id, Forall_forall. set_solver.
  - change (finish_all ans (c :: cs)) with (HookFinish c (ans c) :: finish_all ans cs).
    cbn [hook_run]. rewrite IH, hook_finish_pending, list_filter_filter. apply list_filter_iff. set_solver.
Qed.

Lemma filter_notin_self (l : list nat) : filter (λ c, c ∉ l) l = [].
Proof.
  apply nil_length_inv, length_filter_nil_iff, Forall_forall. intros x Hx Hn. by apply Hn.
Qed.

(** The invariant of runs without overlapping calls: at most one call in
    flight, and the indicator on exactly while one is. *)
Definition hook_seq_inv (st : hook_state) : Prop :=
  length (hs_pending st) ≤ 1 ∧ (hs_loading st = true ↔ hs_pending st ≠ []).

Lemma hook_seq_inv_step ev st :
  hook_seq_inv st → (∀ c, ev = HookStart c → hs_pending st = []) → hook_seq_inv (hook_step ev st).
Proof.
  unfold hook_seq_inv. intros [Hlen Hl] Hs. destruct ev as [c|c a]; simpl.
  - rewrite (Hs c eq_refl). split; simpl; [lia|done].
  - case_bool_decide as Hc; [|done]. simpl. split.
    + etrans; [apply length_filter|done].
    + assert (filter (λ c', c' ≠ c) (hs_pending st) = []) as ->; [|naive_solver].
      destruct (hs_pending st) as [|x [|y l]]; simpl in *; [set_solver| |lia].
      apply list_elem_of_singleton in Hc as ->. rewrite filter_cons, decide_False; [done|naive_solver].
Qed.

Lemma non_overlapping_inv evs st :
  hook_seq_inv st → non_overlapping evs st = true → hook_seq_inv (hook_run evs st).
Proof.
  revert st. induction evs as [|ev evs IH]; intros st Hi Hn; simpl; [done|].
  destruct ev as [c|c a]; simpl in Hn.
  - apply andb_true_iff in Hn as [Hp Hn]. apply bool_decide_eq_true in Hp.
    apply IH; [|done]. apply hook_seq_inv_step; [done|]. by intros ? [= ->].
  - apply IH; [|done]. by apply hook_seq_inv_step.
Qed.

Lemma hook_error_truthy result : truthy (hook_error result) = true.
Proof.
  unfold hook_error. destruct (truthy (optional_get result "error")) eqn:He; [done|].
  by apply truthy_nonempty.
Qed.

(** ** The examples against the deployed code *)

(** C32: with its URL and anon key set, the browser utility
    [sendWhatsAppNotification] sends exactly the request of the helpers'
    [sendWhatsAppMessage], and reports [success] as [sendCustomMessage]
    does, on every answer of the function but a 2xx one with a [null]
    body. *)
Theorem sendWhatsAppNotification_agrees transport u k phone message :
  u ≠ "" → k ≠ "" →
  (∀ st d, transport (sendWhatsAppNotification_request (ViteEnv (Some u) (Some k)) (VStr phone) message)
             = FetchAnswered st (Some d) → response_ok st = true → d ≠ VNull ∧ d ≠ VUndef) →
  sendWhatsAppMessage phone message None (HelperEnv (Some u) (Some k)) =
    inr (sendWhatsAppNotification_request (ViteEnv (Some u) (Some k)) (VStr phone) message) ∧
  optional_get (sendWhatsAppNotification transport (ViteEnv (Some u) (Some k)) (VStr phone) message) "success" =
    optional_get (sendCustomMessage transport phone message None (HelperEnv (Some u) (Some k))) "success".
Proof.
  intros Hu Hk Hans. pose proof (sendWhatsAppMessage_notification u k phone message Hu Hk) as Hs.
  split; [done|]. unfold sendWhatsAppNotification, sendCustomMessage, send_and_report. rewrite Hs.
  apply notification_result_success. intros st d Heq. by apply (Hans st d Heq).
Qed.

(** On a 2xx answer whose body is [null] the two disagree: the helper
    reports the [TypeError] of [data.messageId], the utility a success. *)
Lemma sendWhatsAppNotification_null_body st :
  response_ok st = true →
  optional_get (notification_result (FetchAnswered st (Some VNull))) "success" = VBool true ∧
  optional_get (notify_result (FetchAnswered st (Some VNull))) "success" = VBool false.
Proof. intros Hok. cbn [notification_result notify_result]. by rewrite Hok. Qed.

(** End to end, an approved payment whose [customer_phone]
    matches the phone expression makes [paymentWebhookHandler] send the
    function the message ["¡Pago confirmado! Tu pedido #<order_id> fue
    recibido."], which the function passes unchanged to the WhatsApp API;
    the webhook answers 200 exactly when the function does, so a failed
    WhatsApp call answers the payment provider 500. *)
Theorem paymentWebhookHandler_notifies fn_env api env token pnid phone order_id r :
  env_whatsapp_token fn_env = Some token → env_phone_number_id fn_env = Some pnid →
  token ≠ "" → pnid ≠ "" →
  req_body r = Some (obj [("status", VStr "approved"); ("customer_phone", VStr phone); ("order_id", order_id)]) →
  phone_regex_spec phone →
  snd (via_function fn_env api
         (notify_fetch (be_supabase_url env) (be_service_role_key env) (VStr phone) (approved_message order_id)))
    = Some (graph_request (VStr phone) (approved_message order_id) token pnid) ∧
  paymentWebhookHandler (λ o, fst (via_function fn_env api o)) env r =
    match graph_result api with
    | inl _ => webhook_error
    | inr result => if response_ok (resp_status (wa_success result)) then webhook_ok else webhook_error
    end.
Proof.
  intros Ht Hi Htn Hin Hbody Hp.
  pose proof (λ url key, wa_notify_notify_fetch fn_env api token pnid url key phone (approved_message order_id)
                Ht Hi Htn Hin Hp (blank_approved_message order_id)) as Hw.
  unfold via_function. rewrite Hw. split; [by destruct (match graph_result api with _ => _ end)|].
  unfold paymentWebhookHandler, sendWhatsAppDirectFromBackend, via_function. rewrite Hbody. cbn -[wa_notify].
  rewrite Hw. destruct (graph_result api) as [msg|result]; [done|].
  destruct (wa_success_obj result) as [fs Hfs]. destruct (wa_success result) as [st b]; simpl in *; subst b.
  by destruct (response_ok st).
Qed.

(** ** The hook [useWhatsAppNotification] *)

(** C33: whatever calls of [sendNotification] have been started and
    however they interleaved, once the calls in flight complete (with any
    answers) none is left and the loading indicator is off. *)
Theorem hook_settles evs ans :
  hs_pending (hook_run (finish_all ans (hs_pending (hook_run evs hook_init))) (hook_run evs hook_init)) = [] ∧
  hs_loading (hook_run (finish_all ans (hs_pending (hook_run evs hook_init))) (hook_run evs hook_init)) = false.
Proof.
  assert (Hp : hs_pending (hook_run (finish_all ans (hs_pending (hook_run evs hook_init))) (hook_run evs hook_init)) = []).
  { by rewrite finish_all_pending, filter_notin_self. }
  split; [done|]. apply (hook_run_idle_inv _ _ (hook_run_idle_inv evs hook_init (λ _, eq_refl))), Hp.
Qed.

(** In a run where no call starts while another is in flight, the
    loading indicator is on exactly while a call is in flight. *)
Theorem hook_sequential_loading evs :
  non_overlapping evs hook_init = true →
  hs_loading (hook_run evs hook_init) = true ↔ hs_pending (hook_run evs hook_init) ≠ [].
Proof.
  intros Hn. apply (non_overlapping_inv evs hook_init); [|done]. split; simpl; [lia|done].
Qed.

(** With two overlapping calls, the completion of the first one
    turns the loading indicator off while the second is still in flight:
    the [finally] of one call resets the flag the other one set. *)
Theorem hook_overlap_not_loading a :
  hs_pending (hook_run [HookStart 0; HookStart 1; HookFinish 0 a] hook_init) = [1] ∧
  hs_loading (hook_run [HookStart 0; HookStart 1; HookFinish 0 a] hook_init) = false.
Proof. by vm_compute. Qed.

(** [CheckoutComponent] logs the [error] of the render that created its
    handler: after the first failed call it logs [null], while the hook
    holds the failure's message. *)
Theorem checkout_logs_stale_error a :
  hook_returns a = false →
  truthy (hs_error (hook_run [HookStart 0; HookFinish 0 a] hook_init)) = true ∧
  handlePaymentSuccess_log (hs_error hook_init) (hook_returns a) = [VStr "Error al enviar notificación:"; VNull].
Proof.
  intros Ha. cbn -[hook_returns notification_result]. rewrite Ha.
  split; [apply hook_error_truthy|done].
Qed.

(** [testAllOrderStatuses], documented as the test of every order status,
    leaves out ["CANCELED"], and the message it sends for a status is
    never the one [sendOrderStatusUpdate] sends for it. *)
Theorem testAllOrderStatuses_not_templates env :
  "CANCELED" ∉ test_statuses ∧
  Forall (λ ob, ∀ st, get (ob_body ob) "message" ≠ Some (VStr (status_text st (Some "TEST-001"))))
    (testAllOrderStatuses env).
Proof.
  split; [by apply (bool_decide_eq_true_1 ("CANCELED" ∉ test_statuses)); vm_compute|].
  repeat constructor; intros []; vm_compute; congruence.
Qed.

(** ** Witnesses *)

Lemma sendWhatsAppNotification_agrees_witness :
  sendWhatsAppMessage "+573001234567" "Hola" None (HelperEnv (Some "https://celucol.supabase.co") (Some "anon-key")) =
    inr (sendWhatsAppNotification_request sample_vite_env (VStr "+573001234567") "Hola") ∧
  optional_get (sendWhatsAppNotification (λ _, FetchAnswered 200 (Some (obj [("messageId", VStr "wamid.1")])))
                  sample_vite_env (VStr "+573001234567") "Hola") "success" =
    optional_get (sendCustomMessage (λ _, FetchAnswered 200 (Some (obj [("messageId", VStr "wamid.1")])))
                    "+573001234567" "Hola" None (HelperEnv (Some "https://celucol.supabase.co") (Some "anon-key")))
                 "success".
Proof.
  apply (sendWhatsAppNotification_agrees _ "https://celucol.supabase.co" "anon-key"); [done|done|].
  intros st d [= <- <-] _. done.
Defined.

Lemma paymentWebhookHandler_notifies_witness :
  snd (via_function sample_wa_env sample_api_ok
         (notify_fetch (be_supabase_url sample_backend_env) (be_service_role_key sample_backend_env)
            (VStr "+573001234567") (approved_message (VStr "ORD-1"))))
    = Some (graph_request (VStr "+573001234567") (approved_message (VStr "ORD-1")) "EAAG-token" "1055") ∧
  paymentWebhookHandler (λ o, fst (via_function sample_wa_env sample_api_ok o)) sample_backend_env
    (Request "POST" "/payments/webhook" None
       (Some (obj [("status", VStr "approved"); ("customer_phone", VStr "+573001234567");
                   ("order_id", VStr "ORD-1")]))) =
    match graph_result sample_api_ok with
    | inl _ => webhook_error
    | inr result => if response_ok (resp_status (wa_success result)) then webhook_ok else webhook_error
    end.
Proof.
  apply paymentWebhookHandler_notifies; try done.
  apply (reflect_iff _ _ (isValidPhoneNumber_reflect _)). vm_compute. reflexivity.
Defined.

Lemma hook_sequential_loading_witness :
  non_overlapping [HookStart 0; HookFinish 0 (FetchRejected "Failed to fetch"); HookStart 1] hook_init = true ∧
  (hs_loading (hook_run [HookStart 0; HookFinish 0 (FetchRejected "Failed to fetch"); HookStart 1] hook_init) = true ↔
   hs_pending (hook_run [HookStart 0; HookFinish 0 (FetchRejected "Failed to fetch"); HookStart 1] hook_init) ≠ []).
Proof. split; [vm_compute; reflexivity|apply hook_sequential_loading; vm_compute; reflexivity]. Defined.
