(* ===== verification/Email.v ===== *)
(** * The email function

    [src/src/supabase/functions/send-email/index.ts]: a [POST] with
    [{ to, type, data }] selects one of three templates by [type], builds
    the email ([from], [to: [to]], [subject], [html]) and sends it with the
    Resend SDK; the SDK's result becomes [{ success: true, messageId }] and
    any thrown error the 500 [{ error: error.message }].

    The templates are modelled by their content, not their markup: for each
    template, the values it interpolates, in order, and the sections it
    includes or leaves out ([email_html]).  The constant HTML and CSS
    around them are not modelled.  Numbers are [Z], as in [JsValue];
    [toLocaleString] is the [en-US] grouping of an integer by thousands,
    and [ToNumber] of a string reads a (signed) decimal integer, any other
    string being [NaN]. *)

From S2P Require Import Prelude JsValue Http.

Open Scope celucol_scope.

Module SendEmail.

(** ** Throwing computations *)

(** A computation that may throw, with the error's message. *)
Definition ebind {A B} (m : string + A) (k : A → string + B) : string + B :=
  match m with inl e => inl e | inr a => k a end.

Notation "'let?' x := m 'in' k" := (ebind m (λ x, k))
  (at level 10, x binder, m at level 100, k at level 200) : celucol_scope.

(** [v.k]: the [TypeError] on [undefined] and [null]. *)
Definition read (v : val) (k : string) : string + val :=
  match get v k with
  | Some x => inr x
  | None => inl ("Cannot read properties of " +:+ to_text v +:+ " (reading '" +:+ k +:+ "')")
  end.

(** ** Numbers *)

Fixpoint chunks3 {A} (l : list A) : list (list A) :=
  match l with
  | a :: b :: c :: rest => [a; b; c] :: chunks3 rest
  | [] => []
  | _ => [l]
  end.

(** The groups joined with [','] *)
Fixpoint join_groups (gs : list (list ascii)) : list ascii :=
  match gs with
  | [] => []
  | [g] => g
  | g :: gs' => g ++ ","%char :: join_groups gs'
  end.

(** The digits of a decimal numeral grouped by thousands with [','] *)
Definition group_digits (s : string) : string :=
  String.string_of_list_ascii
    (reverse (join_groups (chunks3 (reverse (String.list_ascii_of_string s))))).

(** [Number.prototype.toLocaleString()] on an integer. *)
Definition to_locale (z : Z) : string :=
  (if bool_decide (z < 0)%Z then "-" else "") +:+ group_digits (pretty (Z.to_N (Z.abs z))).

Definition digit_value (a : ascii) : option Z :=
  let n := nat_of_ascii a in if bool_decide (48 ≤ n ≤ 57) then Some (Z.of_nat (n - 48)) else None.

Fixpoint digits_value (acc : Z) (l : list ascii) : option Z :=
  match l with
  | [] => Some acc
  | a :: l' => d ← digit_value a; digits_value (10 * acc + d)%Z l'
  end.


(** [ToNumber] of a string: white space around a signed decimal integer;
    the empty string is [0]; [None] is [NaN]. *)
Definition string_to_number (s : string) : option Z :=
  let l := reverse (drop_js_space (reverse (drop_js_space (String.list_ascii_of_string s)))) in
  match l with
  | [] => Some 0%Z
  | "-"%char :: ((_ :: _) as ds) => Z.opp <$> digits_value 0 ds
  | "+"%char :: ((_ :: _) as ds) => digits_value 0 ds
  | ds => digits_value 0 ds
  end.

(** [ToNumber]: [None] is [NaN]. *)
Definition to_number (v : val) : option Z :=
  match v with
  | VNum z => Some z
  | VBool b => Some (if b then 1 else 0)%Z
  | VNull => Some 0%Z
  | VUndef => None
  | _ => string_to_number (to_text v)
  end.

(** [(a * b).toLocaleString()] *)
Definition product_locale (a b : val) : string :=
  match to_number a, to_number b with
  | Some x, Some y => to_locale (x * y)
  | _, _ => "NaN"
  end.

(** [v.toLocaleString()]: a string is itself; arrays and objects are
    rendered as by [String(v)]. *)
Definition locale_string (v : val) : string + string :=
  match v with
  | VUndef | VNull => inl ("Cannot read properties of " +:+ to_text v +:+ " (reading 'toLocaleString')")
  | VNum z => inr (to_locale z)
  | _ => inr (to_text v)
  end.

(** ** Status texts, lines 277-297 *)

Definition statusTexts : list (string * string) :=
  [("pendiente", "Pendiente de Confirmación"); ("confirmado", "Confirmado y en Preparación");
   ("enviado", "Enviado"); ("entregado", "Entregado"); ("cancelado", "Cancelado")].

Definition statusMessages : list (string * string) :=
  [("pendiente", "<p>Tu pedido está siendo revisado por nuestro equipo. Te notificaremos una vez sea confirmado.</p>");
   ("confirmado", "<p>¡Excelente! Tu pedido ha sido confirmado y estamos preparándolo para su envío.</p>");
   ("enviado", "<p>Tu pedido está en camino. Recibirás tu paquete pronto.</p>");
   ("entregado", "<p>¡Tu pedido ha sido entregado! Esperamos que disfrutes tus productos. Gracias por confiar en CeluCol.</p>");
   ("cancelado", "<p>Tu pedido ha sido cancelado. Si esto fue un error o tienes preguntas, contáctanos.</p>")].

(** [table[String(status)]] on an object literal (its own keys; the keys
    inherited from [Object.prototype] are not modelled). *)
Definition lookup_key (table : list (string * string)) (status : val) : option string :=
  snd <$> head (filter (λ kv, kv.1 = to_text status) table).

(** [statusTexts[status] || status] *)
Definition getStatusText (status : val) : val :=
  match lookup_key statusTexts status with Some t => VStr t | None => status end.

(** [messages[status] || ''] *)
Definition getStatusMessage (status : val) : string := default "" (lookup_key statusMessages status).

(** ** The templates' content *)

(** One row of the items table, line 120-127. *)
Record item_row := ItemRow {
  ir_name : string;
  ir_quantity : string;
  ir_price : string;
  ir_subtotal : string
}.

(** What each template interpolates and which of its sections it shows. *)
Inductive email_html :=
| RegistrationHtml (name role : string)
| OrderCreatedHtml (orderId : string) (items : list item_row) (total address paymentMethod : string)
| OrderUpdatedHtml (color emoji orderId statusText statusMessage : string) (timeline : list string).

(** [getRegistrationEmail], lines 82-117. *)
Definition getRegistrationEmail (data : val) : string + email_html :=
  let? name := read data "name" in
  let? role := read data "role" in
  inr (RegistrationHtml (to_text name) (to_text role)).

(** The callback of [data.items.map], lines 120-127. *)
Definition item_html (item : val) : string + item_row :=
  let? product := read item "product" in
  let? name := read product "name" in
  let? quantity := read item "quantity" in
  let? price := read product "price" in
  let? price_text := locale_string price in
  inr (ItemRow (to_text name) (to_text quantity) price_text (product_locale price quantity)).

Fixpoint items_html (items : list val) : string + list item_row :=
  match items with
  | [] => inr []
  | it :: rest => let? r := item_html it in let? rs := items_html rest in inr (r :: rs)
  end.

(** [data.items.map(...)]: [map] exists on arrays only. *)
Definition map_items (items : val) : string + list item_row :=
  match items with
  | VArr l => items_html l
  | VUndef | VNull => inl ("Cannot read properties of " +:+ to_text items +:+ " (reading 'map')")
  | _ => inl "data.items.map is not a function"
  end.

(** [getOrderCreatedEmail], lines 119-189. *)
Definition getOrderCreatedEmail (data : val) : string + email_html :=
  let? items := read data "items" in
  let? itemsHtml := map_items items in
  let? orderId := read data "orderId" in
  let? total := read data "total" in
  let? total_text := locale_string total in
  let? address := read data "shippingAddress" in
  let? payment := read data "paymentMethod" in
  inr (OrderCreatedHtml (to_text orderId) itemsHtml total_text (to_text address)
         (if strict_eq_str payment "tarjeta" then "Tarjeta de Crédito" else "Transferencia Bancaria")).

Definition statusColors : list (string * string) :=
  [("pendiente", "#f59e0b"); ("confirmado", "#3b82f6"); ("enviado", "#8b5cf6");
   ("entregado", "#10b981"); ("cancelado", "#ef4444")].

Definition statusEmojis : list (string * string) :=
  [("pendiente", "⏳"); ("confirmado", "✅"); ("enviado", "🚚"); ("entregado", "📦"); ("cancelado", "❌")].

(** The timeline of lines 239-264: the steps shown for a status. *)
Definition timeline (status : val) : list string :=
  ["Pedido Creado"] ++
  (if negb (strict_eq_str status "pendiente") then ["Pedido Confirmado"] else []) ++
  (if strict_eq_str status "enviado" || strict_eq_str status "entregado" then ["Pedido Enviado"] else []) ++
  (if strict_eq_str status "entregado" then ["Pedido Entregado"] else []).

(** [getOrderUpdatedEmail], lines 191-275; [statusColors[s]] of an unknown
    status renders as ["undefined"]. *)
Definition getOrderUpdatedEmail (data : val) : string + email_html :=
  let? status := read data "status" in
  let? orderId := read data "orderId" in
  inr (OrderUpdatedHtml (default "undefined" (lookup_key statusColors status))
         (default "undefined" (lookup_key statusEmojis status)) (to_text orderId)
         (to_text (getStatusText status)) (getStatusMessage status) (timeline status)).

(** ** The handler, lines 17-79 *)

Record email_data := EmailData {
  ed_from : string;
  ed_to : list val;
  ed_subject : string;
  ed_html : email_html
}.

(** What [resend.emails.send] does: throw, or return a value. *)
Inductive resend_answer :=
| ResendThrows (msg : string)
| ResendReturns (result : val).

(** The message of the [SyntaxError] of [req.json()] on an empty body. *)
Definition BODY_SYNTAX_ERROR : string := "Unexpected end of JSON input".

(** [const { to, type, data } = body] *)
Definition destructure (body : val) (k : string) : string + val :=
  match get body k with
  | Some v => inr v
  | None => inl ("Cannot destructure property '" +:+ k +:+ "' of '(intermediate value)' as it is " +:+
                 to_text body +:+ ".")
  end.

(** Lines 23-57: the [switch] on [type] building [emailData]. *)
Definition build_email (body : val) : string + email_data :=
  let? to := destructure body "to" in
  let? type := destructure body "type" in
  let? data := destructure body "data" in
  if strict_eq_str type "registration" then
    let? html := getRegistrationEmail data in
    inr (EmailData "CeluCol <noreply@tudominio.com>" [to] "¡Bienvenido a CeluCol!" html)
  else if strict_eq_str type "order_created" then
    let? orderId := read data "orderId" in
    let? html := getOrderCreatedEmail data in
    inr (EmailData "CeluCol <pedidos@tudominio.com>" [to] ("Pedido #" +:+ to_text orderId +:+ " - Confirmación") html)
  else if strict_eq_str type "order_updated" then
    let? orderId := read data "orderId" in
    let? status := read data "status" in
    let? html := getOrderUpdatedEmail data in
    inr (EmailData "CeluCol <pedidos@tudominio.com>" [to]
           ("Pedido #" +:+ to_text orderId +:+ " - " +:+ to_text (getStatusText status)) html)
  else inl "Tipo de email no válido".

Definition email_error (msg : string) : response := Response 500 (obj [("error", VStr msg)]).

(** The handler: the response, and the email handed to Resend, if any. *)
Definition send_email (r : request) (ans : resend_answer) : response * option email_data :=
  if bool_decide (req_method r = "OPTIONS") then (Response 200 (VStr "ok"), None)
  else
    match req_body r with
    | None => (email_error BODY_SYNTAX_ERROR, None)
    | Some body =>
        match build_email body with
        | inl e => (email_error e, None)
        | inr emailData =>
            match ans with
            | ResendThrows msg => (email_error msg, Some emailData)
            | ResendReturns result =>
                match read result "id" with
                | inl e => (email_error e, Some emailData)
                | inr id => (Response 200 (obj [("success", VBool true); ("messageId", id)]), Some emailData)
                end
            end
        end
    end.

(** The four steps of the timeline, in order. *)
Definition timeline_steps : list string :=
  ["Pedido Creado"; "Pedido Confirmado"; "Pedido Enviado"; "Pedido Entregado"].

(** ** Sample inputs *)

Definition sample_update_body : val :=
  obj [("to", VStr "cliente@celucol.co"); ("type", VStr "order_updated");
       ("data", obj [("orderId", VStr "ORD-12345"); ("status", VStr "cancelado")])].

Definition sample_email_request (body : val) : request :=
  Request "POST" "/functions/v1/send-email" None (Some body).

(** ** Lemmas *)

Lemma get_some_other v k k' x : get v k = Some x → ∃ y, get v k' = Some y.
Proof. destruct v; simpl; by eauto. Qed.

Lemma send_email_body r body ans :
  req_method r ≠ "OPTIONS" → req_body r = Some body →
  send_email r ans =
    match build_email body with
    | inl e => (email_error e, None)
    | inr emailData =>
        match ans with
        | ResendThrows msg => (email_error msg, Some emailData)
        | ResendReturns result =>
            match read result "id" with
            | inl e => (email_error e, Some emailData)
            | inr id => (Response 200 (obj [("success", VBool true); ("messageId", id)]), Some emailData)
            end
        end
    end.
Proof. intros Hm Hb. unfold send_email. by rewrite bool_decide_eq_false_2, Hb. Qed.

(** ** What the email function answers *)

(** A request whose [type] is none of ["registration"],
    ["order_created"], ["order_updated"] is answered 500 ["Tipo de email no
    válido"] and no email is sent. *)
Theorem send_email_unknown_type r body ans ty :
  req_method r ≠ "OPTIONS" → req_body r = Some body → get body "type" = Some ty →
  ty ≠ VStr "registration" → ty ≠ VStr "order_created" → ty ≠ VStr "order_updated" →
  send_email r ans = (email_error "Tipo de email no válido", None).
Proof.
  intros Hm Hb Ht H1 H2 H3. rewrite (send_email_body r body ans Hm Hb).
  destruct (get_some_other _ _ "to" _ Ht) as [to Hto], (get_some_other _ _ "data" _ Ht) as [d Hd].
  unfold build_email, destructure. rewrite Hto, Ht, Hd. cbn [ebind].
  repeat match goal with
         | |- context [strict_eq_str ty ?s] =>
             let E := fresh "E" in
             destruct (strict_eq_str ty s) eqn:E; [apply strict_eq_str_iff in E; congruence|]
         end.
  done.
Qed.

(** Every answer but the CORS preflight is a JSON object with [success]
    when 2xx and a string [error] otherwise ([Http.json_answer]). *)
Theorem send_email_json r ans :
  req_method r ≠ "OPTIONS" → json_answer (send_email r ans).1 = true.
Proof.
  intros Hm. unfold send_email. rewrite bool_decide_false by done.
  by repeat case_match.
Qed.

(** C27: once the email is built, [resend.emails.send]'s answer decides
    the response by its being [null] alone: any other value, including the
    [{ data: null, error }] with which the Resend SDK (v2) reports a
    failed send, is answered 200 [{ success: true }] with [result.id] as
    the [messageId] (undefined for a failed send); only a [null] or
    [undefined] result, whose [.id] throws, is answered 500. *)
Theorem send_email_failed_send_reported_success r body emailData result :
  req_method r ≠ "OPTIONS" → req_body r = Some body → build_email body = inr emailData →
  (result ≠ VNull → result ≠ VUndef →
   send_email r (ResendReturns result) =
     (Response 200 (obj [("success", VBool true); ("messageId", optional_get result "id")]), Some emailData)) ∧
  (result = VNull ∨ result = VUndef → resp_status (send_email r (ResendReturns result)).1 = 500).
Proof.
  intros Hm Hb He. rewrite (send_email_body r body _ Hm Hb), He. cbn [ebind].
  split.
  - intros Hn Hu. unfold read, optional_get. by destruct result.
  - by intros [->| ->].
Qed.

(** The order-update timeline always shows a prefix of the four steps
    (created, confirmed, shipped, delivered); for a cancelled order the
    email built shows the order as created and confirmed ("being
    prepared"), under the subject ["Pedido #<id> - Cancelado"]. *)
Theorem order_updated_cancelled_timeline to body data orderId :
  get body "to" = Some to → get body "type" = Some (VStr "order_updated") → get body "data" = Some data →
  get data "orderId" = Some orderId → get data "status" = Some (VStr "cancelado") →
  (∀ status, timeline status `prefix_of` timeline_steps) ∧
  build_email body =
    inr (EmailData "CeluCol <pedidos@tudominio.com>" [to] ("Pedido #" +:+ to_text orderId +:+ " - Cancelado")
           (OrderUpdatedHtml "#ef4444" "❌" (to_text orderId) "Cancelado"
              (getStatusMessage (VStr "cancelado")) ["Pedido Creado"; "Pedido Confirmado"])).
Proof.
  intros Hto Hty Hd Ho Hs. split.
  - intros status. unfold timeline, timeline_steps.
    destruct status; cbn [strict_eq_str]; repeat case_bool_decide; simplify_eq; simpl;
      by repeat (apply prefix_cons || apply prefix_nil).
  - unfold build_email, destructure. rewrite Hto, Hty, Hd. cbn [ebind].
    unfold getOrderUpdatedEmail, read. rewrite Ho, Hs. reflexivity.
Qed.

(** ** The claims at concrete inputs *)

Lemma send_email_unknown_type_witness :
  send_email (sample_email_request (obj [("to", VStr "cliente@celucol.co"); ("type", VStr "newsletter")]))
    (ResendReturns (obj [("id", VStr "re_1")])) = (email_error "Tipo de email no válido", None).
Proof.
  exact (send_email_unknown_type
           (sample_email_request (obj [("to", VStr "cliente@celucol.co"); ("type", VStr "newsletter")]))
           (obj [("to", VStr "cliente@celucol.co"); ("type", VStr "newsletter")]) _
           (VStr "newsletter") ltac:(by cbn) eq_refl eq_refl ltac:(done) ltac:(done) ltac:(done)).
Defined.

Lemma send_email_failed_send_reported_success_witness :
  ∃ emailData, build_email sample_update_body = inr emailData ∧
  send_email (sample_email_request sample_update_body)
    (ResendReturns (obj [("data", VNull); ("error", obj [("message", VStr "Invalid `to` field")])])) =
    (Response 200 (obj [("success", VBool true); ("messageId", VUndef)]), Some emailData).
Proof.
  eexists. split; [reflexivity|].
  apply (proj1 (send_email_failed_send_reported_success (sample_email_request sample_update_body)
                  sample_update_body _ (obj [("data", VNull); ("error", obj [("message", VStr "Invalid `to` field")])])
                  ltac:(by cbn) eq_refl eq_refl)); discriminate.
Defined.

Lemma order_updated_cancelled_timeline_witness :
  build_email sample_update_body =
    inr (EmailData "CeluCol <pedidos@tudominio.com>" [VStr "cliente@celucol.co"] ("Pedido #ORD-12345 - Cancelado")
           (OrderUpdatedHtml "#ef4444" "❌" "ORD-12345" "Cancelado"
              (getStatusMessage (VStr "cancelado")) ["Pedido Creado"; "Pedido Confirmado"])).
Proof.
  exact (proj2 (order_updated_cancelled_timeline (VStr "cliente@celucol.co") sample_update_body
                  (obj [("orderId", VStr "ORD-12345"); ("status", VStr "cancelado")]) (VStr "ORD-12345")
                  eq_refl eq_refl eq_refl eq_refl eq_refl)).
Defined.

End SendEmail.
