(* ===== verification/Client.v ===== *)
(** * The browser client: the React views that call the edge functions

    [src/src/components/*.tsx].  The views keep state in React hooks and
    send [fetch] requests to the manage-roles function; each is modelled by
    its state (a record), the events that change it (one function per
    handler, with the guards the markup puts on it: [disabled] buttons,
    [confirm] dialogs, early [return]s), and the [request] each handler
    sends, in the shape [Router.serve_manage_roles] receives it.

    - [RoleForm.tsx]: the role editor.  Its state is [role_form]; the
      events are the input changes, adding and removing a permission, the
      submission (which sends a [POST] or a [PUT]) and the end of the save.
    - [RolesView.tsx]: the role list and its "Deshabilitar" button, which
      sends a [DELETE] without [hard].
    - [UsersRolesPanel.tsx], [UserRow.tsx], [UserRoleSelector.tsx],
      [DisableUserButton.tsx], [DeleteUserButton.tsx], [UsersView.tsx]:
      the user list and its role, enable/disable and delete actions.

    [FUNCTIONS_URL] is [VITE_SUPABASE_FUNCTIONS_URL] or the project's
    [https://<id>.supabase.co/functions/v1]; only its pathname reaches the
    router, and it is a parameter ([fn_path]).  The rendering, the toasts
    and the alerts' texts are not modelled.  A permission badge removes the
    entries strictly equal to its name, which is a string for every role
    the server lists. *)

From S2P Require Import Prelude JsValue Store RoleStore Backend Http ManageUsers ManageRoles Router.

(** ** Requests *)

(** [if (token) headers.Authorization = `Bearer ${token}`] *)
Definition auth_header (token : option string) : option string :=
  match token with
  | Some t => if truthy (VStr t) then Some ("Bearer " +:+ t) else None
  | None => None
  end.

(** [fetch(`${FUNCTIONS_URL}${endpoint}`, { method, headers, body })] as
    the function receives it. *)
Definition client_request (fn_path : string) (token : option string) (method endpoint : string)
    (body : option val) : request :=
  Request method (fn_path +:+ endpoint) (auth_header token) body.

(** [res.ok ? json.data || [] : error]: the list a view shows after a
    fetch, [None] when it alerts instead. *)
Definition fetched_data (resp : response) : option val :=
  if response_ok (resp_status resp) then
    d ← get (resp_body resp) "data"; Some (if truthy d then d else VArr [])
  else None.

(** ** [RoleForm.tsx] *)

Record role_form := RoleFormState {
  rf_name : val;
  rf_description : val;
  rf_permissions : list val;
  rf_permissionInput : string;
  rf_saving : bool
}.

(** Line 13: [role?.permissions ? role.permissions.map((p) => p.name) : []];
    [None] is the [TypeError] of a non-array or of a [null] entry. *)
Definition init_permissions (role : val) : option (list val) :=
  let ps := optional_get role "permissions" in
  if truthy ps then
    match ps with VArr l => mapM (λ p, get p "name") l | _ => None end
  else Some [].

(** Lines 11-15: the state of a form opened on [role] ([undefined] for a
    new role). *)
Definition init_form (role : val) : option role_form :=
  perms ← init_permissions role;
  Some (RoleFormState (nullish_or (optional_get role "name") (VStr ""))
                      (nullish_or (optional_get role "description") (VStr "")) perms "" false).

Definition with_permissions (st : role_form) (perms : list val) (input : string) : role_form :=
  RoleFormState (rf_name st) (rf_description st) perms input (rf_saving st).

(** [handleAddPermission], lines 26-31. *)
Definition handleAddPermission (value : option string) (st : role_form) : role_form :=
  let v := trim (default (rf_permissionInput st) value) in
  if bool_decide (v = "") then st
  else
    with_permissions st
      (if existsb (λ x, strict_eq_str x v) (rf_permissions st) then rf_permissions st
       else rf_permissions st ++ [VStr v]) "".

(** [handleRemovePermission], lines 33-35. *)
Definition handleRemovePermission (p : string) (st : role_form) : role_form :=
  with_permissions st (filter (λ x, strict_eq_str x p = false) (rf_permissions st)) (rf_permissionInput st).

(** [handleSubmit], lines 37-61: the request it sends. *)
Definition handleSubmit (fn_path : string) (token : option string) (role : val) (st : role_form) : request :=
  let payload := [("name", rf_name st); ("description", rf_description st);
                  ("permissions", VArr (rf_permissions st))] in
  let id := optional_get role "id" in
  if truthy id then client_request fn_path token "PUT" "/manage-roles" (Some (obj (("id", id) :: payload)))
  else client_request fn_path token "POST" "/manage-roles" (Some (obj payload)).

(** The events of the form (lines 66-99). *)
Inductive form_event :=
| SetName (v : string)
| SetDescription (v : string)
| SetPermissionInput (v : string)
| AddPermission                   (* Enter in the permission input, or "Agregar" *)
| RemovePermission (p : string)   (* the badge's "✕" *)
| Submit                          (* "Guardar" *)
| SaveDone.                       (* the [finally] of [handleSubmit] *)

Definition set_saving (st : role_form) (b : bool) : role_form :=
  RoleFormState (rf_name st) (rf_description st) (rf_permissions st) (rf_permissionInput st) b.

(** One event: the new state and the request sent, if any.  While a save
    is running every input and button is [disabled={saving}]; "Guardar" is
    also disabled while the name is falsy. *)
Definition form_step (fn_path : string) (token : option string) (role : val) (ev : form_event)
    (st : role_form) : role_form * option request :=
  match ev with
  | SaveDone => (set_saving st false, None)
  | _ =>
      if rf_saving st then (st, None)
      else
        match ev with
        | SetName v => (RoleFormState (VStr v) (rf_description st) (rf_permissions st)
                                      (rf_permissionInput st) (rf_saving st), None)
        | SetDescription v => (RoleFormState (rf_name st) (VStr v) (rf_permissions st)
                                             (rf_permissionInput st) (rf_saving st), None)
        | SetPermissionInput v => (with_permissions st (rf_permissions st) v, None)
        | AddPermission => (handleAddPermission None st, None)
        | RemovePermission p => (handleRemovePermission p st, None)
        | Submit =>
            if truthy (rf_name st) then (set_saving st true, Some (handleSubmit fn_path token role st))
            else (st, None)
        | SaveDone => (st, None)
        end
  end.

(** A sequence of events: the final state and the requests sent, in order. *)
Fixpoint form_run (fn_path : string) (token : option string) (role : val) (evs : list form_event)
    (st : role_form) : role_form * list request :=
  match evs with
  | [] => (st, [])
  | ev :: evs' =>
      let '(st1, sent) := form_step fn_path token role ev st in
      let '(st2, rest) := form_run fn_path token role evs' st1 in
      (st2, option_list sent ++ rest)
  end.

(** ** The permission editor as an operation on a set

    The abstract form keeps the permissions as a finite set: adding inserts
    the trimmed input, removing deletes the name, and a submission sends
    the set.  [form_refines] relates a form to it: the list holds distinct
    strings whose set is the abstract one. *)

Record abs_form := AbsForm {
  af_name : val;
  af_description : val;
  af_permissions : gset string;
  af_input : string;
  af_saving : bool
}.

Definition abs_step (ev : form_event) (a : abs_form) : abs_form * option (gset string) :=
  match ev with
  | SaveDone => (AbsForm (af_name a) (af_description a) (af_permissions a) (af_input a) false, None)
  | _ =>
      if af_saving a then (a, None)
      else
        match ev with
        | SetName v => (AbsForm (VStr v) (af_description a) (af_permissions a) (af_input a) false, None)
        | SetDescription v => (AbsForm (af_name a) (VStr v) (af_permissions a) (af_input a) false, None)
        | SetPermissionInput v => (AbsForm (af_name a) (af_description a) (af_permissions a) v false, None)
        | AddPermission =>
            let v := trim (af_input a) in
            if bool_decide (v = "") then (a, None)
            else (AbsForm (af_name a) (af_description a) ({[v]} ∪ af_permissions a) "" false, None)
        | RemovePermission p =>
            (AbsForm (af_name a) (af_description a) (af_permissions a ∖ {[p]}) (af_input a) false, None)
        | Submit =>
            if truthy (af_name a) then
              (AbsForm (af_name a) (af_description a) (af_permissions a) (af_input a) true,
               Some (af_permissions a))
            else (a, None)
        | SaveDone => (a, None)
        end
  end.

Fixpoint abs_run (evs : list form_event) (a : abs_form) : abs_form * list (gset string) :=
  match evs with
  | [] => (a, [])
  | ev :: evs' =>
      let '(a1, sent) := abs_step ev a in
      let '(a2, rest) := abs_run evs' a1 in
      (a2, option_list sent ++ rest)
  end.

Definition form_refines (st : role_form) (a : abs_form) : Prop :=
  rf_name st = af_name a ∧ rf_description st = af_description a ∧
  rf_permissionInput st = af_input a ∧ rf_saving st = af_saving a ∧
  ∃ ps, rf_permissions st = VStr <$> ps ∧ NoDup ps ∧ list_to_set ps = af_permissions a.

(** The permission list a request carries. *)
Definition payload_permissions (r : request) : option val :=
  b ← req_body r; get b "permissions".

(** A request sends the permissions of [S], each once. *)
Definition sends_set (r : request) (S : gset string) : Prop :=
  ∃ ps, payload_permissions r = Some (VArr (VStr <$> ps)) ∧ NoDup ps ∧ list_to_set ps = S.

(** ** [RolesView.tsx] *)

(** [fetchRoles], lines 17-35. *)
Definition fetchRoles (fn_path : string) (token : option string) : request :=
  client_request fn_path token "GET" "/manage-roles" None.

(** [handleDelete], lines 39-57: the [DELETE] it sends once [confirm]ed. *)
Definition handleDelete (fn_path : string) (token : option string) (id : val) (confirmed : bool)
    : option request :=
  if confirmed then Some (client_request fn_path token "DELETE" "/manage-roles" (Some (obj [("id", id)])))
  else None.

(** The "Deshabilitar" button, line 88: a first [confirm], then
    [handleDelete] with its own. *)
Definition disable_role_click (fn_path : string) (token : option string) (r : val) (confirm1 confirm2 : bool)
    : option request :=
  if confirm1 then handleDelete fn_path token (optional_get r "id") confirm2 else None.

(** ** [UsersRolesPanel.tsx] and the user row *)

(** [fetchUsers] of the panel (lines 20-35) and of [UsersView.tsx]
    (lines 11-30). *)
Definition fetchUsers (fn_path : string) (token : option string) : request :=
  client_request fn_path token "GET" "/manage-roles/manage-users" None.

(** [assignRole], lines 39-52: nothing is sent for an empty choice. *)
Definition assignRole (fn_path : string) (token : option string) (user_id role_name : val) : option request :=
  if truthy role_name then
    Some (client_request fn_path token "POST" "/manage-roles/manage-users/assign-role"
            (Some (obj [("user_id", user_id); ("role_name", role_name)])))
  else None.

(** [toggleActive], lines 54-65, and [DisableUserButton]'s [toggle]
    (lines 10-22): [is_active: !user.is_active]. *)
Definition toggleActive (fn_path : string) (token : option string) (user : val) : request :=
  client_request fn_path token "PATCH" "/manage-roles/manage-users/disable"
    (Some (obj [("user_id", optional_get user "id");
                ("is_active", VBool (negb (truthy (optional_get user "is_active"))))])).

(** [deleteUser], lines 67-79, and [DeleteUserButton]'s [remove]
    (lines 10-22), once [confirm]ed. *)
Definition deleteUser (fn_path : string) (token : option string) (user : val) (confirmed : bool)
    : option request :=
  if confirmed then
    Some (client_request fn_path token "DELETE" "/manage-roles/manage-users/delete"
            (Some (obj [("user_id", optional_get user "id")])))
  else None.

(** Lines 81-84: the roles the panel's selector offers. *)
Definition roleOptions : list string := ["cliente"; "administrador"].

(** [UserRoleSelector]'s [save], lines 24-34: the selected role's name,
    among every role [GET /manage-roles] lists. *)
Definition selector_save (fn_path : string) (token : option string) (user selected : val) : option request :=
  assignRole fn_path token (optional_get user "id") selected.

(** The names [UserRoleSelector] offers, lines 40-41: every listed role,
    disabled ones included. *)
Definition selector_options (roles : list val) : list val :=
  (λ r, optional_get r "name") <$> roles.

(** [DisableUserButton]'s [toggle], lines 10-22: the request of the
    panel's [toggleActive]. *)
Definition DisableUserButton_toggle (fn_path : string) (token : option string) (user : val) : request :=
  client_request fn_path token "PATCH" "/manage-roles/manage-users/disable"
    (Some (obj [("user_id", optional_get user "id");
                ("is_active", VBool (negb (truthy (optional_get user "is_active"))))])).

(** [DeleteUserButton]'s [remove], lines 10-22. *)
Definition DeleteUserButton_remove (fn_path : string) (token : option string) (user : val) (confirmed : bool)
    : option request :=
  if confirmed then
    Some (client_request fn_path token "DELETE" "/manage-roles/manage-users/delete"
            (Some (obj [("user_id", optional_get user "id")])))
  else None.

(** [UsersView]'s [fetchUsers], lines 11-30. *)
Definition UsersView_fetchUsers (fn_path : string) (token : option string) : request :=
  client_request fn_path token "GET" "/manage-roles/manage-users" None.

(** The first cell of a user's row ([UserRow.tsx] line 12, the panel's
    line 107): [user.user_metadata?.full_name || user.email || user.id]. *)
Definition user_label (user : val) : val :=
  let full_name := optional_get (optional_get user "user_metadata") "full_name" in
  if truthy full_name then full_name
  else let email := optional_get user "email" in
       if truthy email then email else optional_get user "id".

(** The state cell and the toggle's caption ([UserRow.tsx] line 17,
    [DisableUserButton.tsx] line 26). *)
Definition status_label (user : val) : string :=
  if truthy (optional_get user "is_active") then "Activo" else "Deshabilitado".

Definition toggle_label (user : val) : string :=
  if truthy (optional_get user "is_active") then "Deshabilitar" else "Habilitar".

(** The pathname of the default [FUNCTIONS_URL],
    [https://${projectId}.supabase.co/functions/v1]. *)
Definition default_functions_path : string := "/functions/v1".

(** ** A new role's form *)

(** [init_form undefined]: the state of "Nuevo rol". *)
Definition new_form : role_form := RoleFormState (VStr "") (VStr "") [] "" false.

(** ** Sample inputs *)

(** A new role typed into the form: a name, a permission entered with
    spaces, the same permission again, a second one added then removed. *)
Definition sample_form_events : list form_event :=
  [SetName "ventas"; SetPermissionInput " leer "; AddPermission; SetPermissionInput "leer"; AddPermission;
   SetPermissionInput "escribir"; AddPermission; RemovePermission "escribir"].


Definition step_sends (c : option request) (a : option (gset string)) : Prop :=
  match c, a with
  | Some r, Some set => sends_set r set
  | None, None => True
  | _, _ => False
  end.

(** ** The permission editor refines the set editor *)

Lemma existsb_strict_eq_fmap (ps : list string) v :
  existsb (λ x, strict_eq_str x v) (VStr <$> ps) = bool_decide (v ∈ ps).
Proof.
  induction ps as [|p ps IH]; [done|]. rewrite fmap_cons. cbn [existsb]. rewrite IH. unfold strict_eq_str.
  apply eq_bool_prop_intro. rewrite orb_True, !bool_decide_spec, elem_of_cons. naive_solver.
Qed.

Lemma filter_strict_eq_fmap (ps : list string) p :
  filter (λ x, strict_eq_str x p = false) (VStr <$> ps) = VStr <$> filter (λ x, x ≠ p) ps.
Proof.
  induction ps as [|q ps IH]; [done|]. rewrite fmap_cons, !filter_cons. cbn [strict_eq_str].
  destruct (decide (q = p)) as [->|Hne].
  - rewrite bool_decide_eq_true_2, !decide_False by naive_solver. by rewrite IH.
  - rewrite bool_decide_eq_false_2, !decide_True by done. by rewrite IH.
Qed.

Lemma list_to_set_filter_ne (ps : list string) p :
  list_to_set (filter (λ x, x ≠ p) ps) = (list_to_set ps ∖ {[p]} : gset string).
Proof. apply set_eq. intros x. rewrite elem_of_list_to_set, list_elem_of_filter. set_solver. Qed.

Lemma payload_permissions_submit fn_path token role st :
  payload_permissions (handleSubmit fn_path token role st) = Some (VArr (rf_permissions st)).
Proof. unfold handleSubmit. by destruct (truthy (optional_get role "id")). Qed.

(** One event keeps the relation, and the form sends a request exactly
    when the abstract form sends a set, the set the request carries. *)
Lemma form_refines_mk n d ps input saving (S : gset string) :
  NoDup ps → list_to_set ps = S →
  form_refines (RoleFormState n d (VStr <$> ps) input saving) (AbsForm n d S input saving).
Proof. intros. split_and!; try done. by exists ps. Qed.

Lemma form_step_refines fn_path token role ev st a :
  form_refines st a →
  form_refines (form_step fn_path token role ev st).1 (abs_step ev a).1 ∧
  step_sends (form_step fn_path token role ev st).2 (abs_step ev a).2.
Proof.
  destruct st as [n d perms input saving], a as [n' d' S input' saving'].
  intros (Hn & Hd & Hi & Hs & ps & Hp & Hnd & Hset); simpl in *; subst.
  destruct ev as [v|v|v| |p| |]; cbn [form_step abs_step rf_saving af_saving];
    [destruct saving'..|]; cbn [fst snd];
    try (split; [by apply form_refines_mk|done]).
  - (* AddPermission *)
    unfold handleAddPermission. simpl.
    destruct (decide (trim input' = "")) as [Hv|Hv].
    { rewrite !bool_decide_eq_true_2 by done. split; [by apply form_refines_mk|done]. }
    rewrite !bool_decide_eq_false_2 by done. simpl.
    rewrite existsb_strict_eq_fmap. case_bool_decide as Hin; (split; [|done]).
    + apply form_refines_mk; [done|]. set_solver.
    + replace ((VStr <$> ps) ++ [VStr (trim input')]) with (VStr <$> (ps ++ [trim input']))
        by (by rewrite fmap_app). apply form_refines_mk.
      * apply NoDup_app. split_and!; [done| |apply NoDup_singleton]. set_solver.
      * rewrite list_to_set_app_L. simpl. set_solver.
  - (* RemovePermission *)
    unfold handleRemovePermission. cbn [rf_permissionInput rf_permissions with_permissions].
    rewrite filter_strict_eq_fmap. split; [|done]. apply form_refines_mk.
    + by apply NoDup_filter.
    + apply list_to_set_filter_ne.
  - (* Submit *)
    simpl. destruct (truthy n'); cbn [fst snd]; [|split; [by apply form_refines_mk|done]].
    split; [unfold set_saving; simpl; by apply form_refines_mk|]. exists ps. by rewrite payload_permissions_submit.
Qed.

(** The state half of the simulation, along any sequence of events. *)
Lemma form_run_state_refines fn_path token role evs st a :
  form_refines st a → form_refines (form_run fn_path token role evs st).1 (abs_run evs a).1.
Proof.
  revert st a. induction evs as [|ev evs IH]; intros st a Hr; simpl; [done|].
  destruct (form_step_refines fn_path token role ev st a Hr) as [Hr1 _].
  destruct (form_step fn_path token role ev st) as [st1 c], (abs_step ev a) as [a1 c'].
  simpl in *. specialize (IH st1 a1 Hr1).
  by destruct (form_run fn_path token role evs st1) as [st2 rs], (abs_run evs a1) as [a2 rs'].
Qed.

(** C34: along any sequence of events, the role form's permission
    list holds distinct strings whose set is the set the abstract editor
    keeps, and the requests the form sends are those the abstract editor
    sends, each carrying exactly the abstract set's names, once each. *)
Theorem form_run_refines fn_path token role evs st a :
  form_refines st a →
  form_refines (form_run fn_path token role evs st).1 (abs_run evs a).1 ∧
  Forall2 sends_set (form_run fn_path token role evs st).2 (abs_run evs a).2.
Proof.
  revert st a. induction evs as [|ev evs IH]; intros st a Hr; simpl; [by split|].
  destruct (form_step_refines fn_path token role ev st a Hr) as [Hr1 Hs1].
  destruct (form_step fn_path token role ev st) as [st1 c], (abs_step ev a) as [a1 c'].
  simpl in *. destruct (IH st1 a1 Hr1) as [Hr2 Hs2].
  destruct (form_run fn_path token role evs st1) as [st2 rs], (abs_run evs a1) as [a2 rs'].
  split; [done|]. simpl in *. destruct c, c'; simpl in *; [by constructor| done | done | done].
Qed.

(** ** The form and the server *)

Lemma init_form_new : init_form VUndef = Some new_form.
Proof. done. Qed.

Lemma new_form_refines : form_refines new_form (AbsForm (VStr "") (VStr "") ∅ "" false).
Proof. apply (form_refines_mk _ _ []); [constructor|done]. Qed.

(** The router hands a [POST] to [.../manage-roles] to [create_role]. *)
Lemma serve_post_manage_roles r body :
  req_method r = "POST" → req_path r = default_functions_path +:+ "/manage-roles" → req_body r = Some body →
  serve_manage_roles r = catch_500 (create_role body).
Proof.
  intros Hm Hp Hb. unfold serve_manage_roles, route, is_method, with_body, json_body.
  rewrite Hm, Hp, Hb. reflexivity.
Qed.

Lemma run_catch_500_ok p fs s resp s' fs' :
  run p fs s = Outcome (Ok resp) s' fs' → run (catch_500 p) fs s = Outcome (Ok resp) s' fs'.
Proof. intros H. unfold catch_500. by rewrite run_catch, H. Qed.

(** A submission of a form on a role without an [id] is a [POST] that
    [create_role] serves. *)
Lemma serve_submit_new_role token role st n ps s :
  truthy (optional_get role "id") = false →
  rf_name st = VStr n → n ≠ "" → rf_permissions st = VStr <$> ps → NoDup ps → ps ≠ [] →
  roles_named n s = [] →
  run (serve_manage_roles (handleSubmit default_functions_path token role st)) [] s =
    Outcome (Ok (Response 201 (obj [("data", obj [("role",
               obj (role_fields (new_id (st_roles s)) (new_role_row n (rf_description st) s)))])])))
            (attached (new_id (st_roles s)) ps
               (tick (set_roles (<[new_id (st_roles s) := new_role_row n (rf_description st) s]> (st_roles s)) s)))
            [].
Proof.
  intros Hid Hn Hne Hp Hnd Hnil Hfree.
  set (body := obj [("name", rf_name st); ("description", rf_description st);
                    ("permissions", VArr (rf_permissions st))]).
  assert (Hreq : handleSubmit default_functions_path token role st =
                   client_request default_functions_path token "POST" "/manage-roles" (Some body)).
  { unfold handleSubmit. by rewrite Hid. }
  rewrite Hreq, (serve_post_manage_roles _ body) by done.
  apply run_catch_500_ok, (create_role_run body n (rf_description st) ps s);
    [by rewrite <-Hn|done|by unfold body, get_default; simpl; rewrite Hp|done..].
Qed.

(** C35: a role edited in the "Nuevo rol" form, whatever events led
    there, with a non-empty name no role has and at least one permission,
    is sent by "Guardar" as a [POST] that the manage-roles function answers
    201 with the new role; every permission the form lists then exists and
    is mapped to it (without faults). *)
Theorem new_form_submit_creates_role token evs s n :
  let st := (form_run default_functions_path token VUndef evs new_form).1 in
  rf_saving st = false → rf_name st = VStr n → n ≠ "" → roles_named n s = [] → rf_permissions st ≠ [] →
  ∃ r, form_step default_functions_path token VUndef Submit st = (set_saving st true, Some r) ∧
    let rid := new_id (st_roles s) in
    let o := run (serve_manage_roles r) [] s in
    out_res o = Ok (Response 201 (obj [("data", obj [("role",
                      obj (role_fields rid (new_role_row n (rf_description st) s)))])])) ∧
    ∀ nm, VStr nm ∈ rf_permissions st →
      ∃ pid, st_permissions (out_store o) !! pid = Some nm ∧ (rid, pid) ∈ st_role_permissions (out_store o).
Proof.
  intros st Hs Hn Hne Hfree Hnil.
  destruct (form_run_state_refines default_functions_path token VUndef evs _ _ new_form_refines)
    as (_ & _ & _ & _ & ps & Hp & Hnd & _).
  fold st in Hp. exists (handleSubmit default_functions_path token VUndef st). split.
  { unfold form_step. rewrite Hs, Hn, truthy_nonempty by done. done. }
  rewrite (serve_submit_new_role token VUndef st n ps s) by (try done; by intros ->; rewrite Hp in Hnil).
  split; [done|]. intros nm Hnm. rewrite Hp in Hnm. apply list_elem_of_fmap in Hnm as (nm' & [= <-] & Hnm).
  by apply attached_maps.
Qed.

Lemma serve_delete_manage_roles r body :
  req_method r = "DELETE" → req_path r = default_functions_path +:+ "/manage-roles" → req_body r = Some body →
  serve_manage_roles r = catch_500 (delete_role body).
Proof.
  intros Hm Hp Hb. unfold serve_manage_roles, route, is_method, with_body, json_body.
  rewrite Hm, Hp, Hb. reflexivity.
Qed.

(** C36: the "Deshabilitar" button of the role list sends nothing
    unless both confirmations are accepted; then it sends a [DELETE]
    without [hard], which the function answers 200 by setting the role's
    [disabled] flag and changing nothing else, even while users hold the
    role. *)
Theorem disable_role_click_soft_deletes token role rid c2 s :
  optional_get role "id" = VStr rid → rid ≠ "" →
  disable_role_click default_functions_path token role false c2 = None ∧
  disable_role_click default_functions_path token role true false = None ∧
  ∃ req, disable_role_click default_functions_path token role true true = Some req ∧
    run (serve_manage_roles req) [] s = Outcome (Ok (success_response 200)) (role_disable rid s) [] ∧
    set_roles (st_roles s) (role_disable rid s) = s.
Proof.
  intros Hid Hne. unfold disable_role_click, handleDelete. rewrite Hid. split_and!; [done|done|].
  eexists. split; [done|]. split; [|by destruct s].
  rewrite (serve_delete_manage_roles _ (obj [("id", VStr rid)])) by done.
  by apply run_catch_500_ok, (delete_role_soft_run _ rid (VBool false)).
Qed.

(** C37: [UserRoleSelector] offers every listed role, disabled ones
    included, and assign-role does not look at [disabled]: saving the name
    of a disabled role for a user who is not an administrator answers 200
    and leaves the user with that role. *)
Theorem selector_assigns_disabled_role fn_path token user cu u s aid rid r :
  optional_get user "id" = VStr u → u ≠ "" → role_name r ≠ "" →
  store_wf s → admin_role_ids s = [aid] → roles_named (role_name r) s = [(rid, r)] →
  role_disabled r = true → ¬ is_admin s u →
  VStr (role_name r) ∈ selector_options [obj (role_fields rid r)] ∧
  ∃ req body, selector_save fn_path token user (VStr (role_name r)) = Some req ∧ req_body req = Some body ∧
    out_res (run (assign_role (Some cu) body) [] s) = Ok (success_response 200) ∧
    role_ids_of_user u (out_store (run (assign_role (Some cu) body) [] s)) = [rid].
Proof.
  intros Hid Hu Hn Hwf Haid Hrn _ Hna. split; [by left|].
  destruct (admin_id_of_admin s aid Hwf Haid) as (ar & Hadm & _).
  set (body := obj [("user_id", VStr u); ("role_name", VStr (role_name r))]).
  assert (get body "user_id" = Some (VStr u)) as Hgu by reflexivity.
  assert (get body "role_name" = Some (VStr (role_name r))) as Hgr by reflexivity.
  eexists _, body. split.
  { unfold selector_save, assignRole. rewrite Hid, truthy_nonempty by done. reflexivity. }
  split; [reflexivity|].
  unfold assign_role, field. rewrite Hgu, Hgr. cbn -[truthy last_admin_guard replace_user_role].
  rewrite !truthy_nonempty by done. cbn -[last_admin_guard replace_user_role].
  rewrite Hrn. cbn -[last_admin_guard replace_user_role].
  rewrite run_bind, (last_admin_guard_run _ _ _ _ Hadm).
  assert (guard_refuses u (VStr (role_name r)) s = false) as ->.
  { apply not_true_iff_false. rewrite (guard_refuses_iff s aid) by done. naive_solver. }
  cbn -[replace_user_role].
  destruct (replace_user_role_run u rid (VStr (role_name r)) s) as (s' & -> & Hur & _).
  split; [done|]. by apply (role_ids_of_user_replaced _ _ s).
Qed.

(** C38: the token a view puts in the [Authorization] header is
    the token the function reads back from it ([authHeader.startsWith('Bearer ')
    ? authHeader.substring(7) : authHeader]); without a token both sides
    have the empty string. *)
Theorem auth_header_roundtrip token :
  bearer_token (auth_header token) = default "" token.
Proof.
  destruct token as [t|]; [|done]. unfold auth_header.
  destruct (truthy (VStr t)) eqn:E; [apply bearer_token_bearer|].
  simpl. unfold truthy in E. apply negb_false_iff, bool_decide_eq_true in E. by subst.
Qed.

(** ** The claims at concrete inputs *)

Lemma form_run_refines_witness :
  form_refines (form_run default_functions_path (Some "tok1") VUndef sample_form_events new_form).1
    (abs_run sample_form_events (AbsForm (VStr "") (VStr "") ∅ "" false)).1 ∧
  Forall2 sends_set (form_run default_functions_path (Some "tok1") VUndef sample_form_events new_form).2
    (abs_run sample_form_events (AbsForm (VStr "") (VStr "") ∅ "" false)).2.
Proof. exact (form_run_refines _ _ _ sample_form_events _ _ new_form_refines). Defined.

Lemma new_form_submit_creates_role_witness :
  let st := (form_run default_functions_path (Some "tok1") VUndef sample_form_events new_form).1 in
  ∃ r, form_step default_functions_path (Some "tok1") VUndef Submit st = (set_saving st true, Some r) ∧
    let rid := new_id (st_roles sample_store) in
    let o := run (serve_manage_roles r) [] sample_store in
    out_res o = Ok (Response 201 (obj [("data", obj [("role",
                      obj (role_fields rid (new_role_row "ventas" (rf_description st) sample_store)))])])) ∧
    ∀ nm, VStr nm ∈ rf_permissions st →
      ∃ pid, st_permissions (out_store o) !! pid = Some nm ∧ (rid, pid) ∈ st_role_permissions (out_store o).
Proof.
  exact (new_form_submit_creates_role (Some "tok1") sample_form_events sample_store "ventas"
           ltac:(by vm_compute) ltac:(by vm_compute) ltac:(done) ltac:(by vm_compute) ltac:(by vm_compute)).
Defined.

Lemma disable_role_click_soft_deletes_witness :
  disable_role_click default_functions_path (Some "tok1") (obj [("id", VStr "r2"); ("name", VStr "cliente")])
    false true = None ∧
  disable_role_click default_functions_path (Some "tok1") (obj [("id", VStr "r2"); ("name", VStr "cliente")])
    true false = None ∧
  ∃ req, disable_role_click default_functions_path (Some "tok1")
           (obj [("id", VStr "r2"); ("name", VStr "cliente")]) true true = Some req ∧
    run (serve_manage_roles req) [] sample_store =
      Outcome (Ok (success_response 200)) (role_disable "r2" sample_store) [] ∧
    set_roles (st_roles sample_store) (role_disable "r2" sample_store) = sample_store.
Proof.
  exact (disable_role_click_soft_deletes (Some "tok1") (obj [("id", VStr "r2"); ("name", VStr "cliente")]) "r2"
           true sample_store eq_refl ltac:(done)).
Defined.

Lemma selector_assigns_disabled_role_witness :
  VStr "ventas" ∈ selector_options [obj (role_fields "r3" (RoleRow "ventas" VNull true 5))] ∧
  ∃ req body, selector_save default_functions_path (Some "tok1") (obj [("id", VStr "u2")]) (VStr "ventas")
                = Some req ∧ req_body req = Some body ∧
    out_res (run (assign_role (Some "u1") body) [] sample_disabled_role_store) = Ok (success_response 200) ∧
    role_ids_of_user "u2" (out_store (run (assign_role (Some "u1") body) [] sample_disabled_role_store)) = ["r3"].
Proof.
  exact (selector_assigns_disabled_role default_functions_path (Some "tok1") (obj [("id", VStr "u2")]) "u1" "u2"
           sample_disabled_role_store "r1" "r3" (RoleRow "ventas" VNull true 5)
           eq_refl ltac:(done) ltac:(done) ltac:(apply store_wf_b_sound; by vm_compute)
           ltac:(by vm_compute) ltac:(by vm_compute) eq_refl ltac:(decide_by_eval)).
Defined.
