(* ===== verification/Views.v ===== *)
(** * The user panel and the role list against the server

    [src/src/components/UsersRolesPanel.tsx] keeps the listed users, a
    [loading] flag and the id of the user whose role is being saved
    ([savingId]), and refreshes the list after every write.  Its handlers
    are [async]: each runs up to an [await fetch(...)] and resumes when
    the answer arrives, so that several of them interleave.

    [panel_state] is the panel's state with the calls in flight (a ghost
    component: the code keeps none), [panel_call] the point at which a
    call waits, and [panel_step] one event: a click, or the answer to one
    call.  The [world] of [World.v] puts the panel beside the server of
    [Router.v]: a request the panel sends waits until the server serves
    it on the store ([Serve]), and its answer waits until it is delivered
    to the panel ([Deliver]); a schedule of events orders the three.
    [RolesView.tsx] with the [RoleForm] it mounts is modelled in the same
    way ([rv_step]). *)

From stdpp Require Import sorting.
From S2P Require Import Prelude JsValue Store RoleStore Backend Http ManageUsers ManageRoles Listing Router Client World.

(** ** [UsersRolesPanel.tsx] *)

(** Where a call of the panel waits. *)
Inductive panel_call :=
| KFetch                         (* fetchUsers, line 25 *)
| KAssignPost (user_id : val)    (* assignRole, line 45 *)
| KAssignFetch (user_id : val)   (* assignRole's [await fetchUsers()], line 47 *)
| KTogglePatch                   (* toggleActive, line 58 *)
| KToggleFetch                   (* line 60 *)
| KDeletePost                    (* deleteUser, line 72 *)
| KDeleteFetch.                  (* line 74 *)

Record panel_state := PanelState {
  pn_users : val;                        (* users, line 14 *)
  pn_loading : bool;                     (* loading, line 15 *)
  pn_savingId : val;                     (* savingId, line 16 *)
  pn_alerts : list string;               (* the [alert]s shown, in order *)
  pn_calls : list (nat * panel_call)     (* the calls in flight *)
}.

Definition panel_init : panel_state := PanelState (VArr []) false VNull [] [].

(** The panel's events: [c] names the call an event starts or resumes. *)
Inductive panel_event :=
| Refresh (c : nat)                                (* the mount effect, line 37, and "Refrescar", line 91 *)
| Assign (c : nat) (user_id role_name : val)       (* the role select, line 114 *)
| Toggle (c : nat) (user : val)                    (* "Deshabilitar"/"Habilitar", line 124 *)
| Delete (c : nat) (user : val) (confirmed : bool) (* "Eliminar", line 125, after [confirm] *)
| Answer (c : nat) (resp : response).              (* the [fetch] of call [c] resolves *)

Definition with_calls (st : panel_state) (cs : list (nat * panel_call)) : panel_state :=
  PanelState (pn_users st) (pn_loading st) (pn_savingId st) (pn_alerts st) cs.

Definition with_loading (st : panel_state) (b : bool) : panel_state :=
  PanelState (pn_users st) b (pn_savingId st) (pn_alerts st) (pn_calls st).

Definition with_savingId (st : panel_state) (v : val) : panel_state :=
  PanelState (pn_users st) (pn_loading st) v (pn_alerts st) (pn_calls st).

Definition add_alert (st : panel_state) (msg : string) : panel_state :=
  PanelState (pn_users st) (pn_loading st) (pn_savingId st) (pn_alerts st ++ [msg]) (pn_calls st).

(** The call [c] waits at [k] from now on. *)
Definition set_call (st : panel_state) (c : nat) (k : panel_call) : panel_state :=
  with_calls st ((c, k) :: filter (λ ck, ck.1 ≠ c) (pn_calls st)).

Definition end_call (st : panel_state) (c : nat) : panel_state :=
  with_calls st (filter (λ ck, ck.1 ≠ c) (pn_calls st)).

(** [await res.text()]: the body the function sent. *)
Definition resp_text (resp : response) : string := json_stringify (resp_body resp).

(** The rest of [fetchUsers] once its [fetch] resolves (lines 26-34):
    the list, or the alert; [loading] is reset either way. *)
Definition fetch_done (resp : response) (st : panel_state) : panel_state :=
  with_loading
    (match fetched_data resp with
     | Some d => PanelState d (pn_loading st) (pn_savingId st) (pn_alerts st) (pn_calls st)
     | None =>
         add_alert st ("Error cargando usuarios: " +:+
                       (if response_ok (resp_status resp)
                        then "Cannot read properties of null (reading 'data')" else resp_text resp))
     end) false.

Section panel.
Context (fn_path : string) (token : option string).

(** [fetchUsers] up to its [await] (lines 21-25), as call [c] at [k]. *)
Definition start_fetch (st : panel_state) (c : nat) (k : panel_call) : panel_state * option request :=
  (set_call (with_loading st true) c k, Some (fetchUsers fn_path token)).

(** The answer to a write (lines 46-47, 59-60, 73-74): on a 2xx answer the
    call goes on with [await fetchUsers()], otherwise it alerts. *)
Definition write_done (resp : response) (st : panel_state) (c : nat) (next : panel_call) (msg : string)
    : panel_state * option request :=
  if response_ok (resp_status resp) then start_fetch st c next
  else (end_call (add_alert st (msg +:+ resp_text resp)) c, None).

Definition panel_step (ev : panel_event) (st : panel_state) : panel_state * option request :=
  match ev with
  | Refresh c => start_fetch st c KFetch
  | Assign c user_id role_name =>
      match assignRole fn_path token user_id role_name with
      | Some req => (set_call (with_savingId st user_id) c (KAssignPost user_id), Some req)
      | None => (st, None)
      end
  | Toggle c user => (set_call st c KTogglePatch, Some (toggleActive fn_path token user))
  | Delete c user confirmed =>
      match deleteUser fn_path token user confirmed with
      | Some req => (set_call st c KDeletePost, Some req)
      | None => (st, None)
      end
  | Answer c resp =>
      match find_call c (pn_calls st) with
      | None => (st, None)
      | Some KFetch | Some KToggleFetch | Some KDeleteFetch => (end_call (fetch_done resp st) c, None)
      | Some (KAssignFetch _) => (end_call (with_savingId (fetch_done resp st) VNull) c, None)
      | Some (KAssignPost u) =>
          let '(st', req) := write_done resp st c (KAssignFetch u) "Error asignando rol: " in
          (if response_ok (resp_status resp) then st' else with_savingId st' VNull, req)
      | Some KTogglePatch => write_done resp st c KToggleFetch "Error actualizando estado: "
      | Some KDeletePost => write_done resp st c KDeleteFetch "Error eliminando usuario: "
      end
  end.

End panel.


(** The call a click of the panel starts. *)
Definition panel_ui_call (ev : panel_event) : option nat :=
  match ev with
  | Refresh c | Assign c _ _ | Toggle c _ | Delete c _ _ => Some c
  | Answer _ _ => None
  end.

Definition panel_world_run (fn_path : string) (token : option string)
    : list (world_event panel_event) → world panel_state → world panel_state :=
  world_run (panel_step fn_path token) Answer panel_ui_call.

(** ** [RolesView.tsx] with the [RoleForm] it mounts *)

(** Where a call of the role list waits. *)
Inductive rv_call :=
| RFetch            (* fetchRoles, line 23 *)
| RDelete           (* handleDelete, line 46 *)
| RDeleteFetch      (* handleDelete's [await fetchRoles()], line 51 *)
| RSave.            (* the form's handleSubmit, RoleForm.tsx lines 46-50 *)

Record rv_state := RVState {
  rv_roles : val;                   (* roles, line 10 *)
  rv_loading : bool;                (* loading, line 11 *)
  rv_editing : val;                 (* editing, line 12 *)
  rv_form : option role_form;       (* showForm (line 13), and the mounted RoleForm's state *)
  rv_crashed : bool;                (* a render threw: React unmounts the tree *)
  rv_alerts : nat;                  (* the [alert]s shown *)
  rv_calls : list (nat * rv_call)   (* the calls in flight *)
}.

Definition rv_init : rv_state := RVState (VArr []) false VNull None false 0 [].

(** The role list's events.  [RVForm c ev] is an event of the mounted
    form ([SaveDone] is not one: the form's [finally] runs on its
    answer); [c] names the save call a submission starts. *)
Inductive rv_event :=
| RVRefresh (c : nat)                                     (* the mount effect, line 38, and "Refrescar", line 64 *)
| RVNew                                                   (* "Nuevo rol", line 63 *)
| RVEdit (r : val)                                        (* "Editar", line 87 *)
| RVDisable (c : nat) (r : val) (confirm1 confirm2 : bool) (* "Deshabilitar", line 88 *)
| RVForm (c : nat) (ev : form_event)                      (* the form, line 101 *)
| RVCancel                                                (* the form's "Cancelar": onCancel, line 101 *)
| RVAnswer (c : nat) (resp : response).                   (* the [fetch] of call [c] resolves *)

Definition rv_set_calls (st : rv_state) (cs : list (nat * rv_call)) : rv_state :=
  RVState (rv_roles st) (rv_loading st) (rv_editing st) (rv_form st) (rv_crashed st) (rv_alerts st) cs.

Definition rv_set_call (st : rv_state) (c : nat) (k : rv_call) : rv_state :=
  rv_set_calls st ((c, k) :: filter (λ ck, ck.1 ≠ c) (rv_calls st)).

Definition rv_end_call (st : rv_state) (c : nat) : rv_state :=
  rv_set_calls st (filter (λ ck, ck.1 ≠ c) (rv_calls st)).

Definition rv_set_form (st : rv_state) (f : option role_form) : rv_state :=
  RVState (rv_roles st) (rv_loading st) (rv_editing st) f (rv_crashed st) (rv_alerts st) (rv_calls st).

Definition rv_alert (st : rv_state) : rv_state :=
  RVState (rv_roles st) (rv_loading st) (rv_editing st) (rv_form st) (rv_crashed st) (S (rv_alerts st))
          (rv_calls st).

(** RoleForm's [useEffect] on [role] (lines 20-24 of RoleForm.tsx): a
    form that stays mounted while [role] changes reloads its permission
    list when the new role has permissions; [None] is a [TypeError]. *)
Definition role_prop_changed (role : val) (f : role_form) : option role_form :=
  if truthy (optional_get role "permissions") then
    ps ← init_permissions role; Some (with_permissions f ps (rf_permissionInput f))
  else Some f.

(** "Nuevo rol" and "Editar" (lines 63 and 87): [setEditing(role)] and
    [setShowForm(true)]; a form not yet shown is mounted on [role]. *)
Definition open_form (role : val) (st : rv_state) : rv_state :=
  let f := match rv_form st with Some f => role_prop_changed role f | None => init_form role end in
  match f with
  | Some f => RVState (rv_roles st) (rv_loading st) role (Some f) (rv_crashed st) (rv_alerts st) (rv_calls st)
  | None => RVState (rv_roles st) (rv_loading st) role None true (rv_alerts st) (rv_calls st)
  end.

(** The rest of [fetchRoles] once its [fetch] resolves (lines 24-35). *)
Definition rv_fetch_done (resp : response) (st : rv_state) : rv_state :=
  let st' := match fetched_data resp with
             | Some d => RVState d (rv_loading st) (rv_editing st) (rv_form st) (rv_crashed st)
                                 (rv_alerts st) (rv_calls st)
             | None => rv_alert st
             end in
  RVState (rv_roles st') false (rv_editing st') (rv_form st') (rv_crashed st') (rv_alerts st') (rv_calls st').

Section roles_view.
Context (fn_path : string) (token : option string).

(** [fetchRoles] up to its [await] (lines 18-23). *)
Definition rv_start_fetch (st : rv_state) (c : nat) (k : rv_call) : rv_state * option request :=
  (rv_set_call (RVState (rv_roles st) true (rv_editing st) (rv_form st) (rv_crashed st) (rv_alerts st)
                        (rv_calls st)) c k,
   Some (fetchRoles fn_path token)).

Definition rv_step (ev : rv_event) (st : rv_state) : rv_state * option request :=
  match ev with
  | RVRefresh c => rv_start_fetch st c RFetch
  | RVNew => (open_form VNull st, None)
  | RVEdit r => (open_form r st, None)
  | RVDisable c r confirm1 confirm2 =>
      match disable_role_click fn_path token r confirm1 confirm2 with
      | Some req => (rv_set_call st c RDelete, Some req)
      | None => (st, None)
      end
  | RVForm c SaveDone => (st, None)
  | RVForm c fev =>
      match rv_form st with
      | Some f =>
          let '(f', req) := form_step fn_path token (rv_editing st) fev f in
          match req with
          | Some _ => (rv_set_call (rv_set_form st (Some f')) c RSave, req)
          | None => (rv_set_form st (Some f'), None)
          end
      | None => (st, None)
      end
  | RVCancel =>
      match rv_form st with
      | Some f => if rf_saving f then (st, None) else (rv_set_form st None, None)
      | None => (st, None)
      end
  | RVAnswer c resp =>
      match find_call c (rv_calls st) with
      | None => (st, None)
      | Some RFetch | Some RDeleteFetch => (rv_end_call (rv_fetch_done resp st) c, None)
      | Some RDelete =>
          if response_ok (resp_status resp) then rv_start_fetch st c RDeleteFetch
          else (rv_end_call (rv_alert st) c, None)
      | Some RSave =>
          (* onSaved: setShowForm(false) and fetchRoles(); the form's
             [finally] then runs on an unmounted form *)
          if response_ok (resp_status resp) then rv_start_fetch (rv_set_form st None) c RFetch
          else (rv_end_call (rv_alert (rv_set_form st (option_map (λ f, set_saving f false) (rv_form st)))) c,
                None)
      end
  end.

End roles_view.

(** The call a click of the role list starts ([0] for the clicks that
    send nothing). *)
Definition rv_ui_call (ev : rv_event) : option nat :=
  match ev with
  | RVRefresh c | RVDisable c _ _ _ | RVForm c _ => Some c
  | RVNew | RVEdit _ | RVCancel => Some 0
  | RVAnswer _ _ => None
  end.

Definition rv_world_run (fn_path : string) (token : option string)
    : list (world_event rv_event) → world rv_state → world rv_state :=
  world_run (rv_step fn_path token) RVAnswer rv_ui_call.

(** What [GET /manage-roles/manage-users] lists on a store. *)
Definition listing (s : store) : list val :=
  user_entry (st_user_roles s) (roles_with_ids (listed_role_ids s) s) (profile_rows s)
    <$> (from_auth <$> auth_list_users s).

(** The request of [assignRole] for [user_id] and [role_name] (line 45). *)
Definition assign_request (token : option string) (u r : val) : request :=
  client_request default_functions_path token "POST" "/manage-roles/manage-users/assign-role"
    (Some (obj [("user_id", u); ("role_name", r)])).

(** A schedule of the panel beside the server: the list is loaded on
    mount (call 0) and, before that fetch is answered, [u2] is made an
    administrator (call 1).  The server serves the load first; the answer
    to the assignment and to the fetch that follows it reach the panel
    before the answer to the load. *)
Definition stale_schedule : list (world_event panel_event) :=
  [UI (Refresh 0); UI (Assign 1 (VStr "u2") (VStr "administrador")); Serve 0; Serve 1; Deliver 1;
   Serve 1; Deliver 1; Deliver 0].

(** What [GET /manage-roles] lists on a store: each role with the
    permissions mapped to it, newest first. *)
Definition role_perms (id : string) (s : store) : list (string * string) :=
  let ids := role_permission_ids id s in
  if bool_decide (ids = []) then [] else permissions_with_ids ids s.

Definition roles_listing (s : store) : list val :=
  (λ ir, role_with_permissions ir.1 ir.2 (role_perms ir.1 s)) <$> roles_newest_first s.

(** The role list beside the server: "Nuevo rol", events of the form,
    "Guardar", the save served and answered, then the refresh it starts. *)
Definition new_role_schedule (c : nat) (evs : list form_event) : list (world_event rv_event) :=
  [UI RVNew] ++ ((λ e, UI (RVForm c e)) <$> evs) ++ [UI (RVForm c Submit); Serve c; Deliver c; Serve c; Deliver c].

(** ** The requests a call may still send

    A write of the panel ([assignRole], [toggleActive], [deleteUser]) and
    a deletion or save of the role list are followed by one fetch; a
    fetch by nothing.  Weighted by two, as [World.call_pot] reads them. *)

Definition panel_weight (k : panel_call) : nat :=
  match k with KAssignPost _ | KTogglePatch | KDeletePost => 2 | _ => 0 end.

Definition rv_weight (k : rv_call) : nat :=
  match k with RDelete | RSave => 2 | RFetch | RDeleteFetch => 0 end.

(** ** Lemmas *)

(** The router's answer to the panel's [GET], on any store. *)
Lemma serve_fetchUsers tok s :
  run (serve_manage_roles (fetchUsers default_functions_path tok)) [] s =
    Outcome (Ok (Response 200 (obj [("data", VArr (listing s))]))) s [].
Proof.
  apply run_catch_500_ok. unfold route. 
  change (path_parts (req_path (fetchUsers default_functions_path tok))) with ["functions"; "v1"; "manage-roles"; "manage-users"].
  change (bool_decide ("manage-users" ∈ ["functions"; "v1"; "manage-roles"; "manage-users"])) with true.
  change (subpath_after "manage-users" ["functions"; "v1"; "manage-roles"; "manage-users"]) with "".
  cbv iota beta.
  rewrite run_bind. unfold users_route. rewrite run_bind, getUserIdFromToken_run.
  cbn [out_res out_store out_faults]. 
  change (is_method (fetchUsers default_functions_path tok) "GET" && bool_decide ("" = "")) with true.
  cbv iota beta. unfold answered. rewrite run_bind, list_users_run. reflexivity.
Qed.

Lemma fetched_data_listing l : fetched_data (Response 200 (obj [("data", VArr l)])) = Some (VArr l).
Proof. reflexivity. Qed.

Lemma find_call_set st c k : find_call c (pn_calls (set_call st c k)) = Some k.
Proof. cbn. by rewrite bool_decide_true. Qed.

(** The router's answer to the role list's [GET], on any store. *)
Lemma roles_with_permissions_run roles s :
  run (roles_with_permissions roles) [] s =
    Outcome (Ok ((λ ir, role_with_permissions ir.1 ir.2 (role_perms ir.1 s)) <$> roles)) s [].
Proof.
  induction roles as [|[id r] roles IH]; [done|]. cbn [roles_with_permissions].
  rewrite run_bind. cbn. unfold role_perms. case_bool_decide; cbn; rewrite run_bind, IH; done.
Qed.

Lemma serve_fetchRoles tok s :
  run (serve_manage_roles (fetchRoles default_functions_path tok)) [] s =
    Outcome (Ok (Response 200 (obj [("data", VArr (roles_listing s))]))) s [].
Proof.
  apply run_catch_500_ok. unfold route.
  change (path_parts (req_path (fetchRoles default_functions_path tok))) with ["functions"; "v1"; "manage-roles"].
  change (bool_decide ("manage-users" ∈ ["functions"; "v1"; "manage-roles"])) with false.
  change (subpath_after "manage-roles" ["functions"; "v1"; "manage-roles"]) with "".
  cbv iota beta. cbn [prog_bind].
  change (is_method (fetchRoles default_functions_path tok) "GET" && bool_decide ("" = "")) with true.
  cbv iota beta. unfold list_roles. rewrite run_bind. cbn. rewrite run_bind, roles_with_permissions_run. done.
Qed.

Lemma form_step_quiet fn tok role e f :
  e ≠ Submit → e ≠ SaveDone →
  form_step fn tok role e f = ((form_step fn tok role e f).1, None) ∧
  rf_saving (form_step fn tok role e f).1 = rf_saving f.
Proof.
  intros H1 H2. destruct e; try congruence; unfold form_step;
    destruct (rf_saving f) eqn:Hs; cbn; split; auto; unfold handleAddPermission; case_bool_decide; auto.
Qed.

Lemma rv_step_form fn tok c e v f :
  rv_form v = Some f → e ≠ Submit → e ≠ SaveDone →
  rv_step fn tok (RVForm c e) v = (rv_set_form v (Some (form_step fn tok (rv_editing v) e f).1), None).
Proof.
  intros Hf H1 H2. destruct (form_step_quiet fn tok (rv_editing v) e f H1 H2) as [Hq _].
  destruct e; try congruence; cbn [rv_step]; rewrite Hf, Hq; reflexivity.
Qed.

Lemma rv_world_form_events fn tok c evs v s f :
  rv_form v = Some f → Forall (λ e, e ≠ Submit ∧ e ≠ SaveDone) evs →
  world_run (rv_step fn tok) RVAnswer rv_ui_call ((λ e, UI (RVForm c e)) <$> evs) (World v s [] []) =
    World (rv_set_form v (Some (form_run fn tok (rv_editing v) evs f).1)) s [] [] ∧
  rf_saving (form_run fn tok (rv_editing v) evs f).1 = rf_saving f.
Proof.
  revert v f. induction evs as [|e evs IH]; intros v f Hf Hevs.
  - destruct v; simpl in *; subst; done.
  - apply Forall_cons in Hevs as [[H1 H2] Hevs]. rewrite fmap_cons. cbn [world_run].
    rewrite (world_step_ui _ _ _ _ c) by done. rewrite (rv_step_form fn tok c e v f) by done.
    cbn [fst snd send app]. destruct (form_step_quiet fn tok (rv_editing v) e f H1 H2) as [Hq Hs].
    destruct (IH (rv_set_form v (Some (form_step fn tok (rv_editing v) e f).1)) _ eq_refl Hevs) as [IH1 IH2].
    cbn [form_run]. rewrite Hq. cbn [rv_editing rv_set_form] in IH1, IH2 |- *.
    destruct (form_run fn tok (rv_editing v) evs (form_step fn tok (rv_editing v) e f).1) as [f2 rs] eqn:E.
    cbn [fst] in *. rewrite IH1. split; [by destruct v|]. by rewrite IH2, Hs.
Qed.

(** A role of the store is listed, with every permission mapped to it. *)
Lemma roles_listing_role s rid row :
  st_roles s !! rid = Some row →
  role_with_permissions rid row (role_perms rid s) ∈ roles_listing s.
Proof.
  intros Hr. apply list_elem_of_fmap. exists (rid, row). split; [done|].
  unfold roles_newest_first. rewrite merge_sort_Permutation. by apply elem_of_map_to_list.
Qed.

Lemma role_perms_mapped s rid pid nm :
  st_permissions s !! pid = Some nm → (rid, pid) ∈ st_role_permissions s → (pid, nm) ∈ role_perms rid s.
Proof.
  intros Hp Hrp. assert (Hin : pid ∈ role_permission_ids rid s).
  { apply list_elem_of_fmap. exists (rid, pid). split; [done|]. apply elem_of_elements, elem_of_filter. done. }
  unfold role_perms. rewrite bool_decide_false by (by intros Hn; rewrite Hn in Hin; inversion Hin).
  apply list_elem_of_filter. split; [done|]. by apply elem_of_map_to_list.
Qed.

Lemma rv_find_call_set st c k : find_call c (rv_calls (rv_set_call st c k)) = Some k.
Proof. cbn. by rewrite bool_decide_true. Qed.

Lemma rv_step_new fn tok v :
  rv_form v = None →
  rv_step fn tok RVNew v =
    (RVState (rv_roles v) (rv_loading v) VNull (Some new_form) (rv_crashed v) (rv_alerts v) (rv_calls v), None).
Proof. intros H. unfold rv_step, open_form. by rewrite H. Qed.

Lemma rv_step_submit fn tok c v f :
  rv_form v = Some f → rf_saving f = false → truthy (rf_name f) = true →
  rv_step fn tok (RVForm c Submit) v =
    (rv_set_call (rv_set_form v (Some (set_saving f true))) c RSave, Some (handleSubmit fn tok (rv_editing v) f)).
Proof. intros Hf Hs Hn. unfold rv_step. rewrite Hf. unfold form_step. by rewrite Hs, Hn. Qed.

(** ** Answers send at most the follow-up fetch *)

Lemma panel_deliver_pot fn tok c resp st c' :
  call_pot pn_calls panel_weight (panel_step fn tok (Answer c resp) st).1 c' ≤
    call_pot pn_calls panel_weight st c'.
Proof.
  cbn [panel_step]. destruct (find_call c (pn_calls st)) as [k|] eqn:Hf; [|done].
  destruct k; unfold write_done, start_fetch, fetch_done, end_call, set_call; deliver_pot_tac Hf.
Qed.

Lemma panel_deliver_send fn tok c resp st :
  is_Some (panel_step fn tok (Answer c resp) st).2 →
  2 + call_pot pn_calls panel_weight (panel_step fn tok (Answer c resp) st).1 c ≤
    call_pot pn_calls panel_weight st c.
Proof.
  cbn [panel_step]. destruct (find_call c (pn_calls st)) as [k|] eqn:Hf; [|by intros []].
  destruct k; unfold write_done, start_fetch, fetch_done, end_call, set_call; intros [? ?];
    deliver_pot_tac Hf.
Qed.

Lemma rv_deliver_pot fn tok c resp st c' :
  call_pot rv_calls rv_weight (rv_step fn tok (RVAnswer c resp) st).1 c' ≤
    call_pot rv_calls rv_weight st c'.
Proof.
  cbn [rv_step]. destruct (find_call c (rv_calls st)) as [k|] eqn:Hf; [|done].
  destruct k; unfold rv_start_fetch, rv_fetch_done, rv_end_call, rv_set_call; deliver_pot_tac Hf.
Qed.

Lemma rv_deliver_send fn tok c resp st :
  is_Some (rv_step fn tok (RVAnswer c resp) st).2 →
  2 + call_pot rv_calls rv_weight (rv_step fn tok (RVAnswer c resp) st).1 c ≤
    call_pot rv_calls rv_weight st c.
Proof.
  cbn [rv_step]. destruct (find_call c (rv_calls st)) as [k|] eqn:Hf; [|by intros []].
  destruct k; unfold rv_start_fetch, rv_fetch_done, rv_end_call, rv_set_call; intros [? ?];
    deliver_pot_tac Hf.
Qed.


(** ** The panel against the server *)

(** C28: when nothing else is in flight, an assignment the server
    accepts, served and answered in order, leaves the panel showing
    exactly what [GET /manage-roles/manage-users] lists on the store after
    the assignment, with [savingId] cleared, [loading] off and no call,
    request or answer left. *)
Theorem panel_assign_shows_listing tok c u r s p resp :
  pn_calls p = [] → truthy r = true →
  out_res (run (serve_manage_roles (assign_request tok u r)) [] s) = Ok resp →
  response_ok (resp_status resp) = true →
  let w := panel_world_run default_functions_path tok [UI (Assign c u r); Serve c; Deliver c; Serve c; Deliver c]
             (World p s [] []) in
  w_store w = out_store (run (serve_manage_roles (assign_request tok u r)) [] s) ∧
  pn_users (w_view w) = VArr (listing (w_store w)) ∧
  pn_savingId (w_view w) = VNull ∧ pn_loading (w_view w) = false ∧
  pn_calls (w_view w) = [] ∧ w_sent w = [] ∧ w_answers w = [].
Proof.
  intros Hc Hr Hres Hok w. subst w.
  unfold panel_world_run. cbn [world_run]. rewrite (world_step_ui _ _ _ _ c) by done. cbn [panel_step]. unfold assignRole. rewrite Hr.
  cbn [fst snd send app]. rewrite world_step_serve. fold (assign_request tok u r). rewrite Hres.
  rewrite world_step_deliver. cbn [panel_step]. rewrite find_call_set. unfold write_done. rewrite Hok.
  cbn [fst snd send app start_fetch]. rewrite world_step_serve, serve_fetchUsers.
  cbn [out_res out_store]. rewrite world_step_deliver. cbn [panel_step]. rewrite find_call_set.
  unfold fetch_done. rewrite fetched_data_listing. cbn. rewrite Hc. cbn.
  split_and!; try done. repeat case_decide; naive_solver.
Qed.

(** The panel applies each fetch's answer when it arrives, and
    nothing discards an older one.  In [stale_schedule], once every call
    has completed, the panel shows the list loaded before the assignment:
    [u2] appears with the role it had, while the store, and any new fetch,
    has [u2] as an administrator. *)
Theorem panel_stale_listing :
  let w := panel_world_run default_functions_path (Some "tok1") stale_schedule (World panel_init sample_store [] []) in
  pn_calls (w_view w) = [] ∧ w_sent w = [] ∧ w_answers w = [] ∧ pn_loading (w_view w) = false ∧
  role_ids_of_user "u2" (w_store w) = ["r1"] ∧
  pn_users (w_view w) = VArr (listing sample_store) ∧
  pn_users (w_view w) ≠ VArr (listing (w_store w)).
Proof. vm_compute. split_and!; try reflexivity. discriminate. Qed.

(** ** The role list against the server *)

(** C29: end to end, from a role list with no form open and nothing in
    flight, "Nuevo rol", any edits of the form that leave a free non-empty
    name and at least one permission, and "Guardar", with the save and the
    refresh it starts served and answered in order, close the form and
    leave the list showing what [GET /manage-roles] lists on the new store,
    which holds the new role with every permission the form listed. *)
Theorem rv_new_role_listed tok c evs v s n :
  rv_form v = None → rv_calls v = [] → Forall (λ e, e ≠ Submit ∧ e ≠ SaveDone) evs →
  let f := (form_run default_functions_path tok VNull evs new_form).1 in
  rf_name f = VStr n → n ≠ "" → roles_named n s = [] → rf_permissions f ≠ [] →
  let w := rv_world_run default_functions_path tok (new_role_schedule c evs) (World v s [] []) in
  let rid := new_id (st_roles s) in
  rv_form (w_view w) = None ∧ rv_loading (w_view w) = false ∧ rv_calls (w_view w) = [] ∧
  rv_roles (w_view w) = VArr (roles_listing (w_store w)) ∧
  role_with_permissions rid (new_role_row n (rf_description f) s) (role_perms rid (w_store w))
    ∈ roles_listing (w_store w) ∧
  ∀ nm, VStr nm ∈ rf_permissions f → ∃ pid, (pid, nm) ∈ role_perms rid (w_store w).
Proof.
  intros Hf Hc Hevs f Hn Hne Hfree Hnil w rid.
  destruct (form_run_state_refines default_functions_path tok VNull evs _ _ new_form_refines)
    as (_ & _ & _ & _ & ps & Hp & Hnd & _). fold f in Hp.
  unfold w, rv_world_run, new_role_schedule. rewrite !world_run_app. cbn [world_run].
  rewrite (world_step_ui _ _ _ _ 0) by done. rewrite rv_step_new by done. cbn [fst snd send app].
  destruct (rv_world_form_events default_functions_path tok c evs
              (RVState (rv_roles v) (rv_loading v) VNull (Some new_form) (rv_crashed v) (rv_alerts v) (rv_calls v))
              s new_form eq_refl Hevs) as [He Hs].
  cbn [rv_editing] in He, Hs. rewrite He. fold f. fold f in Hs.
  rewrite (world_step_ui _ _ _ _ c) by done.
  rewrite (rv_step_submit _ _ c _ f) by (try done; by rewrite Hn; apply truthy_nonempty).
  cbn [fst snd send app rv_editing rv_set_form]. rewrite world_step_serve.
  assert (Hps : ps ≠ []) by (intros ->; by rewrite Hp in Hnil).
  rewrite (serve_submit_new_role tok VNull f n ps s) by done. cbn [out_res out_store].
  rewrite world_step_deliver. cbn [rv_step]. rewrite rv_find_call_set. cbn [resp_status].
  assert (Hok : response_ok 201 = true) by reflexivity. rewrite Hok.
  cbn [rv_start_fetch fst snd send app]. rewrite world_step_serve, serve_fetchRoles. cbn [out_res out_store].
  rewrite world_step_deliver. cbn [rv_step]. rewrite rv_find_call_set. cbn [fst snd send app].
  unfold rv_fetch_done. rewrite fetched_data_listing. cbn [w_view w_store].
  split_and!; [done|done| |done| |].
  - cbn. rewrite Hc. cbn. by repeat case_decide.
  - apply roles_listing_role. rewrite attached_roles. cbn. apply lookup_insert_eq.
  - intros nm Hnm. rewrite Hp in Hnm. apply list_elem_of_fmap in Hnm as (nm' & [= <-] & Hnm).
    destruct (attached_maps rid ps (tick (set_roles (<[rid := new_role_row n (rf_description f) s]> (st_roles s)) s))
                _ Hnm) as (pid & H1 & H2).
    exists pid. by apply role_perms_mapped.
Qed.

(** ** Witnesses *)

Lemma panel_assign_shows_listing_witness :
  pn_calls panel_init = [] ∧ truthy (VStr "administrador") = true ∧
  out_res (run (serve_manage_roles (assign_request (Some "tok1") (VStr "u2") (VStr "administrador"))) [] sample_store)
    = Ok (success_response 200) ∧
  response_ok (resp_status (success_response 200)) = true ∧
  let w := panel_world_run default_functions_path (Some "tok1")
             [UI (Assign 1 (VStr "u2") (VStr "administrador")); Serve 1; Deliver 1; Serve 1; Deliver 1]
             (World panel_init sample_store [] []) in
  w_store w = out_store (run (serve_manage_roles (assign_request (Some "tok1") (VStr "u2") (VStr "administrador"))) [] sample_store) ∧
  pn_users (w_view w) = VArr (listing (w_store w)) ∧
  pn_savingId (w_view w) = VNull ∧ pn_loading (w_view w) = false ∧
  pn_calls (w_view w) = [] ∧ w_sent w = [] ∧ w_answers w = [].
Proof.
  assert (H : out_res (run (serve_manage_roles (assign_request (Some "tok1") (VStr "u2") (VStr "administrador")))
                [] sample_store) = Ok (success_response 200)) by (vm_compute; reflexivity).
  split; [done|]. split; [done|]. split; [exact H|]. split; [done|].
  exact (panel_assign_shows_listing (Some "tok1") 1 (VStr "u2") (VStr "administrador") sample_store panel_init
           (success_response 200) eq_refl eq_refl H eq_refl).
Defined.

Lemma rv_new_role_listed_witness :
  let f := (form_run default_functions_path (Some "tok1") VNull sample_form_events new_form).1 in
  let w := rv_world_run default_functions_path (Some "tok1") (new_role_schedule 1 sample_form_events)
             (World rv_init sample_store [] []) in
  let rid := new_id (st_roles sample_store) in
  rv_form (w_view w) = None ∧ rv_loading (w_view w) = false ∧ rv_calls (w_view w) = [] ∧
  rv_roles (w_view w) = VArr (roles_listing (w_store w)) ∧
  role_with_permissions rid (new_role_row "ventas" (rf_description f) sample_store) (role_perms rid (w_store w))
    ∈ roles_listing (w_store w) ∧
  ∀ nm, VStr nm ∈ rf_permissions f → ∃ pid, (pid, nm) ∈ role_perms rid (w_store w).
Proof.
  exact (rv_new_role_listed (Some "tok1") 1 sample_form_events rv_init sample_store "ventas"
           eq_refl eq_refl ltac:(repeat constructor; discriminate) ltac:(by vm_compute) ltac:(done)
           ltac:(by vm_compute) ltac:(by vm_compute)).
Defined.

