(* ===== verification/UsersView.v ===== *)
(** * The user list of [UsersView.tsx] and its rows

    [src/src/components/UsersView.tsx] keeps the listed [users] and a
    [loading] flag, and renders one [UserRow] per user, keyed by
    [u.id].  A row ([UserRow.tsx]) mounts a [UserRoleSelector] (its own
    [roles] and [selected], and an effect that fetches the roles), a
    [DisableUserButton] and a [DeleteUserButton] (each with its own
    [loading]); their [onSaved]/[onDeleted] call the view's
    [fetchUsers].

    While [loading] is set the view renders "Cargando..." instead of the
    table, so every row is unmounted; when the table is shown again its
    rows are mounted afresh.  A row that stays mounted across a render
    keeps its state and receives the new [user].  [uv_state] holds the
    view's state with its mounted rows and the calls in flight (ghost, as
    in [Views.v]); [uv_step] is one event, and [uv_world_run] runs the
    view beside the server of [World.v].  [uv_quiet] adds to the serves
    and deliveries of [World.quiet_step] the selectors' own effects, and
    [uv_measure] (lexicographic, by the stage each call waits at) shows
    that the view comes to rest without clicks. *)

From Stdlib Require Import Relations.Relation_Operators Wellfounded.Lexicographic_Product.
From S2P Require Import Prelude JsValue Store RoleStore Backend Http ManageUsers ManageRoles Listing Router World Client Views.

(** ** The rows *)

Record user_row := UserRowState {
  row_user : val;          (* the [user] prop *)
  row_mount : nat;         (* the call whose answer mounted the row *)
  row_roles : val;         (* UserRoleSelector's [roles], line 6 *)
  row_selected : val;      (* UserRoleSelector's [selected], line 7 *)
  row_effect_ran : bool;   (* UserRoleSelector's effect (lines 11-21) has run *)
  row_toggling : bool;     (* DisableUserButton's [loading], line 6 *)
  row_deleting : bool      (* DeleteUserButton's [loading], line 6 *)
}.

(** [key={u.id}]: React compares keys as strings. *)
Definition react_key (v : val) : string :=
  match v with VStr s => s | _ => json_stringify v end.

Definition row_key (r : user_row) : string := react_key (optional_get (row_user r) "id").

(** A row mounted by the render after the answer to call [c]:
    [useState<any[]>([])], [useState(user.role || null)] and two
    [useState(false)]. *)
Definition mount_row (c : nat) (u : val) : user_row :=
  let role := optional_get u "role" in
  UserRowState u c (VArr []) (if truthy role then role else VNull) false false false.

Fixpoint find_row (k : string) (rows : list user_row) : option user_row :=
  match rows with
  | [] => None
  | r :: rows' => if bool_decide (row_key r = k) then Some r else find_row k rows'
  end.

Definition set_row_user (r : user_row) (u : val) : user_row :=
  UserRowState u (row_mount r) (row_roles r) (row_selected r) (row_effect_ran r) (row_toggling r)
    (row_deleting r).

(** [users.map(u => <UserRow key={u.id} user={u} .../>)], lines 57-59:
    a key already mounted keeps its row, a new key mounts one. *)
Definition render_rows (c : nat) (users : list val) (rows : list user_row) : list user_row :=
  (λ u, match find_row (react_key (optional_get u "id")) rows with
        | Some r => set_row_user r u
        | None => mount_row c u
        end) <$> users.

(** ** The view *)

Inductive uv_call :=
| UFetch                            (* fetchUsers, line 18 *)
| URoles (key : string) (m : nat)   (* a selector's fetchRoles, UserRoleSelector line 14 *)
| USave                             (* the selector's save, line 28 *)
| UToggle (key : string) (m : nat)  (* DisableUserButton's toggle, line 15 *)
| UDelete (key : string) (m : nat). (* DeleteUserButton's remove, line 44 *)

Record uv_state := UVState {
  uv_users : val;                  (* users, line 7 *)
  uv_loading : bool;               (* loading, line 8 *)
  uv_rows : list user_row;         (* the mounted rows *)
  uv_crashed : bool;               (* a render threw: React unmounts the tree *)
  uv_alerts : list string;         (* the [alert]s shown, in order *)
  uv_calls : list (nat * uv_call)  (* the calls in flight *)
}.

Definition uv_init : uv_state := UVState (VArr []) false [] false [] [].

Inductive uv_event :=
| UVRefresh (c : nat)                          (* the mount effect, line 33, and "Refrescar", line 40 *)
| UVRowEffect (c : nat) (key : string)         (* a mounted selector's effect, UserRoleSelector lines 11-21 *)
| UVSelect (key : string) (v : string)         (* the select's onChange, UserRoleSelector line 36 *)
| UVSave (c : nat) (key : string)              (* "Asignar", UserRoleSelector line 40 *)
| UVToggle (c : nat) (key : string)            (* DisableUserButton, line 23 *)
| UVDelete (c : nat) (key : string) (confirmed : bool) (* DeleteUserButton, line 52, after [confirm] *)
| UVAnswer (c : nat) (resp : response).        (* the [fetch] of call [c] resolves *)

Definition uv_set_calls (st : uv_state) (cs : list (nat * uv_call)) : uv_state :=
  UVState (uv_users st) (uv_loading st) (uv_rows st) (uv_crashed st) (uv_alerts st) cs.

Definition uv_set_call (st : uv_state) (c : nat) (k : uv_call) : uv_state :=
  uv_set_calls st ((c, k) :: filter (λ ck, ck.1 ≠ c) (uv_calls st)).

Definition uv_end_call (st : uv_state) (c : nat) : uv_state :=
  uv_set_calls st (filter (λ ck, ck.1 ≠ c) (uv_calls st)).

Definition uv_alert (st : uv_state) (msg : string) : uv_state :=
  UVState (uv_users st) (uv_loading st) (uv_rows st) (uv_crashed st) (uv_alerts st ++ [msg]) (uv_calls st).

Definition uv_set_rows (st : uv_state) (rows : list user_row) : uv_state :=
  UVState (uv_users st) (uv_loading st) rows (uv_crashed st) (uv_alerts st) (uv_calls st).

(** The row with key [k], if it is the instance mounted by call [m]:
    the state updates of an unmounted instance are dropped. *)
Definition update_row (k : string) (m : nat) (f : user_row → user_row) (st : uv_state) : uv_state :=
  uv_set_rows st ((λ r, if bool_decide (row_key r = k ∧ row_mount r = m) then f r else r) <$> uv_rows st).

Definition with_row_roles (r : user_row) (v : val) : user_row :=
  UserRowState (row_user r) (row_mount r) v (row_selected r) (row_effect_ran r) (row_toggling r) (row_deleting r).
Definition with_row_selected (r : user_row) (v : val) : user_row :=
  UserRowState (row_user r) (row_mount r) (row_roles r) v (row_effect_ran r) (row_toggling r) (row_deleting r).
Definition with_row_effect (r : user_row) : user_row :=
  UserRowState (row_user r) (row_mount r) (row_roles r) (row_selected r) true (row_toggling r) (row_deleting r).
Definition with_row_toggling (r : user_row) (b : bool) : user_row :=
  UserRowState (row_user r) (row_mount r) (row_roles r) (row_selected r) (row_effect_ran r) b (row_deleting r).
Definition with_row_deleting (r : user_row) (b : bool) : user_row :=
  UserRowState (row_user r) (row_mount r) (row_roles r) (row_selected r) (row_effect_ran r) (row_toggling r) b.

(** The render after a state change made by the answer to call [c]
    (lines 44-63): no table while loading; [users.map] throws on a list
    that is not an array. *)
Definition uv_render (c : nat) (st : uv_state) : uv_state :=
  if uv_crashed st || uv_loading st then uv_set_rows st []
  else match uv_users st with
       | VArr l => uv_set_rows st (render_rows c l (uv_rows st))
       | _ => UVState (uv_users st) (uv_loading st) [] true (uv_alerts st) (uv_calls st)
       end.

(** The [Error] message of a failed fetch, line 21; a [Response] built
    from a status alone has the empty [statusText], between the two
    spaces. *)
Definition fetch_failed (resp : response) : string :=
  "Fetch failed: " +:+ pretty (resp_status resp) +:+ "  - " +:+ resp_text resp.

(** The rest of [fetchUsers] once its [fetch] resolves (lines 19-30). *)
Definition uv_fetch_done (c : nat) (resp : response) (st : uv_state) : uv_state :=
  let st' := match fetched_data resp with
             | Some d => UVState d (uv_loading st) (uv_rows st) (uv_crashed st) (uv_alerts st) (uv_calls st)
             | None =>
                 uv_alert st ("Error fetching users: " +:+
                              (if response_ok (resp_status resp)
                               then "Cannot read properties of null (reading 'data')" else fetch_failed resp))
             end in
  uv_render c (UVState (uv_users st') false (uv_rows st') (uv_crashed st') (uv_alerts st') (uv_calls st')).

Section users_view.
Context (fn_path : string) (token : option string).

(** The selector's [fetch(`${FUNCTIONS_URL}/manage-roles`)], line 14:
    no headers, so no [Authorization] even when the view has a token. *)
Definition selector_fetchRoles : request := client_request fn_path None "GET" "/manage-roles" None.

(** [fetchUsers] up to its [await] (lines 13-18); the render unmounts
    the table. *)
Definition uv_start_fetch (st : uv_state) (c : nat) : uv_state * option request :=
  (uv_set_call (uv_set_rows (UVState (uv_users st) true (uv_rows st) (uv_crashed st) (uv_alerts st)
                                     (uv_calls st)) []) c UFetch,
   Some (UsersView_fetchUsers fn_path token)).

(** [UserRoleSelector]'s effect, lines 11-21: [fetchRoles()] once the
    row is mounted. *)
Definition row_effect (c : nat) (k : string) (st : uv_state) : uv_state * option request :=
  match find_row k (uv_rows st) with
  | Some r =>
      if row_effect_ran r then (st, None)
      else (uv_set_call (update_row k (row_mount r) with_row_effect st) c (URoles k (row_mount r)),
            Some selector_fetchRoles)
  | None => (st, None)
  end.

(** The rest of [fetchRoles] (lines 15-18): [if (!res.ok) return;] then
    [setRoles(json.data || [])]; an error only reaches the console. *)
Definition roles_done (resp : response) (k : string) (m : nat) (st : uv_state) : uv_state :=
  match fetched_data resp with
  | Some d => update_row k m (λ r, with_row_roles r d) st
  | None => st
  end.

(** The select's [onChange], line 36: [setSelected(e.target.value)]. *)
Definition row_select (k : string) (v : string) (st : uv_state) : uv_state :=
  match find_row k (uv_rows st) with
  | Some r => update_row k (row_mount r) (λ r, with_row_selected r (VStr v)) st
  | None => st
  end.

(** "Asignar": [save] up to its [await], lines 23-28; nothing is sent
    without a choice. *)
Definition row_save (c : nat) (k : string) (st : uv_state) : uv_state * option request :=
  match find_row k (uv_rows st) with
  | Some r =>
      match selector_save fn_path token (row_user r) (row_selected r) with
      | Some req => (uv_set_call st c USave, Some req)
      | None => (st, None)
      end
  | None => (st, None)
  end.

(** The answer to a row's write (UserRoleSelector lines 29-31,
    DisableUserButton lines 16-18, DeleteUserButton lines 17-19):
    [onSaved()]/[onDeleted()], that is the view's [fetchUsers()], on a
    2xx answer, the alert otherwise. *)
Definition row_write_done (resp : response) (st : uv_state) (c : nat) (msg : string)
    : uv_state * option request :=
  if response_ok (resp_status resp) then uv_start_fetch st c
  else (uv_end_call (uv_alert st (msg +:+ resp_text resp)) c, None).

(** [DisableUserButton]'s [toggle] up to its [await], lines 10-15; the
    button is [disabled] while [loading]. *)
Definition row_toggle (c : nat) (k : string) (st : uv_state) : uv_state * option request :=
  match find_row k (uv_rows st) with
  | Some r =>
      if row_toggling r then (st, None)
      else (uv_set_call (update_row k (row_mount r) (λ r, with_row_toggling r true) st) c
              (UToggle k (row_mount r)),
            Some (DisableUserButton_toggle fn_path token (row_user r)))
  | None => (st, None)
  end.

(** The rest of [toggle], lines 16-19: its [finally] resets the
    button's [loading], a no-op once [fetchUsers] has unmounted it. *)
Definition toggle_done (resp : response) (c : nat) (k : string) (m : nat) (st : uv_state)
    : uv_state * option request :=
  let '(st', req) := row_write_done resp st c "Error actualizando estado: " in
  (update_row k m (λ r, with_row_toggling r false) st', req).

(** [DeleteUserButton]'s [remove] up to its [await], lines 10-16. *)
Definition row_remove (c : nat) (k : string) (confirmed : bool) (st : uv_state) : uv_state * option request :=
  match find_row k (uv_rows st) with
  | Some r =>
      if row_deleting r then (st, None)
      else match DeleteUserButton_remove fn_path token (row_user r) confirmed with
           | Some req =>
               (uv_set_call (update_row k (row_mount r) (λ r, with_row_deleting r true) st) c
                  (UDelete k (row_mount r)), Some req)
           | None => (st, None)
           end
  | None => (st, None)
  end.

(** The rest of [remove], lines 17-20. *)
Definition remove_done (resp : response) (c : nat) (k : string) (m : nat) (st : uv_state)
    : uv_state * option request :=
  let '(st', req) := row_write_done resp st c "Error eliminando usuario: " in
  (update_row k m (λ r, with_row_deleting r false) st', req).

Definition uv_step (ev : uv_event) (st : uv_state) : uv_state * option request :=
  match ev with
  | UVRefresh c => if uv_crashed st then (st, None) else uv_start_fetch st c
  | UVRowEffect c k => row_effect c k st
  | UVSelect k v => (row_select k v st, None)
  | UVSave c k => row_save c k st
  | UVToggle c k => row_toggle c k st
  | UVDelete c k confirmed => row_remove c k confirmed st
  | UVAnswer c resp =>
      match find_call c (uv_calls st) with
      | None => (st, None)
      | Some UFetch => (uv_end_call (uv_fetch_done c resp st) c, None)
      | Some (URoles k m) => (uv_end_call (roles_done resp k m st) c, None)
      | Some USave => row_write_done resp st c "Error asignando rol: "
      | Some (UToggle k m) => toggle_done resp c k m st
      | Some (UDelete k m) => remove_done resp c k m st
      end
  end.

End users_view.

Definition uv_ui_call (ev : uv_event) : option nat :=
  match ev with
  | UVRefresh c | UVRowEffect c _ | UVSave c _ | UVToggle c _ | UVDelete c _ _ => Some c
  | UVSelect _ _ => Some 0
  | UVAnswer _ _ => None
  end.

Definition uv_world_run (fn_path : string) (token : option string)
    : list (world_event uv_event) → world uv_state → world uv_state :=
  world_run (uv_step fn_path token) UVAnswer uv_ui_call.

(** A save, toggle or delete of a row. *)
Definition row_action (k : uv_call) : bool :=
  match k with USave | UToggle _ _ | UDelete _ _ => true | UFetch | URoles _ _ => false end.

(** ** Quiescence

    Without clicks, the user list still acts on its own: every mounted
    row's selector runs its effect once and sends [fetchRoles].  A call
    in flight sits at a level, read off the stage it waits at: 3 for a
    row's write, 2 for the fetch of the users, 1 for a selector's roles.
    An answer never raises a level, and the write's answer that starts
    the fetch lowers its own call's; an effect sends a request at the
    lowest level and marks its row as run. *)

(** The level of a call waiting at a stage; a call not in flight is at
    the lowest. *)
Definition level_of (k : option uv_call) : nat :=
  match k with
  | Some (USave | UToggle _ _ | UDelete _ _) => 3
  | Some UFetch => 2
  | Some (URoles _ _) | None => 1
  end.

Definition uv_level (v : uv_state) (c : nat) : nat := level_of (find_call c (uv_calls v)).

(** [x] when call [c] is at level [j] or above. *)
Definition at_least (j : nat) (v : uv_state) (x c : nat) : nat :=
  if bool_decide (j ≤ uv_level v c) then x else 0.

(** The mounted rows whose selector has not run its effect yet. *)
Definition pending_effects (v : uv_state) : nat :=
  length (filter (λ r, row_effect_ran r = false) (uv_rows v)).

(** The requests (two each: served, then delivered) and answers (one)
    of the calls at level [j] or above. *)
Definition level_weight (j : nat) (w : world uv_state) : nat :=
  sum_list_with (λ cr, at_least j (w_view w) 2 cr.1) (w_sent w) +
  sum_list_with (λ ca, at_least j (w_view w) 1 ca.1) (w_answers w).

(** Lexicographic: the writes' items, the fetches' and above, then all
    the items with three per pending effect (an effect adds a request's
    two). *)
Definition uv_measure (w : world uv_state) : nat * (nat * nat) :=
  (level_weight 3 w, (level_weight 2 w, level_weight 1 w + 3 * pending_effects (w_view w))).

Definition lex3 : relation (nat * (nat * nat)) := slexprod nat (nat * nat) lt (slexprod nat nat lt lt).

(** No call's level rises from [v] to [v']. *)
Definition levels_le (v' v : uv_state) : Prop := ∀ c, uv_level v' c ≤ uv_level v c.

(** A step without clicks: a serve or a delivery that finds its request
    or answer, or the effect of a mounted selector that has not run it
    (React runs it after the commit that mounts the row). *)
Inductive uv_quiet (fn : string) (tok : option string) : relation (world uv_state) :=
| uv_quiet_world w w' :
    quiet_step (uv_step fn tok) UVAnswer uv_ui_call w w' → uv_quiet fn tok w w'
| uv_quiet_effect c k r w :
    find_row k (uv_rows (w_view w)) = Some r → row_effect_ran r = false →
    uv_quiet fn tok w (world_step (uv_step fn tok) UVAnswer uv_ui_call (UI (UVRowEffect c k)) w).

(** ** Lemmas *)

Lemma lex3_wf : well_founded lex3.
Proof. apply wf_slexprod; [apply lt_wf|apply wf_slexprod; apply lt_wf]. Qed.

Lemma lex3_intro a b c a' b' c' :
  a' ≤ a → (a' < a ∨ b' ≤ b ∧ (b' < b ∨ c' < c)) → lex3 (a', (b', c')) (a, (b, c)).
Proof.
  intros Ha Hb. destruct (decide (a' < a)); [by apply left_slex|].
  assert (a' = a) as -> by lia. apply right_slex.
  destruct (decide (b' < b)); [by apply left_slex|]. assert (b' = b) as -> by lia.
  apply right_slex. lia.
Qed.

Lemma uv_level_range v c : 1 ≤ uv_level v c ≤ 3.
Proof. unfold uv_level, level_of. repeat case_match; lia. Qed.

Lemma at_least_scale j v x c : at_least j v x c = x * at_least j v 1 c.
Proof. unfold at_least. case_bool_decide; lia. Qed.

Lemma sum_at_least_mono {A} j v' v x (l : list (nat * A)) :
  levels_le v' v →
  sum_list_with (λ cr, at_least j v' x cr.1) l ≤ sum_list_with (λ cr, at_least j v x cr.1) l.
Proof.
  intros H. apply sum_list_with_le. intros [c a]. specialize (H c). unfold at_least. cbn.
  repeat case_bool_decide; lia.
Qed.

Lemma uv_level_set_call v c k c' :
  uv_level (uv_set_call v c k) c' = if bool_decide (c' = c) then level_of (Some k) else uv_level v c'.
Proof. unfold uv_level. cbn [uv_set_call uv_set_calls uv_calls]. rewrite find_call_set_filter. by case_bool_decide. Qed.

Lemma uv_level_end_call v c c' :
  uv_level (uv_end_call v c) c' = if bool_decide (c' = c) then 1 else uv_level v c'.
Proof. unfold uv_level. cbn [uv_end_call uv_set_calls uv_calls]. rewrite find_call_end_filter. by case_bool_decide. Qed.

Lemma uv_calls_update_row k m f v : uv_calls (update_row k m f v) = uv_calls v.
Proof. done. Qed.
Lemma uv_calls_alert v msg : uv_calls (uv_alert v msg) = uv_calls v.
Proof. done. Qed.
Lemma uv_calls_fetch_done c resp v : uv_calls (uv_fetch_done c resp v) = uv_calls v.
Proof. unfold uv_fetch_done, uv_render. by repeat case_match. Qed.
Lemma uv_calls_roles_done resp k m v : uv_calls (roles_done resp k m v) = uv_calls v.
Proof. unfold roles_done. by case_match. Qed.

Lemma uv_level_calls v v' c : uv_calls v' = uv_calls v → uv_level v' c = uv_level v c.
Proof. unfold uv_level. by intros ->. Qed.

Lemma uv_level_update_row k m f v c : uv_level (update_row k m f v) c = uv_level v c.
Proof. done. Qed.
Lemma uv_level_alert v msg c : uv_level (uv_alert v msg) c = uv_level v c.
Proof. done. Qed.
Lemma uv_level_fetch_done c resp v c' : uv_level (uv_fetch_done c resp v) c' = uv_level v c'.
Proof. apply uv_level_calls, uv_calls_fetch_done. Qed.
Lemma uv_level_roles_done resp k m v c : uv_level (roles_done resp k m v) c = uv_level v c.
Proof. apply uv_level_calls, uv_calls_roles_done. Qed.

Create Rewrite HintDb uv_level.
#[export] Hint Rewrite uv_level_set_call uv_level_end_call uv_level_update_row uv_level_alert
  uv_level_fetch_done uv_level_roles_done : uv_level.

Lemma find_row_elem k rows r : find_row k rows = Some r → r ∈ rows ∧ row_key r = k.
Proof.
  induction rows as [|r' rows IH]; cbn; [done|]. case_bool_decide; [intros [= <-]; by split; [left|]|].
  intros Hr. destruct (IH Hr). split; [by right|done].
Qed.

Lemma length_filter_fmap_le {A} (P : A → Prop) `{∀ x, Decision (P x)} (g : A → A) l :
  (∀ x, P (g x) → P x) → length (filter P (g <$> l)) ≤ length (filter P l).
Proof.
  intros Hg. induction l as [|x l IH]; [done|]. rewrite fmap_cons, !filter_cons.
  specialize (Hg x). repeat case_decide; cbn; naive_solver lia.
Qed.

(** An update that keeps a row's effect flag keeps the pending effects. *)
Lemma pending_update_row k m f v :
  (∀ r, row_effect_ran (f r) = row_effect_ran r) → pending_effects (update_row k m f v) = pending_effects v.
Proof.
  intros Hf. unfold pending_effects, update_row. cbn [uv_rows uv_set_rows].
  induction (uv_rows v) as [|r rows IH]; [done|]. rewrite fmap_cons, !filter_cons.
  case_bool_decide; rewrite ?Hf; repeat case_decide; cbn; rewrite ?IH; congruence.
Qed.

(** Running a row's effect lowers the pending effects. *)
Lemma pending_update_effect k r v :
  r ∈ uv_rows v → row_key r = k → row_effect_ran r = false →
  S (pending_effects (update_row k (row_mount r) with_row_effect v)) ≤ pending_effects v.
Proof.
  unfold pending_effects, update_row. cbn [uv_rows uv_set_rows]. intros Hin Hk He.
  induction (uv_rows v) as [|r' rows IH]; [by apply elem_of_nil in Hin|].
  rewrite fmap_cons, !filter_cons. apply elem_of_cons in Hin as [<-|Hin].
  - rewrite bool_decide_true by done. cbn. rewrite decide_False by done. rewrite decide_True by done.
    cbn. apply le_n_S, length_filter_fmap_le. intros x. case_bool_decide; [done|]. naive_solver.
  - specialize (IH Hin). case_bool_decide; repeat case_decide; cbn in *; try congruence; lia.
Qed.

(** The rest of a row's write leaves the other calls where they are and
    moves its own below the writes. *)
Lemma row_write_done_levels fn tok resp v c msg :
  let v' := (row_write_done fn tok resp v c msg).1 in
  (∀ c', c' ≠ c → uv_level v' c' = uv_level v c') ∧ uv_level v' c ≤ 2.
Proof.
  intros v'. subst v'. unfold row_write_done, uv_start_fetch.
  case_match; cbn [fst]; (split; [intros c' Hc|]); autorewrite with uv_level;
    first [rewrite bool_decide_false by done; by apply uv_level_calls | rewrite bool_decide_true by done; cbn; lia].
Qed.

Lemma row_write_done_le fn tok resp v c msg :
  uv_level v c = 3 →
  let v1 := (row_write_done fn tok resp v c msg).1 in levels_le v1 v ∧ uv_level v1 c < 3.
Proof.
  intros Hv v1. subst v1. destruct (row_write_done_levels fn tok resp v c msg) as [Ho Hc]. split; [|lia].
  intros c'. destruct (decide (c' = c)) as [->|]; [lia|]. rewrite Ho by done. lia.
Qed.

(** What the answer to call [c] does to the levels of the calls: none
    rises; a write's or a fetch's falls; an answer below the fetches
    sends nothing and leaves the pending effects. *)
Lemma uv_answer_levels fn tok c resp v :
  let r := uv_step fn tok (UVAnswer c resp) v in
  levels_le r.1 v ∧ (2 ≤ uv_level v c → uv_level r.1 c < uv_level v c) ∧
  (uv_level v c ≤ 2 → r.2 = None) ∧ (uv_level v c = 1 → pending_effects r.1 = pending_effects v).
Proof.
  intros r. subst r. cbn [uv_step]. assert (uv_level v c = level_of (find_call c (uv_calls v))) as Hv by done.
  destruct (find_call c (uv_calls v)) as [[]|] eqn:Hf; cbn [level_of] in Hv; rewrite Hv; cbn [fst snd].
  - split_and!; [|autorewrite with uv_level; rewrite bool_decide_true by done; lia|done|lia].
    intros c'. autorewrite with uv_level. case_bool_decide; [subst; lia|done].
  - split_and!; [|lia|done|intros _].
    + intros c'. autorewrite with uv_level. case_bool_decide; [pose proof (uv_level_range v c'); lia|done].
    + unfold roles_done. change (pending_effects (uv_end_call ?x c)) with (pending_effects x).
      case_match; [by apply pending_update_row|done].
  - destruct (row_write_done_le fn tok resp v c "Error asignando rol: " Hv). split_and!; done || lia.
  - unfold toggle_done. destruct (row_write_done_le fn tok resp v c "Error actualizando estado: " Hv) as [Hle Hc].
    destruct (row_write_done _ _ _ _ _ _). cbn [fst] in *.
    split_and!; [intros c'; autorewrite with uv_level; apply Hle|autorewrite with uv_level; lia|lia|lia].
  - unfold remove_done. destruct (row_write_done_le fn tok resp v c "Error eliminando usuario: " Hv) as [Hle Hc].
    destruct (row_write_done _ _ _ _ _ _). cbn [fst] in *.
    split_and!; [intros c'; autorewrite with uv_level; apply Hle|autorewrite with uv_level; lia|lia|lia].
  - split_and!; [intros c'; lia|lia|done|done].
Qed.


Section world_weights.
Context (fn : string) (tok : option string).

Lemma send_level_weight {A} j v x c (req : option A) :
  sum_list_with (λ cr, at_least j v x cr.1) (match req with Some r => [(c, r)] | None => [] end) =
    from_option (λ _, at_least j v x c) 0 req.
Proof. destruct req; cbn; lia. Qed.

(** A serve takes the request's two out and puts at most the answer's one in. *)
Lemma serve_level_weight j c w :
  is_Some (take_key c (w_sent w)) →
  w_view (world_step (uv_step fn tok) UVAnswer uv_ui_call (Serve c) w) = w_view w ∧
  level_weight j (world_step (uv_step fn tok) UVAnswer uv_ui_call (Serve c) w) + at_least j (w_view w) 1 c ≤ level_weight j w.
Proof.
  intros [[req sent'] Hk]. unfold level_weight. cbn [world_step]. rewrite Hk, (take_key_sum _ _ _ _ _ Hk).
  rewrite (at_least_scale j _ 2). destruct (out_res _); cbn [w_sent w_answers w_view];
    rewrite ?sum_list_with_app; cbn; split; done || lia.
Qed.

(** A delivery takes the answer's one out and puts the follow-up
    request's two in, the other items falling with their calls. *)
Lemma deliver_level_weight j c resp ans w :
  take_key c (w_answers w) = Some (resp, ans) →
  let r := uv_step fn tok (UVAnswer c resp) (w_view w) in
  levels_le r.1 (w_view w) →
  w_view (world_step (uv_step fn tok) UVAnswer uv_ui_call (Deliver c) w) = r.1 ∧
  level_weight j (world_step (uv_step fn tok) UVAnswer uv_ui_call (Deliver c) w) + at_least j (w_view w) 1 c ≤
    level_weight j w + from_option (λ _, at_least j r.1 2 c) 0 r.2.
Proof.
  intros Hk r Hle. unfold level_weight. cbn [world_step]. rewrite Hk, (take_key_sum _ _ _ _ _ Hk).
  subst r. destruct (uv_step _ _ _ _) as [v' req]. cbn [w_sent w_answers w_view fst snd] in *.
  unfold send. rewrite sum_list_with_app, send_level_weight. split; [done|].
  pose proof (sum_at_least_mono j _ _ 2 (w_sent w) Hle). pose proof (sum_at_least_mono j _ _ 1 ans Hle).
  cbn. lia.
Qed.

(** A click adds the request it sends, the other items falling with
    their calls. *)
Lemma ui_level_weight j ev c w :
  uv_ui_call ev = Some c →
  let r := uv_step fn tok ev (w_view w) in
  levels_le r.1 (w_view w) →
  w_view (world_step (uv_step fn tok) UVAnswer uv_ui_call (UI ev) w) = r.1 ∧
  level_weight j (world_step (uv_step fn tok) UVAnswer uv_ui_call (UI ev) w) ≤ level_weight j w + from_option (λ _, at_least j r.1 2 c) 0 r.2.
Proof.
  intros Hc r Hle. unfold level_weight. cbn [world_step]. rewrite Hc.
  subst r. destruct (uv_step _ _ _ _) as [v' req]. cbn [w_sent w_answers w_view fst snd] in *.
  unfold send. rewrite sum_list_with_app, send_level_weight. split; [done|].
  pose proof (sum_at_least_mono j _ _ 2 (w_sent w) Hle). pose proof (sum_at_least_mono j _ _ 1 (w_answers w) Hle).
  lia.
Qed.

End world_weights.

(** A selector's effect moves its call to the lowest level, sends the
    roles request, and marks the row's effect as run. *)
Lemma row_effect_levels fn tok c k r v :
  find_row k (uv_rows v) = Some r → row_effect_ran r = false →
  let p := uv_step fn tok (UVRowEffect c k) v in
  levels_le p.1 v ∧ uv_level p.1 c = 1 ∧ is_Some p.2 ∧ S (pending_effects p.1) ≤ pending_effects v.
Proof.
  intros Hr He p. subst p. cbn [uv_step]. unfold row_effect. rewrite Hr, He. cbn [fst snd].
  destruct (find_row_elem _ _ _ Hr) as [Hin Hk].
  split_and!; [|autorewrite with uv_level; by rewrite bool_decide_true|done|by apply pending_update_effect].
  intros c'. autorewrite with uv_level. case_bool_decide; [pose proof (uv_level_range v c'); cbn; lia|done].
Qed.

(** Every quiet step and every effect lowers the measure. *)
Lemma uv_quiet_lex fn tok w w' : uv_quiet fn tok w w' → lex3 (uv_measure w') (uv_measure w).
Proof.
  unfold uv_measure. destruct 1 as [w w' Hq|c k r w Hr He]; [destruct Hq as [c w Hk|c w [[resp ans] Hk]]|].
  - destruct (serve_level_weight fn tok 3 c w Hk) as [Hv H3].
    destruct (serve_level_weight fn tok 2 c w Hk) as [_ H2]. destruct (serve_level_weight fn tok 1 c w Hk) as [_ H1].
    rewrite Hv. pose proof (uv_level_range (w_view w) c). apply lex3_intro; unfold at_least in *;
      repeat case_bool_decide; lia.
  - pose proof (uv_answer_levels fn tok c resp (w_view w)) as (Hle & Hlt & Hnone & Hpend).
    destruct (deliver_level_weight fn tok 3 c resp ans w Hk Hle) as [Hv H3].
    destruct (deliver_level_weight fn tok 2 c resp ans w Hk Hle) as [_ H2].
    destruct (deliver_level_weight fn tok 1 c resp ans w Hk Hle) as [_ H1].
    rewrite Hv. pose proof (uv_level_range (w_view w) c).
    destruct (uv_step fn tok (UVAnswer c resp) (w_view w)) as [v' [req|]]; cbn [fst snd from_option] in *;
      apply lex3_intro; unfold at_least in *; repeat case_bool_decide; try lia;
      (assert (uv_level (w_view w) c = 1) as H' by lia; specialize (Hpend H'); specialize (Hnone ltac:(lia)); 
       try discriminate; lia).
  - destruct (row_effect_levels fn tok c k r (w_view w) Hr He) as (Hle & Hc & Hs & Hp).
    destruct (ui_level_weight fn tok 3 (UVRowEffect c k) c w eq_refl Hle) as [Hv H3].
    destruct (ui_level_weight fn tok 2 (UVRowEffect c k) c w eq_refl Hle) as [_ H2].
    destruct (ui_level_weight fn tok 1 (UVRowEffect c k) c w eq_refl Hle) as [_ H1].
    rewrite Hv. destruct Hs as [req Hs]. rewrite Hs in H1, H2, H3. cbn [from_option] in *.
    apply lex3_intro; unfold at_least in *; rewrite Hc in *; repeat case_bool_decide; lia.
Qed.

Lemma uv_quiet_wf fn tok : well_founded (λ w' w, uv_quiet fn tok w w').
Proof. apply (wf_projected lex3 uv_measure); [intros ??; apply uv_quiet_lex|apply lex3_wf]. Qed.

(** A successful write of a row starts the view's [fetchUsers] as the
    same call, with the table unmounted. *)
Lemma uv_row_write_ok fn tok c k resp st :
  find_call c (uv_calls st) = Some k → row_action k = true → response_ok (resp_status resp) = true →
  let r := uv_step fn tok (UVAnswer c resp) st in
  r.2 = Some (UsersView_fetchUsers fn tok) ∧ uv_rows r.1 = [] ∧ uv_loading r.1 = true ∧
  uv_crashed r.1 = uv_crashed st ∧ find_call c (uv_calls r.1) = Some UFetch.
Proof.
  intros Hf Hk Hok. cbn [uv_step]. rewrite Hf.
  destruct k; try done; unfold toggle_done, remove_done, row_write_done; rewrite Hok; cbn [fst snd];
    split_and!; try done; cbn; by rewrite ?bool_decide_true.
Qed.

(** The answer to a fetch the view started from an unmounted table
    mounts a fresh row for every listed user. *)
Lemma uv_fetch_mounts fn tok c l st :
  find_call c (uv_calls st) = Some UFetch → uv_rows st = [] → uv_crashed st = false →
  uv_rows (uv_step fn tok (UVAnswer c (Response 200 (obj [("data", VArr l)]))) st).1 = mount_row c <$> l.
Proof.
  intros Hf Hr Hc. cbn [uv_step]. rewrite Hf. unfold uv_fetch_done, uv_render. cbn.
  rewrite Hc, Hr. cbn. unfold render_rows. by apply list_fmap_ext.
Qed.

(** ** Theorems *)

(** C31: after a successful save, toggle or delete in any row, the view
    refreshes the whole list and unmounts the table; the answer to that
    refresh mounts every row afresh, so each selector shows its user's
    [role] again and loses a choice made and not saved in another row. *)
Theorem uv_row_action_remounts fn tok c k resp l st :
  find_call c (uv_calls st) = Some k → row_action k = true →
  response_ok (resp_status resp) = true → uv_crashed st = false →
  let st1 := (uv_step fn tok (UVAnswer c resp) st).1 in
  (uv_step fn tok (UVAnswer c resp) st).2 = Some (UsersView_fetchUsers fn tok) ∧ uv_rows st1 = [] ∧
  uv_rows (uv_step fn tok (UVAnswer c (Response 200 (obj [("data", VArr l)]))) st1).1 =
    mount_row c <$> l.
Proof.
  intros Hf Hk Hok Hc st1.
  destruct (uv_row_write_ok fn tok c k resp st Hf Hk Hok) as (Hreq & Hr & _ & Hc1 & Hf1).
  split_and!; [done|done|]. subst st1. apply uv_fetch_mounts; [done|done|]. by rewrite Hc1.
Qed.

(** C30: without clicks, each of the three views comes to rest with the
    server: whatever the order of serves and deliveries, only finitely
    many of them find a request or an answer, since no answer starts more
    than the one fetch that follows a write.  For the user list this
    holds with the selectors' effects interleaved: each mounted row's
    selector fetches its roles once, even though every fetch of the users
    mounts fresh rows.  (The panel's and the roles view's mount effects
    run once, at mount, before any answer.) *)
Theorem views_quiesce fn tok :
  well_founded (λ w' w, quiet_step (panel_step fn tok) Answer panel_ui_call w w') ∧
  well_founded (λ w' w, quiet_step (rv_step fn tok) RVAnswer rv_ui_call w w') ∧
  well_founded (λ w' w, uv_quiet fn tok w w').
Proof.
  split_and!.
  - apply (world_quiesces _ _ _ (call_pot pn_calls panel_weight));
      [apply panel_deliver_pot|apply panel_deliver_send].
  - apply (world_quiesces _ _ _ (call_pot rv_calls rv_weight));
      [apply rv_deliver_pot|apply rv_deliver_send].
  - apply uv_quiet_wf.
Qed.

(** End to end: when nothing is in flight, "Asignar" on a row with a
    choice, the assignment and the refresh it starts each served and
    answered in order, leave the user list showing what [GET
    /manage-users] lists on the new store, every row mounted afresh
    from its entry. *)
Theorem uv_assign_shows_listing tok c k r s st resp :
  uv_calls st = [] → uv_crashed st = false → find_row k (uv_rows st) = Some r →
  truthy (row_selected r) = true →
  out_res (run (serve_manage_roles (assign_request tok (optional_get (row_user r) "id") (row_selected r)))
             [] s) = Ok resp →
  response_ok (resp_status resp) = true →
  let w := uv_world_run default_functions_path tok [UI (UVSave c k); Serve c; Deliver c; Serve c; Deliver c]
             (World st s [] []) in
  w_store w = out_store (run (serve_manage_roles
                                (assign_request tok (optional_get (row_user r) "id") (row_selected r))) [] s) ∧
  uv_users (w_view w) = VArr (listing (w_store w)) ∧
  uv_rows (w_view w) = mount_row c <$> listing (w_store w) ∧
  uv_loading (w_view w) = false ∧ uv_calls (w_view w) = [] ∧ w_sent w = [] ∧ w_answers w = [].
Proof.
  intros Hc Hcr Hk Hr Hres Hok w. subst w.
  unfold uv_world_run. cbn [world_run]. rewrite (world_step_ui _ _ _ _ c) by done.
  cbn [uv_step]. unfold row_save, selector_save, assignRole. rewrite Hk, Hr.
  cbn [fst snd send app]. rewrite world_step_serve. fold (assign_request tok (optional_get (row_user r) "id") (row_selected r)).
  rewrite Hres, world_step_deliver. cbn [uv_step].
  cbn [uv_set_call uv_set_calls uv_calls find_call]. rewrite bool_decide_true by done.
  unfold row_write_done. rewrite Hok. cbn [fst snd send app uv_start_fetch].
  change (UsersView_fetchUsers default_functions_path tok) with (fetchUsers default_functions_path tok).
  rewrite world_step_serve, serve_fetchUsers. cbn [out_res out_store]. rewrite world_step_deliver.
  cbn [uv_step uv_set_call uv_set_calls uv_set_rows uv_calls find_call]. rewrite bool_decide_true by done.
  unfold uv_fetch_done, uv_render. rewrite fetched_data_listing. cbn. rewrite Hcr. cbn.
  unfold render_rows. rewrite Hc. cbn. split_and!; try done.
  by destruct (decide (c ≠ c)).
Qed.

(** ** Witnesses *)

Lemma uv_row_action_remounts_witness :
  let st := UVState (VArr []) false [] false [] [(1, USave)] in
  let l := [obj [("id", VStr "u1"); ("role", VStr "vendedor")]] in
  let r := uv_step default_functions_path (Some "tok1") (UVAnswer 1 (success_response 200)) st in
  r.2 = Some (UsersView_fetchUsers default_functions_path (Some "tok1")) ∧ uv_rows r.1 = [] ∧
  uv_rows (uv_step default_functions_path (Some "tok1")
             (UVAnswer 1 (Response 200 (obj [("data", VArr l)]))) r.1).1 = mount_row 1 <$> l.
Proof. intros st l r. apply (uv_row_action_remounts _ _ 1 USave); reflexivity. Defined.
