(* ===== verification/Concurrency.v ===== *)
(** * Concurrent requests: interleaving of backend calls

    Each invocation of an edge function runs to completion on its own, but
    two invocations share the store and their calls interleave (spec,
    sections 5 and 9).  A configuration is the list of the programs still to
    run, one per pending request, with the store; a step answers the next
    call of one of them.  [run_schedule] is the executable version driven
    by a list of thread indices, sound for [istep]. *)

From S2P Require Import Prelude JsValue Store Backend Http ManageUsers.

Definition thread := prog response.

Inductive istep : list thread * store → list thread * store → Prop :=
| istep_call (i : nat) (ts : list thread) {B} (q : query B) k s r s' :
    ts !! i = Some (Call q k) → exec_query q s = (r, s') →
    istep (ts, s) (<[i := k r]> ts, s').

Definition step_thread (i : nat) (ts : list thread) (s : store) : option (list thread * store) :=
  match ts !! i with
  | Some (Call q k) => let '(r, s') := exec_query q s in Some (<[i := k r]> ts, s')
  | _ => None
  end.

Fixpoint run_schedule (sched : list nat) (ts : list thread) (s : store)
    : option (list thread * store) :=
  match sched with
  | [] => Some (ts, s)
  | i :: sched' =>
      match step_thread i ts s with
      | Some (ts', s') => run_schedule sched' ts' s'
      | None => None
      end
  end.

Lemma step_thread_sound i ts s c :
  step_thread i ts s = Some c → istep (ts, s) c.
Proof.
  unfold step_thread. destruct (ts !! i) as [[| |B q k]|] eqn:E; try discriminate.
  destruct (exec_query q s) eqn:Eq. intros [= <-]. by eapply istep_call.
Qed.

Lemma run_schedule_sound sched ts s c :
  run_schedule sched ts s = Some c → rtc istep (ts, s) c.
Proof.
  revert ts s. induction sched as [|i sched IH]; intros ts s; simpl; [by intros [= <-]|].
  destruct (step_thread i ts s) as [[ts' s']|] eqn:E; [|discriminate].
  intros H. eapply rtc_l; [by eapply step_thread_sound|]. by apply IH.
Qed.

(** ** The check-then-write race of assign-role

    Two administrators each demote themselves to [cliente] at the same
    time.  Each request reads the number of administrators (two) before
    either has written, so both pass the last-administrator guard of
    [assign_role] and the store is left without an administrator. *)

Definition demote_self (u : string) : user_request :=
  AssignRole (Some u) (VObj [("user_id", VStr u); ("role_name", VStr "cliente")]).

Definition race_threads : list thread :=
  handle_user_request <$> [demote_self "u1"; demote_self "u2"].

(** C11: interleaving two concurrent self-demotions of the only two
    administrators lets both succeed and leaves no administrator, while
    serving the same two requests one after the other keeps one. *)
Theorem concurrent_demotions_remove_all_admins :
  store_wf sample_two_admins ∧ admin_count sample_two_admins = 2 ∧
  (∃ s', rtc istep (race_threads, sample_two_admins)
           ([Ret (success_response 200); Ret (success_response 200)], s') ∧
         admin_count s' = 0) ∧
  admin_count (serve_sequentially [demote_self "u1"; demote_self "u2"] sample_two_admins) = 1.
Proof.
  split; [by apply store_wf_b_sound; vm_compute|].
  split; [by vm_compute|]. split; [|by vm_compute].
  destruct (run_schedule [0;0;0;0;1;1;1;1;0;0;0;1;1;1] race_threads sample_two_admins)
    as [[ts s']|] eqn:E; [|by vm_compute in E].
  exists s'. split.
  - enough (ts = [Ret (success_response 200); Ret (success_response 200)]) as <-
      by (by eapply run_schedule_sound).
    vm_compute in E. by injection E.
  - vm_compute in E. injection E as _ <-. by vm_compute.
Qed.
